(** * graphdemo: entity projections and the record graph

    A shallow embedding of [src/demo/main.py] and of the entity models under
    [src/demo/models/ebb/], together with the parts of the Python runtime,
    of pydantic and of networkx that this code calls.

    Layout:
    - [Py]        Python values, [str()], [isoformat()], string parsing;
    - [Pydantic]  field declarations, validation, [model_dump],
                  [model_dump_json], [to_minimal_dict];
    - [Ebb]       the entity models of [src/demo/models/ebb];
    - [Nx]        the part of [networkx.DiGraph] that [main.py] uses;
    - [Json]      [json.dumps(..., indent=2, default=str)];
    - [Demo]      [src/demo/main.py];
    - the lemmas and the theorems about them.

    Python [str] values are Rocq strings holding the UTF-8 encoding of
    the text; [bytes] values are Rocq strings holding the raw bytes. *)

From Stdlib Require Import List String Ascii Bool Arith NArith ZArith Lia.
From Stdlib Require Import Decimal DecimalString DecimalN DecimalPos DecimalFacts.
From Stdlib Require Import Relation_Operators Permutation.
Import ListNotations.

#[local] Set Warnings "-register-all".

#[local] Open Scope list_scope.
#[local] Open Scope string_scope.

(* ================================================================== *)
(** * Python values and their string forms *)

Module Py.

(** Code that may raise: [Err e] is a raised exception [e]. *)
Inductive result (E A : Type) : Type :=
| Ok (a : A)
| Err (e : E).
Arguments Ok {E A} a.
Arguments Err {E A} e.

Definition bind {E A B} (r : result E A) (k : A -> result E B) : result E B :=
  match r with
  | Ok a => k a
  | Err e => Err e
  end.

Definition is_ok {E A} (r : result E A) : bool :=
  match r with Ok _ => true | Err _ => false end.

(** ** Association lists as insertion-ordered [dict]s *)

Fixpoint lookup {V} (k : string) (d : list (string * V)) : option V :=
  match d with
  | [] => None
  | (k', v) :: d' => if String.eqb k k' then Some v else lookup k d'
  end.

Definition keys {V} (d : list (string * V)) : list string := map fst d.

Fixpoint mem (k : string) (l : list string) : bool :=
  match l with
  | [] => false
  | k' :: l' => String.eqb k k' || mem k l'
  end.

(** [d[k] = v]: replaces the value in place when [k] is present, and
    appends the item otherwise. *)
Fixpoint dict_set {V} (k : string) (v : V) (d : list (string * V))
  : list (string * V) :=
  match d with
  | [] => [(k, v)]
  | (k', v') :: d' =>
      if String.eqb k k' then (k', v) :: d' else (k', v') :: dict_set k v d'
  end.

(** [d.update(other)] *)
Definition dict_update {V} (d other : list (string * V)) : list (string * V) :=
  fold_left (fun acc kv => dict_set (fst kv) (snd kv) acc) other d.

(** ** Digits *)

Definition digit_char (d : N) : ascii := ascii_of_N (48 + d mod 10).

Definition digit_val (c : ascii) : option N :=
  let k := N_of_ascii c in
  if (48 <=? k)%N && (k <=? 57)%N then Some (k - 48)%N else None.

(** The [w] low decimal digits of [n], most significant first. *)
Fixpoint fixed_digits (w : nat) (n : N) : string :=
  match w with
  | O => ""
  | S w' => String (digit_char (n / 10 ^ N.of_nat w')) (fixed_digits w' n)
  end.

Definition str_N (n : N) : string := NilEmpty.string_of_uint (N.to_uint n).

(** ["%0wd" % n] for a natural number [n]. *)
Definition zfill (w : nat) (n : N) : string :=
  if (n <? 10 ^ N.of_nat w)%N then fixed_digits w n else str_N n.

Fixpoint digits_val (acc : N) (s : string) : option N :=
  match s with
  | "" => Some acc
  | String c s' =>
      match digit_val c with
      | Some d => digits_val (acc * 10 + d)%N s'
      | None => None
      end
  end.

(** A non-empty run of decimal digits. *)
Definition parse_digits (s : string) : option N :=
  match s with
  | "" => None
  | _ => digits_val 0 s
  end.

(** [str(z)] for an [int]. *)
Definition str_Z (z : Z) : string :=
  match z with
  | Zneg p => String "-" (str_N (Npos p))
  | _ => str_N (Z.to_N z)
  end.

(** ** Slicing *)

Fixpoint take (n : nat) (s : string) : string :=
  match n, s with
  | S n', String c s' => String c (take n' s')
  | _, _ => ""
  end.

Fixpoint drop (n : nat) (s : string) : string :=
  match n, s with
  | S n', String _ s' => drop n' s'
  | _, _ => s
  end.

Fixpoint repeat_char (c : ascii) (n : nat) : string :=
  match n with
  | O => ""
  | S n' => String c (repeat_char c n')
  end.

(** [s.partition(c)]: the text before the first [c] and, when there is
    one, the text after it. *)
Fixpoint split_at (c : ascii) (s : string) : string * option string :=
  match s with
  | "" => ("", None)
  | String a s' =>
      if Ascii.eqb a c then ("", Some s')
      else let (l, r) := split_at c s' in (String a l, r)
  end.

(** ** [datetime.date] and [datetime.datetime] (naive) *)

Record date := mkDate { year : N; month : N; day : N }.

Record datetime := mkDateTime
  { dt_date : date; hour : N; minute : N; second : N; microsecond : N }.

Definition is_leap (y : N) : bool :=
  ((y mod 4 =? 0) && (negb (y mod 100 =? 0) || (y mod 400 =? 0)))%N.

Definition days_in_month (y m : N) : N :=
  match m with
  | 2 => if is_leap y then 29 else 28
  | 4 | 6 | 9 | 11 => 30
  | _ => 31
  end%N.

(** The ranges the [date] and [datetime] constructors enforce. *)
Definition date_ok (d : date) : bool :=
  ((1 <=? year d) && (year d <=? 9999) &&
   (1 <=? month d) && (month d <=? 12) &&
   (1 <=? day d) && (day d <=? days_in_month (year d) (month d)))%N.

Definition datetime_ok (t : datetime) : bool :=
  date_ok (dt_date t) &&
  ((hour t <? 24) && (minute t <? 60) && (second t <? 60) &&
   (microsecond t <? 1000000))%N.

(** [date.isoformat()] *)
Definition date_isoformat (d : date) : string :=
  zfill 4 (year d) ++ "-" ++ zfill 2 (month d) ++ "-" ++ zfill 2 (day d).

(** [time.isoformat()] of the time part: the fraction is printed only
    when the microsecond is not zero. *)
Definition time_isoformat (t : datetime) : string :=
  zfill 2 (hour t) ++ ":" ++ zfill 2 (minute t) ++ ":" ++ zfill 2 (second t)
  ++ (if (microsecond t =? 0)%N then "" else "." ++ zfill 6 (microsecond t)).

(** [datetime.isoformat(sep)] *)
Definition datetime_isoformat_sep (sep : ascii) (t : datetime) : string :=
  date_isoformat (dt_date t) ++ String sep (time_isoformat t).

(** [datetime.isoformat()] *)
Definition datetime_isoformat : datetime -> string :=
  datetime_isoformat_sep "T".

(** [str(datetime)] is [isoformat(sep=' ')]. *)
Definition datetime_str : datetime -> string :=
  datetime_isoformat_sep " ".

(** Parsing of [YYYY-MM-DD]. *)
Definition parse_date (s : string) : option date :=
  match parse_digits (take 4 s), parse_digits (take 2 (drop 5 s)),
        parse_digits (take 2 (drop 8 s)) with
  | Some y, Some m, Some d =>
      if (String.length s =? 10)%nat
         && String.eqb (take 1 (drop 4 s)) "-"
         && String.eqb (take 1 (drop 7 s)) "-"
         && date_ok (mkDate y m d)
      then Some (mkDate y m d) else None
  | _, _, _ => None
  end.

(** Parsing of [HH:MM:SS] with an optional fraction of one to six
    digits. *)
Definition parse_time (d : date) (s : string) : option datetime :=
  match parse_digits (take 2 s), parse_digits (take 2 (drop 3 s)),
        parse_digits (take 2 (drop 6 s)) with
  | Some h, Some mi, Some se =>
      if String.eqb (take 1 (drop 2 s)) ":"
         && String.eqb (take 1 (drop 5 s)) ":"
      then
        let frac := drop 8 s in
        let mk us :=
          let t := mkDateTime d h mi se us in
          if datetime_ok t then Some t else None in
        match frac with
        | "" => if (String.length s =? 8)%nat then mk 0%N else None
        | String c ds =>
            if Ascii.eqb c "." && (String.length ds <=? 6)%nat then
              match parse_digits ds with
              | Some f => mk (f * 10 ^ N.of_nat (6 - String.length ds))%N
              | None => None
              end
            else None
        end
      else None
  | _, _, _ => None
  end.

(** Parsing of a date, a separator ([T] or a space) and a time. *)
Definition parse_datetime (s : string) : option datetime :=
  match parse_date (take 10 s) with
  | Some d =>
      let sep := take 1 (drop 10 s) in
      if String.eqb sep "T" || String.eqb sep " "
      then parse_time d (drop 11 s) else None
  | None => None
  end.

(** ** [decimal.Decimal] (finite values)

    A finite [Decimal] is a sign, a coefficient and an exponent, as in
    [Decimal.as_tuple()]: the value is [(-1)^sign * coefficient * 10^exp].
    The coefficient is kept as a number, its digit tuple being its
    decimal expansion ([d_int] never has leading zeros in Python). *)

Record Decimal := mkDecimal { d_sign : bool; d_int : N; d_exp : Z }.

(** [len(self._int)] *)
Definition num_digits (c : N) : nat := String.length (str_N c).

(** ["%+d" % z] *)
Definition str_exp (z : Z) : string :=
  match z with
  | Zneg p => String "-" (str_N (Npos p))
  | _ => String "+" (str_N (Z.to_N z))
  end.

(** [Decimal.__str__]: plain notation when the exponent is not positive
    and the value has more than [-6] left digits, scientific notation
    with one digit before the point otherwise. *)
Definition Decimal_str (d : Decimal) : string :=
  let s := str_N (d_int d) in
  let len := Z.of_nat (String.length s) in
  let leftdigits := (d_exp d + len)%Z in
  let dotplace :=
    if (d_exp d <=? 0)%Z && (-6 <? leftdigits)%Z then leftdigits else 1%Z in
  let intpart :=
    if (dotplace <=? 0)%Z then "0"
    else if (len <=? dotplace)%Z
         then s ++ repeat_char "0" (Z.to_nat (dotplace - len))
         else take (Z.to_nat dotplace) s in
  let fracpart :=
    if (dotplace <=? 0)%Z
    then String "." (repeat_char "0" (Z.to_nat (- dotplace)) ++ s)
    else if (len <=? dotplace)%Z then ""
         else String "." (drop (Z.to_nat dotplace) s) in
  let exp :=
    if (leftdigits =? dotplace)%Z then ""
    else String "E" (str_exp (leftdigits - dotplace)) in
  (if d_sign d then "-" else "") ++ intpart ++ fracpart ++ exp.

(** An optional sign [[-+]?] and the rest of the text. *)
Definition split_sign (s : string) : bool * string :=
  match s with
  | String "-" r => (true, r)
  | String "+" r => (false, r)
  | _ => (false, s)
  end.

(** [[-+]?\d+] *)
Definition parse_int (s : string) : option Z :=
  let (neg, r) := split_sign s in
  option_map (fun n => if neg then (- Z.of_N n)%Z else Z.of_N n)
             (parse_digits r).

(** The mantissa and, when there is one, the text after [E] or [e]. *)
Definition split_exponent (s : string) : string * option string :=
  match split_at "E" s with
  | (m, Some e) => (m, Some e)
  | (_, None) => split_at "e" s
  end.

(** [Decimal(s)] for the numeric forms: an optional sign, digits with an
    optional point (at least one digit in all), an optional exponent.
    [None] stands for [InvalidOperation]. *)
Definition parse_decimal (s : string) : option Decimal :=
  let '(sign, body) := split_sign s in
  let '(mant, e) := split_exponent body in
  let '(ip, fp) := split_at "." mant in
  let frac := match fp with Some f => f | None => "" end in
  if (String.length ip + String.length frac =? 0)%nat then None
  else
    match digits_val 0 (ip ++ frac),
          match e with None => Some 0%Z | Some es => parse_int es end with
    | Some c, Some x =>
        Some (mkDecimal sign c (x - Z.of_nat (String.length frac)))
    | _, _ => None
    end.

(** Removal of trailing zeros of a coefficient, counting them. *)
Fixpoint strip_zeros (fuel : nat) (c : N) : N * nat :=
  match fuel with
  | O => (c, O)
  | S f =>
      if (c mod 10 =? 0)%N
      then let (c', k) := strip_zeros f (c / 10)%N in (c', S k)
      else (c, O)
  end.

(** [Decimal.normalize()]: zero becomes [0], any other value loses the
    trailing zeros of its coefficient.  (The rounding to the context
    precision of 28 digits that [normalize] also performs is left out.) *)
Definition normalize (d : Decimal) : Decimal :=
  if (d_int d =? 0)%N then mkDecimal (d_sign d) 0 0
  else
    let (c, k) := strip_zeros (num_digits (d_int d)) (d_int d) in
    mkDecimal (d_sign d) c (d_exp d + Z.of_nat k).

(** [Decimal(z)] for an [int]. *)
Definition Decimal_of_Z (z : Z) : Decimal :=
  mkDecimal (z <? 0)%Z (Z.abs_N z) 0.

(** ** UTF-8 *)

Definition in_range (lo hi : N) (c : ascii) : bool :=
  let k := N_of_ascii c in ((lo <=? k) && (k <=? hi))%N.

(** [len(s)] of a [str]: its number of code points, that is the bytes of
    its encoding that are not continuation bytes. *)
Fixpoint str_len (s : string) : nat :=
  match s with
  | "" => O
  | String c s' => (if in_range 128 191 c then O else 1%nat) + str_len s'
  end.

(** U+FFFD in UTF-8. *)
Definition replacement_char : string :=
  String (ascii_of_N 239) (String (ascii_of_N 191) (String (ascii_of_N 189) "")).

(** For a lead byte: the number of continuation bytes that follow and the
    range of the first of them. *)
Definition lead_info (k : N) : option (nat * N * N) :=
  if ((194 <=? k) && (k <=? 223))%N then Some (1%nat, 128, 191)%N
  else if (k =? 224)%N then Some (2%nat, 160, 191)%N
  else if (k =? 237)%N then Some (2%nat, 128, 159)%N
  else if ((225 <=? k) && (k <=? 239))%N then Some (2%nat, 128, 191)%N
  else if (k =? 240)%N then Some (3%nat, 144, 191)%N
  else if ((241 <=? k) && (k <=? 243))%N then Some (3%nat, 128, 191)%N
  else if (k =? 244)%N then Some (3%nat, 128, 143)%N
  else None.

(** [b.decode('utf-8', errors='replace')]: well-formed sequences are
    kept, every maximal ill-formed part becomes U+FFFD. *)
Fixpoint decode_utf8_replace (b : string) : string :=
  match b with
  | "" => ""
  | String a r =>
      if (N_of_ascii a <? 128)%N then String a (decode_utf8_replace r)
      else
        match lead_info (N_of_ascii a) with
        | None => replacement_char ++ decode_utf8_replace r
        | Some (n, lo, hi) =>
            match r with
            | "" => replacement_char
            | String b1 r1 =>
                if negb (in_range lo hi b1)
                then replacement_char ++ decode_utf8_replace r
                else if (n =? 1)%nat
                then String a (String b1 (decode_utf8_replace r1))
                else
                  match r1 with
                  | "" => replacement_char
                  | String b2 r2 =>
                      if negb (in_range 128 191 b2)
                      then replacement_char ++ decode_utf8_replace r1
                      else if (n =? 2)%nat
                      then String a (String b1 (String b2
                             (decode_utf8_replace r2)))
                      else
                        match r2 with
                        | "" => replacement_char
                        | String b3 r3 =>
                            if negb (in_range 128 191 b3)
                            then replacement_char ++ decode_utf8_replace r2
                            else String a (String b1 (String b2 (String b3
                                   (decode_utf8_replace r3))))
                        end
                  end
            end
        end
  end.

Definition hex_char (d : N) : ascii :=
  if (d <? 10)%N then ascii_of_N (48 + d) else ascii_of_N (87 + d).

(** The byte as two lower-case hexadecimal digits. *)
Definition hex2 (k : N) : string :=
  String (hex_char (k / 16)) (String (hex_char (k mod 16)) "").

(** The double quote character. *)
Definition dquote : ascii := ascii_of_N 34.

Fixpoint contains_char (c : ascii) (s : string) : bool :=
  match s with
  | "" => false
  | String a s' => Ascii.eqb a c || contains_char c s'
  end.

Fixpoint bytes_repr_body (q : ascii) (b : string) : string :=
  match b with
  | "" => ""
  | String a r =>
      let k := N_of_ascii a in
      (if Ascii.eqb a q || Ascii.eqb a "\" then String "\" (String a "")
       else if (k =? 9)%N then "\t"
       else if (k =? 10)%N then "\n"
       else if (k =? 13)%N then "\r"
       else if ((k <? 32) || (127 <=? k))%N then String "\" (String "x" (hex2 k))
       else String a "")
      ++ bytes_repr_body q r
  end.

(** [repr(b)] of a [bytes] object, which is also [str(b)]. *)
Definition bytes_repr (b : string) : string :=
  let q : ascii :=
    if contains_char "'" b && negb (contains_char dquote b)
    then dquote else "'"%char in
  String "b" (String q (bytes_repr_body q b ++ String q "")).

(** ** Scalar values *)

Inductive value : Type :=
| VNone
| VBool (b : bool)
| VInt (z : Z)
| VStr (s : string)
| VBytes (b : string)
| VDecimal (d : Decimal)
| VDate (d : date)
| VDateTime (t : datetime)
| VEnum (cls : string) (member : string).
    (* a member of a [class cls(str, Enum)], named by its value *)

(** [str(v)] for the values that [json.dumps] hands to [default=str]. *)
Definition py_str (v : value) : string :=
  match v with
  | VNone => "None"
  | VBool b => if b then "True" else "False"
  | VInt z => str_Z z
  | VStr s => s
  | VBytes b => bytes_repr b
  | VDecimal d => Decimal_str d
  | VDate d => date_isoformat d
  | VDateTime t => datetime_str t
  | VEnum _ m => m
  end.

End Py.

(* ================================================================== *)
(** * pydantic models: declarations, validation, serialization *)

Module Pydantic.
Import Py.

(** The annotation of a field together with the constraints given to
    [Field(...)]. *)
Inductive ftype : Type :=
| TInt (gt ge : option Z)
| TStr (max_length : option nat)
| TBool
| TBytes
| TDecimal (max_digits decimal_places : option N)
| TDate
| TDateTime
| TEnum (cls : string) (members : list string)
| TLiteral (values : list string).

(** [Field(...)] (or no value) is [Required]; [Field(default=v)] is
    [Default v]; [Field(default_factory=datetime.datetime.now)] is
    [DefaultFactoryNow]. *)
Inductive fdefault : Type :=
| Required
| Default (v : value)
| DefaultFactoryNow.

(** One annotated attribute of a model; [nullable] is [Optional[...]]. *)
Record field := mkField
  { fname : string; ftyp : ftype; nullable : bool; fdflt : fdefault }.

(** A model class with its mixin: the fields in declaration order, the
    elements of the mixin's [MINIMAL_FIELDS] set, and whether
    [to_minimal_dict] goes through [model_dump_json] ([true]) or through
    [model_dump] ([false]). *)
Record model := mkModel
  { model_name : string;
    model_fields : list field;
    MINIMAL_FIELDS : list string;
    minimal_via_json : bool }.

(** The [type] of an entry of a [ValidationError]. *)
Inductive error_type : Type :=
| Missing
| IntType | GreaterThan | GreaterThanEqual
| StringType | StringTooLong
| BoolType | BytesType
| DecimalType | DecimalParsing
| DecimalMaxDigits | DecimalMaxPlaces | DecimalWholeDigits
| DateType | DateParsing
| DatetimeType | DatetimeParsing
| EnumError | LiteralError.

(** [pydantic.ValidationError]: the model's name and one entry per
    failing field. *)
Record ValidationError := mkValidationError
  { ve_title : string; ve_errors : list (string * error_type) }.

(** An instance: its class and its attribute values in field order. *)
Record instance := mkInstance
  { obj_model : model; obj_values : list (string * value) }.

(** The number of decimal places and of digits of a [Decimal], as the
    decimal validator counts them from [as_tuple()]. *)
Definition digits_info (d : Decimal) : N * N :=
  let n := N.of_nat (num_digits (d_int d)) in
  if (0 <=? d_exp d)%Z then (0, n + Z.to_N (d_exp d))%N
  else (Z.to_N (- d_exp d), N.max n (Z.to_N (- d_exp d))).

(** The [max_digits] / [decimal_places] check: a bound is violated only
    when both the value as given and its normalized form exceed it, so
    trailing zeros do not count. *)
Definition check_digits (max_digits decimal_places : option N) (d : Decimal)
  : result error_type Decimal :=
  let '(decimals, digits) := digits_info d in
  let '(ndecimals, ndigits) := digits_info (normalize d) in
  let too_many_digits :=
    match max_digits with
    | Some m => ((m <? digits) && (m <? ndigits))%N
    | None => false
    end in
  if too_many_digits then Err DecimalMaxDigits
  else
    match decimal_places with
    | None => Ok d
    | Some p =>
        if ((p <? decimals) && (p <? ndecimals))%N then Err DecimalMaxPlaces
        else
          match max_digits with
          | Some m =>
              if (m - p <? digits - decimals)%N then Err DecimalWholeDigits
              else Ok d
          | None => Ok d
          end
    end.

Definition check_int (gt ge : option Z) (z : Z) : result error_type value :=
  if match gt with Some b => negb (b <? z)%Z | None => false end
  then Err GreaterThan
  else if match ge with Some b => negb (b <=? z)%Z | None => false end
  then Err GreaterThanEqual
  else Ok (VInt z).

(** Validation of an input against an annotation.  The inputs accepted
    are instances of the annotated type and, as pydantic's lax mode and
    its JSON mode do, the strings that parse to one (an [int] for a
    [Decimal] too). *)
Definition validate_type (t : ftype) (v : value) : result error_type value :=
  match t with
  | TInt gt ge =>
      match v with
      | VInt z => check_int gt ge z
      | _ => Err IntType
      end
  | TStr max_length =>
      match v with
      | VStr s =>
          match max_length with
          | Some m => if (str_len s <=? m)%nat then Ok v else Err StringTooLong
          | None => Ok v
          end
      | _ => Err StringType
      end
  | TBool =>
      match v with
      | VBool _ => Ok v
      | _ => Err BoolType
      end
  | TBytes =>
      match v with
      | VBytes _ => Ok v
      | VStr s => Ok (VBytes s)
      | _ => Err BytesType
      end
  | TDecimal max_digits decimal_places =>
      match
        match v with
        | VDecimal d => Ok d
        | VInt z => Ok (Decimal_of_Z z)
        | VStr s =>
            match parse_decimal s with
            | Some d => Ok d
            | None => Err DecimalParsing
            end
        | _ => Err DecimalType
        end
      with
      | Ok d => bind (check_digits max_digits decimal_places d)
                     (fun d' => Ok (VDecimal d'))
      | Err e => Err e
      end
  | TDate =>
      match v with
      | VDate d => if date_ok d then Ok v else Err DateType
      | VStr s =>
          match parse_date s with
          | Some d => Ok (VDate d)
          | None => Err DateParsing
          end
      | _ => Err DateType
      end
  | TDateTime =>
      match v with
      | VDateTime t => if datetime_ok t then Ok v else Err DatetimeType
      | VStr s =>
          match parse_datetime s with
          | Some t => Ok (VDateTime t)
          | None => Err DatetimeParsing
          end
      | _ => Err DatetimeType
      end
  | TEnum cls members =>
      match v with
      | VEnum c m =>
          if String.eqb c cls && mem m members then Ok v else Err EnumError
      | VStr s => if mem s members then Ok (VEnum cls s) else Err EnumError
      | _ => Err EnumError
      end
  | TLiteral values =>
      match v with
      | VStr s => if mem s values then Ok v else Err LiteralError
      | _ => Err LiteralError
      end
  end.

Definition validate_field (f : field) (v : value) : result error_type value :=
  match v with
  | VNone => if nullable f then Ok VNone else validate_type (ftyp f) v
  | _ => validate_type (ftyp f) v
  end.

(** Validation of all fields against the given input: the values of the
    fields that validate (or take their default) and the errors of the
    others.  A default is not validated; [now] is the reading of the wall
    clock that [default_factory=datetime.datetime.now] returns. *)
Fixpoint validate_fields (now : datetime) (fs : list field)
    (input : list (string * value))
  : list (string * value) * list (string * error_type) :=
  match fs with
  | [] => ([], [])
  | f :: fs' =>
      let (vals, errs) := validate_fields now fs' input in
      match lookup (fname f) input with
      | Some v =>
          match validate_field f v with
          | Ok v' => ((fname f, v') :: vals, errs)
          | Err e => (vals, (fname f, e) :: errs)
          end
      | None =>
          match fdflt f with
          | Required => (vals, (fname f, Missing) :: errs)
          | Default v => ((fname f, v) :: vals, errs)
          | DefaultFactoryNow => ((fname f, VDateTime now) :: vals, errs)
          end
      end
  end.

(** The constructor call [Model(k=v, ...)]: keywords that name no field
    are ignored. *)
Definition model_construct (now : datetime) (m : model)
    (kwargs : list (string * value)) : result ValidationError instance :=
  match validate_fields now (model_fields m) kwargs with
  | (vals, []) => Ok (mkInstance m vals)
  | (_, errs) => Err (mkValidationError (model_name m) errs)
  end.

(** [self.model_dump()]: the attribute values as they are. *)
Definition model_dump (o : instance) : list (string * value) := obj_values o.

(** [self.model_dump(include=names)] *)
Definition model_dump_include (names : list string) (o : instance)
  : list (string * value) :=
  filter (fun kv => mem (fst kv) names) (obj_values o).

(** What a value becomes in [model_dump_json] and is read back as by
    [json.loads]: a [Decimal] is written as its [str], dates and
    timestamps by the [json_encoders] of the model's [Config]
    ([isoformat]), a [bytes] value by the encoder
    [v.decode('utf-8', errors='replace')] that the one model with a
    [bytes] field registers, an enumeration member as its value. *)
Definition to_jsonable (v : value) : value :=
  match v with
  | VDecimal d => VStr (Decimal_str d)
  | VDate d => VStr (date_isoformat d)
  | VDateTime t => VStr (datetime_isoformat t)
  | VEnum _ m => VStr m
  | VBytes b => VStr (decode_utf8_replace b)
  | _ => v
  end.


(** [json.loads(self.model_dump_json(include=names))] *)
Definition model_dump_json_include (names : list string) (o : instance)
  : list (string * value) :=
  map (fun kv => (fst kv, to_jsonable (snd kv))) (model_dump_include names o).


(** The mixins' [to_minimal_dict]:
    [json.loads(self.model_dump_json(include=self.MINIMAL_FIELDS))], and
    for two models [self.model_dump(include=self.MINIMAL_FIELDS)]. *)
Definition to_minimal_dict (o : instance) : list (string * value) :=
  if minimal_via_json (obj_model o)
  then model_dump_json_include (MINIMAL_FIELDS (obj_model o)) o
  else model_dump_include (MINIMAL_FIELDS (obj_model o)) o.

End Pydantic.

(* ================================================================== *)
(** * The entity models of [src/demo/models/ebb]

    One definition per model class, in the order of the file names.  The
    enumeration classes ([class X(str, Enum)], whose member names equal
    their values) appear inside the [TEnum] annotations of the fields
    that use them. *)

Module Ebb.
Import Py Pydantic.

(** [adjust_action.py]: [AdjustAction] *)
Definition AdjustAction : model :=
  mkModel "AdjustAction"
    [ mkField "id" (TInt (Some 0%Z) None) false Required;
      mkField "uuid" (TStr (Some 26%nat)) false Required;
      mkField "billing_entity_uuid" (TStr (Some 26%nat)) false Required;
      mkField "settlement_uuid" (TStr (Some 26%nat)) false Required;
      mkField "developer_uuid" (TStr (Some 13%nat)) true (Default VNone);
      mkField "developer_app_uuid" (TStr (Some 13%nat)) true (Default VNone);
      mkField "adjust_reason" (TStr (Some 20%nat)) false Required;
      mkField "adjust_action_type" (TStr (Some 25%nat)) false Required;
      mkField "fee_category" (TStr (Some 25%nat)) false Required;
      mkField "fee_code" (TStr (Some 25%nat)) false Required;
      mkField "action_datetime" TDateTime false Required;
      mkField "num_units" (TInt None None) false (Default (VInt 0));
      mkField "units_in_period" (TInt None (Some 0%Z)) false Required;
      mkField "basis_amount" (TDecimal (Some 12%N) (Some 3%N))
        false (Default (VDecimal (mkDecimal false 0 (-3))));
      mkField "basis_currency" (TStr (Some 3%nat)) true (Default VNone);
      mkField "reference" (TStr (Some 50%nat)) true (Default VNone);
      mkField "adjust_action_fee_code_uuid" (TStr (Some 26%nat))
        true (Default VNone);
      mkField "fee_uuid" (TStr (Some 26%nat)) true (Default VNone);
      mkField "event_uuid" (TStr (Some 26%nat)) true (Default VNone);
      mkField "request_uuid" (TStr (Some 26%nat)) true (Default VNone);
      mkField "date_to_post" TDate true (Default VNone);
      mkField "posting_date" TDate true (Default VNone);
      mkField "created_timestamp" TDateTime false DefaultFactoryNow;
      mkField "modified_timestamp" TDateTime false DefaultFactoryNow ]
    [ "adjust_reason"; "adjust_action_type"; "fee_category"; "fee_code";
      "num_units"; "units_in_period" ]
    false.

(** [adjust_action_type.py]: [AdjustActionType] *)
Definition AdjustActionType : model :=
  mkModel "AdjustActionType"
    [ mkField "id" (TInt (Some 0%Z) None) false Required;
      mkField "uuid" (TStr (Some 26%nat)) false Required;
      mkField "adjust_action_type" (TStr (Some 25%nat)) false Required;
      mkField "fee_category_group" (TStr (Some 25%nat)) false Required;
      mkField "revenue_group" (TStr (Some 25%nat)) true (Default VNone);
      mkField "created_timestamp" TDateTime false DefaultFactoryNow;
      mkField "modified_timestamp" TDateTime false DefaultFactoryNow ]
    [ "adjust_action_type"; "fee_category_group"; "revenue_group" ]
    true.

(** [adjust_reason.py]: [AdjustReason] *)
Definition AdjustReason : model :=
  mkModel "AdjustReason"
    [ mkField "id" (TInt (Some 0%Z) None) false Required;
      mkField "uuid" (TStr (Some 26%nat)) false Required;
      mkField "adjust_reason" (TStr (Some 25%nat)) false Required;
      mkField "created_timestamp" TDateTime false DefaultFactoryNow ]
    [ "adjust_reason" ]
    true.

(** [app_meter_action.py]: [AppMeterAction] *)
Definition AppMeterAction : model :=
  mkModel "AppMeterAction"
    [ mkField "id" (TInt (Some 0%Z) None) false Required;
      mkField "uuid" (TStr (Some 26%nat)) false Required;
      mkField "billing_entity_uuid" (TStr (Some 26%nat)) false Required;
      mkField "developer_app_uuid" (TStr (Some 13%nat)) false Required;
      mkField "app_metered_uuid" (TStr (Some 13%nat)) false Required;
      mkField "app_meter_action_type" (TStr (Some 25%nat)) false Required;
      mkField "fee_category" (TStr (Some 25%nat)) false Required;
      mkField "fee_code" (TStr (Some 25%nat)) false Required;
      mkField "action_datetime" TDateTime false Required;
      mkField "merchant_plan_uuid" (TStr (Some 13%nat)) true (Default VNone);
      mkField "num_units" (TInt None None) false (Default (VInt 0));
      mkField "units_in_period" (TInt None (Some 0%Z)) false Required;
      mkField "basis_amount" (TDecimal (Some 12%N) (Some 3%N))
        false (Default (VDecimal (mkDecimal false 0 (-3))));
      mkField "basis_currency" (TStr (Some 3%nat)) true (Default VNone);
      mkField "reference" (TStr (Some 50%nat)) true (Default VNone);
      mkField "app_meter_action_fee_code_uuid" (TStr (Some 26%nat))
        true (Default VNone);
      mkField "fee_uuid" (TStr (Some 26%nat)) true (Default VNone);
      mkField "event_uuid" (TStr (Some 26%nat)) true (Default VNone);
      mkField "request_uuid" (TStr (Some 26%nat)) true (Default VNone);
      mkField "date_to_post" TDate true (Default VNone);
      mkField "posting_date" TDate true (Default VNone);
      mkField "created_timestamp" TDateTime false DefaultFactoryNow;
      mkField "modified_timestamp" TDateTime false DefaultFactoryNow ]
    [ "app_meter_action_type"; "fee_category"; "fee_code"; "num_units";
      "units_in_period"; "basis_amount"; "basis_currency" ]
    true.

(** [app_meter_action_fee_code.py]: [AppMeterActionFeeCode] *)
Definition AppMeterActionFeeCode : model :=
  mkModel "AppMeterActionFeeCode"
    [ mkField "id" (TInt (Some 0%Z) None) false Required;
      mkField "uuid" (TStr (Some 26%nat)) false Required;
      mkField "developer_app_uuid" (TStr (Some 13%nat)) false Required;
      mkField "app_metered_uuid" (TStr (Some 13%nat)) false Required;
      mkField "merchant_plan_uuid" (TStr (Some 13%nat)) true (Default VNone);
      mkField "app_meter_action_type" (TStr (Some 25%nat)) false Required;
      mkField "effective_date" TDate false Required;
      mkField "fee_category" (TStr (Some 25%nat)) false Required;
      mkField "fee_code" (TStr (Some 25%nat)) false Required;
      mkField "deleted_date" TDate true (Default VNone);
      mkField "created_timestamp" TDateTime false DefaultFactoryNow;
      mkField "modified_timestamp" TDateTime false DefaultFactoryNow;
      mkField "audit_id" (TStr (Some 26%nat)) true (Default VNone) ]
    [ "app_meter_action_type"; "fee_category"; "fee_code"; "effective_date" ]
    true.

(** [app_meter_action_type.py]: [AppMeterActionType] *)
Definition AppMeterActionType : model :=
  mkModel "AppMeterActionType"
    [ mkField "id" (TInt (Some 0%Z) None) false Required;
      mkField "uuid" (TStr (Some 26%nat)) false Required;
      mkField "app_meter_action_type" (TStr (Some 25%nat)) false Required;
      mkField "created_timestamp" TDateTime false DefaultFactoryNow ]
    [ "app_meter_action_type" ]
    true.

(** [app_sub_action_error.py]: [AppSubActionError] *)
Definition AppSubActionError : model :=
  mkModel "AppSubActionError"
    [ mkField "id" (TInt (Some 0%Z) None) false Required;
      mkField "uuid" (TStr (Some 26%nat)) false Required;
      mkField "app_sub_action_uuid" (TStr (Some 26%nat)) false Required;
      mkField "request_uuid" (TStr (Some 26%nat)) false Required;
      mkField "posting_date" TDate false Required;
      mkField "original_request_uuid" (TStr (Some 26%nat)) false Required;
      mkField "original_posting_date" TDate false Required;
      mkField "posting_attempts" (TInt None None) true (Default (VInt 1));
      mkField "error_code" (TStr (Some 25%nat)) false Required;
      mkField "error_details" (TStr None) true (Default VNone);
      mkField "resolved" (TInt None None) true (Default (VInt 0));
      mkField "created_timestamp" TDateTime false DefaultFactoryNow;
      mkField "modified_timestamp" TDateTime false DefaultFactoryNow ]
    [ "error_code"; "posting_attempts"; "resolved" ]
    true.

(** [auto_adjust_advice.py]: [AutoAdjustAdvice] *)
Definition AutoAdjustAdvice : model :=
  mkModel "AutoAdjustAdvice"
    [ mkField "id" (TInt (Some 0%Z) None) false Required;
      mkField "uuid" (TStr (Some 26%nat)) false Required;
      mkField "billing_entity_uuid" (TStr (Some 26%nat)) false Required;
      mkField "auto_adjust_rule_uuid" (TStr (Some 26%nat)) false Required;
      mkField "start_date" TDate false Required;
      mkField "deleted_date" TDate true (Default VNone);
      mkField "total_periods" (TInt None None) false Required;
      mkField "evaluated_periods" (TInt None None) false (Default (VInt 0));
      mkField "applied_periods" (TInt None None) false (Default (VInt 0));
      mkField "max_units" (TDecimal (Some 12%N) (Some 4%N)) true (Default VNone);
      mkField "max_amount" (TDecimal (Some 12%N) (Some 3%N)) true (Default VNone);
      mkField "currency" (TStr (Some 3%nat)) true (Default VNone);
      mkField "reference" (TStr (Some 50%nat)) true (Default VNone);
      mkField "request_uuid" (TStr (Some 26%nat)) true (Default VNone);
      mkField "created_timestamp" TDateTime false DefaultFactoryNow;
      mkField "modified_timestamp" TDateTime false DefaultFactoryNow;
      mkField "audit_id" (TStr (Some 26%nat)) true (Default VNone) ]
    [ "total_periods"; "evaluated_periods"; "applied_periods"; "max_units";
      "max_amount"; "currency" ]
    true.

(** [auto_adjust_qualifier.py]: [AutoAdjustQualifier] *)
Definition AutoAdjustQualifier : model :=
  mkModel "AutoAdjustQualifier"
    [ mkField "id" (TInt (Some 0%Z) None) false Required;
      mkField "uuid" (TStr (Some 26%nat)) false Required;
      mkField "auto_adjust_rule_uuid" (TStr (Some 26%nat)) false Required;
      mkField "fee_category" (TStr (Some 25%nat)) false Required;
      mkField "fee_code" (TStr (Some 25%nat)) false Required;
      mkField "negate_fee_summary" (TInt None None) false (Default (VInt 0));
      mkField "disqualify" (TInt None None) false (Default (VInt 0));
      mkField "created_timestamp" TDateTime false DefaultFactoryNow;
      mkField "audit_id" (TStr (Some 26%nat)) true (Default VNone) ]
    [ "fee_category"; "fee_code"; "negate_fee_summary"; "disqualify" ]
    true.

(** [auto_adjust_rule.py]: [AutoAdjustRule] *)
Definition AutoAdjustRule : model :=
  mkModel "AutoAdjustRule"
    [ mkField "id" (TInt (Some 0%Z) None) false Required;
      mkField "uuid" (TStr (Some 26%nat)) false Required;
      mkField "rule_status"
        (TEnum "RuleStatus" ["SETUP"; "ACTIVE"; "DEPRECATED"; "DELETED"])
        false (Default (VEnum "RuleStatus" "SETUP"));
      mkField "rule_alias" (TStr (Some 25%nat)) true (Default VNone);
      mkField "rate_fee_category" (TStr (Some 25%nat)) false Required;
      mkField "rate_fee_code" (TStr (Some 25%nat)) false Required;
      mkField "target_entity_type"
        (TEnum "TargetEntityType" ["MERCHANT"; "RESELLER"; "DEVELOPER"])
        false Required;
      mkField "short_desc" (TStr (Some 40%nat)) false Required;
      mkField "full_desc" (TStr (Some 255%nat)) true (Default VNone);
      mkField "created_timestamp" TDateTime false DefaultFactoryNow;
      mkField "modified_timestamp" TDateTime false DefaultFactoryNow;
      mkField "audit_id" (TStr (Some 26%nat)) true (Default VNone) ]
    [ "rule_status"; "rate_fee_category"; "rate_fee_code";
      "target_entity_type"; "short_desc" ]
    true.

(** [billing_archetype.py]: [BillingArchetype] *)
Definition BillingArchetype : model :=
  mkModel "BillingArchetype"
    [ mkField "id" (TInt (Some 0%Z) None) false Required;
      mkField "uuid" (TStr (Some 13%nat)) false Required;
      mkField "archetype_type"
        (TEnum "ArchetypeType" ["MERCHANT"; "RESELLER"; "DEVELOPER"; "PSEUDO"])
        false Required;
      mkField "created_timestamp" TDateTime false DefaultFactoryNow ]
    [ "archetype_type" ]
    true.

(** [billing_entity.py]: [BillingEntity] *)
Definition BillingEntity : model :=
  mkModel "BillingEntity"
    [ mkField "id" (TInt (Some 0%Z) None) false Required;
      mkField "uuid" (TStr (Some 26%nat)) false Required;
      mkField "entity_uuid" (TStr (Some 13%nat)) false Required;
      mkField "entity_type"
        (TEnum "EntityType" ["MERCHANT"; "RESELLER"; "DEVELOPER"; "PSEUDO"; "ARCHETYPE"])
        false Required;
      mkField "name" (TStr (Some 127%nat)) true (Default VNone);
      mkField "created_timestamp" TDateTime false DefaultFactoryNow;
      mkField "modified_timestamp" TDateTime false DefaultFactoryNow ]
    [ "entity_type"; "name" ]
    true.

(** [billing_entity_config.py]: [BillingEntityConfig] *)
Definition BillingEntityConfig : model :=
  mkModel "BillingEntityConfig"
    [ mkField "id" (TInt (Some 0%Z) None) false Required;
      mkField "uuid" (TStr (Some 26%nat)) false Required;
      mkField "billing_entity_uuid" (TStr (Some 26%nat)) false Required;
      mkField "hierarchy_type" (TStr (Some 20%nat)) false Required;
      mkField "effective_date" TDate false Required;
      mkField "post_method" (TStr (Some 20%nat)) true (Default VNone);
      mkField "plan_billing_method" (TStr (Some 20%nat)) true (Default VNone);
      mkField "invoice_method" (TStr (Some 20%nat)) true (Default VNone);
      mkField "settlement_method" (TStr (Some 20%nat)) true (Default VNone);
      mkField "seasonal_rule_set_uuid" (TStr (Some 26%nat)) true (Default VNone);
      mkField "created_timestamp" TDateTime false DefaultFactoryNow;
      mkField "modified_timestamp" TDateTime false DefaultFactoryNow;
      mkField "audit_id" (TStr (Some 26%nat)) true (Default VNone) ]
    [ "hierarchy_type"; "post_method"; "plan_billing_method"; "invoice_method";
      "settlement_method"; "effective_date" ]
    true.

(** [billing_event_history.py]: [BillingEventHistory] *)
Definition BillingEventHistory : model :=
  mkModel "BillingEventHistory"
    [ mkField "id" (TInt (Some 0%Z) None) false Required;
      mkField "environment" (TStr (Some 25%nat)) false Required;
      mkField "entity_uuid" (TStr (Some 13%nat)) false Required;
      mkField "entity_type"
        (TEnum "EntityType" ["MERCHANT"; "RESELLER"; "DEVELOPER"])
        false Required;
      mkField "event_uuid" (TStr (Some 26%nat)) true (Default VNone);
      mkField "input" (TStr None) false Required;
      mkField "message" (TStr (Some 1024%nat)) true (Default VNone);
      mkField "created_timestamp" TDateTime false DefaultFactoryNow ]
    [ "environment"; "entity_type"; "message" ]
    true.

(** [billing_hierarchy.py]: [BillingHierarchy] *)
Definition BillingHierarchy : model :=
  mkModel "BillingHierarchy"
    [ mkField "id" (TInt (Some 0%Z) None) false Required;
      mkField "uuid" (TStr (Some 26%nat)) false Required;
      mkField "hierarchy_type" (TStr (Some 20%nat)) false Required;
      mkField "billing_entity_uuid" (TStr (Some 26%nat)) false Required;
      mkField "effective_date" TDate false Required;
      mkField "deleted_date" TDate true (Default VNone);
      mkField "parent_billing_hierarchy_uuid" (TStr (Some 26%nat))
        true (Default VNone);
      mkField "created_timestamp" TDateTime false DefaultFactoryNow;
      mkField "modified_timestamp" TDateTime false DefaultFactoryNow ]
    [ "hierarchy_type"; "effective_date"; "deleted_date" ]
    true.

(** [billing_hierarchy_cycle.py]: [BillingHierarchyCycle] *)
Definition BillingHierarchyCycle : model :=
  mkModel "BillingHierarchyCycle"
    [ mkField "id" (TInt (Some 0%Z) None) false Required;
      mkField "uuid" (TStr (Some 26%nat)) false Required;
      mkField "processing_group_uuid" (TStr (Some 26%nat)) false Required;
      mkField "billing_hierarchy_uuid" (TStr (Some 26%nat)) false Required;
      mkField "cycle_date" TDate false Required;
      mkField "close_date" TDate true (Default VNone);
      mkField "effective_close_date" TDate true (Default VNone);
      mkField "billing_entity_uuid" (TStr (Some 26%nat)) false Required;
      mkField "entity_uuid" (TStr (Some 13%nat)) false Required;
      mkField "schedule_parent_be_uuid" (TStr (Some 26%nat)) false Required;
      mkField "fee_rate_parent_be_uuid" (TStr (Some 26%nat)) false Required;
      mkField "frequency" (TEnum "Frequency" ["NO_BILL"; "MONTHLY"])
        false Required;
      mkField "billing_day" (TInt None None) false Required;
      mkField "next_billing_date" TDate false Required;
      mkField "last_billing_date" TDate true (Default VNone);
      mkField "arrears_billing_date" TDate true (Default VNone);
      mkField "units_in_next_period" (TInt None None) false Required;
      mkField "units_in_last_period" (TInt None None) true (Default VNone);
      mkField "units_in_arrears_period" (TInt None None) true (Default VNone);
      mkField "default_currency" (TStr (Some 3%nat)) false Required;
      mkField "post_method" (TStr (Some 20%nat)) false Required;
      mkField "plan_billing_method" (TStr (Some 20%nat)) false Required;
      mkField "invoice_method" (TStr (Some 20%nat)) false Required;
      mkField "invoice_number_format" (TStr (Some 20%nat)) false Required;
      mkField "settlement_method" (TStr (Some 20%nat)) false Required;
      mkField "created_timestamp" TDateTime false DefaultFactoryNow;
      mkField "modified_timestamp" TDateTime false DefaultFactoryNow ]
    [ "frequency"; "billing_day"; "next_billing_date"; "default_currency";
      "post_method"; "plan_billing_method"; "invoice_method" ]
    true.

(** [billing_hierarchy_type.py]: [BillingHierarchyType] *)
Definition BillingHierarchyType : model :=
  mkModel "BillingHierarchyType"
    [ mkField "id" (TInt (Some 0%Z) None) false Required;
      mkField "uuid" (TStr (Some 26%nat)) false Required;
      mkField "hierarchy_type" (TStr (Some 20%nat)) false Required;
      mkField "description" (TStr (Some 255%nat)) true (Default VNone);
      mkField "created_timestamp" TDateTime false DefaultFactoryNow;
      mkField "modified_timestamp" TDateTime false DefaultFactoryNow ]
    [ "hierarchy_type"; "description" ]
    true.

(** [billing_pseudo_entity.py]: [BillingPseudoEntity] *)
Definition BillingPseudoEntity : model :=
  mkModel "BillingPseudoEntity"
    [ mkField "id" (TInt (Some 0%Z) None) false Required;
      mkField "uuid" (TStr (Some 13%nat)) false Required;
      mkField "name" (TStr (Some 127%nat)) false Required;
      mkField "created_timestamp" TDateTime false DefaultFactoryNow;
      mkField "modified_timestamp" TDateTime false DefaultFactoryNow ]
    [ "name" ]
    true.

(** [billing_schedule.py]: [BillingSchedule] *)
Definition BillingSchedule : model :=
  mkModel "BillingSchedule"
    [ mkField "id" (TInt (Some 0%Z) None) false Required;
      mkField "uuid" (TStr (Some 26%nat)) false Required;
      mkField "billing_entity_uuid" (TStr (Some 26%nat)) false Required;
      mkField "effective_date" TDate false Required;
      mkField "frequency" (TEnum "Frequency" ["NO_BILL"; "MONTHLY"])
        false Required;
      mkField "billing_day" (TInt None None) false Required;
      mkField "next_billing_date" TDate false Required;
      mkField "last_billing_date" TDate true (Default VNone);
      mkField "units_in_next_period" (TInt None None) false Required;
      mkField "units_in_last_period" (TInt None None) true (Default VNone);
      mkField "default_currency" (TStr (Some 3%nat)) false Required;
      mkField "close_date" TDate true (Default VNone);
      mkField "effective_close_date" TDate true (Default VNone);
      mkField "created_timestamp" TDateTime false DefaultFactoryNow;
      mkField "modified_timestamp" TDateTime false DefaultFactoryNow ]
    [ "frequency"; "billing_day"; "next_billing_date"; "units_in_next_period";
      "default_currency"; "effective_date" ]
    true.

(** [cellular_action.py]: [CellularAction] *)
Definition CellularAction : model :=
  mkModel "CellularAction"
    [ mkField "id" (TInt (Some 0%Z) None) false Required;
      mkField "uuid" (TStr (Some 26%nat)) false Required;
      mkField "billing_entity_uuid" (TStr (Some 26%nat)) false Required;
      mkField "merchant_plan_uuid" (TStr (Some 13%nat)) true (Default VNone);
      mkField "iccid" (TStr (Some 24%nat)) false Required;
      mkField "carrier" (TStr (Some 25%nat)) false Required;
      mkField "cellular_action_type" (TStr (Some 25%nat)) false Required;
      mkField "fee_category" (TStr (Some 25%nat)) false Required;
      mkField "fee_code" (TStr (Some 25%nat)) false Required;
      mkField "action_datetime" TDateTime false Required;
      mkField "num_units" (TInt None None) false (Default (VInt 0));
      mkField "units_in_period" (TInt None (Some 0%Z)) false Required;
      mkField "basis_amount" (TDecimal (Some 12%N) (Some 3%N))
        false (Default (VDecimal (mkDecimal false 0 (-3))));
      mkField "basis_currency" (TStr (Some 3%nat)) true (Default VNone);
      mkField "reference" (TStr (Some 50%nat)) true (Default VNone);
      mkField "cellular_action_fee_code_uuid" (TStr (Some 26%nat))
        true (Default VNone);
      mkField "fee_uuid" (TStr (Some 26%nat)) true (Default VNone);
      mkField "event_uuid" (TStr (Some 26%nat)) true (Default VNone);
      mkField "request_uuid" (TStr (Some 26%nat)) true (Default VNone);
      mkField "date_to_post" TDate true (Default VNone);
      mkField "posting_date" TDate true (Default VNone);
      mkField "created_timestamp" TDateTime false DefaultFactoryNow;
      mkField "modified_timestamp" TDateTime false DefaultFactoryNow ]
    [ "carrier"; "cellular_action_type"; "fee_category"; "fee_code";
      "num_units"; "units_in_period"; "basis_amount" ]
    true.

(** [cellular_action_fee_code.py]: [CellularActionFeeCode] *)
Definition CellularActionFeeCode : model :=
  mkModel "CellularActionFeeCode"
    [ mkField "id" (TInt (Some 0%Z) None) false Required;
      mkField "uuid" (TStr (Some 26%nat)) false Required;
      mkField "merchant_plan_uuid" (TStr (Some 13%nat)) true (Default VNone);
      mkField "carrier" (TStr (Some 25%nat)) true (Default VNone);
      mkField "cellular_action_type" (TStr (Some 25%nat)) false Required;
      mkField "effective_date" TDate false Required;
      mkField "fee_category" (TStr (Some 25%nat)) false Required;
      mkField "fee_code" (TStr (Some 25%nat)) false Required;
      mkField "deleted_date" TDate true (Default VNone);
      mkField "created_timestamp" TDateTime false DefaultFactoryNow;
      mkField "modified_timestamp" TDateTime false DefaultFactoryNow;
      mkField "audit_id" (TStr (Some 26%nat)) true (Default VNone) ]
    [ "carrier"; "cellular_action_type"; "fee_category"; "fee_code";
      "effective_date" ]
    true.

(** [consumer_failure_history.py]: [ConsumerFailureHistory] *)
Definition ConsumerFailureHistory : model :=
  mkModel "ConsumerFailureHistory"
    [ mkField "id" (TInt (Some 0%Z) None) false Required;
      mkField "uuid" (TStr (Some 36%nat)) false Required;
      mkField "environment" (TStr (Some 25%nat)) false Required;
      mkField "reference_id" (TStr (Some 13%nat)) false Required;
      mkField "payload" (TStr None) false Required;
      mkField "channel" (TStr (Some 127%nat)) true (Default VNone);
      mkField "topic" (TStr (Some 127%nat)) true (Default VNone);
      mkField "cause" (TStr (Some 100%nat)) false Required;
      mkField "message" (TStr (Some 500%nat)) true (Default VNone);
      mkField "comment" (TStr (Some 500%nat)) true (Default VNone);
      mkField "created_timestamp" TDateTime false DefaultFactoryNow ]
    [ "environment"; "channel"; "topic"; "cause"; "comment" ]
    true.

(** [cycle_validation.py]: [CycleValidation] *)
Definition CycleValidation : model :=
  mkModel "CycleValidation"
    [ mkField "id" (TInt (Some 0%Z) None) false Required;
      mkField "uuid" (TStr (Some 26%nat)) false Required;
      mkField "task_id" (TStr (Some 126%nat)) false Required;
      mkField "task_type" (TEnum "TaskType" ["PRODUCER"; "CONSUMER"])
        false Required;
      mkField "validation_group" (TStr (Some 126%nat)) false Required;
      mkField "billing_entity_uuid" (TStr (Some 26%nat)) false Required;
      mkField "hierarchy_type" (TStr (Some 20%nat)) false Required;
      mkField "cycle_date" TDate false Required;
      mkField "currency" (TStr (Some 3%nat)) false Required;
      mkField "status" (TStr (Some 25%nat)) false Required;
      mkField "bypass_count" (TDecimal (Some 12%N) (Some 4%N)) false Required;
      mkField "bypass_amount" (TDecimal (Some 12%N) (Some 3%N)) false Required;
      mkField "accepted_count" (TDecimal (Some 12%N) (Some 4%N)) false Required;
      mkField "accepted_amount" (TDecimal (Some 12%N) (Some 3%N)) false Required;
      mkField "total_count" (TDecimal (Some 12%N) (Some 4%N)) false Required;
      mkField "total_amount" (TDecimal (Some 12%N) (Some 3%N)) false Required;
      mkField "request_uuid" (TStr (Some 26%nat)) true (Default VNone);
      mkField "validation_request_uuid" (TStr (Some 26%nat)) true (Default VNone);
      mkField "created_timestamp" TDateTime false DefaultFactoryNow;
      mkField "modified_timestamp" TDateTime false DefaultFactoryNow ]
    [ "task_type"; "validation_group"; "hierarchy_type"; "status";
      "total_count"; "total_amount"; "currency" ]
    true.

(** [cycle_validation_mutation.py]: [CycleValidationMutation] *)
Definition CycleValidationMutation : model :=
  mkModel "CycleValidationMutation"
    [ mkField "id" (TInt (Some 0%Z) None) false Required;
      mkField "mutation_action" (TEnum "MutationAction" ["UPDATE"; "DELETE"])
        false Required;
      mkField "mutation_timestamp" TDateTime false DefaultFactoryNow;
      mkField "cycle_validation_id" (TInt (Some 0%Z) None) false Required;
      mkField "uuid" (TStr (Some 26%nat)) false Required;
      mkField "task_id" (TStr (Some 126%nat)) true (Default VNone);
      mkField "task_type" (TEnum "TaskType" ["PRODUCER"; "CONSUMER"])
        true (Default VNone);
      mkField "validation_group" (TStr (Some 126%nat)) true (Default VNone);
      mkField "billing_entity_uuid" (TStr (Some 26%nat)) true (Default VNone);
      mkField "hierarchy_type" (TStr (Some 20%nat)) true (Default VNone);
      mkField "cycle_date" TDate true (Default VNone);
      mkField "currency" (TStr (Some 3%nat)) true (Default VNone);
      mkField "status" (TStr (Some 25%nat)) true (Default VNone);
      mkField "bypass_count" (TDecimal (Some 12%N) (Some 4%N)) true (Default VNone);
      mkField "bypass_amount" (TDecimal (Some 12%N) (Some 3%N))
        true (Default VNone);
      mkField "accepted_count" (TDecimal (Some 12%N) (Some 4%N))
        true (Default VNone);
      mkField "accepted_amount" (TDecimal (Some 12%N) (Some 3%N))
        true (Default VNone);
      mkField "total_count" (TDecimal (Some 12%N) (Some 4%N)) true (Default VNone);
      mkField "total_amount" (TDecimal (Some 12%N) (Some 3%N)) true (Default VNone);
      mkField "request_uuid" (TStr (Some 26%nat)) true (Default VNone);
      mkField "validation_request_uuid" (TStr (Some 26%nat)) true (Default VNone);
      mkField "created_timestamp" TDateTime true (Default VNone);
      mkField "modified_timestamp" TDateTime true (Default VNone) ]
    [ "mutation_action"; "task_type"; "validation_group"; "status";
      "total_count"; "total_amount"; "currency" ]
    true.

(** [deserializable_failure.py]: [DeserializableFailure] *)
Definition DeserializableFailure : model :=
  mkModel "DeserializableFailure"
    [ mkField "id" (TInt (Some 0%Z) None) false Required;
      mkField "uuid" (TStr (Some 36%nat)) false Required;
      mkField "topic" (TStr (Some 127%nat)) false Required;
      mkField "channel" (TStr (Some 127%nat)) false Required;
      mkField "b64" (TStr None) false Required;
      mkField "created_timestamp" TDateTime false DefaultFactoryNow ]
    [ "topic"; "channel" ]
    true.

(** [fee_category.py]: [FeeCategory] *)
Definition FeeCategory : model :=
  mkModel "FeeCategory"
    [ mkField "id" (TInt (Some 0%Z) None) false Required;
      mkField "uuid" (TStr (Some 26%nat)) false Required;
      mkField "fee_category" (TStr (Some 25%nat)) false Required;
      mkField "sort_order" (TInt None None) false Required;
      mkField "created_timestamp" TDateTime false DefaultFactoryNow;
      mkField "modified_timestamp" TDateTime false DefaultFactoryNow ]
    [ "fee_category"; "sort_order" ]
    true.

(** [fee_code.py]: [FeeCode] *)
Definition FeeCode : model :=
  mkModel "FeeCode"
    [ mkField "id" (TInt (Some 0%Z) None) false Required;
      mkField "uuid" (TStr (Some 26%nat)) false Required;
      mkField "fee_category" (TStr (Some 25%nat)) false Required;
      mkField "fee_code" (TStr (Some 25%nat)) false Required;
      mkField "short_desc" (TStr (Some 40%nat)) false Required;
      mkField "full_desc" (TStr (Some 255%nat)) true (Default VNone);
      mkField "sort_order" (TInt None None) false Required;
      mkField "created_timestamp" TDateTime false DefaultFactoryNow;
      mkField "modified_timestamp" TDateTime false DefaultFactoryNow ]
    [ "fee_category"; "fee_code"; "short_desc"; "sort_order" ]
    true.

(** [fee_code_app.py]: [FeeCodeApp] *)
Definition FeeCodeApp : model :=
  mkModel "FeeCodeApp"
    [ mkField "id" (TInt (Some 0%Z) None) false Required;
      mkField "uuid" (TStr (Some 26%nat)) false Required;
      mkField "fee_category" (TStr (Some 25%nat)) false Required;
      mkField "fee_code" (TStr (Some 25%nat)) false Required;
      mkField "developer_uuid" (TStr (Some 13%nat)) false Required;
      mkField "developer_app_uuid" (TStr (Some 13%nat)) true (Default VNone);
      mkField "app_subscription_uuid" (TStr (Some 13%nat)) true (Default VNone);
      mkField "app_metered_uuid" (TStr (Some 13%nat)) true (Default VNone);
      mkField "created_timestamp" TDateTime false DefaultFactoryNow;
      mkField "modified_timestamp" TDateTime false DefaultFactoryNow ]
    [ "fee_category"; "fee_code" ]
    true.

(** [fee_code_ledger_account.py]: [FeeCodeLedgerAccount] *)
Definition FeeCodeLedgerAccount : model :=
  mkModel "FeeCodeLedgerAccount"
    [ mkField "id" (TInt (Some 0%Z) None) false Required;
      mkField "uuid" (TStr (Some 26%nat)) false Required;
      mkField "fee_category" (TStr (Some 25%nat)) false Required;
      mkField "fee_code" (TStr (Some 25%nat)) true (Default VNone);
      mkField "effective_date" TDate false Required;
      mkField "credit_ledger_account_key" (TStr (Some 32%nat)) false Required;
      mkField "credit_billing_entity_uuid_source"
        (TEnum "BillingEntityUuidSource" ["TRANSACTION"; "CLOVER"; "ROLLUP_1"; "ROLLUP_2"; "ROLLUP_3"])
        false Required;
      mkField "debit_ledger_account_key" (TStr (Some 32%nat)) false Required;
      mkField "debit_billing_entity_uuid_source"
        (TEnum "BillingEntityUuidSource" ["TRANSACTION"; "CLOVER"; "ROLLUP_1"; "ROLLUP_2"; "ROLLUP_3"])
        false Required;
      mkField "deleted_date" TDate true (Default VNone);
      mkField "created_timestamp" TDateTime false DefaultFactoryNow;
      mkField "modified_timestamp" TDateTime false DefaultFactoryNow;
      mkField "audit_id" (TStr (Some 26%nat)) true (Default VNone) ]
    [ "fee_category"; "fee_code"; "effective_date";
      "credit_ledger_account_key"; "debit_ledger_account_key" ]
    true.

(** [fee_ctd.py]: [FeeCtd] *)
Definition FeeCtd : model :=
  mkModel "FeeCtd"
    [ mkField "id" (TInt (Some 0%Z) None) false Required;
      mkField "uuid" (TStr (Some 26%nat)) false Required;
      mkField "billing_entity_uuid" (TStr (Some 26%nat)) false Required;
      mkField "fee_category" (TStr (Some 25%nat)) false Required;
      mkField "fee_code" (TStr (Some 25%nat)) false Required;
      mkField "currency" (TStr (Some 3%nat)) false Required;
      mkField "ctd_num_units" (TDecimal (Some 12%N) (Some 4%N))
        false (Default (VDecimal (mkDecimal false 0 (-4))));
      mkField "abs_num_units" (TDecimal (Some 12%N) (Some 4%N))
        false (Default (VDecimal (mkDecimal false 0 (-4))));
      mkField "ctd_basis_amount" (TDecimal (Some 12%N) (Some 3%N))
        false (Default (VDecimal (mkDecimal false 0 (-3))));
      mkField "abs_basis_amount" (TDecimal (Some 12%N) (Some 3%N))
        false (Default (VDecimal (mkDecimal false 0 (-3))));
      mkField "num_actions" (TInt None None) false (Default (VInt 0));
      mkField "created_timestamp" TDateTime false DefaultFactoryNow;
      mkField "modified_timestamp" TDateTime false DefaultFactoryNow ]
    [ "fee_category"; "fee_code"; "currency"; "ctd_num_units";
      "ctd_basis_amount"; "num_actions" ]
    true.

(** [fee_rate.py]: [FeeRate] *)
Definition FeeRate : model :=
  mkModel "FeeRate"
    [ mkField "id" (TInt (Some 0%Z) None) false Required;
      mkField "uuid" (TStr (Some 26%nat)) false Required;
      mkField "billing_entity_uuid" (TStr (Some 26%nat)) false Required;
      mkField "fee_category" (TStr (Some 25%nat)) false Required;
      mkField "fee_code" (TStr (Some 25%nat)) false Required;
      mkField "currency" (TStr (Some 3%nat)) false Required;
      mkField "effective_date" TDate false Required;
      mkField "apply_type"
        (TEnum "ApplyType" ["DEFAULT"; "PER_ITEM"; "PERCENTAGE"; "BOTH"; "NONE"; "FLAT"])
        false Required;
      mkField "per_item_amount" (TDecimal (Some 12%N) (Some 3%N))
        true (Default VNone);
      mkField "percentage" (TDecimal (Some 5%N) (Some 2%N)) true (Default VNone);
      mkField "created_timestamp" TDateTime false DefaultFactoryNow;
      mkField "modified_timestamp" TDateTime false DefaultFactoryNow;
      mkField "audit_id" (TStr (Some 26%nat)) true (Default VNone) ]
    [ "fee_category"; "fee_code"; "currency"; "apply_type"; "per_item_amount";
      "percentage"; "effective_date" ]
    true.

(** [fee_rate_error_report.py]: [FeeRateErrorReport] *)
Definition FeeRateErrorReport : model :=
  mkModel "FeeRateErrorReport"
    [ mkField "id" (TInt (Some 0%Z) None) false Required;
      mkField "uuid" (TStr (Some 26%nat)) false Required;
      mkField "billing_entity_uuid" (TStr (Some 26%nat)) false Required;
      mkField "fee_category" (TStr (Some 25%nat)) false Required;
      mkField "fee_code" (TStr (Some 25%nat)) false Required;
      mkField "currency" (TStr (Some 3%nat)) false Required;
      mkField "apply_type"
        (TEnum "ApplyType" ["DEFAULT"; "PER_ITEM"; "PERCENTAGE"; "BOTH"; "NONE"; "FLAT"])
        true (Default VNone);
      mkField "resolved_status" (TInt None None) true (Default (VInt 0));
      mkField "created_timestamp" TDateTime false DefaultFactoryNow;
      mkField "modified_timestamp" TDateTime false DefaultFactoryNow ]
    [ "fee_category"; "fee_code"; "currency"; "apply_type"; "resolved_status" ]
    true.

(** [fee_rate_report_action_error.py]: [FeeRateReportActionError] *)
Definition FeeRateReportActionError : model :=
  mkModel "FeeRateReportActionError"
    [ mkField "id" (TInt (Some 0%Z) None) false Required;
      mkField "uuid" (TStr (Some 26%nat)) false Required;
      mkField "billing_entity_uuid" (TStr (Some 26%nat)) false Required;
      mkField "fee_rate_error_report_uuid" (TStr (Some 26%nat)) false Required;
      mkField "action_error_uuid" (TStr (Some 26%nat)) false Required;
      mkField "action_type" (TStr (Some 25%nat)) false Required;
      mkField "created_timestamp" TDateTime false Required ]
    [ "action_type"; "created_timestamp" ]
    true.

(** [fee_summary.py]: [FeeSummary] *)
Definition FeeSummary : model :=
  mkModel "FeeSummary"
    [ mkField "id" (TInt (Some 0%Z) None) false Required;
      mkField "uuid" (TStr (Some 26%nat)) false Required;
      mkField "billing_entity_uuid" (TStr (Some 26%nat)) false Required;
      mkField "billing_date" TDate false Required;
      mkField "fee_category" (TStr (Some 25%nat)) false Required;
      mkField "fee_code" (TStr (Some 25%nat)) false Required;
      mkField "currency" (TStr (Some 3%nat)) false Required;
      mkField "total_period_units" (TDecimal (Some 12%N) (Some 4%N)) false Required;
      mkField "abs_period_units" (TDecimal (Some 12%N) (Some 4%N)) false Required;
      mkField "total_basis_amount" (TDecimal (Some 12%N) (Some 3%N)) false Required;
      mkField "abs_basis_amount" (TDecimal (Some 12%N) (Some 3%N)) false Required;
      mkField "total_fee_amount" (TDecimal (Some 12%N) (Some 3%N)) false Required;
      mkField "fee_rate_uuid" (TStr (Some 26%nat)) false Required;
      mkField "request_uuid" (TStr (Some 26%nat)) false Required;
      mkField "invoice_info_uuid" (TStr (Some 26%nat)) true (Default VNone);
      mkField "fee_code_ledger_account_uuid" (TStr (Some 26%nat))
        true (Default VNone);
      mkField "credit_ledger_account_uuid" (TStr (Some 26%nat))
        true (Default VNone);
      mkField "debit_ledger_account_uuid" (TStr (Some 26%nat)) true (Default VNone);
      mkField "exclude_from_invoice" (TInt None None) false Required;
      mkField "created_timestamp" TDateTime false Required;
      mkField "modified_timestamp" TDateTime false Required ]
    [ "total_period_units"; "total_fee_amount"; "total_basis_amount" ]
    true.

(** [fee_tax.py]: [FeeTax] *)
Definition FeeTax : model :=
  mkModel "FeeTax"
    [ mkField "id" (TInt (Some 0%Z) None) false Required;
      mkField "uuid" (TStr (Some 26%nat)) false Required;
      mkField "fee_summary_uuid" (TStr (Some 26%nat)) false Required;
      mkField "tax1_amount" (TDecimal (Some 12%N) (Some 3%N)) true (Default VNone);
      mkField "tax2_amount" (TDecimal (Some 12%N) (Some 3%N)) true (Default VNone);
      mkField "tax3_amount" (TDecimal (Some 12%N) (Some 3%N)) true (Default VNone);
      mkField "tax4_amount" (TDecimal (Some 12%N) (Some 3%N)) true (Default VNone);
      mkField "tax1_rate" (TDecimal (Some 7%N) (Some 4%N)) true (Default VNone);
      mkField "tax2_rate" (TDecimal (Some 7%N) (Some 4%N)) true (Default VNone);
      mkField "tax3_rate" (TDecimal (Some 7%N) (Some 4%N)) true (Default VNone);
      mkField "tax4_rate" (TDecimal (Some 7%N) (Some 4%N)) true (Default VNone);
      mkField "created_timestamp" TDateTime false Required ]
    [ "tax1_amount"; "tax2_amount"; "tax1_rate"; "tax2_rate" ]
    true.

(** [fee_ytd.py]: [FeeYtd] *)
Definition FeeYtd : model :=
  mkModel "FeeYtd"
    [ mkField "id" (TInt (Some 0%Z) None) false Required;
      mkField "uuid" (TStr (Some 26%nat)) false Required;
      mkField "billing_entity_uuid" (TStr (Some 26%nat)) false Required;
      mkField "year" (TInt None None) false Required;
      mkField "fee_category" (TStr (Some 25%nat)) false Required;
      mkField "fee_code" (TStr (Some 25%nat)) false Required;
      mkField "currency" (TStr (Some 3%nat)) false Required;
      mkField "total_period_units" (TDecimal (Some 12%N) (Some 4%N)) false Required;
      mkField "total_basis_amount" (TDecimal (Some 12%N) (Some 3%N)) false Required;
      mkField "total_fee_amount" (TDecimal (Some 12%N) (Some 3%N)) false Required;
      mkField "created_timestamp" TDateTime false Required;
      mkField "modified_timestamp" TDateTime false Required ]
    [ "year"; "fee_category"; "fee_code"; "currency"; "total_fee_amount";
      "total_period_units" ]
    true.

(** [flyway_schema_history.py]: [FlywaySchemaHistory] *)
Definition FlywaySchemaHistory : model :=
  mkModel "FlywaySchemaHistory"
    [ mkField "installed_rank" (TInt None None) false Required;
      mkField "version" (TStr (Some 50%nat)) true (Default VNone);
      mkField "description" (TStr (Some 200%nat)) false Required;
      mkField "type" (TStr (Some 20%nat)) false Required;
      mkField "script" (TStr (Some 1000%nat)) false Required;
      mkField "checksum" (TInt None None) true (Default VNone);
      mkField "installed_by" (TStr (Some 100%nat)) false Required;
      mkField "installed_on" TDateTime false Required;
      mkField "execution_time" (TInt None None) false Required;
      mkField "success" TBool false Required ]
    [ "version"; "description"; "type"; "installed_on"; "success" ]
    true.

(** [invoice_alliance_code.py]: [InvoiceAllianceCode] *)
Definition InvoiceAllianceCode : model :=
  mkModel "InvoiceAllianceCode"
    [ mkField "id" (TInt (Some 0%Z) None) false Required;
      mkField "uuid" (TStr (Some 26%nat)) false Required;
      mkField "billing_entity_uuid" (TStr (Some 26%nat)) false Required;
      mkField "alliance_code" (TStr (Some 3%nat)) false Required;
      mkField "invoice_count" (TInt (Some 0%Z) None) false Required;
      mkField "created_timestamp" TDateTime false Required ]
    [ "alliance_code"; "invoice_count" ]
    true.

(** [invoice_info_amount.py]: [InvoiceInfoAmount] *)
Definition InvoiceInfoAmount : model :=
  mkModel "InvoiceInfoAmount"
    [ mkField "id" (TInt (Some 0%Z) None) false Required;
      mkField "uuid" (TStr (Some 26%nat)) false Required;
      mkField "invoice_info_uuid" (TStr (Some 26%nat)) false Required;
      mkField "currency" (TStr (Some 3%nat)) false Required;
      mkField "amount" (TDecimal (Some 12%N) (Some 3%N)) false Required;
      mkField "fee_category_group" (TStr (Some 25%nat)) false Required;
      mkField "created_timestamp" TDateTime false Required ]
    [ "currency"; "amount"; "fee_category_group" ]
    true.

(** [invoice_info_mutation.py]: [InvoiceInfoMutation] *)
Definition InvoiceInfoMutation : model :=
  mkModel "InvoiceInfoMutation"
    [ mkField "id" (TInt (Some 0%Z) None) false Required;
      mkField "mutation_action" (TEnum "MutationAction" ["UPDATE"; "DELETE"])
        false Required;
      mkField "mutation_timestamp" TDateTime false Required;
      mkField "invoice_info_id" (TInt (Some 0%Z) None) false Required;
      mkField "uuid" (TStr (Some 26%nat)) false Required;
      mkField "billing_entity_uuid" (TStr (Some 26%nat)) true (Default VNone);
      mkField "entity_uuid" (TStr (Some 13%nat)) true (Default VNone);
      mkField "alternate_id" (TStr (Some 25%nat)) true (Default VNone);
      mkField "billing_date" TDate true (Default VNone);
      mkField "invoice_num" (TStr (Some 30%nat)) true (Default VNone);
      mkField "currency" (TStr (Some 3%nat)) true (Default VNone);
      mkField "total_amount" (TDecimal (Some 12%N) (Some 3%N)) true (Default VNone);
      mkField "document_uuid" (TStr (Some 26%nat)) true (Default VNone);
      mkField "request_uuid" (TStr (Some 26%nat)) true (Default VNone);
      mkField "created_timestamp" TDateTime true (Default VNone) ]
    [ "mutation_action"; "billing_date"; "invoice_num"; "currency";
      "total_amount" ]
    true.

(** [invoice_info_settlement.py]: [InvoiceInfoSettlement] *)
Definition InvoiceInfoSettlement : model :=
  mkModel "InvoiceInfoSettlement"
    [ mkField "id" (TInt (Some 0%Z) None) false Required;
      mkField "uuid" (TStr (Some 26%nat)) false Required;
      mkField "invoice_info_uuid" (TStr (Some 26%nat)) false Required;
      mkField "settlement_uuid" (TStr (Some 26%nat)) false Required;
      mkField "request_uuid" (TStr (Some 26%nat)) false Required;
      mkField "created_timestamp" TDateTime false Required ]
    [ "created_timestamp" ]
    true.

(** [invoice_info_settlement_mutation.py]: [InvoiceInfoSettlementMutation] *)
Definition InvoiceInfoSettlementMutation : model :=
  mkModel "InvoiceInfoSettlementMutation"
    [ mkField "id" (TInt (Some 0%Z) None) false Required;
      mkField "mutation_action" (TEnum "MutationAction" ["UPDATE"; "DELETE"])
        false Required;
      mkField "mutation_timestamp" TDateTime false Required;
      mkField "invoice_info_settlement_id" (TInt (Some 0%Z) None) false Required;
      mkField "uuid" (TStr (Some 26%nat)) false Required;
      mkField "invoice_info_uuid" (TStr (Some 26%nat)) true (Default VNone);
      mkField "settlement_uuid" (TStr (Some 26%nat)) true (Default VNone);
      mkField "request_uuid" (TStr (Some 26%nat)) true (Default VNone);
      mkField "created_timestamp" TDateTime true (Default VNone) ]
    [ "mutation_action"; "mutation_timestamp" ]
    true.

(** [job_assassination_contract.py]: [JobAssassinationContract] *)
Definition JobAssassinationContract : model :=
  mkModel "JobAssassinationContract"
    [ mkField "id" (TInt (Some 0%Z) None) false Required;
      mkField "job_identifier" (TStr (Some 50%nat)) false Required;
      mkField "killed" (TInt None (Some 0%Z)) false (Default (VInt 0));
      mkField "created_timestamp" TDateTime false Required;
      mkField "modified_timestamp" TDateTime false Required ]
    [ "job_identifier"; "killed"; "created_timestamp" ]
    true.

(** [ledger_account.py]: [LedgerAccount] *)
Definition LedgerAccount : model :=
  mkModel "LedgerAccount"
    [ mkField "id" (TInt (Some 0%Z) None) false Required;
      mkField "uuid" (TStr (Some 26%nat)) false Required;
      mkField "ledger_account_key" (TStr (Some 32%nat)) false Required;
      mkField "billing_entity_uuid" (TStr (Some 26%nat)) false Required;
      mkField "gl_code" (TStr (Some 40%nat)) true (Default VNone);
      mkField "created_timestamp" TDateTime false Required;
      mkField "modified_timestamp" TDateTime false Required ]
    [ "ledger_account_key"; "gl_code" ]
    true.

(** [ledger_account_action.py]: [LedgerAccountAction] *)
Definition LedgerAccountAction : model :=
  mkModel "LedgerAccountAction"
    [ mkField "id" (TInt (Some 0%Z) None) false Required;
      mkField "uuid" (TStr (Some 26%nat)) false Required;
      mkField "action" (TStr (Some 25%nat)) false Required;
      mkField "created_timestamp" TDateTime false Required ]
    [ "action" ]
    true.

(** [ledger_account_balance.py]: [LedgerAccountBalance] *)
Definition LedgerAccountBalance : model :=
  mkModel "LedgerAccountBalance"
    [ mkField "id" (TInt (Some 0%Z) None) false Required;
      mkField "uuid" (TStr (Some 26%nat)) false Required;
      mkField "ledger_account_uuid" (TStr (Some 26%nat)) false Required;
      mkField "currency" (TStr (Some 3%nat)) false Required;
      mkField "balance" (TDecimal (Some 12%N) (Some 3%N)) false Required;
      mkField "created_timestamp" TDateTime false Required;
      mkField "modified_timestamp" TDateTime false Required ]
    [ "currency"; "balance" ]
    true.

(** [ledger_account_key.py]: [LedgerAccountKey] *)
Definition LedgerAccountKey : model :=
  mkModel "LedgerAccountKey"
    [ mkField "id" (TInt (Some 0%Z) None) false Required;
      mkField "uuid" (TStr (Some 26%nat)) false Required;
      mkField "ledger_account_key" (TStr (Some 32%nat)) false Required;
      mkField "ledger_account_type" (TStr (Some 20%nat)) false Required;
      mkField "default_gl_code" (TStr (Some 40%nat)) true (Default VNone);
      mkField "short_desc" (TStr (Some 40%nat)) false Required;
      mkField "full_desc" (TStr (Some 255%nat)) true (Default VNone);
      mkField "created_timestamp" TDateTime false Required;
      mkField "modified_timestamp" TDateTime false Required ]
    [ "ledger_account_key"; "ledger_account_type"; "short_desc" ]
    true.

(** [ledger_account_key_purpose.py]: [LedgerAccountKeyPurpose] *)
Definition LedgerAccountKeyPurpose : model :=
  mkModel "LedgerAccountKeyPurpose"
    [ mkField "id" (TInt (Some 0%Z) None) false Required;
      mkField "uuid" (TStr (Some 26%nat)) false Required;
      mkField "purpose" (TStr (Some 25%nat)) false Required;
      mkField "ledger_account_key" (TStr (Some 32%nat)) false Required;
      mkField "created_timestamp" TDateTime false Required;
      mkField "audit_id" (TStr (Some 26%nat)) true (Default VNone) ]
    [ "purpose"; "ledger_account_key" ]
    true.

(** [ledger_account_purpose.py]: [LedgerAccountPurpose] *)
Definition LedgerAccountPurpose : model :=
  mkModel "LedgerAccountPurpose"
    [ mkField "id" (TInt (Some 0%Z) None) false Required;
      mkField "uuid" (TStr (Some 26%nat)) false Required;
      mkField "purpose" (TStr (Some 25%nat)) false Required;
      mkField "created_timestamp" TDateTime false Required ]
    [ "purpose" ]
    true.

(** [ledger_account_settlement.py]: [LedgerAccountSettlement] *)
Definition LedgerAccountSettlement : model :=
  mkModel "LedgerAccountSettlement"
    [ mkField "id" (TInt (Some 0%Z) None) false Required;
      mkField "uuid" (TStr (Some 26%nat)) false Required;
      mkField "ledger_account_key" (TStr (Some 32%nat)) false Required;
      mkField "effective_date" TDate false Required;
      mkField "settlement_item_code" (TStr (Some 30%nat)) true (Default VNone);
      mkField "settlement_desc" (TStr (Some 100%nat)) true (Default VNone);
      mkField "fee_category_group" (TStr (Some 25%nat)) true (Default VNone);
      mkField "revenue_group" (TStr (Some 25%nat)) true (Default VNone);
      mkField "merchant_plan_uuid" (TStr (Some 13%nat)) true (Default VNone);
      mkField "developer_uuid" (TStr (Some 13%nat)) true (Default VNone);
      mkField "developer_app_uuid" (TStr (Some 13%nat)) true (Default VNone);
      mkField "app_subscription_uuid" (TStr (Some 13%nat)) true (Default VNone);
      mkField "app_metered_uuid" (TStr (Some 13%nat)) true (Default VNone);
      mkField "created_timestamp" TDateTime false Required;
      mkField "modified_timestamp" TDateTime false Required;
      mkField "audit_id" (TStr (Some 26%nat)) true (Default VNone) ]
    [ "ledger_account_key"; "effective_date"; "settlement_item_code";
      "settlement_desc" ]
    true.

(** [ledger_account_transition.py]: [LedgerAccountTransition] *)
Definition LedgerAccountTransition : model :=
  mkModel "LedgerAccountTransition"
    [ mkField "id" (TInt (Some 0%Z) None) false Required;
      mkField "uuid" (TStr (Some 26%nat)) false Required;
      mkField "action" (TStr (Some 25%nat)) false Required;
      mkField "effective_date" TDate false Required;
      mkField "lookup_ledger_account_key" (TStr (Some 32%nat)) false Required;
      mkField "credit_ledger_account_key" (TStr (Some 32%nat)) false Required;
      mkField "credit_billing_entity_uuid_source" (TStr (Some 20%nat))
        false Required;
      mkField "debit_ledger_account_key" (TStr (Some 32%nat)) false Required;
      mkField "debit_billing_entity_uuid_source" (TStr (Some 20%nat))
        false Required;
      mkField "deleted_date" TDate true (Default VNone);
      mkField "created_timestamp" TDateTime false Required;
      mkField "modified_timestamp" TDateTime false Required;
      mkField "audit_id" (TStr (Some 26%nat)) true (Default VNone) ]
    [ "action"; "effective_date"; "credit_ledger_account_key";
      "debit_ledger_account_key" ]
    true.

(** [ledger_journal.py]: [LedgerJournal] *)
Definition LedgerJournal : model :=
  mkModel "LedgerJournal"
    [ mkField "id" (TInt (Some 0%Z) None) false Required;
      mkField "uuid" (TStr (Some 26%nat)) false Required;
      mkField "ledger_account_uuid" (TStr (Some 26%nat)) false Required;
      mkField "journal_date" TDate false Required;
      mkField "ref_uuid_type" (TStr (Some 20%nat)) false Required;
      mkField "ref_uuid" (TStr (Some 26%nat)) false Required;
      mkField "cr_db" (TStr (Some 6%nat)) false Required;
      mkField "currency" (TStr (Some 3%nat)) false Required;
      mkField "amount" (TDecimal (Some 12%N) (Some 3%N)) false Required;
      mkField "created_timestamp" TDateTime false Required ]
    [ "journal_date"; "cr_db"; "currency"; "amount" ]
    true.

(** [ledger_journal_mutation.py]: [LedgerJournalMutation] *)
Definition LedgerJournalMutation : model :=
  mkModel "LedgerJournalMutation"
    [ mkField "id" (TInt (Some 0%Z) None) false Required;
      mkField "mutation_action" (TLiteral ["UPDATE"; "DELETE"]) false Required;
      mkField "mutation_timestamp" TDateTime false DefaultFactoryNow;
      mkField "ledger_journal_id" (TInt (Some 0%Z) None) false Required;
      mkField "uuid" (TStr (Some 26%nat)) false Required;
      mkField "ledger_account_uuid" (TStr (Some 26%nat)) true (Default VNone);
      mkField "journal_date" TDate true (Default VNone);
      mkField "ref_uuid_type"
        (TLiteral ["FEE_SUMMARY"; "SETTLE_EXPORT"; "SETTLE_IMPORT"; "FEE_TAX"])
        true (Default VNone);
      mkField "ref_uuid" (TStr (Some 26%nat)) true (Default VNone);
      mkField "cr_db" (TLiteral ["CREDIT"; "DEBIT"]) true (Default VNone);
      mkField "currency" (TStr (Some 3%nat)) true (Default VNone);
      mkField "amount" (TDecimal (Some 12%N) (Some 3%N)) true (Default VNone);
      mkField "created_timestamp" TDateTime true (Default VNone) ]
    [ "mutation_action"; "cr_db"; "currency"; "amount" ]
    true.

(** [lexi_attribute.py]: [LexiAttribute] *)
Definition LexiAttribute : model :=
  mkModel "LexiAttribute"
    [ mkField "id" (TInt (Some 0%Z) None) false Required;
      mkField "uuid" (TStr (Some 36%nat)) false Required;
      mkField "word" (TStr (Some 512%nat)) false Required;
      mkField "lexicon" (TStr (Some 128%nat)) false Required;
      mkField "attr_name" (TStr (Some 128%nat)) false Required;
      mkField "created_timestamp" TDateTime false DefaultFactoryNow;
      mkField "deleted_timestamp" TDateTime true (Default VNone) ]
    [ "word"; "lexicon"; "attr_name" ]
    true.

(** [lexi_rule.py]: [LexiRule] *)
Definition LexiRule : model :=
  mkModel "LexiRule"
    [ mkField "id" (TInt (Some 0%Z) None) false Required;
      mkField "uuid" (TStr (Some 36%nat)) false Required;
      mkField "parent_uuid" (TStr (Some 36%nat)) true (Default VNone);
      mkField "lexicon" (TStr (Some 128%nat)) false Required;
      mkField "rule_name" (TStr (Some 128%nat)) false Required;
      mkField "description" (TStr (Some 512%nat)) true (Default VNone);
      mkField "rule_condition" (TStr (Some 512%nat)) true (Default VNone);
      mkField "target_attributes" (TStr (Some 512%nat)) true (Default VNone);
      mkField "priority" (TInt None None) false (Default (VInt 1));
      mkField "rule_type"
        (TLiteral ["SIMPLE"; "UNIT"; "ACTIVATION"; "CONDITIONAL"])
        false Required;
      mkField "created_timestamp" TDateTime false DefaultFactoryNow;
      mkField "deleted_timestamp" TDateTime true (Default VNone) ]
    [ "lexicon"; "rule_name"; "rule_type"; "priority" ]
    true.

(** [look.py]: [Look] *)
Definition Look : model :=
  mkModel "Look"
    [ mkField "id" (TInt (Some 0%Z) None) false Required;
      mkField "uuid" (TStr (Some 32%nat)) false Required;
      mkField "hash" (TStr (Some 64%nat)) false Required;
      mkField "namespace" (TStr (Some 32%nat)) false Required;
      mkField "metadata" (TStr (Some 1024%nat)) true (Default VNone);
      mkField "processed_timestamp" TDateTime true (Default VNone);
      mkField "created_timestamp" TDateTime false DefaultFactoryNow ]
    [ "namespace"; "hash" ]
    true.

(** [look_data.py]: [LookData] *)
Definition LookData : model :=
  mkModel "LookData"
    [ mkField "id" (TInt (Some 0%Z) None) false Required;
      mkField "look_uuid" (TStr (Some 32%nat)) false Required;
      mkField "payload" TBytes false Required;
      mkField "created_timestamp" TDateTime false DefaultFactoryNow ]
    [ "payload" ]
    true.

(** [merchant_detail.py]: [MerchantDetail] *)
Definition MerchantDetail : model :=
  mkModel "MerchantDetail"
    [ mkField "id" (TInt (Some 0%Z) None) false Required;
      mkField "uuid" (TStr (Some 26%nat)) false Required;
      mkField "billing_entity_uuid" (TStr (Some 26%nat)) false Required;
      mkField "seasonal" (TInt None None) false (Default (VInt 0));
      mkField "tax_exempt" (TInt None None) false (Default (VInt 0));
      mkField "verified_terms_acceptance" (TInt None None)
        false (Default (VInt 0));
      mkField "created_timestamp" TDateTime false DefaultFactoryNow;
      mkField "modified_timestamp" TDateTime false DefaultFactoryNow;
      mkField "audit_id" (TStr (Some 26%nat)) true (Default VNone) ]
    [ "seasonal"; "tax_exempt"; "verified_terms_acceptance" ]
    true.

(** [misc_action_fee_code.py]: [MiscActionFeeCode] *)
Definition MiscActionFeeCode : model :=
  mkModel "MiscActionFeeCode"
    [ mkField "id" (TInt (Some 0%Z) None) false Required;
      mkField "uuid" (TStr (Some 26%nat)) false Required;
      mkField "misc_specifier" (TStr (Some 25%nat)) false Required;
      mkField "misc_action_type" (TStr (Some 25%nat)) false Required;
      mkField "effective_date" TDate false Required;
      mkField "fee_category" (TStr (Some 25%nat)) false Required;
      mkField "fee_code" (TStr (Some 25%nat)) false Required;
      mkField "deleted_date" TDate true (Default VNone);
      mkField "created_timestamp" TDateTime false DefaultFactoryNow;
      mkField "modified_timestamp" TDateTime false DefaultFactoryNow;
      mkField "audit_id" (TStr (Some 26%nat)) true (Default VNone) ]
    [ "misc_specifier"; "misc_action_type"; "fee_category"; "fee_code";
      "effective_date" ]
    true.

(** [misc_action_type.py]: [MiscActionType] *)
Definition MiscActionType : model :=
  mkModel "MiscActionType"
    [ mkField "id" (TInt (Some 0%Z) None) false Required;
      mkField "uuid" (TStr (Some 26%nat)) false Required;
      mkField "misc_action_type" (TStr (Some 25%nat)) false Required;
      mkField "created_timestamp" TDateTime false DefaultFactoryNow ]
    [ "misc_action_type" ]
    true.

(** [misc_specifier.py]: [MiscSpecifier] *)
Definition MiscSpecifier : model :=
  mkModel "MiscSpecifier"
    [ mkField "id" (TInt (Some 0%Z) None) false Required;
      mkField "uuid" (TStr (Some 26%nat)) false Required;
      mkField "misc_specifier" (TStr (Some 25%nat)) false Required;
      mkField "created_timestamp" TDateTime false DefaultFactoryNow ]
    [ "misc_specifier" ]
    true.

(** [model_fee_summary.py]: [ModelFeeSummary] *)
Definition ModelFeeSummary : model :=
  mkModel "ModelFeeSummary"
    [ mkField "id" (TInt (Some 0%Z) None) false Required;
      mkField "uuid" (TStr (Some 26%nat)) false Required;
      mkField "billing_entity_uuid" (TStr (Some 26%nat)) false Required;
      mkField "billing_date" TDate false Required;
      mkField "fee_category" (TStr (Some 25%nat)) false Required;
      mkField "fee_code" (TStr (Some 25%nat)) false Required;
      mkField "currency" (TStr (Some 3%nat)) false Required;
      mkField "total_period_units" (TDecimal (Some 12%N) (Some 4%N))
        false (Default (VDecimal (mkDecimal false 0 (-4))));
      mkField "total_basis_amount" (TDecimal (Some 12%N) (Some 3%N))
        false (Default (VDecimal (mkDecimal false 0 (-3))));
      mkField "total_fee_amount" (TDecimal (Some 12%N) (Some 3%N))
        false (Default (VDecimal (mkDecimal false 0 (-3))));
      mkField "fee_rate_uuid" (TStr (Some 26%nat)) false Required;
      mkField "request_uuid" (TStr (Some 26%nat)) false Required;
      mkField "invoice_info_uuid" (TStr (Some 26%nat)) true (Default VNone);
      mkField "fee_code_ledger_account_uuid" (TStr (Some 26%nat))
        true (Default VNone);
      mkField "credit_ledger_account_uuid" (TStr (Some 26%nat))
        true (Default VNone);
      mkField "debit_ledger_account_uuid" (TStr (Some 26%nat)) true (Default VNone);
      mkField "created_timestamp" TDateTime false DefaultFactoryNow;
      mkField "modified_timestamp" TDateTime false DefaultFactoryNow ]
    [ "fee_category"; "fee_code"; "currency"; "total_period_units";
      "total_basis_amount"; "total_fee_amount" ]
    true.

(** [monetary_adjustment.py]: [MonetaryAdjustment] *)
Definition MonetaryAdjustment : model :=
  mkModel "MonetaryAdjustment"
    [ mkField "id" (TInt (Some 0%Z) None) false Required;
      mkField "uuid" (TStr (Some 26%nat)) false Required;
      mkField "billing_entity_uuid" (TStr (Some 26%nat)) false Required;
      mkField "adjust_fee_summary_uuid" (TStr (Some 26%nat)) false Required;
      mkField "qualified_fee_summary_uuid" (TStr (Some 26%nat)) false Required;
      mkField "rule_uuid" (TStr (Some 26%nat)) false Required;
      mkField "rule_criteria_uuid" (TStr (Some 26%nat)) true (Default VNone);
      mkField "rule_type" (TLiteral ["AUTO_ADJUST"; "TIERED"]) false Required;
      mkField "request_uuid" (TStr (Some 26%nat)) true (Default VNone);
      mkField "created_timestamp" TDateTime false DefaultFactoryNow ]
    [ "rule_type" ]
    true.

(** [monetary_adjustment_mutation.py]: [MonetaryAdjustmentMutation] *)
Definition MonetaryAdjustmentMutation : model :=
  mkModel "MonetaryAdjustmentMutation"
    [ mkField "id" (TInt (Some 0%Z) None) false Required;
      mkField "mutation_action" (TLiteral ["UPDATE"; "DELETE"]) false Required;
      mkField "mutation_timestamp" TDateTime false DefaultFactoryNow;
      mkField "monetary_adjustment_id" (TInt (Some 0%Z) None) false Required;
      mkField "uuid" (TStr (Some 26%nat)) false Required;
      mkField "billing_entity_uuid" (TStr (Some 26%nat)) false Required;
      mkField "adjust_fee_summary_uuid" (TStr (Some 26%nat)) false Required;
      mkField "qualified_fee_summary_uuid" (TStr (Some 26%nat)) false Required;
      mkField "rule_uuid" (TStr (Some 26%nat)) false Required;
      mkField "rule_criteria_uuid" (TStr (Some 26%nat)) true (Default VNone);
      mkField "rule_type" (TLiteral ["AUTO_ADJUST"; "TIERED"]) false Required;
      mkField "request_uuid" (TStr (Some 26%nat)) true (Default VNone);
      mkField "created_timestamp" TDateTime false DefaultFactoryNow ]
    [ "mutation_action"; "rule_type" ]
    true.

(** [monetary_rule_alias.py]: [MonetaryRuleAlias] *)
Definition MonetaryRuleAlias : model :=
  mkModel "MonetaryRuleAlias"
    [ mkField "id" (TInt (Some 0%Z) None) false Required;
      mkField "uuid" (TStr (Some 26%nat)) false Required;
      mkField "rule_alias" (TStr (Some 25%nat)) false Required;
      mkField "rule_type" (TLiteral ["AUTO_ADJUST"; "TIERED"]) false Required;
      mkField "created_timestamp" TDateTime false DefaultFactoryNow ]
    [ "rule_alias"; "rule_type" ]
    true.

(** [monetary_rule_set.py]: [MonetaryRuleSet] *)
Definition MonetaryRuleSet : model :=
  mkModel "MonetaryRuleSet"
    [ mkField "id" (TInt (Some 0%Z) None) false Required;
      mkField "uuid" (TStr (Some 26%nat)) false Required;
      mkField "rule_status"
        (TLiteral ["SETUP"; "ACTIVE"; "DEPRECATED"; "DELETED"])
        false (Default (VStr "SETUP"));
      mkField "short_desc" (TStr (Some 40%nat)) false Required;
      mkField "full_desc" (TStr (Some 255%nat)) true (Default VNone);
      mkField "created_timestamp" TDateTime false DefaultFactoryNow;
      mkField "modified_timestamp" TDateTime false DefaultFactoryNow;
      mkField "audit_id" (TStr (Some 26%nat)) true (Default VNone) ]
    [ "rule_status"; "short_desc" ]
    true.

(** [monetary_rule_set_rule.py]: [MonetaryRuleSetRule] *)
Definition MonetaryRuleSetRule : model :=
  mkModel "MonetaryRuleSetRule"
    [ mkField "id" (TInt (Some 0%Z) None) false Required;
      mkField "uuid" (TStr (Some 26%nat)) false Required;
      mkField "monetary_rule_set_uuid" (TStr (Some 26%nat)) false Required;
      mkField "rule_uuid" (TStr (Some 26%nat)) false Required;
      mkField "rule_type" (TLiteral ["AUTO_ADJUST"; "TIERED"]) false Required;
      mkField "effective_date" TDate false Required;
      mkField "deleted_date" TDate true (Default VNone);
      mkField "created_timestamp" TDateTime false DefaultFactoryNow;
      mkField "modified_timestamp" TDateTime false DefaultFactoryNow;
      mkField "audit_id" (TStr (Some 26%nat)) true (Default VNone) ]
    [ "rule_type"; "effective_date" ]
    true.

(** [partner_config.py]: [PartnerConfig] *)
Definition PartnerConfig : model :=
  mkModel "PartnerConfig"
    [ mkField "id" (TInt (Some 0%Z) None) false Required;
      mkField "uuid" (TStr (Some 26%nat)) false Required;
      mkField "billing_entity_uuid" (TStr (Some 26%nat)) false Required;
      mkField "hierarchy_type" (TStr (Some 20%nat)) false Required;
      mkField "effective_date" TDate false Required;
      mkField "revenue_share_group" (TStr (Some 20%nat)) true (Default VNone);
      mkField "post_method" (TStr (Some 20%nat)) true (Default VNone);
      mkField "plan_billing_method" (TStr (Some 20%nat)) true (Default VNone);
      mkField "invoice_method" (TStr (Some 20%nat)) true (Default VNone);
      mkField "invoice_number_format" (TStr (Some 20%nat)) true (Default VNone);
      mkField "settlement_method" (TStr (Some 20%nat)) true (Default VNone);
      mkField "seasonal_rule_set_uuid" (TStr (Some 26%nat)) true (Default VNone);
      mkField "created_timestamp" TDateTime false DefaultFactoryNow;
      mkField "modified_timestamp" TDateTime false DefaultFactoryNow;
      mkField "audit_id" (TStr (Some 26%nat)) true (Default VNone) ]
    [ "hierarchy_type"; "revenue_share_group"; "post_method"; "invoice_method";
      "settlement_method" ]
    true.

(** [plan_action.py]: [PlanAction] *)
Definition PlanAction : model :=
  mkModel "PlanAction"
    [ mkField "id" (TInt (Some 0%Z) None) false Required;
      mkField "uuid" (TStr (Some 26%nat)) false Required;
      mkField "billing_entity_uuid" (TStr (Some 26%nat)) false Required;
      mkField "merchant_plan_uuid" (TStr (Some 13%nat)) false Required;
      mkField "serial_number" (TStr (Some 32%nat)) true (Default VNone);
      mkField "plan_action_type" (TStr (Some 25%nat)) false Required;
      mkField "fee_category" (TStr (Some 25%nat)) false Required;
      mkField "fee_code" (TStr (Some 25%nat)) false Required;
      mkField "action_datetime" TDateTime false Required;
      mkField "num_units" (TInt None None) false (Default (VInt 0));
      mkField "units_in_period" (TInt None (Some 0%Z)) false Required;
      mkField "basis_amount" (TDecimal (Some 12%N) (Some 3%N))
        false (Default (VDecimal (mkDecimal false 0 (-3))));
      mkField "basis_currency" (TStr (Some 3%nat)) true (Default VNone);
      mkField "reference" (TStr (Some 50%nat)) true (Default VNone);
      mkField "plan_action_fee_code_uuid" (TStr (Some 26%nat)) true (Default VNone);
      mkField "fee_uuid" (TStr (Some 26%nat)) true (Default VNone);
      mkField "event_uuid" (TStr (Some 26%nat)) true (Default VNone);
      mkField "request_uuid" (TStr (Some 26%nat)) true (Default VNone);
      mkField "date_to_post" TDate true (Default VNone);
      mkField "posting_date" TDate true (Default VNone);
      mkField "created_timestamp" TDateTime false DefaultFactoryNow;
      mkField "modified_timestamp" TDateTime false DefaultFactoryNow ]
    [ "plan_action_type"; "fee_category"; "fee_code"; "num_units";
      "units_in_period" ]
    false.

(** [plan_action_error.py]: [PlanActionError] *)
Definition PlanActionError : model :=
  mkModel "PlanActionError"
    [ mkField "id" (TInt (Some 0%Z) None) false Required;
      mkField "uuid" (TStr (Some 26%nat)) false Required;
      mkField "plan_action_uuid" (TStr (Some 26%nat)) false Required;
      mkField "request_uuid" (TStr (Some 26%nat)) false Required;
      mkField "posting_date" TDate false Required;
      mkField "original_request_uuid" (TStr (Some 26%nat)) false Required;
      mkField "original_posting_date" TDate false Required;
      mkField "posting_attempts" (TInt None None) false (Default (VInt 1));
      mkField "error_code" (TStr (Some 25%nat)) false Required;
      mkField "error_details" (TStr None) true (Default VNone);
      mkField "resolved" (TInt None None) false (Default (VInt 0));
      mkField "created_timestamp" TDateTime false DefaultFactoryNow;
      mkField "modified_timestamp" TDateTime false DefaultFactoryNow ]
    [ "error_code"; "posting_attempts"; "resolved" ]
    true.

(** [plan_action_type.py]: [PlanActionType] *)
Definition PlanActionType : model :=
  mkModel "PlanActionType"
    [ mkField "id" (TInt (Some 0%Z) None) false Required;
      mkField "uuid" (TStr (Some 26%nat)) false Required;
      mkField "plan_action_type" (TStr (Some 25%nat)) false Required;
      mkField "created_timestamp" TDateTime false DefaultFactoryNow ]
    [ "plan_action_type" ]
    true.

(** [processing_group_dates.py]: [ProcessingGroupDates] *)
Definition ProcessingGroupDates : model :=
  mkModel "ProcessingGroupDates"
    [ mkField "id" (TInt (Some 0%Z) None) false Required;
      mkField "uuid" (TStr (Some 26%nat)) false Required;
      mkField "billing_entity_uuid" (TStr (Some 26%nat)) false Required;
      mkField "hierarchy_type" (TStr (Some 20%nat)) false Required;
      mkField "cycle_date" TDate false Required;
      mkField "last_cycle_date" TDate true (Default VNone);
      mkField "posting_date" TDate false Required;
      mkField "last_posting_date" TDate true (Default VNone);
      mkField "billing_date" TDate false Required;
      mkField "last_billing_date" TDate true (Default VNone);
      mkField "settlement_date" TDate false Required;
      mkField "last_settlement_date" TDate true (Default VNone);
      mkField "created_timestamp" TDateTime false DefaultFactoryNow;
      mkField "modified_timestamp" TDateTime false DefaultFactoryNow ]
    [ "hierarchy_type"; "cycle_date"; "posting_date"; "billing_date";
      "settlement_date" ]
    true.

(** [processing_note.py]: [ProcessingNote] *)
Definition ProcessingNote : model :=
  mkModel "ProcessingNote"
    [ mkField "id" (TInt (Some 0%Z) None) false Required;
      mkField "uuid" (TStr (Some 26%nat)) false Required;
      mkField "billing_entity_uuid" (TStr (Some 26%nat)) false Required;
      mkField "process_date" TDate true (Default VNone);
      mkField "note_code" (TStr (Some 25%nat)) false Required;
      mkField "notes" (TStr (Some 512%nat)) true (Default VNone);
      mkField "request_uuid" (TStr (Some 26%nat)) true (Default VNone);
      mkField "created_timestamp" TDateTime false DefaultFactoryNow ]
    [ "note_code"; "notes"; "process_date" ]
    true.

(** [processing_note_mutation.py]: [ProcessingNoteMutation] *)
Definition ProcessingNoteMutation : model :=
  mkModel "ProcessingNoteMutation"
    [ mkField "id" (TInt (Some 0%Z) None) false Required;
      mkField "mutation_action" (TLiteral ["UPDATE"; "DELETE"]) false Required;
      mkField "mutation_timestamp" TDateTime false DefaultFactoryNow;
      mkField "processing_note_id" (TInt (Some 0%Z) None) false Required;
      mkField "uuid" (TStr (Some 26%nat)) false Required;
      mkField "billing_entity_uuid" (TStr (Some 26%nat)) true (Default VNone);
      mkField "process_date" TDate true (Default VNone);
      mkField "note_code" (TStr (Some 25%nat)) true (Default VNone);
      mkField "notes" (TStr (Some 512%nat)) true (Default VNone);
      mkField "request_uuid" (TStr (Some 26%nat)) true (Default VNone);
      mkField "created_timestamp" TDateTime true (Default VNone) ]
    [ "mutation_action"; "note_code" ]
    true.

(** [prototype_fee_rate.py]: [PrototypeFeeRate] *)
Definition PrototypeFeeRate : model :=
  mkModel "PrototypeFeeRate"
    [ mkField "id" (TInt (Some 0%Z) None) false Required;
      mkField "uuid" (TStr (Some 26%nat)) false Required;
      mkField "prototype_fee_set_id" (TInt (Some 0%Z) None) false Required;
      mkField "billing_entity_uuid" (TStr (Some 26%nat)) false Required;
      mkField "fee_category" (TStr (Some 25%nat)) false Required;
      mkField "fee_code" (TStr (Some 25%nat)) false Required;
      mkField "currency" (TStr (Some 3%nat)) false Required;
      mkField "apply_type"
        (TLiteral ["DEFAULT"; "PER_ITEM"; "PERCENTAGE"; "BOTH"; "NONE"; "FLAT"])
        false Required;
      mkField "per_item_amount" (TDecimal (Some 12%N) (Some 3%N))
        true (Default VNone);
      mkField "percentage" (TDecimal (Some 5%N) (Some 2%N)) true (Default VNone);
      mkField "created_timestamp" TDateTime false DefaultFactoryNow;
      mkField "modified_timestamp" TDateTime false DefaultFactoryNow;
      mkField "audit_id" (TStr (Some 26%nat)) true (Default VNone) ]
    [ "fee_category"; "fee_code"; "currency"; "apply_type"; "per_item_amount";
      "percentage" ]
    true.

(** [prototype_fee_set.py]: [PrototypeFeeSet] *)
Definition PrototypeFeeSet : model :=
  mkModel "PrototypeFeeSet"
    [ mkField "id" (TInt (Some 0%Z) None) false Required;
      mkField "uuid" (TStr (Some 26%nat)) false Required;
      mkField "name" (TStr (Some 40%nat)) false Required;
      mkField "disposition"
        (TEnum "Disposition" ["DRAFT"; "PROMOTED"; "REMOVED"])
        false Required;
      mkField "description" (TStr (Some 255%nat)) true (Default VNone);
      mkField "effective_date" TDate false Required;
      mkField "disposition_datetime" TDateTime false Required;
      mkField "created_timestamp" TDateTime false Required;
      mkField "modified_timestamp" TDateTime false Required ]
    [ "name"; "disposition"; "effective_date"; "description" ]
    true.

(** [revenue_action.py]: [RevenueAction] *)
Definition RevenueAction : model :=
  mkModel "RevenueAction"
    [ mkField "id" (TInt (Some 0%Z) None) false Required;
      mkField "uuid" (TStr (Some 26%nat)) false Required;
      mkField "billing_entity_uuid" (TStr (Some 26%nat)) false Required;
      mkField "fee_category_group" (TStr (Some 25%nat)) false Required;
      mkField "revenue_group" (TStr (Some 25%nat)) true (Default VNone);
      mkField "developer_uuid" (TStr (Some 13%nat)) true (Default VNone);
      mkField "developer_app_uuid" (TStr (Some 13%nat)) true (Default VNone);
      mkField "app_subscription_uuid" (TStr (Some 13%nat)) true (Default VNone);
      mkField "app_metered_uuid" (TStr (Some 13%nat)) true (Default VNone);
      mkField "merchant_plan_uuid" (TStr (Some 13%nat)) true (Default VNone);
      mkField "revenue_action_type" (TStr (Some 25%nat)) false Required;
      mkField "fee_category" (TStr (Some 25%nat)) false Required;
      mkField "fee_code" (TStr (Some 25%nat)) false Required;
      mkField "action_datetime" TDateTime false Required;
      mkField "num_units" (TInt None None) false (Default (VInt 0));
      mkField "units_in_period" (TInt None (Some 0%Z)) false Required;
      mkField "basis_amount" (TDecimal (Some 12%N) (Some 3%N))
        false (Default (VDecimal (mkDecimal false 0 (-3))));
      mkField "basis_currency" (TStr (Some 3%nat)) true (Default VNone);
      mkField "reference" (TStr (Some 50%nat)) true (Default VNone);
      mkField "revenue_action_fee_code_uuid" (TStr (Some 26%nat))
        true (Default VNone);
      mkField "source_billing_entity_uuid" (TStr (Some 26%nat))
        true (Default VNone);
      mkField "settlement_action_uuid" (TStr (Some 26%nat)) true (Default VNone);
      mkField "fee_uuid" (TStr (Some 26%nat)) true (Default VNone);
      mkField "event_uuid" (TStr (Some 26%nat)) true (Default VNone);
      mkField "request_uuid" (TStr (Some 26%nat)) true (Default VNone);
      mkField "date_to_post" TDate true (Default VNone);
      mkField "posting_date" TDate true (Default VNone);
      mkField "created_timestamp" TDateTime false DefaultFactoryNow;
      mkField "modified_timestamp" TDateTime false DefaultFactoryNow ]
    [ "fee_category_group"; "revenue_group"; "revenue_action_type";
      "fee_category"; "fee_code"; "num_units"; "basis_amount" ]
    true.

(** [revenue_action_fee_code.py]: [RevenueActionFeeCode] *)
Definition RevenueActionFeeCode : model :=
  mkModel "RevenueActionFeeCode"
    [ mkField "id" (TInt (Some 0%Z) None) false Required;
      mkField "uuid" (TStr (Some 26%nat)) false Required;
      mkField "fee_category_group" (TStr (Some 25%nat)) false Required;
      mkField "revenue_group" (TStr (Some 25%nat)) true (Default VNone);
      mkField "revenue_share_group" (TStr (Some 20%nat)) true (Default VNone);
      mkField "developer_uuid" (TStr (Some 13%nat)) true (Default VNone);
      mkField "developer_app_uuid" (TStr (Some 13%nat)) true (Default VNone);
      mkField "app_subscription_uuid" (TStr (Some 13%nat)) true (Default VNone);
      mkField "app_metered_uuid" (TStr (Some 13%nat)) true (Default VNone);
      mkField "merchant_plan_uuid" (TStr (Some 13%nat)) true (Default VNone);
      mkField "revenue_action_type" (TStr (Some 25%nat)) false Required;
      mkField "effective_date" TDate false Required;
      mkField "fee_category" (TStr (Some 25%nat)) false Required;
      mkField "fee_code" (TStr (Some 25%nat)) false Required;
      mkField "deleted_date" TDate true (Default VNone);
      mkField "created_timestamp" TDateTime false DefaultFactoryNow;
      mkField "modified_timestamp" TDateTime false DefaultFactoryNow;
      mkField "audit_id" (TStr (Some 26%nat)) true (Default VNone) ]
    [ "fee_category_group"; "revenue_group"; "revenue_action_type";
      "fee_category"; "fee_code"; "effective_date" ]
    true.

(** [revenue_share_group.py]: [RevenueShareGroup] *)
Definition RevenueShareGroup : model :=
  mkModel "RevenueShareGroup"
    [ mkField "id" (TInt (Some 0%Z) None) false Required;
      mkField "uuid" (TStr (Some 26%nat)) false Required;
      mkField "revenue_share_group" (TStr (Some 20%nat)) false Required;
      mkField "short_desc" (TStr (Some 40%nat)) true (Default VNone);
      mkField "description" (TStr (Some 255%nat)) true (Default VNone);
      mkField "created_timestamp" TDateTime false DefaultFactoryNow;
      mkField "modified_timestamp" TDateTime false DefaultFactoryNow ]
    [ "revenue_share_group"; "short_desc" ]
    true.

(** [server_config.py]: [ServerConfig] *)
Definition ServerConfig : model :=
  mkModel "ServerConfig"
    [ mkField "id" (TInt (Some 0%Z) None) false Required;
      mkField "config_key" (TStr (Some 127%nat)) false Required;
      mkField "config_value" (TStr (Some 2000%nat)) true (Default VNone);
      mkField "created_timestamp" TDateTime false DefaultFactoryNow;
      mkField "modified_timestamp" TDateTime false DefaultFactoryNow ]
    [ "config_key"; "config_value" ]
    true.

(** [settlement.py]: [Settlement] *)
Definition Settlement : model :=
  mkModel "Settlement"
    [ mkField "id" (TInt (Some 0%Z) None) false Required;
      mkField "uuid" (TStr (Some 26%nat)) false Required;
      mkField "settlement_date" TDate false Required;
      mkField "billing_entity_uuid" (TStr (Some 26%nat)) false Required;
      mkField "entity_uuid" (TStr (Some 13%nat)) false Required;
      mkField "alternate_id" (TStr (Some 30%nat)) true (Default VNone);
      mkField "payable_receivable" (TLiteral ["PAYABLE"; "RECEIVABLE"])
        false Required;
      mkField "currency" (TStr (Some 3%nat)) false Required;
      mkField "total_amount" (TDecimal (Some 12%N) (Some 3%N)) false Required;
      mkField "fee_amount" (TDecimal (Some 12%N) (Some 3%N)) false Required;
      mkField "tax1_amount" (TDecimal (Some 12%N) (Some 3%N))
        false (Default (VDecimal (mkDecimal false 0 (-3))));
      mkField "tax2_amount" (TDecimal (Some 12%N) (Some 3%N))
        false (Default (VDecimal (mkDecimal false 0 (-3))));
      mkField "tax3_amount" (TDecimal (Some 12%N) (Some 3%N))
        false (Default (VDecimal (mkDecimal false 0 (-3))));
      mkField "tax4_amount" (TDecimal (Some 12%N) (Some 3%N))
        false (Default (VDecimal (mkDecimal false 0 (-3))));
      mkField "lookup_ledger_account_key" (TStr (Some 32%nat)) false Required;
      mkField "gl_code" (TStr (Some 40%nat)) true (Default VNone);
      mkField "item_code" (TStr (Some 30%nat)) true (Default VNone);
      mkField "last_invoice_num" (TStr (Some 30%nat)) true (Default VNone);
      mkField "request_uuid" (TStr (Some 26%nat)) true (Default VNone);
      mkField "created_timestamp" TDateTime false DefaultFactoryNow;
      mkField "modified_timestamp" TDateTime false DefaultFactoryNow ]
    [ "settlement_date"; "payable_receivable"; "currency"; "total_amount";
      "fee_amount" ]
    true.

(** [settlement_action.py]: [SettlementAction] *)
Definition SettlementAction : model :=
  mkModel "SettlementAction"
    [ mkField "id" (TInt (Some 0%Z) None) false Required;
      mkField "uuid" (TStr (Some 26%nat)) false Required;
      mkField "settlement_uuid" (TStr (Some 26%nat)) false Required;
      mkField "action_date" TDate false Required;
      mkField "action" (TStr (Some 25%nat)) false Required;
      mkField "currency" (TStr (Some 3%nat)) false Required;
      mkField "total_amount" (TDecimal (Some 12%N) (Some 3%N)) false Required;
      mkField "fee_amount" (TDecimal (Some 12%N) (Some 3%N)) false Required;
      mkField "tax1_amount" (TDecimal (Some 12%N) (Some 3%N))
        false (Default (VDecimal (mkDecimal false 0 (-3))));
      mkField "tax2_amount" (TDecimal (Some 12%N) (Some 3%N))
        false (Default (VDecimal (mkDecimal false 0 (-3))));
      mkField "tax3_amount" (TDecimal (Some 12%N) (Some 3%N))
        false (Default (VDecimal (mkDecimal false 0 (-3))));
      mkField "tax4_amount" (TDecimal (Some 12%N) (Some 3%N))
        false (Default (VDecimal (mkDecimal false 0 (-3))));
      mkField "reject_code" (TStr (Some 10%nat)) true (Default VNone);
      mkField "message" (TStr (Some 1024%nat)) true (Default VNone);
      mkField "ledger_account_transition_uuid" (TStr (Some 26%nat))
        true (Default VNone);
      mkField "credit_ledger_account_uuid" (TStr (Some 26%nat))
        true (Default VNone);
      mkField "debit_ledger_account_uuid" (TStr (Some 26%nat)) true (Default VNone);
      mkField "created_timestamp" TDateTime false DefaultFactoryNow ]
    [ "action_date"; "action"; "currency"; "total_amount"; "fee_amount" ]
    true.

(** [settlement_mutation.py]: [SettlementMutation] *)
Definition SettlementMutation : model :=
  mkModel "SettlementMutation"
    [ mkField "id" (TInt (Some 0%Z) None) false Required;
      mkField "mutation_action" (TLiteral ["UPDATE"; "DELETE"]) false Required;
      mkField "mutation_timestamp" TDateTime false DefaultFactoryNow;
      mkField "settlement_id" (TInt (Some 0%Z) None) false Required;
      mkField "uuid" (TStr (Some 26%nat)) false Required;
      mkField "settlement_date" TDate true (Default VNone);
      mkField "billing_entity_uuid" (TStr (Some 26%nat)) true (Default VNone);
      mkField "entity_uuid" (TStr (Some 13%nat)) true (Default VNone);
      mkField "alternate_id" (TStr (Some 30%nat)) true (Default VNone);
      mkField "payable_receivable" (TLiteral ["PAYABLE"; "RECEIVABLE"])
        true (Default VNone);
      mkField "currency" (TStr (Some 3%nat)) true (Default VNone);
      mkField "total_amount" (TDecimal (Some 12%N) (Some 3%N)) true (Default VNone);
      mkField "fee_amount" (TDecimal (Some 12%N) (Some 3%N)) true (Default VNone);
      mkField "tax1_amount" (TDecimal (Some 12%N) (Some 3%N)) true (Default VNone);
      mkField "tax2_amount" (TDecimal (Some 12%N) (Some 3%N)) true (Default VNone);
      mkField "tax3_amount" (TDecimal (Some 12%N) (Some 3%N)) true (Default VNone);
      mkField "tax4_amount" (TDecimal (Some 12%N) (Some 3%N)) true (Default VNone);
      mkField "lookup_ledger_account_key" (TStr (Some 32%nat)) true (Default VNone);
      mkField "gl_code" (TStr (Some 40%nat)) true (Default VNone);
      mkField "item_code" (TStr (Some 30%nat)) true (Default VNone);
      mkField "last_invoice_num" (TStr (Some 30%nat)) true (Default VNone);
      mkField "request_uuid" (TStr (Some 26%nat)) true (Default VNone);
      mkField "created_timestamp" TDateTime true (Default VNone);
      mkField "modified_timestamp" TDateTime true (Default VNone) ]
    [ "mutation_action"; "payable_receivable"; "currency"; "total_amount";
      "fee_amount" ]
    true.

(** [skip_fee_category_lexi_tag.py]: [SkipFeeCategoryLexiTag] *)
Definition SkipFeeCategoryLexiTag : model :=
  mkModel "SkipFeeCategoryLexiTag"
    [ mkField "id" (TInt (Some 0%Z) None) false Required;
      mkField "uuid" (TStr (Some 26%nat)) false Required;
      mkField "fee_category" (TStr (Some 25%nat)) false Required;
      mkField "created_timestamp" TDateTime false DefaultFactoryNow ]
    [ "fee_category" ]
    true.

(** [tier_detail.py]: [TierDetail] *)
Definition TierDetail : model :=
  mkModel "TierDetail"
    [ mkField "id" (TInt (Some 0%Z) None) false Required;
      mkField "uuid" (TStr (Some 26%nat)) false Required;
      mkField "tiered_rule_uuid" (TStr (Some 26%nat)) false Required;
      mkField "min_units" (TDecimal (Some 12%N) (Some 4%N)) true (Default VNone);
      mkField "min_amount" (TDecimal (Some 12%N) (Some 3%N)) true (Default VNone);
      mkField "currency" (TStr (Some 3%nat)) true (Default VNone);
      mkField "rate_fee_category" (TStr (Some 25%nat)) false Required;
      mkField "rate_fee_code" (TStr (Some 25%nat)) false Required;
      mkField "short_desc" (TStr (Some 40%nat)) false Required;
      mkField "created_timestamp" TDateTime false DefaultFactoryNow;
      mkField "modified_timestamp" TDateTime false DefaultFactoryNow;
      mkField "audit_id" (TStr (Some 26%nat)) true (Default VNone) ]
    [ "min_units"; "min_amount"; "currency"; "rate_fee_category";
      "rate_fee_code"; "short_desc" ]
    true.

(** [tiered_pricing.py]: [TieredPricing] *)
Definition TieredPricing : model :=
  mkModel "TieredPricing"
    [ mkField "id" (TInt (Some 0%Z) None) false Required;
      mkField "uuid" (TStr (Some 26%nat)) false Required;
      mkField "billing_entity_uuid" (TStr (Some 26%nat)) false Required;
      mkField "tiered_rule_uuid" (TStr (Some 26%nat)) false Required;
      mkField "effective_date" TDate false Required;
      mkField "deleted_date" TDate true (Default VNone);
      mkField "created_timestamp" TDateTime false DefaultFactoryNow;
      mkField "modified_timestamp" TDateTime false DefaultFactoryNow;
      mkField "audit_id" (TStr (Some 26%nat)) true (Default VNone) ]
    [ "effective_date" ]
    true.

(** [tiered_qualifier.py]: [TieredQualifier] *)
Definition TieredQualifier : model :=
  mkModel "TieredQualifier"
    [ mkField "id" (TInt (Some 0%Z) None) false Required;
      mkField "uuid" (TStr (Some 26%nat)) false Required;
      mkField "tiered_rule_uuid" (TStr (Some 26%nat)) false Required;
      mkField "fee_category" (TStr (Some 25%nat)) false Required;
      mkField "fee_code" (TStr (Some 25%nat)) false Required;
      mkField "negate_fee_summary" (TInt None None) false (Default (VInt 0));
      mkField "disqualify" (TInt None None) false (Default (VInt 0));
      mkField "created_timestamp" TDateTime false DefaultFactoryNow;
      mkField "audit_id" (TStr (Some 26%nat)) true (Default VNone) ]
    [ "fee_category"; "fee_code"; "negate_fee_summary"; "disqualify" ]
    true.

(** [tiered_rule.py]: [TieredRule] *)
Definition TieredRule : model :=
  mkModel "TieredRule"
    [ mkField "id" (TInt (Some 0%Z) None) false Required;
      mkField "uuid" (TStr (Some 26%nat)) false Required;
      mkField "rule_status"
        (TLiteral ["SETUP"; "ACTIVE"; "DEPRECATED"; "DELETED"])
        false (Default (VStr "SETUP"));
      mkField "rule_alias" (TStr (Some 25%nat)) true (Default VNone);
      mkField "tiered_basis" (TLiteral ["QUANTITY"; "VOLUME"; "BOTH"])
        false Required;
      mkField "tiered_model" (TLiteral ["APPLY_TO_TIER"; "APPLY_TO_ALL"])
        false Required;
      mkField "target_entity_type"
        (TLiteral ["MERCHANT"; "RESELLER"; "DEVELOPER"])
        false Required;
      mkField "short_desc" (TStr (Some 40%nat)) false Required;
      mkField "full_desc" (TStr (Some 255%nat)) true (Default VNone);
      mkField "created_timestamp" TDateTime false DefaultFactoryNow;
      mkField "modified_timestamp" TDateTime false DefaultFactoryNow;
      mkField "audit_id" (TStr (Some 26%nat)) true (Default VNone) ]
    [ "rule_status"; "rule_alias"; "tiered_basis"; "tiered_model";
      "target_entity_type"; "short_desc" ]
    true.

(** Every entity model of [src/demo/models/ebb]. *)
Definition all_models : list model :=
  [ AdjustAction;
    AdjustActionType;
    AdjustReason;
    AppMeterAction;
    AppMeterActionFeeCode;
    AppMeterActionType;
    AppSubActionError;
    AutoAdjustAdvice;
    AutoAdjustQualifier;
    AutoAdjustRule;
    BillingArchetype;
    BillingEntity;
    BillingEntityConfig;
    BillingEventHistory;
    BillingHierarchy;
    BillingHierarchyCycle;
    BillingHierarchyType;
    BillingPseudoEntity;
    BillingSchedule;
    CellularAction;
    CellularActionFeeCode;
    ConsumerFailureHistory;
    CycleValidation;
    CycleValidationMutation;
    DeserializableFailure;
    FeeCategory;
    FeeCode;
    FeeCodeApp;
    FeeCodeLedgerAccount;
    FeeCtd;
    FeeRate;
    FeeRateErrorReport;
    FeeRateReportActionError;
    FeeSummary;
    FeeTax;
    FeeYtd;
    FlywaySchemaHistory;
    InvoiceAllianceCode;
    InvoiceInfoAmount;
    InvoiceInfoMutation;
    InvoiceInfoSettlement;
    InvoiceInfoSettlementMutation;
    JobAssassinationContract;
    LedgerAccount;
    LedgerAccountAction;
    LedgerAccountBalance;
    LedgerAccountKey;
    LedgerAccountKeyPurpose;
    LedgerAccountPurpose;
    LedgerAccountSettlement;
    LedgerAccountTransition;
    LedgerJournal;
    LedgerJournalMutation;
    LexiAttribute;
    LexiRule;
    Look;
    LookData;
    MerchantDetail;
    MiscActionFeeCode;
    MiscActionType;
    MiscSpecifier;
    ModelFeeSummary;
    MonetaryAdjustment;
    MonetaryAdjustmentMutation;
    MonetaryRuleAlias;
    MonetaryRuleSet;
    MonetaryRuleSetRule;
    PartnerConfig;
    PlanAction;
    PlanActionError;
    PlanActionType;
    ProcessingGroupDates;
    ProcessingNote;
    ProcessingNoteMutation;
    PrototypeFeeRate;
    PrototypeFeeSet;
    RevenueAction;
    RevenueActionFeeCode;
    RevenueShareGroup;
    ServerConfig;
    Settlement;
    SettlementAction;
    SettlementMutation;
    SkipFeeCategoryLexiTag;
    TierDetail;
    TieredPricing;
    TieredQualifier;
    TieredRule ].


End Ebb.

(* ================================================================== *)
(** * [networkx.DiGraph], as far as [main.py] uses it *)

Module Nx.
Import Py.

(** Nested Python data: scalars, lists and string-keyed dicts. *)
Inductive pyobj : Type :=
| OVal (v : value)
| OList (l : list pyobj)
| ODict (d : list (string * pyobj)).

Definition attrs := list (string * pyobj).

(** The two dicts of a [DiGraph] that the demo reads: [g_node] maps a
    node to its attribute dict ([G._node]), [g_succ] maps a node to the
    dict of its successors with the edge attributes ([G._succ], which is
    [G._adj]).  Both keep insertion order, as every Python dict does. *)
Record DiGraph := mkDiGraph
  { g_node : list (string * attrs);
    g_succ : list (string * list (string * attrs)) }.

(** [nx.DiGraph()] *)
Definition empty : DiGraph := mkDiGraph [] [].

Definition get_default {V} (k : string) (d : list (string * V)) (dflt : V) : V :=
  match lookup k d with
  | Some v => v
  | None => dflt
  end.

(** [G.add_node(n, **attr)]: a new node is appended with these
    attributes; for a node already present the attributes are updated
    and its position is kept. *)
Definition add_node (n : string) (attr : attrs) (G : DiGraph) : DiGraph :=
  match lookup n (g_succ G) with
  | None =>
      mkDiGraph (dict_set n (dict_update [] attr) (g_node G))
                (dict_set n [] (g_succ G))
  | Some _ =>
      mkDiGraph
        (dict_set n (dict_update (get_default n (g_node G) []) attr) (g_node G))
        (g_succ G)
  end.

(** The start of [add_edge]: an endpoint that is not a node yet becomes
    one, without attributes. *)
Definition ensure_node (n : string) (G : DiGraph) : DiGraph :=
  match lookup n (g_succ G) with
  | None => mkDiGraph (dict_set n [] (g_node G)) (dict_set n [] (g_succ G))
  | Some _ => G
  end.

(** [G.add_edge(u, v)] *)
Definition add_edge (u v : string) (G : DiGraph) : DiGraph :=
  let G1 := ensure_node v (ensure_node u G) in
  let nbrs := get_default u (g_succ G1) [] in
  let datadict := get_default v nbrs [] in
  mkDiGraph (g_node G1) (dict_set u (dict_set v datadict nbrs) (g_succ G1)).

(** [G.add_edges_from(ebunch)] for a list of pairs. *)
Definition add_edges_from (ebunch : list (string * string)) (G : DiGraph)
  : DiGraph :=
  fold_left (fun g e => add_edge (fst e) (snd e) g) ebunch G.

(** [G.nodes(data=True)] *)
Definition nodes_data (G : DiGraph) : list (string * attrs) := g_node G.

(** [G.nodes()] *)
Definition nodes (G : DiGraph) : list string := keys (g_node G).

(** [G.edges()]: for every node in node order, its successors in the
    order in which they became its successors. *)
Definition edges (G : DiGraph) : list (string * string) :=
  flat_map (fun nn => map (fun vd => (fst nn, fst vd)) (snd nn)) (g_succ G).

End Nx.

(* ================================================================== *)
(** * [json.dumps(obj, indent=2, default=str)] *)

Module Json.
Import Py Nx.

(** [\uXXXX] with lower-case digits. *)
Definition u_escape (cp : N) : string :=
  String "\" (String "u" (hex2 (cp / 256) ++ hex2 (cp mod 256))).

(** The escape of a code point with [ensure_ascii]: a surrogate pair
    above the basic plane. *)
Definition escape_code_point (cp : N) : string :=
  if (cp <? 65536)%N then u_escape cp
  else u_escape (55296 + (cp - 65536) / 1024)
       ++ u_escape (56320 + (cp - 65536) mod 1024).

Definition escape_ascii (a : ascii) : string :=
  let k := N_of_ascii a in
  if Ascii.eqb a dquote then String "\" (String dquote "")
  else if Ascii.eqb a "\" then "\\"
  else if (k =? 10)%N then "\n"
  else if (k =? 13)%N then "\r"
  else if (k =? 9)%N then "\t"
  else if (k =? 8)%N then "\b"
  else if (k =? 12)%N then "\f"
  else if (k <? 32)%N then u_escape k
  else String a "".

Definition low6 (a : ascii) : N := (N_of_ascii a mod 64)%N.

(** The body of a JSON string for a well-formed UTF-8 text. *)
Fixpoint escape (s : string) : string :=
  match s with
  | "" => ""
  | String a r =>
      let k := N_of_ascii a in
      if (k <? 128)%N then escape_ascii a ++ escape r
      else if (k <? 224)%N then
        match r with
        | String b1 r1 =>
            escape_code_point ((k mod 32) * 64 + low6 b1) ++ escape r1
        | _ => escape_code_point 65533
        end
      else if (k <? 240)%N then
        match r with
        | String b1 (String b2 r2) =>
            escape_code_point ((k mod 16) * 4096 + low6 b1 * 64 + low6 b2)
            ++ escape r2
        | _ => escape_code_point 65533
        end
      else
        match r with
        | String b1 (String b2 (String b3 r3)) =>
            escape_code_point
              ((k mod 8) * 262144 + low6 b1 * 4096 + low6 b2 * 64 + low6 b3)
            ++ escape r3
        | _ => escape_code_point 65533
        end
  end.

Definition json_string (s : string) : string :=
  String dquote (escape s ++ String dquote "").

(** The encoding of a scalar: [None], [bool], [int] and [str] (a member
    of a [str] enumeration is a [str]) have their JSON forms; any other
    value goes through [default=str] and is written as that string. *)
Definition dumps_value (v : value) : string :=
  match v with
  | VNone => "null"
  | VBool b => if b then "true" else "false"
  | VInt z => str_Z z
  | VStr s => json_string s
  | VEnum _ m => json_string m
  | _ => json_string (py_str v)
  end.

Definition newline_indent (level : nat) : string :=
  String (ascii_of_N 10) (repeat_char " " (2 * level)).

Fixpoint join (sep : string) (l : list string) : string :=
  match l with
  | [] => ""
  | [x] => x
  | x :: l' => x ++ sep ++ join sep l'
  end.

(** The encoder at nesting depth [level], with [indent=2] and the
    separators [","] and [": "]. *)
Fixpoint dumps_at (level : nat) (o : pyobj) : string :=
  match o with
  | OVal v => dumps_value v
  | OList [] => "[]"
  | OList l =>
      "[" ++ newline_indent (S level)
      ++ join ("," ++ newline_indent (S level)) (map (dumps_at (S level)) l)
      ++ newline_indent level ++ "]"
  | ODict [] => "{}"
  | ODict d =>
      "{" ++ newline_indent (S level)
      ++ join ("," ++ newline_indent (S level))
           (map (fun kv => json_string (fst kv) ++ ": "
                           ++ dumps_at (S level) (snd kv)) d)
      ++ newline_indent level ++ "}"
  end.

Definition dumps (o : pyobj) : string := dumps_at 0 o.

End Json.

(* ================================================================== *)
(** * [src/demo/main.py] *)

Module Demo.
Import Py Pydantic Ebb Nx Json.

(** What the code of [main.py] can raise: the [ValidationError] of a
    model constructor and the [KeyError] of a subscript. *)
Inductive exception : Type :=
| ValidationErr (e : ValidationError)
| KeyError (key : string).

Definition lift {A} (r : result ValidationError A) : result exception A :=
  match r with
  | Ok a => Ok a
  | Err e => Err (ValidationErr e)
  end.

Notation "x <- c ;; k" := (bind c (fun x => k))
  (at level 61, c at next level, right associativity).

(** ** The literal data of [create_pydantic_objects]

    [datetime.fromisoformat], [date.fromisoformat] and [Decimal] applied
    to their literal texts are written as the values they return. *)

(** [merchant_billing_entity = BillingEntity(...)] *)
Definition merchant_billing_entity_kwargs : list (string * value) :=
  [ ("id", VInt 1195);
    ("uuid", VStr "JW8H2B9BT6B11R2HHXY3HYQCN6");
    ("entity_uuid", VStr "062X8PVY3XWB1");
    ("entity_type", VEnum "EntityType" "MERCHANT");
    ("name", VStr "MerchantMcMerchantface");
    ("created_timestamp",
       VDateTime (mkDateTime (mkDate 2025 2 26) 17 6 39 670150));
    ("modified_timestamp",
       VDateTime (mkDateTime (mkDate 2025 2 26) 17 6 39 670150)) ].

(** [clover_billing_entity = BillingEntity(...)] *)
Definition clover_billing_entity_kwargs : list (string * value) :=
  [ ("id", VInt 1);
    ("uuid", VStr "M4JT4XQCPWPMW7WGA4G1Z5NGED");
    ("entity_uuid", VStr "S7VJZXH057ZHC");
    ("entity_type", VEnum "EntityType" "RESELLER");
    ("name", VStr "Clover");
    ("created_timestamp",
       VDateTime (mkDateTime (mkDate 2025 1 30) 16 37 56 379038));
    ("modified_timestamp",
       VDateTime (mkDateTime (mkDate 2025 1 30) 16 37 56 379038)) ].

(** [us_support_billing_entity = BillingEntity(...)] *)
Definition us_support_billing_entity_kwargs : list (string * value) :=
  [ ("id", VInt 3);
    ("uuid", VStr "8E7KTPHJRBHP16EQB5RS2P8D0Q");
    ("entity_uuid", VStr "V9Z9C6EX72SY2");
    ("entity_type", VEnum "EntityType" "RESELLER");
    ("name", VStr "US Customer Support");
    ("created_timestamp",
       VDateTime (mkDateTime (mkDate 2025 1 30) 16 37 56 379038));
    ("modified_timestamp",
       VDateTime (mkDateTime (mkDate 2025 1 30) 16 37 56 379038)) ].

(** [invoice_info = InvoiceInfo(...)] *)
Definition invoice_info_kwargs : list (string * value) :=
  [ ("id", VInt 6200);
    ("uuid", VStr "NFX80F4EH68BEW08384RX7RBMC");
    ("billing_entity_uuid", VStr "JW8H2B9BT6B11R2HHXY3HYQCN6");
    ("entity_uuid", VStr "062X8PVY3XWB1");
    ("alternate_id", VStr "209225173886");
    ("billing_date", VDate (mkDate 2025 6 1));
    ("invoice_num", VStr "202506/000006200");
    ("currency", VStr "USD");
    ("total_amount", VDecimal (mkDecimal false 25883 (-2)));
    ("document_uuid", VStr "RED0GSNS27W2XG1FQ25VVFEEXH");
    ("request_uuid", VStr "CW6456TXW4N934RVY27G5E5CDB");
    ("created_timestamp",
       VDateTime (mkDateTime (mkDate 2025 6 2) 15 6 43 378289)) ].

(** [fee_rate_1 = FeeRate(...)] *)
Definition fee_rate_1_kwargs : list (string * value) :=
  [ ("id", VInt 267888);
    ("uuid", VStr "J65DRB7XHQQ1RTYJSBSTQQBW7K");
    ("billing_entity_uuid", VStr "M4JT4XQCPWPMW7WGA4G1Z5NGED");
    ("fee_category", VStr "APP_SUB_3P_RETAIL");
    ("fee_code", VStr "MW63DAWPN6JGY.S");
    ("currency", VStr "USD");
    ("effective_date", VDate (mkDate 2017 2 15));
    ("apply_type", VEnum "ApplyType" "PER_ITEM");
    ("per_item_amount", VDecimal (mkDecimal false 999 (-2)));
    ("percentage", VNone);
    ("created_timestamp",
       VDateTime (mkDateTime (mkDate 2025 2 25) 19 36 38 626269));
    ("modified_timestamp",
       VDateTime (mkDateTime (mkDate 2025 2 25) 19 36 38 626269));
    ("audit_id", VNone) ].

(** [fee_rate_2 = FeeRate(...)] *)
Definition fee_rate_2_kwargs : list (string * value) :=
  [ ("id", VInt 272274);
    ("uuid", VStr "82G1K56V4V17DXXQHGMR3C328W");
    ("billing_entity_uuid", VStr "M4JT4XQCPWPMW7WGA4G1Z5NGED");
    ("fee_category", VStr "APP_SUB_3P_RETAIL");
    ("fee_code", VStr "E2ATEB4GHYFCE.S");
    ("currency", VStr "USD");
    ("effective_date", VDate (mkDate 2016 2 9));
    ("apply_type", VEnum "ApplyType" "PER_ITEM");
    ("per_item_amount", VDecimal (mkDecimal false 5999 (-2)));
    ("percentage", VNone);
    ("created_timestamp",
       VDateTime (mkDateTime (mkDate 2025 2 25) 19 41 8 122154));
    ("modified_timestamp",
       VDateTime (mkDateTime (mkDate 2025 2 25) 19 41 8 122154));
    ("audit_id", VNone) ].

(** [fee_rate_3 = FeeRate(...)] *)
Definition fee_rate_3_kwargs : list (string * value) :=
  [ ("id", VInt 244655);
    ("uuid", VStr "VWH1Q0V9SS6FNRD48BYZB9YA9A");
    ("billing_entity_uuid", VStr "M4JT4XQCPWPMW7WGA4G1Z5NGED");
    ("fee_category", VStr "APP_SUB_3P_RETAIL");
    ("fee_code", VStr "BCMPKE5Z10A38.S");
    ("currency", VStr "USD");
    ("effective_date", VDate (mkDate 2017 2 17));
    ("apply_type", VEnum "ApplyType" "PER_ITEM");
    ("per_item_amount", VDecimal (mkDecimal false 99 0));
    ("percentage", VNone);
    ("created_timestamp",
       VDateTime (mkDateTime (mkDate 2025 2 25) 19 5 31 108052));
    ("modified_timestamp",
       VDateTime (mkDateTime (mkDate 2025 2 25) 19 5 31 108052));
    ("audit_id", VNone) ].

(** [fee_rate_4 = FeeRate(...)] *)
Definition fee_rate_4_kwargs : list (string * value) :=
  [ ("id", VInt 173);
    ("uuid", VStr "2G767D60KKG18208768S4C1HM8");
    ("billing_entity_uuid", VStr "8E7KTPHJRBHP16EQB5RS2P8D0Q");
    ("fee_category", VStr "DEVICE_RETAIL");
    ("fee_code", VStr "RegisterPDVT");
    ("currency", VStr "USD");
    ("effective_date", VDate (mkDate 2025 1 1));
    ("apply_type", VEnum "ApplyType" "PER_ITEM");
    ("per_item_amount", VDecimal (mkDecimal false 1995 (-2)));
    ("percentage", VNone);
    ("created_timestamp",
       VDateTime (mkDateTime (mkDate 2025 1 30) 16 38 2 379723));
    ("modified_timestamp",
       VDateTime (mkDateTime (mkDate 2025 1 30) 16 38 33 706835));
    ("audit_id", VStr "STEKRDE0YS244") ].

(** [fee_rate_5 = FeeRate(...)] *)
Definition fee_rate_5_kwargs : list (string * value) :=
  [ ("id", VInt 193);
    ("uuid", VStr "KG9ABT30FRKVX39VRV82CBDKJF");
    ("billing_entity_uuid", VStr "8E7KTPHJRBHP16EQB5RS2P8D0Q");
    ("fee_category", VStr "DEVICE_RETAIL_MOD");
    ("fee_code", VStr "RegisterPDVTIncl1st");
    ("currency", VStr "USD");
    ("effective_date", VDate (mkDate 2025 1 1));
    ("apply_type", VEnum "ApplyType" "PER_ITEM");
    ("per_item_amount", VDecimal (mkDecimal true 1995 (-2)));
    ("percentage", VNone);
    ("created_timestamp",
       VDateTime (mkDateTime (mkDate 2025 1 30) 16 38 2 480183));
    ("modified_timestamp",
       VDateTime (mkDateTime (mkDate 2025 1 30) 16 38 33 706835));
    ("audit_id", VStr "STEKRDE0YS244") ].

(** [fee_rate_6 = FeeRate(...)] *)
Definition fee_rate_6_kwargs : list (string * value) :=
  [ ("id", VInt 169);
    ("uuid", VStr "DF6FE39FRQHVXJKVVN9WTDSGWX");
    ("billing_entity_uuid", VStr "8E7KTPHJRBHP16EQB5RS2P8D0Q");
    ("fee_category", VStr "PLAN_RETAIL");
    ("fee_code", VStr "RegisterPDVT");
    ("currency", VStr "USD");
    ("effective_date", VDate (mkDate 2025 1 1));
    ("apply_type", VEnum "ApplyType" "PER_ITEM");
    ("per_item_amount", VDecimal (mkDecimal false 4995 (-2)));
    ("percentage", VNone);
    ("created_timestamp",
       VDateTime (mkDateTime (mkDate 2025 1 30) 16 38 2 359401));
    ("modified_timestamp",
       VDateTime (mkDateTime (mkDate 2025 1 30) 16 38 33 706835));
    ("audit_id", VStr "STEKRDE0YS244") ].

(** [fee_summary_1 = FeeSummary(...)] *)
Definition fee_summary_1_kwargs : list (string * value) :=
  [ ("id", VInt 74347);
    ("uuid", VStr "K576N1W35XYEVW7VH1JVDY1XRT");
    ("billing_entity_uuid", VStr "JW8H2B9BT6B11R2HHXY3HYQCN6");
    ("billing_date", VDate (mkDate 2025 6 1));
    ("fee_category", VStr "APP_SUB_3P_RETAIL");
    ("fee_code", VStr "MW63DAWPN6JGY.S");
    ("currency", VStr "USD");
    ("total_period_units", VDecimal (mkDecimal false 1 0));
    ("abs_period_units", VDecimal (mkDecimal false 1 0));
    ("total_basis_amount", VDecimal (mkDecimal false 0 0));
    ("abs_basis_amount", VDecimal (mkDecimal false 0 0));
    ("total_fee_amount", VDecimal (mkDecimal false 999 (-2)));
    ("fee_rate_uuid", VStr "J65DRB7XHQQ1RTYJSBSTQQBW7K");
    ("request_uuid", VStr "KNFZA2P2E2KMGKMATSY1RSD8TY");
    ("invoice_info_uuid", VStr "NFX80F4EH68BEW08384RX7RBMC");
    ("fee_code_ledger_account_uuid", VStr "DMW4K1XGB16DAEQ2ZRSJACE1WS");
    ("credit_ledger_account_uuid", VStr "KBERX62EJMWD8KEVFZRX0H875Z");
    ("debit_ledger_account_uuid", VStr "5XNJ7KBDBGNKVRFZYMCZJ6G5E7");
    ("exclude_from_invoice", VInt 0);
    ("created_timestamp",
       VDateTime (mkDateTime (mkDate 2025 6 2) 14 56 15 960436));
    ("modified_timestamp",
       VDateTime (mkDateTime (mkDate 2025 6 2) 15 6 43 387646)) ].

(** [fee_summary_2 = FeeSummary(...)] *)
Definition fee_summary_2_kwargs : list (string * value) :=
  [ ("id", VInt 74345);
    ("uuid", VStr "4FM5SS3WW7WT7GZZWFMSS9YQP6");
    ("billing_entity_uuid", VStr "JW8H2B9BT6B11R2HHXY3HYQCN6");
    ("billing_date", VDate (mkDate 2025 6 1));
    ("fee_category", VStr "APP_SUB_3P_RETAIL");
    ("fee_code", VStr "E2ATEB4GHYFCE.S");
    ("currency", VStr "USD");
    ("total_period_units", VDecimal (mkDecimal false 1 0));
    ("abs_period_units", VDecimal (mkDecimal false 1 0));
    ("total_basis_amount", VDecimal (mkDecimal false 0 0));
    ("abs_basis_amount", VDecimal (mkDecimal false 0 0));
    ("total_fee_amount", VDecimal (mkDecimal false 5999 (-2)));
    ("fee_rate_uuid", VStr "82G1K56V4V17DXXQHGMR3C328W");
    ("request_uuid", VStr "KNFZA2P2E2KMGKMATSY1RSD8TY");
    ("invoice_info_uuid", VStr "NFX80F4EH68BEW08384RX7RBMC");
    ("fee_code_ledger_account_uuid", VStr "2V1BQ7YMC6PJXESE3YA57EW31Q");
    ("credit_ledger_account_uuid", VStr "15WVBBCPN56BD7EGE5STR2R1EW");
    ("debit_ledger_account_uuid", VStr "2MV95DFMWYJ1KZZBGS3HX8F9XN");
    ("exclude_from_invoice", VInt 0);
    ("created_timestamp",
       VDateTime (mkDateTime (mkDate 2025 6 2) 14 56 15 949495));
    ("modified_timestamp",
       VDateTime (mkDateTime (mkDate 2025 6 2) 15 6 43 387646)) ].

(** [fee_summary_3 = FeeSummary(...)] *)
Definition fee_summary_3_kwargs : list (string * value) :=
  [ ("id", VInt 74341);
    ("uuid", VStr "MH2Q9759T1FKMP887PMRQFMV9R");
    ("billing_entity_uuid", VStr "JW8H2B9BT6B11R2HHXY3HYQCN6");
    ("billing_date", VDate (mkDate 2025 6 1));
    ("fee_category", VStr "APP_SUB_3P_RETAIL");
    ("fee_code", VStr "BCMPKE5Z10A38.S");
    ("currency", VStr "USD");
    ("total_period_units", VDecimal (mkDecimal false 1 0));
    ("abs_period_units", VDecimal (mkDecimal false 1 0));
    ("total_basis_amount", VDecimal (mkDecimal false 0 0));
    ("abs_basis_amount", VDecimal (mkDecimal false 0 0));
    ("total_fee_amount", VDecimal (mkDecimal false 99 0));
    ("fee_rate_uuid", VStr "VWH1Q0V9SS6FNRD48BYZB9YA9A");
    ("request_uuid", VStr "KNFZA2P2E2KMGKMATSY1RSD8TY");
    ("invoice_info_uuid", VStr "NFX80F4EH68BEW08384RX7RBMC");
    ("fee_code_ledger_account_uuid", VStr "AHZXC23GACNTQNYCX9S14PG914");
    ("credit_ledger_account_uuid", VStr "7FQZ30FPEWWM5MV65RY0ZB5D3G");
    ("debit_ledger_account_uuid", VStr "9X9TF60JDBMZQ7A0FHHK7E14W3");
    ("exclude_from_invoice", VInt 0);
    ("created_timestamp",
       VDateTime (mkDateTime (mkDate 2025 6 2) 14 56 15 922833));
    ("modified_timestamp",
       VDateTime (mkDateTime (mkDate 2025 6 2) 15 6 43 387646)) ].

(** [fee_summary_4 = FeeSummary(...)] *)
Definition fee_summary_4_kwargs : list (string * value) :=
  [ ("id", VInt 74349);
    ("uuid", VStr "VC74T4AJ9R5X148DSRS95R5PF3");
    ("billing_entity_uuid", VStr "JW8H2B9BT6B11R2HHXY3HYQCN6");
    ("billing_date", VDate (mkDate 2025 6 1));
    ("fee_category", VStr "DEVICE_RETAIL");
    ("fee_code", VStr "RegisterPDVT");
    ("currency", VStr "USD");
    ("total_period_units", VDecimal (mkDecimal false 3 0));
    ("abs_period_units", VDecimal (mkDecimal false 3 0));
    ("total_basis_amount", VDecimal (mkDecimal false 0 0));
    ("abs_basis_amount", VDecimal (mkDecimal false 0 0));
    ("total_fee_amount", VDecimal (mkDecimal false 5985 (-2)));
    ("fee_rate_uuid", VStr "2G767D60KKG18208768S4C1HM8");
    ("request_uuid", VStr "KNFZA2P2E2KMGKMATSY1RSD8TY");
    ("invoice_info_uuid", VStr "NFX80F4EH68BEW08384RX7RBMC");
    ("fee_code_ledger_account_uuid", VStr "JZ4Q82HKC14JDAE8YYZZYWKB0X");
    ("credit_ledger_account_uuid", VStr "HSMJRPH5WVCCV4WKW04CX6ZJG5");
    ("debit_ledger_account_uuid", VStr "62PXBE9JK6QXA65WHY3G5G0K01");
    ("exclude_from_invoice", VInt 0);
    ("created_timestamp",
       VDateTime (mkDateTime (mkDate 2025 6 2) 14 56 15 973521));
    ("modified_timestamp",
       VDateTime (mkDateTime (mkDate 2025 6 2) 15 6 43 387646)) ].

(** [fee_summary_5 = FeeSummary(...)] *)
Definition fee_summary_5_kwargs : list (string * value) :=
  [ ("id", VInt 74350);
    ("uuid", VStr "9VEDCKTVN2PTAYAQ8TCQV3ZNGZ");
    ("billing_entity_uuid", VStr "JW8H2B9BT6B11R2HHXY3HYQCN6");
    ("billing_date", VDate (mkDate 2025 6 1));
    ("fee_category", VStr "DEVICE_RETAIL_MOD");
    ("fee_code", VStr "RegisterPDVTIncl1st");
    ("currency", VStr "USD");
    ("total_period_units", VDecimal (mkDecimal false 1 0));
    ("abs_period_units", VDecimal (mkDecimal false 1 0));
    ("total_basis_amount", VDecimal (mkDecimal false 0 0));
    ("abs_basis_amount", VDecimal (mkDecimal false 0 0));
    ("total_fee_amount", VDecimal (mkDecimal true 1995 (-2)));
    ("fee_rate_uuid", VStr "KG9ABT30FRKVX39VRV82CBDKJF");
    ("request_uuid", VStr "KNFZA2P2E2KMGKMATSY1RSD8TY");
    ("invoice_info_uuid", VStr "NFX80F4EH68BEW08384RX7RBMC");
    ("fee_code_ledger_account_uuid", VStr "H1HH56GWY4VWTDP6VQ3977EKNG");
    ("credit_ledger_account_uuid", VStr "2SNQPEXR2T0PX6Y36NWQSRZNRJ");
    ("debit_ledger_account_uuid", VStr "62PXBE9JK6QXA65WHY3G5G0K01");
    ("exclude_from_invoice", VInt 0);
    ("created_timestamp",
       VDateTime (mkDateTime (mkDate 2025 6 2) 14 56 15 979936));
    ("modified_timestamp",
       VDateTime (mkDateTime (mkDate 2025 6 2) 15 6 43 387646)) ].

(** [fee_summary_6 = FeeSummary(...)] *)
Definition fee_summary_6_kwargs : list (string * value) :=
  [ ("id", VInt 74351);
    ("uuid", VStr "FD7GD3YK93ZZS4C1DA6C7W9AER");
    ("billing_entity_uuid", VStr "JW8H2B9BT6B11R2HHXY3HYQCN6");
    ("billing_date", VDate (mkDate 2025 6 1));
    ("fee_category", VStr "PLAN_RETAIL");
    ("fee_code", VStr "RegisterPDVT");
    ("currency", VStr "USD");
    ("total_period_units", VDecimal (mkDecimal false 1 0));
    ("abs_period_units", VDecimal (mkDecimal false 1 0));
    ("total_basis_amount", VDecimal (mkDecimal false 0 0));
    ("abs_basis_amount", VDecimal (mkDecimal false 0 0));
    ("total_fee_amount", VDecimal (mkDecimal false 4995 (-2)));
    ("fee_rate_uuid", VStr "DF6FE39FRQHVXJKVVN9WTDSGWX");
    ("request_uuid", VStr "KNFZA2P2E2KMGKMATSY1RSD8TY");
    ("invoice_info_uuid", VStr "NFX80F4EH68BEW08384RX7RBMC");
    ("fee_code_ledger_account_uuid", VStr "GCCQKS6H40NBQKS6KC4F31WAZY");
    ("credit_ledger_account_uuid", VStr "HSMJRPH5WVCCV4WKW04CX6ZJG5");
    ("debit_ledger_account_uuid", VStr "62PXBE9JK6QXA65WHY3G5G0K01");
    ("exclude_from_invoice", VInt 0);
    ("created_timestamp",
       VDateTime (mkDateTime (mkDate 2025 6 2) 14 56 15 987500));
    ("modified_timestamp",
       VDateTime (mkDateTime (mkDate 2025 6 2) 15 6 43 387646)) ].

(** [settlement_1 = Settlement(...)] *)
Definition settlement_1_kwargs : list (string * value) :=
  [ ("id", VInt 6256);
    ("uuid", VStr "NH8V7V2V0CQ0BWCTGVN6QBV753");
    ("settlement_date", VDate (mkDate 2025 6 1));
    ("billing_entity_uuid", VStr "JW8H2B9BT6B11R2HHXY3HYQCN6");
    ("entity_uuid", VStr "062X8PVY3XWB1");
    ("alternate_id", VStr "209225173886");
    ("payable_receivable", VStr "RECEIVABLE");
    ("currency", VStr "USD");
    ("total_amount", VDecimal (mkDecimal false 999 (-2)));
    ("fee_amount", VDecimal (mkDecimal false 999 (-2)));
    ("tax1_amount", VDecimal (mkDecimal false 0 0));
    ("tax2_amount", VDecimal (mkDecimal false 0 0));
    ("tax3_amount", VDecimal (mkDecimal false 0 0));
    ("tax4_amount", VDecimal (mkDecimal false 0 0));
    ("lookup_ledger_account_key", VStr "Incur.App.E8HJHPCT8AR08");
    ("gl_code", VNone);
    ("item_code", VStr "E8HJHPCT8AR08");
    ("last_invoice_num", VStr "202506/000006200");
    ("request_uuid", VStr "CQ95HJ649AXSDG6RF4Z71Z8ATD");
    ("created_timestamp",
       VDateTime (mkDateTime (mkDate 2025 6 2) 16 9 51 666639));
    ("modified_timestamp",
       VDateTime (mkDateTime (mkDate 2025 6 2) 16 9 52 0)) ].

(** [settlement_2 = Settlement(...)] *)
Definition settlement_2_kwargs : list (string * value) :=
  [ ("id", VInt 6255);
    ("uuid", VStr "GGG15XMEK13KN6ARGV2F5EXMKT");
    ("settlement_date", VDate (mkDate 2025 6 1));
    ("billing_entity_uuid", VStr "JW8H2B9BT6B11R2HHXY3HYQCN6");
    ("entity_uuid", VStr "062X8PVY3XWB1");
    ("alternate_id", VStr "209225173886");
    ("payable_receivable", VStr "RECEIVABLE");
    ("currency", VStr "USD");
    ("total_amount", VDecimal (mkDecimal false 5999 (-2)));
    ("fee_amount", VDecimal (mkDecimal false 5999 (-2)));
    ("tax1_amount", VDecimal (mkDecimal false 0 0));
    ("tax2_amount", VDecimal (mkDecimal false 0 0));
    ("tax3_amount", VDecimal (mkDecimal false 0 0));
    ("tax4_amount", VDecimal (mkDecimal false 0 0));
    ("lookup_ledger_account_key", VStr "Incur.App.38NB0ETSWWP6C");
    ("gl_code", VNone);
    ("item_code", VStr "38NB0ETSWWP6C");
    ("last_invoice_num", VStr "202506/000006200");
    ("request_uuid", VStr "CQ95HJ649AXSDG6RF4Z71Z8ATD");
    ("created_timestamp",
       VDateTime (mkDateTime (mkDate 2025 6 2) 16 9 51 641654));
    ("modified_timestamp",
       VDateTime (mkDateTime (mkDate 2025 6 2) 16 9 52 0)) ].

(** [settlement_3 = Settlement(...)] *)
Definition settlement_3_kwargs : list (string * value) :=
  [ ("id", VInt 6257);
    ("uuid", VStr "8FNKVQ3SSHT2N7AVW3KH8DS00R");
    ("settlement_date", VDate (mkDate 2025 6 1));
    ("billing_entity_uuid", VStr "JW8H2B9BT6B11R2HHXY3HYQCN6");
    ("entity_uuid", VStr "062X8PVY3XWB1");
    ("alternate_id", VStr "209225173886");
    ("payable_receivable", VStr "RECEIVABLE");
    ("currency", VStr "USD");
    ("total_amount", VDecimal (mkDecimal false 99 0));
    ("fee_amount", VDecimal (mkDecimal false 99 0));
    ("tax1_amount", VDecimal (mkDecimal false 0 0));
    ("tax2_amount", VDecimal (mkDecimal false 0 0));
    ("tax3_amount", VDecimal (mkDecimal false 0 0));
    ("tax4_amount", VDecimal (mkDecimal false 0 0));
    ("lookup_ledger_account_key", VStr "Incur.App.VX7BFWEXXQ1CW");
    ("gl_code", VStr "51501");
    ("item_code", VStr "VX7BFWEXXQ1CW");
    ("last_invoice_num", VStr "202506/000006200");
    ("request_uuid", VStr "CQ95HJ649AXSDG6RF4Z71Z8ATD");
    ("created_timestamp",
       VDateTime (mkDateTime (mkDate 2025 6 2) 16 9 51 683242));
    ("modified_timestamp",
       VDateTime (mkDateTime (mkDate 2025 6 2) 16 9 52 0)) ].

(** [settlement_4 = Settlement(...)] *)
Definition settlement_4_kwargs : list (string * value) :=
  [ ("id", VInt 6258);
    ("uuid", VStr "VS6EVR8GK3AWAKV8SAK4HJFC77");
    ("settlement_date", VDate (mkDate 2025 6 1));
    ("billing_entity_uuid", VStr "JW8H2B9BT6B11R2HHXY3HYQCN6");
    ("entity_uuid", VStr "062X8PVY3XWB1");
    ("alternate_id", VStr "209225173886");
    ("payable_receivable", VStr "RECEIVABLE");
    ("currency", VStr "USD");
    ("total_amount", VDecimal (mkDecimal false 8985 (-2)));
    ("fee_amount", VDecimal (mkDecimal false 8985 (-2)));
    ("tax1_amount", VDecimal (mkDecimal false 0 0));
    ("tax2_amount", VDecimal (mkDecimal false 0 0));
    ("tax3_amount", VDecimal (mkDecimal false 0 0));
    ("tax4_amount", VDecimal (mkDecimal false 0 0));
    ("lookup_ledger_account_key", VStr "Incur.Plan");
    ("gl_code", VStr "51505");
    ("item_code", VStr "V20071.0000");
    ("last_invoice_num", VStr "202506/000006200");
    ("request_uuid", VStr "CQ95HJ649AXSDG6RF4Z71Z8ATD");
    ("created_timestamp",
       VDateTime (mkDateTime (mkDate 2025 6 2) 16 9 51 700076));
    ("modified_timestamp",
       VDateTime (mkDateTime (mkDate 2025 6 2) 16 9 52 0)) ].



(** [data[key]] *)
Definition getitem {V} (data : list (string * V)) (key : string)
  : result exception V :=
  match lookup key data with
  | Some v => Ok v
  | None => Err (KeyError key)
  end.

Definition leaf_dict (d : list (string * value)) : pyobj :=
  ODict (map (fun kv => (fst kv, OVal (snd kv))) d).

(** Create node data with minimal and others separation. *)
Definition create_node_data (pydantic_obj : instance) (table_name : string)
  : attrs :=
  let full_dict := model_dump pydantic_obj in
  let minimal_dict := to_minimal_dict pydantic_obj in
  let others_dict :=
    filter (fun kv => negb (mem (fst kv) (keys minimal_dict))) full_dict in
  [ ("table", OVal (VStr table_name));
    ("minimal", leaf_dict minimal_dict);
    ("others", leaf_dict others_dict) ].

(** [G.add_node(node_id, **create_node_data(data[key], table))] *)
Definition add_data_node (node_id : string) (data : list (string * instance))
    (key table : string) (G : DiGraph) : result exception DiGraph :=
  obj <- getitem data key ;;
  Ok (add_node node_id (create_node_data obj table) G).

Definition newline : string := String (ascii_of_N 10) "".

(** [print(s)] appends this text to standard output. *)
Definition print (s : string) : string := s ++ newline.

(** [node_entry = {"id": node_id}; node_entry.update(node_data)] *)
Definition node_entry (nd : string * attrs) : pyobj :=
  ODict (dict_update [("id", OVal (VStr (fst nd)))] (snd nd)).

(** [{"source": source, "target": target}] *)
Definition edge_entry (e : string * string) : pyobj :=
  ODict [ ("source", OVal (VStr (fst e))); ("target", OVal (VStr (snd e))) ].

(** Serialize NetworkX graph to JSON format: the [graph_data] dict. *)
Definition graph_data (G : DiGraph) : pyobj :=
  ODict [ ("nodes", OList (map node_entry (nodes_data G)));
          ("edges", OList (map edge_entry (edges G))) ].

Definition serialize_graph (G : DiGraph) : string := dumps (graph_data G).

Section Main.

(** The class [InvoiceInfo] that [main.py] imports from
    [demo.models.ebb.invoice_info]; that module is not among the sources. *)
Variable InvoiceInfo : model.

(** [str(e)] of an exception. *)
Variable exception_str : exception -> string.

(** Create Pydantic objects directly with data.  [now] is the wall clock
    that a [default_factory] reads during the call. *)
Definition create_pydantic_objects (now : datetime)
  : result exception (list (string * instance)) :=
  merchant_billing_entity <-
    lift (model_construct now BillingEntity merchant_billing_entity_kwargs) ;;
  clover_billing_entity <-
    lift (model_construct now BillingEntity clover_billing_entity_kwargs) ;;
  us_support_billing_entity <-
    lift (model_construct now BillingEntity us_support_billing_entity_kwargs) ;;
  invoice_info <-
    lift (model_construct now InvoiceInfo invoice_info_kwargs) ;;
  fee_rate_1 <-
    lift (model_construct now FeeRate fee_rate_1_kwargs) ;;
  fee_rate_2 <-
    lift (model_construct now FeeRate fee_rate_2_kwargs) ;;
  fee_rate_3 <-
    lift (model_construct now FeeRate fee_rate_3_kwargs) ;;
  fee_rate_4 <-
    lift (model_construct now FeeRate fee_rate_4_kwargs) ;;
  fee_rate_5 <-
    lift (model_construct now FeeRate fee_rate_5_kwargs) ;;
  fee_rate_6 <-
    lift (model_construct now FeeRate fee_rate_6_kwargs) ;;
  fee_summary_1 <-
    lift (model_construct now FeeSummary fee_summary_1_kwargs) ;;
  fee_summary_2 <-
    lift (model_construct now FeeSummary fee_summary_2_kwargs) ;;
  fee_summary_3 <-
    lift (model_construct now FeeSummary fee_summary_3_kwargs) ;;
  fee_summary_4 <-
    lift (model_construct now FeeSummary fee_summary_4_kwargs) ;;
  fee_summary_5 <-
    lift (model_construct now FeeSummary fee_summary_5_kwargs) ;;
  fee_summary_6 <-
    lift (model_construct now FeeSummary fee_summary_6_kwargs) ;;
  settlement_1 <-
    lift (model_construct now Settlement settlement_1_kwargs) ;;
  settlement_2 <-
    lift (model_construct now Settlement settlement_2_kwargs) ;;
  settlement_3 <-
    lift (model_construct now Settlement settlement_3_kwargs) ;;
  settlement_4 <-
    lift (model_construct now Settlement settlement_4_kwargs) ;;
  Ok [ ("merchant_billing_entity", merchant_billing_entity);
       ("clover_billing_entity", clover_billing_entity);
       ("us_support_billing_entity", us_support_billing_entity);
       ("invoice_info", invoice_info);
       ("fee_rate_1", fee_rate_1);
       ("fee_rate_2", fee_rate_2);
       ("fee_rate_3", fee_rate_3);
       ("fee_rate_4", fee_rate_4);
       ("fee_rate_5", fee_rate_5);
       ("fee_rate_6", fee_rate_6);
       ("fee_summary_1", fee_summary_1);
       ("fee_summary_2", fee_summary_2);
       ("fee_summary_3", fee_summary_3);
       ("fee_summary_4", fee_summary_4);
       ("fee_summary_5", fee_summary_5);
       ("fee_summary_6", fee_summary_6);
       ("settlement_1", settlement_1);
       ("settlement_2", settlement_2);
       ("settlement_3", settlement_3);
       ("settlement_4", settlement_4) ].

(** Create NetworkX graph from the Pydantic objects. *)
Definition create_graph (now : datetime) : result exception DiGraph :=
  let G := Nx.empty in
  data <- create_pydantic_objects now ;;
  G <- add_data_node "billing_entity_merchant" data "merchant_billing_entity" "billing_entity" G ;;
  G <- add_data_node "billing_entity_clover" data "clover_billing_entity" "billing_entity" G ;;
  G <- add_data_node "billing_entity_us_support" data "us_support_billing_entity" "billing_entity" G ;;
  G <- add_data_node "invoice_info_1" data "invoice_info" "invoice_info" G ;;
  G <- add_data_node "fee_rate_1" data "fee_rate_1" "fee_rate" G ;;
  G <- add_data_node "fee_rate_2" data "fee_rate_2" "fee_rate" G ;;
  G <- add_data_node "fee_rate_3" data "fee_rate_3" "fee_rate" G ;;
  G <- add_data_node "fee_rate_4" data "fee_rate_4" "fee_rate" G ;;
  G <- add_data_node "fee_rate_5" data "fee_rate_5" "fee_rate" G ;;
  G <- add_data_node "fee_rate_6" data "fee_rate_6" "fee_rate" G ;;
  G <- add_data_node "fee_summary_1" data "fee_summary_1" "fee_summary" G ;;
  G <- add_data_node "fee_summary_2" data "fee_summary_2" "fee_summary" G ;;
  G <- add_data_node "fee_summary_3" data "fee_summary_3" "fee_summary" G ;;
  G <- add_data_node "fee_summary_4" data "fee_summary_4" "fee_summary" G ;;
  G <- add_data_node "fee_summary_5" data "fee_summary_5" "fee_summary" G ;;
  G <- add_data_node "fee_summary_6" data "fee_summary_6" "fee_summary" G ;;
  G <- add_data_node "settlement_1" data "settlement_1" "settlement" G ;;
  G <- add_data_node "settlement_2" data "settlement_2" "settlement" G ;;
  G <- add_data_node "settlement_3" data "settlement_3" "settlement" G ;;
  G <- add_data_node "settlement_4" data "settlement_4" "settlement" G ;;
  let G := add_edge "billing_entity_merchant" "invoice_info_1" G in
  let G := add_edges_from
    [ ("invoice_info_1", "fee_rate_1");
      ("invoice_info_1", "fee_rate_2");
      ("invoice_info_1", "fee_rate_3");
      ("invoice_info_1", "fee_rate_4");
      ("invoice_info_1", "fee_rate_5");
      ("invoice_info_1", "fee_rate_6") ] G in
  let G := add_edges_from
    [ ("fee_rate_1", "fee_summary_1");
      ("fee_rate_2", "fee_summary_2");
      ("fee_rate_3", "fee_summary_3");
      ("fee_rate_4", "fee_summary_4");
      ("fee_rate_5", "fee_summary_5");
      ("fee_rate_6", "fee_summary_6") ] G in
  let G := add_edges_from
    [ ("fee_summary_1", "settlement_1");
      ("fee_summary_2", "settlement_2");
      ("fee_summary_3", "settlement_3");
      ("fee_summary_4", "settlement_4");
      ("fee_summary_5", "settlement_4");
      ("fee_summary_6", "settlement_4") ] G in
  let G := add_edges_from
    [ ("settlement_1", "billing_entity_clover");
      ("settlement_1", "billing_entity_us_support");
      ("settlement_2", "billing_entity_clover");
      ("settlement_2", "billing_entity_us_support");
      ("settlement_3", "billing_entity_clover");
      ("settlement_3", "billing_entity_us_support");
      ("settlement_4", "billing_entity_clover");
      ("settlement_4", "billing_entity_us_support") ] G in
  Ok G.

(** Main entry point for the graph demo CLI: the text written to
    standard output and the value returned. *)
Definition main (now : datetime) : string * Z :=
  match
    (graph <- create_graph now ;;
     let serialized_graph := serialize_graph graph in
     Ok serialized_graph)
  with
  | Ok serialized_graph => (print serialized_graph, 0%Z)
  | Err e => (print ("Error: " ++ exception_str e), 1%Z)
  end.

(** The block [if __name__ == "__main__": main()]: the text written to
    standard output and the exit status of the interpreter.  The value
    that [main()] returns is not used, and the module ends normally. *)
Definition run_as_script (now : datetime) : string * Z :=
  let (out, _) := main now in (out, 0%Z).

End Main.

(** Modelled from the spec: the entity [InvoiceInfo] of
    [demo/models/ebb/invoice_info.py], which is not among the sources.
    An entity is a record with a numeric identifier, a unique string
    identifier, string references to other entities and typed
    attributes; the attributes here are the ones that
    [create_pydantic_objects] passes, with the constraints that
    [InvoiceInfoMutation] declares for the same columns, and the minimal
    set is the one of [InvoiceInfoMutation] without its mutation tag.
    It instantiates the variable [InvoiceInfo] where a concrete class is
    needed. *)
Definition InvoiceInfo_model : model :=
  mkModel "InvoiceInfo"
    [ mkField "id" (TInt (Some 0%Z) None) false Required;
      mkField "uuid" (TStr (Some 26%nat)) false Required;
      mkField "billing_entity_uuid" (TStr (Some 26%nat)) false Required;
      mkField "entity_uuid" (TStr (Some 13%nat)) false Required;
      mkField "alternate_id" (TStr (Some 25%nat)) true (Default VNone);
      mkField "billing_date" TDate false Required;
      mkField "invoice_num" (TStr (Some 30%nat)) false Required;
      mkField "currency" (TStr (Some 3%nat)) false Required;
      mkField "total_amount" (TDecimal (Some 12%N) (Some 3%N)) false Required;
      mkField "document_uuid" (TStr (Some 26%nat)) true (Default VNone);
      mkField "request_uuid" (TStr (Some 26%nat)) true (Default VNone);
      mkField "created_timestamp" TDateTime false DefaultFactoryNow ]
    [ "billing_date"; "invoice_num"; "currency"; "total_amount" ]
    true.

(** Modelled from the spec: a variant of [InvoiceInfo_model] that also
    has the modification timestamp of the generic entity, declared
    without a default as [FeeSummary] declares it.  The call in
    [create_pydantic_objects] does not pass it. *)
Definition InvoiceInfo_strict : model :=
  mkModel "InvoiceInfo"
    (model_fields InvoiceInfo_model
       ++ [ mkField "modified_timestamp" TDateTime false Required ])%list
    (MINIMAL_FIELDS InvoiceInfo_model)
    true.

(** Modelled from the spec: a variant of [InvoiceInfo_model] whose
    modification timestamp defaults to the time of construction, as
    [BillingEntity], [FeeRate] and [Settlement] declare it. *)
Definition InvoiceInfo_clocked : model :=
  mkModel "InvoiceInfo"
    (model_fields InvoiceInfo_model
       ++ [ mkField "modified_timestamp" TDateTime false DefaultFactoryNow ])%list
    (MINIMAL_FIELDS InvoiceInfo_model)
    true.

(** A rendering of exceptions for the examples: the model's name and
    the number of failing fields, or the missing key. *)
Definition exception_summary (e : exception) : string :=
  match e with
  | ValidationErr v =>
      str_N (N.of_nat (List.length (ve_errors v)))
      ++ " validation error(s) for " ++ ve_title v
  | KeyError k => "'" ++ k ++ "'"
  end.

(** Two readings of the wall clock. *)
Definition clock_1 : datetime := mkDateTime (mkDate 2026 1 2) 3 4 5 6.
Definition clock_2 : datetime := mkDateTime (mkDate 2026 1 2) 3 4 5 7.

End Demo.

(* ================================================================== *)
(** * Notions used to state the properties *)

Module Props.
Import Py Pydantic Ebb Nx Json Demo.

(** ** Models *)

Definition field_names (m : model) : list string :=
  map fname (model_fields m).


Fixpoint distinct (l : list string) : bool :=
  match l with
  | [] => true
  | x :: l' => negb (mem x l') && distinct l'
  end.

Definition is_bytes (t : ftype) : bool :=
  match t with TBytes => true | _ => false end.

(** The model has an attribute of type [bytes]. *)
Definition has_bytes (m : model) : bool :=
  existsb (fun f => is_bytes (ftyp f)) (model_fields m).

(** The declared default of a field is a value that the field itself
    reads back from its JSON form: a constant of the kinds that the
    models use, or the clock for a timestamp field. *)
Definition default_valid (f : field) : bool :=
  match fdflt f with
  | Required => true
  | Default v =>
      match validate_field f (to_jsonable v) with
      | Ok v' =>
          match v, v' with
          | VNone, VNone => true
          | VInt a, VInt b => (a =? b)%Z
          | VStr a, VStr b => String.eqb a b
          | VEnum c a, VEnum c' b => String.eqb c c' && String.eqb a b
          | VDecimal a, VDecimal b =>
              Bool.eqb (d_sign a) (d_sign b) && (d_int a =? d_int b)%N
              && (d_exp a =? d_exp b)%Z
          | _, _ => false
          end
      | Err _ => false
      end
  | DefaultFactoryNow =>
      match ftyp f with TDateTime => true | _ => false end
  end.

Definition well_declared (m : model) : bool :=
  distinct (field_names m) && forallb default_valid (model_fields m).


(** All required fields are present and every value given for a field
    is one that the field accepts. *)
Definition acceptable (m : model) (kwargs : list (string * value)) : bool :=
  forallb
    (fun f =>
       match lookup (fname f) kwargs with
       | Some v => is_ok (validate_field f v)
       | None => match fdflt f with Required => false | _ => true end
       end)
    (model_fields m).


(** Constructing [m] from [kwargs] calls [datetime.datetime.now]: some
    field with that default factory is not among the keywords. *)
Definition reads_clock (m : model) (kwargs : list (string * value)) : bool :=
  existsb
    (fun f =>
       match fdflt f with
       | DefaultFactoryNow => negb (mem (fname f) (keys kwargs))
       | _ => false
       end)
    (model_fields m).



(** The text consists of decimal digits. *)
Fixpoint all_digits (s : string) : bool :=
  match s with
  | "" => true
  | String c s' =>
      match digit_val c with Some _ => all_digits s' | None => false end
  end.



(** The entry [k] of the dict [name] ([minimal] or [others]) of the node
    data of [o]. *)
Definition bucket (name : string) (o : instance) (table k : string)
  : option pyobj :=
  match lookup name (create_node_data o table) with
  | Some (ODict d) => lookup k d
  | _ => None
  end.

(** ** Graphs *)

(** A graph-building call. *)
Inductive op : Type :=
| AddNode (n : string) (attr : attrs)
| AddEdge (u v : string).

Definition run_op (G : DiGraph) (o : op) : DiGraph :=
  match o with
  | AddNode n attr => add_node n attr G
  | AddEdge u v => add_edge u v G
  end.

(** The graph that a sequence of calls builds from [nx.DiGraph()]. *)
Definition build (ops : list op) : DiGraph := fold_left run_op ops Nx.empty.

(** The nodes that the calls name, in call order. *)
Definition named_nodes (ops : list op) : list string :=
  flat_map
    (fun o => match o with AddNode n _ => [n] | AddEdge u v => [u; v] end)
    ops.

(** The edges that the calls add, in call order. *)
Definition added_edges (ops : list op) : list (string * string) :=
  flat_map
    (fun o => match o with AddNode _ _ => [] | AddEdge u v => [(u, v)] end)
    ops.

Definition edge_eqb (e1 e2 : string * string) : bool :=
  String.eqb (fst e1) (fst e2) && String.eqb (snd e1) (snd e2).

(** A list without its repetitions, each element at the place of its
    first occurrence: the order of first insertion. *)
Fixpoint first_occurrences {A} (eqb : A -> A -> bool) (seen l : list A)
  : list A :=
  match l with
  | [] => []
  | x :: l' =>
      if existsb (eqb x) seen then first_occurrences eqb seen l'
      else x :: first_occurrences eqb (seen ++ [x])%list l'
  end.

Definition insertion_order_nodes (ops : list op) : list string :=
  first_occurrences String.eqb [] (named_nodes ops).

Definition insertion_order_edges (ops : list op) : list (string * string) :=
  first_occurrences edge_eqb [] (added_edges ops).

(** The edges grouped by source: for every node in insertion order, the
    edges that leave it in insertion order. *)
Definition edges_by_source (ops : list op) : list (string * string) :=
  flat_map
    (fun n => filter (fun e => String.eqb (fst e) n) (insertion_order_edges ops))
    (insertion_order_nodes ops).

Definition successors (G : DiGraph) (n : string) : list string :=
  map snd (filter (fun e => String.eqb (fst e) n) (edges G)).

Definition predecessors (G : DiGraph) (n : string) : list string :=
  map fst (filter (fun e => String.eqb (snd e) n) (edges G)).

(** The [table] attribute of a node. *)
Definition table_of (G : DiGraph) (n : string) : option string :=
  match lookup n (g_node G) with
  | Some a =>
      match lookup "table" a with
      | Some (OVal (VStr t)) => Some t
      | _ => None
      end
  | None => None
  end.

(** The edges from a node of table [s] to a node of table [t]. *)
Definition edges_between (G : DiGraph) (s t : string)
  : list (string * string) :=
  filter
    (fun e =>
       match table_of G (fst e), table_of G (snd e) with
       | Some s', Some t' => String.eqb s s' && String.eqb t t'
       | _, _ => false
       end)
    (edges G).

(** There is an edge from [u] to [v]. *)
Definition edge (G : DiGraph) (u v : string) : Prop := In (u, v) (edges G).

(** There is a path of one edge or more from [u] to [v]. *)
Definition path (G : DiGraph) : string -> string -> Prop :=
  clos_trans_1n string (edge G).

(** The stage of a node of the sample graph in the flow
    billing entity, invoice, fee rate, fee summary, settlement,
    downstream billing entity. *)
Definition stage (n : string) : nat :=
  if String.eqb n "billing_entity_merchant" then 0
  else if String.eqb n "invoice_info_1" then 1
  else if mem n ["fee_rate_1"; "fee_rate_2"; "fee_rate_3";
                 "fee_rate_4"; "fee_rate_5"; "fee_rate_6"] then 2
  else if mem n ["fee_summary_1"; "fee_summary_2"; "fee_summary_3";
                 "fee_summary_4"; "fee_summary_5"; "fee_summary_6"] then 3
  else if mem n ["settlement_1"; "settlement_2"; "settlement_3";
                 "settlement_4"] then 4
  else 5.

(** The edges that [create_graph] adds, in the order of its calls. *)
Definition sample_edges : list (string * string) :=
  [ ("billing_entity_merchant", "invoice_info_1");
    ("invoice_info_1", "fee_rate_1"); ("invoice_info_1", "fee_rate_2");
    ("invoice_info_1", "fee_rate_3"); ("invoice_info_1", "fee_rate_4");
    ("invoice_info_1", "fee_rate_5"); ("invoice_info_1", "fee_rate_6");
    ("fee_rate_1", "fee_summary_1"); ("fee_rate_2", "fee_summary_2");
    ("fee_rate_3", "fee_summary_3"); ("fee_rate_4", "fee_summary_4");
    ("fee_rate_5", "fee_summary_5"); ("fee_rate_6", "fee_summary_6");
    ("fee_summary_1", "settlement_1"); ("fee_summary_2", "settlement_2");
    ("fee_summary_3", "settlement_3"); ("fee_summary_4", "settlement_4");
    ("fee_summary_5", "settlement_4"); ("fee_summary_6", "settlement_4");
    ("settlement_1", "billing_entity_clover");
    ("settlement_1", "billing_entity_us_support");
    ("settlement_2", "billing_entity_clover");
    ("settlement_2", "billing_entity_us_support");
    ("settlement_3", "billing_entity_clover");
    ("settlement_3", "billing_entity_us_support");
    ("settlement_4", "billing_entity_clover");
    ("settlement_4", "billing_entity_us_support") ].

(** The nodes that [create_graph] adds, in the order of its calls. *)
Definition sample_nodes : list string :=
  [ "billing_entity_merchant"; "billing_entity_clover";
    "billing_entity_us_support"; "invoice_info_1";
    "fee_rate_1"; "fee_rate_2"; "fee_rate_3";
    "fee_rate_4"; "fee_rate_5"; "fee_rate_6";
    "fee_summary_1"; "fee_summary_2"; "fee_summary_3";
    "fee_summary_4"; "fee_summary_5"; "fee_summary_6";
    "settlement_1"; "settlement_2"; "settlement_3"; "settlement_4" ].

(** ** Notions for the proof that a built graph lists its nodes and
    edges in the stated order *)

(** [l] with [x] appended unless it is there already. *)
Definition add_new {A} (eqb : A -> A -> bool) (x : A) (l : list A) : list A :=
  if existsb (eqb x) l then l else (l ++ [x])%list.

(** The targets of the edges of [E] that leave [n]. *)
Definition out (E : list (string * string)) (n : string) : list string :=
  map snd (filter (fun e => String.eqb (fst e) n) E).

(** The successor lists of a graph without the edge attributes. *)
Definition adjacency (G : DiGraph) : list (string * list string) :=
  map (fun nn => (fst nn, keys (snd nn))) (g_succ G).

(** The effect of one call on the nodes and on the edges in order of
    first insertion. *)
Definition step_nodes (N : list string) (o : op) : list string :=
  match o with
  | AddNode n _ => add_new String.eqb n N
  | AddEdge u v => add_new String.eqb v (add_new String.eqb u N)
  end.

Definition step_edges (E : list (string * string)) (o : op)
  : list (string * string) :=
  match o with
  | AddNode _ _ => E
  | AddEdge u v => add_new edge_eqb (u, v) E
  end.

(** What relates a graph to the nodes [N] and the edges [E] inserted so
    far, each in order of first insertion. *)
Definition represents (G : DiGraph) (N : list string)
    (E : list (string * string)) : Prop :=
  keys (g_node G) = N
  /\ adjacency G = map (fun n => (n, out E n)) N
  /\ NoDup N
  /\ (forall e, In e E -> In (fst e) N).

(** A graph with three edges added in an order that is not the order of
    their sources. *)
Definition triangle_ops : list op :=
  [ AddEdge "a" "b"; AddEdge "b" "c"; AddEdge "a" "c" ].

(** A [LookData] whose payload is the single byte [0xff], which is not
    UTF-8. *)
Definition look_data_kwargs : list (string * value) :=
  [ ("id", VInt 1);
    ("look_uuid", VStr "01H8X7Y7Z7QWERTYUIOPASDFGHJKLMNP");
    ("payload", VBytes (String (ascii_of_N 255) ""));
    ("created_timestamp",
       VDateTime (mkDateTime (mkDate 2023 10 27) 10 0 0 123456)) ].

(** The example of [fee_rate.py] ([json_schema_extra]) with the amount
    ["9.99"]: every value is given as the text that JSON carries. *)
Definition fee_rate_example : list (string * value) :=
  [ ("id", VInt 1);
    ("uuid", VStr "01H8X7Y7Z7QWERTYUIOPASDFGH");
    ("billing_entity_uuid", VStr "01H8X7Y7Z7QWERTYUIOPASDFGZ");
    ("fee_category", VStr "RECURRING");
    ("fee_code", VStr "MONTHLY_FEE");
    ("currency", VStr "USD");
    ("effective_date", VStr "2023-10-01");
    ("apply_type", VStr "PER_ITEM");
    ("per_item_amount", VStr "9.99");
    ("percentage", VNone);
    ("created_timestamp", VStr "2023-10-27T10:00:00.123456");
    ("modified_timestamp", VStr "2023-10-27T10:00:00.123456");
    ("audit_id", VStr "01H8X7Y7Z7QWERTYUIOPASDFGA") ].

End Props.

(* ================================================================== *)
(** * The examples of the model files

    The [example] of [json_schema_extra] in the [Config] of every model,
    which the [__main__] block of the file reads from
    [model_json_schema()] and passes to the constructor as keywords. *)

Module EbbExamples.
Import Py Pydantic Ebb.

(** The example of [adjust_action.py]. *)
Definition AdjustAction_example : list (string * value) :=
  [ ("id", VInt 1);
    ("uuid", VStr "01H8X7Y7Z7QWERTYUIOPASDFGH");
    ("billing_entity_uuid", VStr "01H8X7Y7Z7QWERTYUIOPASDFGZ");
    ("settlement_uuid", VStr "01H8X7Y7Z7QWERTYUIOPASDFGX");
    ("developer_uuid", VStr "01H8X7Y7Z7QWE");
    ("developer_app_uuid", VStr "01H8X7Y7Z7QWR");
    ("adjust_reason", VStr "REFUND");
    ("adjust_action_type", VStr "CREDIT_ADJUSTMENT");
    ("fee_category", VStr "RECURRING");
    ("fee_code", VStr "MONTHLY_FEE");
    ("action_datetime", VStr "2023-10-27T10:00:00.123456");
    ("num_units", VInt 1);
    ("units_in_period", VInt 1);
    ("basis_amount", VStr "99.990");
    ("basis_currency", VStr "USD");
    ("reference", VStr "Customer Refund Request");
    ("adjust_action_fee_code_uuid", VStr "01H8X7Y7Z7QWERTYUIOPASDFGA");
    ("fee_uuid", VStr "01H8X7Y7Z7QWERTYUIOPASDFGB");
    ("event_uuid", VStr "01H8X7Y7Z7QWERTYUIOPASDFGC");
    ("request_uuid", VStr "01H8X7Y7Z7QWERTYUIOPASDFGD");
    ("date_to_post", VStr "2023-11-01");
    ("posting_date", VStr "2023-11-01");
    ("created_timestamp", VStr "2023-10-27T10:00:00.123456");
    ("modified_timestamp", VStr "2023-10-27T10:00:00.123456") ].

(** The example of [adjust_action_type.py]. *)
Definition AdjustActionType_example : list (string * value) :=
  [ ("id", VInt 1);
    ("uuid", VStr "01H8X7Y7Z7QWERTYUIOPASDFGH");
    ("adjust_action_type", VStr "CREDIT_ADJUSTMENT");
    ("fee_category_group", VStr "RECURRING_FEES");
    ("revenue_group", VStr "SUBSCRIPTION_REVENUE");
    ("created_timestamp", VStr "2023-10-27T10:00:00.123456");
    ("modified_timestamp", VStr "2023-10-27T10:00:00.123456") ].

(** The example of [adjust_reason.py]. *)
Definition AdjustReason_example : list (string * value) :=
  [ ("id", VInt 1);
    ("uuid", VStr "01H8X7Y7Z7QWERTYUIOPASDFGH");
    ("adjust_reason", VStr "REFUND");
    ("created_timestamp", VStr "2023-10-27T10:00:00.123456") ].

(** The example of [app_meter_action.py]. *)
Definition AppMeterAction_example : list (string * value) :=
  [ ("id", VInt 1);
    ("uuid", VStr "01H8X7Y7Z7QWERTYUIOPASDFGH");
    ("billing_entity_uuid", VStr "01H8X7Y7Z7QWERTYUIOPASDFGZ");
    ("developer_app_uuid", VStr "01H8X7Y7Z7QWE");
    ("app_metered_uuid", VStr "01H8X7Y7Z7QWR");
    ("app_meter_action_type", VStr "USAGE_BILLING");
    ("fee_category", VStr "METERED");
    ("fee_code", VStr "API_CALLS");
    ("action_datetime", VStr "2023-10-27T10:00:00.123456");
    ("merchant_plan_uuid", VStr "01H8X7Y7Z7QWT");
    ("num_units", VInt 1000);
    ("units_in_period", VInt 5000);
    ("basis_amount", VStr "0.050");
    ("basis_currency", VStr "USD");
    ("reference", VStr "API Usage Billing");
    ("app_meter_action_fee_code_uuid", VStr "01H8X7Y7Z7QWERTYUIOPASDFGA");
    ("fee_uuid", VStr "01H8X7Y7Z7QWERTYUIOPASDFGB");
    ("event_uuid", VStr "01H8X7Y7Z7QWERTYUIOPASDFGC");
    ("request_uuid", VStr "01H8X7Y7Z7QWERTYUIOPASDFGD");
    ("date_to_post", VStr "2023-11-01");
    ("posting_date", VStr "2023-11-01");
    ("created_timestamp", VStr "2023-10-27T10:00:00.123456");
    ("modified_timestamp", VStr "2023-10-27T10:00:00.123456") ].

(** The example of [app_meter_action_fee_code.py]. *)
Definition AppMeterActionFeeCode_example : list (string * value) :=
  [ ("id", VInt 1);
    ("uuid", VStr "01H8X7Y7Z7QWERTYUIOPASDFGH");
    ("developer_app_uuid", VStr "01H8X7Y7Z7QWE");
    ("app_metered_uuid", VStr "01H8X7Y7Z7QWR");
    ("merchant_plan_uuid", VStr "01H8X7Y7Z7QWT");
    ("app_meter_action_type", VStr "USAGE_BILLING");
    ("effective_date", VStr "2023-10-01");
    ("fee_category", VStr "METERED");
    ("fee_code", VStr "API_CALLS");
    ("deleted_date", VNone);
    ("created_timestamp", VStr "2023-10-27T10:00:00.123456");
    ("modified_timestamp", VStr "2023-10-27T10:00:00.123456");
    ("audit_id", VStr "01H8X7Y7Z7QWERTYUIOPASDFGA") ].

(** The example of [app_meter_action_type.py]. *)
Definition AppMeterActionType_example : list (string * value) :=
  [ ("id", VInt 1);
    ("uuid", VStr "01H8X7Y7Z7QWERTYUIOPASDFGH");
    ("app_meter_action_type", VStr "USAGE_BILLING");
    ("created_timestamp", VStr "2023-10-27T10:00:00.123456") ].

(** The example of [app_sub_action_error.py]. *)
Definition AppSubActionError_example : list (string * value) :=
  [ ("id", VInt 1);
    ("uuid", VStr "01H8X7Y7Z7QWERTYUIOPASDFGH");
    ("app_sub_action_uuid", VStr "01H8X7Y7Z7QWERTYUIOPASDFGZ");
    ("request_uuid", VStr "01H8X7Y7Z7QWERTYUIOPASDFGX");
    ("posting_date", VStr "2023-11-01");
    ("original_request_uuid", VStr "01H8X7Y7Z7QWERTYUIOPASDFGW");
    ("original_posting_date", VStr "2023-10-31");
    ("posting_attempts", VInt 2);
    ("error_code", VStr "SUBSCRIPTION_ERROR");
    ("error_details",
       VStr "Unable to process subscription billing due to expired payment method");
    ("resolved", VInt 0);
    ("created_timestamp", VStr "2023-10-27T10:00:00.123456");
    ("modified_timestamp", VStr "2023-10-27T10:00:00.123456") ].

(** The example of [auto_adjust_advice.py]. *)
Definition AutoAdjustAdvice_example : list (string * value) :=
  [ ("id", VInt 1);
    ("uuid", VStr "01H8X7Y7Z7QWERTYUIOPASDFGH");
    ("billing_entity_uuid", VStr "01H8X7Y7Z7QWERTYUIOPASDFGZ");
    ("auto_adjust_rule_uuid", VStr "01H8X7Y7Z7QWERTYUIOPASDFGX");
    ("start_date", VStr "2023-10-01");
    ("deleted_date", VNone);
    ("total_periods", VInt 12);
    ("evaluated_periods", VInt 3);
    ("applied_periods", VInt 2);
    ("max_units", VStr "1000.0000");
    ("max_amount", VStr "500.000");
    ("currency", VStr "USD");
    ("reference", VStr "Annual Volume Discount");
    ("request_uuid", VStr "01H8X7Y7Z7QWERTYUIOPASDFGD");
    ("created_timestamp", VStr "2023-10-27T10:00:00.123456");
    ("modified_timestamp", VStr "2023-10-27T10:00:00.123456");
    ("audit_id", VStr "01H8X7Y7Z7QWERTYUIOPASDFGA") ].

(** The example of [auto_adjust_qualifier.py]. *)
Definition AutoAdjustQualifier_example : list (string * value) :=
  [ ("id", VInt 1);
    ("uuid", VStr "01H8X7Y7Z7QWERTYUIOPASDFGH");
    ("auto_adjust_rule_uuid", VStr "01H8X7Y7Z7QWERTYUIOPASDFGX");
    ("fee_category", VStr "RECURRING");
    ("fee_code", VStr "MONTHLY_FEE");
    ("negate_fee_summary", VInt 0);
    ("disqualify", VInt 0);
    ("created_timestamp", VStr "2023-10-27T10:00:00.123456");
    ("audit_id", VStr "01H8X7Y7Z7QWERTYUIOPASDFGA") ].

(** The example of [auto_adjust_rule.py]. *)
Definition AutoAdjustRule_example : list (string * value) :=
  [ ("id", VInt 1);
    ("uuid", VStr "01H8X7Y7Z7QWERTYUIOPASDFGH");
    ("rule_status", VStr "ACTIVE");
    ("rule_alias", VStr "VOLUME_DISCOUNT");
    ("rate_fee_category", VStr "RECURRING");
    ("rate_fee_code", VStr "MONTHLY_FEE");
    ("target_entity_type", VStr "MERCHANT");
    ("short_desc", VStr "Volume-based discount rule");
    ("full_desc",
       VStr "Provides automatic adjustments based on monthly transaction volume thresholds");
    ("created_timestamp", VStr "2023-10-27T10:00:00.123456");
    ("modified_timestamp", VStr "2023-10-27T10:00:00.123456");
    ("audit_id", VStr "01H8X7Y7Z7QWERTYUIOPASDFGA") ].

(** The example of [billing_archetype.py]. *)
Definition BillingArchetype_example : list (string * value) :=
  [ ("id", VInt 1);
    ("uuid", VStr "01H8X7Y7Z7QWE");
    ("archetype_type", VStr "MERCHANT");
    ("created_timestamp", VStr "2023-10-27T10:00:00.123456") ].

(** The example of [billing_entity.py]. *)
Definition BillingEntity_example : list (string * value) :=
  [ ("id", VInt 1);
    ("uuid", VStr "01H8X7Y7Z7QWERTYUIOPASDFGH");
    ("entity_uuid", VStr "01H8X7Y7Z7QWE");
    ("entity_type", VStr "MERCHANT");
    ("name", VStr "Acme Corporation");
    ("created_timestamp", VStr "2023-10-27T10:00:00.123456");
    ("modified_timestamp", VStr "2023-10-27T10:00:00.123456") ].

(** The example of [billing_entity_config.py]. *)
Definition BillingEntityConfig_example : list (string * value) :=
  [ ("id", VInt 1);
    ("uuid", VStr "01H8X7Y7Z7QWERTYUIOPASDFGH");
    ("billing_entity_uuid", VStr "01H8X7Y7Z7QWERTYUIOPASDFGZ");
    ("hierarchy_type", VStr "STANDARD");
    ("effective_date", VStr "2023-10-01");
    ("post_method", VStr "AUTOMATIC");
    ("plan_billing_method", VStr "MONTHLY");
    ("invoice_method", VStr "EMAIL");
    ("settlement_method", VStr "NET30");
    ("seasonal_rule_set_uuid", VStr "01H8X7Y7Z7QWERTYUIOPASDFGX");
    ("created_timestamp", VStr "2023-10-27T10:00:00.123456");
    ("modified_timestamp", VStr "2023-10-27T10:00:00.123456");
    ("audit_id", VStr "01H8X7Y7Z7QWERTYUIOPASDFGA") ].

(** The example of [billing_event_history.py]. *)
Definition BillingEventHistory_example : list (string * value) :=
  [ ("id", VInt 1);
    ("environment", VStr "PRODUCTION");
    ("entity_uuid", VStr "01H8X7Y7Z7QWE");
    ("entity_type", VStr "MERCHANT");
    ("event_uuid", VStr "01H8X7Y7Z7QWERTYUIOPASDFGH");
    ("input",
       VStr ("{" ++ String dquote ("action" ++ String dquote (": " ++ String dquote ("create_invoice" ++ String dquote (", " ++ String dquote ("amount" ++ String dquote (": 99.99}"))))))));
    ("message", VStr "Invoice created successfully");
    ("created_timestamp", VStr "2023-10-27T10:00:00.123456") ].

(** The example of [billing_hierarchy.py]. *)
Definition BillingHierarchy_example : list (string * value) :=
  [ ("id", VInt 1);
    ("uuid", VStr "01H8X7Y7Z7QWERTYUIOPASDFGH");
    ("hierarchy_type", VStr "STANDARD");
    ("billing_entity_uuid", VStr "01H8X7Y7Z7QWERTYUIOPASDFGZ");
    ("effective_date", VStr "2023-10-01");
    ("deleted_date", VNone);
    ("parent_billing_hierarchy_uuid", VStr "01H8X7Y7Z7QWERTYUIOPASDFGX");
    ("created_timestamp", VStr "2023-10-27T10:00:00.123456");
    ("modified_timestamp", VStr "2023-10-27T10:00:00.123456") ].

(** The example of [billing_hierarchy_cycle.py]. *)
Definition BillingHierarchyCycle_example : list (string * value) :=
  [ ("id", VInt 1);
    ("uuid", VStr "01H8X7Y7Z7QWERTYUIOPASDFGH");
    ("processing_group_uuid", VStr "01H8X7Y7Z7QWERTYUIOPASDFGZ");
    ("billing_hierarchy_uuid", VStr "01H8X7Y7Z7QWERTYUIOPASDFGX");
    ("cycle_date", VStr "2023-10-01");
    ("close_date", VStr "2023-10-31");
    ("effective_close_date", VStr "2023-10-31");
    ("billing_entity_uuid", VStr "01H8X7Y7Z7QWERTYUIOPASDFGW");
    ("entity_uuid", VStr "01H8X7Y7Z7QWE");
    ("schedule_parent_be_uuid", VStr "01H8X7Y7Z7QWERTYUIOPASDFGV");
    ("fee_rate_parent_be_uuid", VStr "01H8X7Y7Z7QWERTYUIOPASDFGU");
    ("frequency", VStr "MONTHLY");
    ("billing_day", VInt 1);
    ("next_billing_date", VStr "2023-11-01");
    ("last_billing_date", VStr "2023-10-01");
    ("arrears_billing_date", VNone);
    ("units_in_next_period", VInt 1);
    ("units_in_last_period", VInt 1);
    ("units_in_arrears_period", VNone);
    ("default_currency", VStr "USD");
    ("post_method", VStr "AUTOMATIC");
    ("plan_billing_method", VStr "MONTHLY");
    ("invoice_method", VStr "EMAIL");
    ("invoice_number_format", VStr "INV-{YY}-{MM}-{NNN}");
    ("settlement_method", VStr "NET30");
    ("created_timestamp", VStr "2023-10-27T10:00:00.123456");
    ("modified_timestamp", VStr "2023-10-27T10:00:00.123456") ].

(** The example of [billing_hierarchy_type.py]. *)
Definition BillingHierarchyType_example : list (string * value) :=
  [ ("id", VInt 1);
    ("uuid", VStr "01H8X7Y7Z7QWERTYUIOPASDFGH");
    ("hierarchy_type", VStr "STANDARD");
    ("description",
       VStr "Standard billing hierarchy for regular merchants");
    ("created_timestamp", VStr "2023-10-27T10:00:00.123456");
    ("modified_timestamp", VStr "2023-10-27T10:00:00.123456") ].

(** The example of [billing_pseudo_entity.py]. *)
Definition BillingPseudoEntity_example : list (string * value) :=
  [ ("id", VInt 1);
    ("uuid", VStr "01H8X7Y7Z7QWE");
    ("name", VStr "System Default Entity");
    ("created_timestamp", VStr "2023-10-27T10:00:00.123456");
    ("modified_timestamp", VStr "2023-10-27T10:00:00.123456") ].

(** The example of [billing_schedule.py]. *)
Definition BillingSchedule_example : list (string * value) :=
  [ ("id", VInt 1);
    ("uuid", VStr "01H8X7Y7Z7QWERTYUIOPASDFGH");
    ("billing_entity_uuid", VStr "01H8X7Y7Z7QWERTYUIOPASDFGZ");
    ("effective_date", VStr "2023-10-01");
    ("frequency", VStr "MONTHLY");
    ("billing_day", VInt 1);
    ("next_billing_date", VStr "2023-11-01");
    ("last_billing_date", VStr "2023-10-01");
    ("units_in_next_period", VInt 1);
    ("units_in_last_period", VInt 1);
    ("default_currency", VStr "USD");
    ("close_date", VNone);
    ("effective_close_date", VNone);
    ("created_timestamp", VStr "2023-10-27T10:00:00.123456");
    ("modified_timestamp", VStr "2023-10-27T10:00:00.123456") ].

(** The example of [cellular_action.py]. *)
Definition CellularAction_example : list (string * value) :=
  [ ("id", VInt 1);
    ("uuid", VStr "01H8X7Y7Z7QWERTYUIOPASDFGH");
    ("billing_entity_uuid", VStr "01H8X7Y7Z7QWERTYUIOPASDFGZ");
    ("merchant_plan_uuid", VStr "01H8X7Y7Z7QWE");
    ("iccid", VStr "8901234567890123456");
    ("carrier", VStr "VERIZON");
    ("cellular_action_type", VStr "DATA_USAGE");
    ("fee_category", VStr "USAGE");
    ("fee_code", VStr "DATA_OVERAGE");
    ("action_datetime", VStr "2023-10-27T10:00:00.123456");
    ("num_units", VInt 1024);
    ("units_in_period", VInt 5120);
    ("basis_amount", VStr "0.010");
    ("basis_currency", VStr "USD");
    ("reference", VStr "Data overage billing");
    ("cellular_action_fee_code_uuid", VStr "01H8X7Y7Z7QWERTYUIOPASDFGA");
    ("fee_uuid", VStr "01H8X7Y7Z7QWERTYUIOPASDFGB");
    ("event_uuid", VStr "01H8X7Y7Z7QWERTYUIOPASDFGC");
    ("request_uuid", VStr "01H8X7Y7Z7QWERTYUIOPASDFGD");
    ("date_to_post", VStr "2023-11-01");
    ("posting_date", VStr "2023-11-01");
    ("created_timestamp", VStr "2023-10-27T10:00:00.123456");
    ("modified_timestamp", VStr "2023-10-27T10:00:00.123456") ].

(** The example of [cellular_action_fee_code.py]. *)
Definition CellularActionFeeCode_example : list (string * value) :=
  [ ("id", VInt 1);
    ("uuid", VStr "01H8X7Y7Z7QWERTYUIOPASDFGH");
    ("merchant_plan_uuid", VStr "01H8X7Y7Z7QWE");
    ("carrier", VStr "VERIZON");
    ("cellular_action_type", VStr "DATA_USAGE");
    ("effective_date", VStr "2023-10-01");
    ("fee_category", VStr "USAGE");
    ("fee_code", VStr "DATA_OVERAGE");
    ("deleted_date", VNone);
    ("created_timestamp", VStr "2023-10-27T10:00:00.123456");
    ("modified_timestamp", VStr "2023-10-27T10:00:00.123456");
    ("audit_id", VStr "01H8X7Y7Z7QWERTYUIOPASDFGA") ].

(** The example of [consumer_failure_history.py]. *)
Definition ConsumerFailureHistory_example : list (string * value) :=
  [ ("id", VInt 1);
    ("uuid", VStr "01H8X7Y7-Z7QW-ERTY-UIOP-ASDFGHJKLZXC");
    ("environment", VStr "PRODUCTION");
    ("reference_id", VStr "01H8X7Y7Z7QWE");
    ("payload",
       VStr ("{" ++ String dquote ("message_id" ++ String dquote (": " ++ String dquote ("12345" ++ String dquote (", " ++ String dquote ("error" ++ String dquote (": " ++ String dquote ("Invalid format" ++ String dquote ("}"))))))))));
    ("channel", VStr "billing-events");
    ("topic", VStr "cellular-usage");
    ("cause", VStr "VALIDATION_ERROR");
    ("message",
       VStr "Message failed validation due to missing required field");
    ("comment", VStr "Moved to history after manual resolution");
    ("created_timestamp", VStr "2023-10-27T10:00:00.123456") ].

(** The example of [cycle_validation.py]. *)
Definition CycleValidation_example : list (string * value) :=
  [ ("id", VInt 1);
    ("uuid", VStr "01H8X7Y7Z7QWERTYUIOPASDFGH");
    ("task_id", VStr "validation-task-2023-10-27");
    ("task_type", VStr "CONSUMER");
    ("validation_group", VStr "monthly-billing-validation");
    ("billing_entity_uuid", VStr "01H8X7Y7Z7QWERTYUIOPASDFGZ");
    ("hierarchy_type", VStr "STANDARD");
    ("cycle_date", VStr "2023-10-01");
    ("currency", VStr "USD");
    ("status", VStr "COMPLETED");
    ("bypass_count", VStr "5.0000");
    ("bypass_amount", VStr "125.500");
    ("accepted_count", VStr "995.0000");
    ("accepted_amount", VStr "24875.250");
    ("total_count", VStr "1000.0000");
    ("total_amount", VStr "25000.750");
    ("request_uuid", VStr "01H8X7Y7Z7QWERTYUIOPASDFGD");
    ("validation_request_uuid", VStr "01H8X7Y7Z7QWERTYUIOPASDFGX");
    ("created_timestamp", VStr "2023-10-27T10:00:00.123456");
    ("modified_timestamp", VStr "2023-10-27T10:00:00.123456") ].

(** The example of [cycle_validation_mutation.py]. *)
Definition CycleValidationMutation_example : list (string * value) :=
  [ ("id", VInt 1);
    ("mutation_action", VStr "UPDATE");
    ("mutation_timestamp", VStr "2023-10-27T10:00:00.123456");
    ("cycle_validation_id", VInt 123);
    ("uuid", VStr "01H8X7Y7Z7QWERTYUIOPASDFGH");
    ("task_id", VStr "validation-task-2023-10-27");
    ("task_type", VStr "CONSUMER");
    ("validation_group", VStr "monthly-billing-validation");
    ("billing_entity_uuid", VStr "01H8X7Y7Z7QWERTYUIOPASDFGZ");
    ("hierarchy_type", VStr "STANDARD");
    ("cycle_date", VStr "2023-10-01");
    ("currency", VStr "USD");
    ("status", VStr "COMPLETED");
    ("bypass_count", VStr "5.0000");
    ("bypass_amount", VStr "125.500");
    ("accepted_count", VStr "995.0000");
    ("accepted_amount", VStr "24875.250");
    ("total_count", VStr "1000.0000");
    ("total_amount", VStr "25000.750");
    ("request_uuid", VStr "01H8X7Y7Z7QWERTYUIOPASDFGD");
    ("validation_request_uuid", VStr "01H8X7Y7Z7QWERTYUIOPASDFGX");
    ("created_timestamp", VStr "2023-10-27T09:00:00.123456");
    ("modified_timestamp", VStr "2023-10-27T09:30:00.123456") ].

(** The example of [deserializable_failure.py]. *)
Definition DeserializableFailure_example : list (string * value) :=
  [ ("id", VInt 1);
    ("uuid", VStr "01H8X7Y7-Z7QW-ERTY-UIOP-ASDFGHJKLZXC");
    ("topic", VStr "billing-events");
    ("channel", VStr "cellular-usage");
    ("b64", VStr "eyJtZXNzYWdlIjoiZGVzZXJpYWxpemF0aW9uIGZhaWx1cmUifQ==");
    ("created_timestamp", VStr "2023-10-27T10:00:00.123456") ].

(** The example of [fee_category.py]. *)
Definition FeeCategory_example : list (string * value) :=
  [ ("id", VInt 1);
    ("uuid", VStr "01H8X7Y7Z7QWERTYUIOPASDFGH");
    ("fee_category", VStr "RECURRING");
    ("sort_order", VInt 10);
    ("created_timestamp", VStr "2023-10-27T10:00:00.123456");
    ("modified_timestamp", VStr "2023-10-27T10:00:00.123456") ].

(** The example of [fee_code.py]. *)
Definition FeeCode_example : list (string * value) :=
  [ ("id", VInt 1);
    ("uuid", VStr "01H8X7Y7Z7QWERTYUIOPASDFGH");
    ("fee_category", VStr "RECURRING");
    ("fee_code", VStr "MONTHLY_FEE");
    ("short_desc", VStr "Monthly subscription fee");
    ("full_desc",
       VStr "Standard monthly subscription fee for basic service plan");
    ("sort_order", VInt 10);
    ("created_timestamp", VStr "2023-10-27T10:00:00.123456");
    ("modified_timestamp", VStr "2023-10-27T10:00:00.123456") ].

(** The example of [fee_code_app.py]. *)
Definition FeeCodeApp_example : list (string * value) :=
  [ ("id", VInt 1);
    ("uuid", VStr "01H8X7Y7Z7QWERTYUIOPASDFGH");
    ("fee_category", VStr "RECURRING");
    ("fee_code", VStr "APP_SUBSCRIPTION");
    ("developer_uuid", VStr "01H8X7Y7Z7QWE");
    ("developer_app_uuid", VStr "01H8X7Y7Z7QWR");
    ("app_subscription_uuid", VStr "01H8X7Y7Z7QWT");
    ("app_metered_uuid", VNone);
    ("created_timestamp", VStr "2023-10-27T10:00:00.123456");
    ("modified_timestamp", VStr "2023-10-27T10:00:00.123456") ].

(** The example of [fee_code_ledger_account.py]. *)
Definition FeeCodeLedgerAccount_example : list (string * value) :=
  [ ("id", VInt 1);
    ("uuid", VStr "01H8X7Y7Z7QWERTYUIOPASDFGH");
    ("fee_category", VStr "RECURRING");
    ("fee_code", VStr "MONTHLY_FEE");
    ("effective_date", VStr "2023-10-01");
    ("credit_ledger_account_key", VStr "REVENUE_MONTHLY_FEES");
    ("credit_billing_entity_uuid_source", VStr "TRANSACTION");
    ("debit_ledger_account_key", VStr "AR_CUSTOMER_RECEIVABLES");
    ("debit_billing_entity_uuid_source", VStr "CLOVER");
    ("deleted_date", VNone);
    ("created_timestamp", VStr "2023-10-27T10:00:00.123456");
    ("modified_timestamp", VStr "2023-10-27T10:00:00.123456");
    ("audit_id", VStr "01H8X7Y7Z7QWERTYUIOPASDFGA") ].

(** The example of [fee_ctd.py]. *)
Definition FeeCtd_example : list (string * value) :=
  [ ("id", VInt 1);
    ("uuid", VStr "01H8X7Y7Z7QWERTYUIOPASDFGH");
    ("billing_entity_uuid", VStr "01H8X7Y7Z7QWERTYUIOPASDFGZ");
    ("fee_category", VStr "RECURRING");
    ("fee_code", VStr "MONTHLY_FEE");
    ("currency", VStr "USD");
    ("ctd_num_units", VStr "100.0000");
    ("abs_num_units", VStr "100.0000");
    ("ctd_basis_amount", VStr "2500.000");
    ("abs_basis_amount", VStr "2500.000");
    ("num_actions", VInt 50);
    ("created_timestamp", VStr "2023-10-27T10:00:00.123456");
    ("modified_timestamp", VStr "2023-10-27T10:00:00.123456") ].

(** The example of [fee_rate.py]. *)
Definition FeeRate_example : list (string * value) :=
  [ ("id", VInt 1);
    ("uuid", VStr "01H8X7Y7Z7QWERTYUIOPASDFGH");
    ("billing_entity_uuid", VStr "01H8X7Y7Z7QWERTYUIOPASDFGZ");
    ("fee_category", VStr "RECURRING");
    ("fee_code", VStr "MONTHLY_FEE");
    ("currency", VStr "USD");
    ("effective_date", VStr "2023-10-01");
    ("apply_type", VStr "PER_ITEM");
    ("per_item_amount", VStr "29.990");
    ("percentage", VNone);
    ("created_timestamp", VStr "2023-10-27T10:00:00.123456");
    ("modified_timestamp", VStr "2023-10-27T10:00:00.123456");
    ("audit_id", VStr "01H8X7Y7Z7QWERTYUIOPASDFGA") ].

(** The example of [fee_rate_error_report.py]. *)
Definition FeeRateErrorReport_example : list (string * value) :=
  [ ("id", VInt 1);
    ("uuid", VStr "01H8X7Y7Z7QWERTYUIOPASDFGH");
    ("billing_entity_uuid", VStr "01H8X7Y7Z7QWERTYUIOPASDFGZ");
    ("fee_category", VStr "RECURRING");
    ("fee_code", VStr "MONTHLY_FEE");
    ("currency", VStr "USD");
    ("apply_type", VStr "PER_ITEM");
    ("resolved_status", VInt 0);
    ("created_timestamp", VStr "2023-10-27T10:00:00.123456");
    ("modified_timestamp", VStr "2023-10-27T10:00:00.123456") ].

(** The example of [fee_rate_report_action_error.py]. *)
Definition FeeRateReportActionError_example : list (string * value) :=
  [ ("id", VInt 1);
    ("uuid", VStr "01H8X7Y7Z7QWERTYUIOPASDFGH");
    ("billing_entity_uuid", VStr "01H8X7Y7Z7QWERTYUIOPASDFGX");
    ("fee_rate_error_report_uuid", VStr "01H8X7Y7Z7QWERTYUIOPASDFGY");
    ("action_error_uuid", VStr "01H8X7Y7Z7QWERTYUIOPASDFGZ");
    ("action_type", VStr "PLAN_ACTION");
    ("created_timestamp", VStr "2023-10-27T10:00:00.123456") ].

(** The example of [fee_summary.py]. *)
Definition FeeSummary_example : list (string * value) :=
  [ ("id", VInt 1);
    ("uuid", VStr "01H8X7Y7Z7QWERTYUIOPASDFGH");
    ("billing_entity_uuid", VStr "01H8X7Y7Z7QWERTYUIOPASDFGX");
    ("billing_date", VStr "2023-10-27");
    ("fee_category", VStr "RECURRING");
    ("fee_code", VStr "MONTHLY_FEE");
    ("currency", VStr "USD");
    ("total_period_units", VStr "1.0000");
    ("abs_period_units", VStr "1.0000");
    ("total_basis_amount", VStr "29.990");
    ("abs_basis_amount", VStr "29.990");
    ("total_fee_amount", VStr "29.990");
    ("fee_rate_uuid", VStr "01H8X7Y7Z7QWERTYUIOPASDFGY");
    ("request_uuid", VStr "01H8X7Y7Z7QWERTYUIOPASDFGZ");
    ("invoice_info_uuid", VStr "01H8X7Y7Z7QWERTYUIOPASDFG1");
    ("fee_code_ledger_account_uuid", VStr "01H8X7Y7Z7QWERTYUIOPASDFG2");
    ("credit_ledger_account_uuid", VStr "01H8X7Y7Z7QWERTYUIOPASDFG3");
    ("debit_ledger_account_uuid", VStr "01H8X7Y7Z7QWERTYUIOPASDFG4");
    ("exclude_from_invoice", VInt 0);
    ("created_timestamp", VStr "2023-10-27T10:00:00.123456");
    ("modified_timestamp", VStr "2023-10-27T10:00:00.123456") ].

(** The example of [fee_tax.py]. *)
Definition FeeTax_example : list (string * value) :=
  [ ("id", VInt 1);
    ("uuid", VStr "01H8X7Y7Z7QWERTYUIOPASDFGH");
    ("fee_summary_uuid", VStr "01H8X7Y7Z7QWERTYUIOPASDFGX");
    ("tax1_amount", VStr "2.400");
    ("tax2_amount", VStr "1.800");
    ("tax3_amount", VNone);
    ("tax4_amount", VNone);
    ("tax1_rate", VStr "0.0800");
    ("tax2_rate", VStr "0.0600");
    ("tax3_rate", VNone);
    ("tax4_rate", VNone);
    ("created_timestamp", VStr "2023-10-27T10:00:00.123456") ].

(** The example of [fee_ytd.py]. *)
Definition FeeYtd_example : list (string * value) :=
  [ ("id", VInt 1);
    ("uuid", VStr "01H8X7Y7Z7QWERTYUIOPASDFGH");
    ("billing_entity_uuid", VStr "01H8X7Y7Z7QWERTYUIOPASDFGX");
    ("year", VInt 2023);
    ("fee_category", VStr "RECURRING");
    ("fee_code", VStr "MONTHLY_FEE");
    ("currency", VStr "USD");
    ("total_period_units", VStr "12.0000");
    ("total_basis_amount", VStr "359.880");
    ("total_fee_amount", VStr "359.880");
    ("created_timestamp", VStr "2023-10-27T10:00:00.123456");
    ("modified_timestamp", VStr "2023-10-27T10:00:00.123456") ].

(** The example of [flyway_schema_history.py]. *)
Definition FlywaySchemaHistory_example : list (string * value) :=
  [ ("installed_rank", VInt 1);
    ("version", VStr "1.0.0");
    ("description", VStr "Create initial billing tables");
    ("type", VStr "SQL");
    ("script", VStr "V1_0_0__Create_initial_billing_tables.sql");
    ("checksum", VInt 123456789);
    ("installed_by", VStr "flyway_user");
    ("installed_on", VStr "2023-10-27T10:00:00.123456");
    ("execution_time", VInt 2500);
    ("success", VBool true) ].

(** The example of [invoice_alliance_code.py]. *)
Definition InvoiceAllianceCode_example : list (string * value) :=
  [ ("id", VInt 1);
    ("uuid", VStr "01H8X7Y7Z7QWERTYUIOPASDFGH");
    ("billing_entity_uuid", VStr "01H8X7Y7Z7QWERTYUIOPASDFGX");
    ("alliance_code", VStr "VZW");
    ("invoice_count", VInt 1001);
    ("created_timestamp", VStr "2023-10-27T10:00:00.123456") ].

(** The example of [invoice_info_amount.py]. *)
Definition InvoiceInfoAmount_example : list (string * value) :=
  [ ("id", VInt 1);
    ("uuid", VStr "01H8X7Y7Z7QWERTYUIOPASDFGH");
    ("invoice_info_uuid", VStr "01H8X7Y7Z7QWERTYUIOPASDFGX");
    ("currency", VStr "USD");
    ("amount", VStr "29.990");
    ("fee_category_group", VStr "RECURRING_FEES");
    ("created_timestamp", VStr "2023-10-27T10:00:00.123456") ].

(** The example of [invoice_info_mutation.py]. *)
Definition InvoiceInfoMutation_example : list (string * value) :=
  [ ("id", VInt 1);
    ("mutation_action", VStr "UPDATE");
    ("mutation_timestamp", VStr "2023-10-27T11:00:00.123456");
    ("invoice_info_id", VInt 42);
    ("uuid", VStr "01H8X7Y7Z7QWERTYUIOPASDFGH");
    ("billing_entity_uuid", VStr "01H8X7Y7Z7QWERTYUIOPASDFGX");
    ("entity_uuid", VStr "01H8X7Y7Z7Q12");
    ("alternate_id", VStr "CUST-12345");
    ("billing_date", VStr "2023-10-27");
    ("invoice_num", VStr "INV-2023-10-001");
    ("currency", VStr "USD");
    ("total_amount", VStr "149.95");
    ("document_uuid", VStr "01H8X7Y7Z7QWERTYUIOPASDFGY");
    ("request_uuid", VStr "01H8X7Y7Z7QWERTYUIOPASDFGZ");
    ("created_timestamp", VStr "2023-10-27T10:00:00.123456") ].

(** The example of [invoice_info_settlement.py]. *)
Definition InvoiceInfoSettlement_example : list (string * value) :=
  [ ("id", VInt 1);
    ("uuid", VStr "01H8X7Y7Z7QWERTYUIOPASDFGH");
    ("invoice_info_uuid", VStr "01H8X7Y7Z7QWERTYUIOPASDFGX");
    ("settlement_uuid", VStr "01H8X7Y7Z7QWERTYUIOPASDFGY");
    ("request_uuid", VStr "01H8X7Y7Z7QWERTYUIOPASDFGZ");
    ("created_timestamp", VStr "2023-10-27T10:00:00.123456") ].

(** The example of [invoice_info_settlement_mutation.py]. *)
Definition InvoiceInfoSettlementMutation_example : list (string * value) :=
  [ ("id", VInt 1);
    ("mutation_action", VStr "UPDATE");
    ("mutation_timestamp", VStr "2023-10-27T11:00:00.123456");
    ("invoice_info_settlement_id", VInt 42);
    ("uuid", VStr "01H8X7Y7Z7QWERTYUIOPASDFGH");
    ("invoice_info_uuid", VStr "01H8X7Y7Z7QWERTYUIOPASDFGX");
    ("settlement_uuid", VStr "01H8X7Y7Z7QWERTYUIOPASDFGY");
    ("request_uuid", VStr "01H8X7Y7Z7QWERTYUIOPASDFGZ");
    ("created_timestamp", VStr "2023-10-27T10:00:00.123456") ].

(** The example of [job_assassination_contract.py]. *)
Definition JobAssassinationContract_example : list (string * value) :=
  [ ("id", VInt 1);
    ("job_identifier", VStr "BILLING_JOB_01H8X7Y7Z7QWER");
    ("killed", VInt 0);
    ("created_timestamp", VStr "2023-10-27T10:00:00.123456");
    ("modified_timestamp", VStr "2023-10-27T10:00:00.123456") ].

(** The example of [ledger_account.py]. *)
Definition LedgerAccount_example : list (string * value) :=
  [ ("id", VInt 1);
    ("uuid", VStr "01H8X7Y7Z7QWERTYUIOPASDFGH");
    ("ledger_account_key", VStr "REVENUE_RECURRING");
    ("billing_entity_uuid", VStr "01H8X7Y7Z7QWERTYUIOPASDFGX");
    ("gl_code", VStr "4000-001");
    ("created_timestamp", VStr "2023-10-27T10:00:00.123456");
    ("modified_timestamp", VStr "2023-10-27T10:00:00.123456") ].

(** The example of [ledger_account_action.py]. *)
Definition LedgerAccountAction_example : list (string * value) :=
  [ ("id", VInt 1);
    ("uuid", VStr "01H8X7Y7Z7QWERTYUIOPASDFGH");
    ("action", VStr "DEBIT");
    ("created_timestamp", VStr "2023-10-27T10:00:00.123456") ].

(** The example of [ledger_account_balance.py]. *)
Definition LedgerAccountBalance_example : list (string * value) :=
  [ ("id", VInt 1);
    ("uuid", VStr "01H8X7Y7Z7QWERTYUIOPASDFGH");
    ("ledger_account_uuid", VStr "01H8X7Y7Z7QWERTYUIOPASDFGX");
    ("currency", VStr "USD");
    ("balance", VStr "1250.750");
    ("created_timestamp", VStr "2023-10-27T10:00:00.123456");
    ("modified_timestamp", VStr "2023-10-27T10:00:00.123456") ].

(** The example of [ledger_account_key.py]. *)
Definition LedgerAccountKey_example : list (string * value) :=
  [ ("id", VInt 1);
    ("uuid", VStr "01H8X7Y7Z7QWERTYUIOPASDFGH");
    ("ledger_account_key", VStr "REVENUE_SUBSCRIPTION_MONTHLY");
    ("ledger_account_type", VStr "REVENUE");
    ("default_gl_code", VStr "4001-001");
    ("short_desc", VStr "Monthly Subscription Revenue");
    ("full_desc",
       VStr "Revenue from monthly subscription fees charged to customers");
    ("created_timestamp", VStr "2023-10-27T10:00:00.123456");
    ("modified_timestamp", VStr "2023-10-27T10:00:00.123456") ].

(** The example of [ledger_account_key_purpose.py]. *)
Definition LedgerAccountKeyPurpose_example : list (string * value) :=
  [ ("id", VInt 1);
    ("uuid", VStr "01H8X7Y7Z7QWERTYUIOPASDFGH");
    ("purpose", VStr "SUBSCRIPTION_BILLING");
    ("ledger_account_key", VStr "REVENUE_SUBSCRIPTION_MONTHLY");
    ("created_timestamp", VStr "2023-10-27T10:00:00.123456");
    ("audit_id", VStr "01H8X7Y7Z7QWERTYUIOPASDFGX") ].

(** The example of [ledger_account_purpose.py]. *)
Definition LedgerAccountPurpose_example : list (string * value) :=
  [ ("id", VInt 1);
    ("uuid", VStr "01H8X7Y7Z7QWERTYUIOPASDFGH");
    ("purpose", VStr "SUBSCRIPTION_BILLING");
    ("created_timestamp", VStr "2023-10-27T10:00:00.123456") ].

(** The example of [ledger_account_settlement.py]. *)
Definition LedgerAccountSettlement_example : list (string * value) :=
  [ ("id", VInt 1);
    ("uuid", VStr "01H8X7Y7Z7QWERTYUIOPASDFGH");
    ("ledger_account_key", VStr "REVENUE_SUBSCRIPTION_MONTHLY");
    ("effective_date", VStr "2023-10-27");
    ("settlement_item_code", VStr "SUBS_MONTHLY_001");
    ("settlement_desc",
       VStr "Monthly subscription settlement for premium plan");
    ("fee_category_group", VStr "SUBSCRIPTION");
    ("revenue_group", VStr "PREMIUM");
    ("merchant_plan_uuid", VStr "01H8X7Y7Z7Q12");
    ("developer_uuid", VStr "01H8X7Y7Z7Q13");
    ("developer_app_uuid", VStr "01H8X7Y7Z7Q14");
    ("app_subscription_uuid", VStr "01H8X7Y7Z7Q15");
    ("app_metered_uuid", VNone);
    ("created_timestamp", VStr "2023-10-27T10:00:00.123456");
    ("modified_timestamp", VStr "2023-10-27T10:00:00.123456");
    ("audit_id", VStr "01H8X7Y7Z7QWERTYUIOPASDFGX") ].

(** The example of [ledger_account_transition.py]. *)
Definition LedgerAccountTransition_example : list (string * value) :=
  [ ("id", VInt 1);
    ("uuid", VStr "01H8X7Y7Z7QWERTYUIOPASDFGH");
    ("action", VStr "SUBSCRIPTION_CHARGE");
    ("effective_date", VStr "2023-10-27");
    ("lookup_ledger_account_key", VStr "REVENUE_SUBSCRIPTION_MONTHLY");
    ("credit_ledger_account_key", VStr "REVENUE_SUBSCRIPTION_MONTHLY");
    ("credit_billing_entity_uuid_source", VStr "TRANSACTION");
    ("debit_ledger_account_key", VStr "ACCOUNTS_RECEIVABLE");
    ("debit_billing_entity_uuid_source", VStr "CLOVER");
    ("deleted_date", VNone);
    ("created_timestamp", VStr "2023-10-27T10:00:00.123456");
    ("modified_timestamp", VStr "2023-10-27T10:00:00.123456");
    ("audit_id", VStr "01H8X7Y7Z7QWERTYUIOPASDFGX") ].

(** The example of [ledger_journal.py]. *)
Definition LedgerJournal_example : list (string * value) :=
  [ ("id", VInt 1);
    ("uuid", VStr "01H8X7Y7Z7QWERTYUIOPASDFGH");
    ("ledger_account_uuid", VStr "01H8X7Y7Z7QWERTYUIOPASDFGX");
    ("journal_date", VStr "2023-10-27");
    ("ref_uuid_type", VStr "FEE_SUMMARY");
    ("ref_uuid", VStr "01H8X7Y7Z7QWERTYUIOPASDFGY");
    ("cr_db", VStr "CREDIT");
    ("currency", VStr "USD");
    ("amount", VStr "149.95");
    ("created_timestamp", VStr "2023-10-27T10:00:00.123456") ].

(** The example of [ledger_journal_mutation.py]. *)
Definition LedgerJournalMutation_example : list (string * value) :=
  [ ("id", VInt 1);
    ("mutation_action", VStr "UPDATE");
    ("mutation_timestamp", VStr "2023-10-27T11:00:00.123456");
    ("ledger_journal_id", VInt 123);
    ("uuid", VStr "01H8X7Y7Z7QWERTYUIOPASDFGH");
    ("ledger_account_uuid", VStr "01H8X7Y7Z7QWERTYUIOPASDFGZ");
    ("journal_date", VStr "2023-11-01");
    ("ref_uuid_type", VStr "FEE_SUMMARY");
    ("ref_uuid", VStr "01H8X7Y7Z7QWERTYUIOPASDFGA");
    ("cr_db", VStr "DEBIT");
    ("currency", VStr "USD");
    ("amount", VStr "99.990");
    ("created_timestamp", VStr "2023-10-27T10:00:00.123456") ].

(** The example of [lexi_attribute.py]. *)
Definition LexiAttribute_example : list (string * value) :=
  [ ("id", VInt 1);
    ("uuid", VStr "01H8X7Y7-Z7QW-ERTY-UIOP-ASDFGHJKLZXC");
    ("word", VStr "premium_plan");
    ("lexicon", VStr "billing_terms");
    ("attr_name", VStr "plan_type");
    ("created_timestamp", VStr "2023-10-27T10:00:00.123456");
    ("deleted_timestamp", VNone) ].

(** The example of [lexi_rule.py]. *)
Definition LexiRule_example : list (string * value) :=
  [ ("id", VInt 1);
    ("uuid", VStr "01H8X7Y7-Z7QW-ERTY-UIOP-ASDFGHJKLZXC");
    ("parent_uuid", VNone);
    ("lexicon", VStr "billing_terms");
    ("rule_name", VStr "premium_discount");
    ("description", VStr "Apply discount for premium customers");
    ("rule_condition", VStr "plan_type == 'premium'");
    ("target_attributes", VStr "discount_rate");
    ("priority", VInt 10);
    ("rule_type", VStr "CONDITIONAL");
    ("created_timestamp", VStr "2023-10-27T10:00:00.123456");
    ("deleted_timestamp", VNone) ].

(** The example of [look.py]. *)
Definition Look_example : list (string * value) :=
  [ ("id", VInt 1);
    ("uuid", VStr "01H8X7Y7Z7QWERTYUIOPASDFGHJKLMNP");
    ("hash",
       VStr "a1b2c3d4e5f6789012345678901234567890abcdef1234567890abcdef123456");
    ("namespace", VStr "billing_data");
    ("metadata",
       VStr ("{" ++ String dquote ("source" ++ String dquote (": " ++ String dquote ("merchant_api" ++ String dquote (", " ++ String dquote ("version" ++ String dquote (": " ++ String dquote ("1.0" ++ String dquote ("}"))))))))));
    ("processed_timestamp", VStr "2023-10-27T10:30:00.123456");
    ("created_timestamp", VStr "2023-10-27T10:00:00.123456") ].

(** The example of [look_data.py]. *)
Definition LookData_example : list (string * value) :=
  [ ("id", VInt 1);
    ("look_uuid", VStr "01H8X7Y7Z7QWERTYUIOPASDFGHJKLMNP");
    ("payload",
       VBytes ("{" ++ String dquote ("billing_cycle" ++ String dquote (": " ++ String dquote ("monthly" ++ String dquote (", " ++ String dquote ("fee_structure" ++ String dquote (": " ++ String dquote ("tiered" ++ String dquote ("}"))))))))));
    ("created_timestamp", VStr "2023-10-27T10:00:00.123456") ].

(** The example of [merchant_detail.py]. *)
Definition MerchantDetail_example : list (string * value) :=
  [ ("id", VInt 1);
    ("uuid", VStr "01H8X7Y7Z7QWERTYUIOPASDFGH");
    ("billing_entity_uuid", VStr "01H8X7Y7Z7QWERTYUIOPASDFGZ");
    ("seasonal", VInt 0);
    ("tax_exempt", VInt 1);
    ("verified_terms_acceptance", VInt 1);
    ("created_timestamp", VStr "2023-10-27T10:00:00.123456");
    ("modified_timestamp", VStr "2023-10-27T10:00:00.123456");
    ("audit_id", VStr "01H8X7Y7Z7QWERTYUIOPASDFGA") ].

(** The example of [misc_action_fee_code.py]. *)
Definition MiscActionFeeCode_example : list (string * value) :=
  [ ("id", VInt 1);
    ("uuid", VStr "01H8X7Y7Z7QWERTYUIOPASDFGH");
    ("misc_specifier", VStr "SPECIAL_FEE");
    ("misc_action_type", VStr "ADJUSTMENT");
    ("effective_date", VStr "2023-11-01");
    ("fee_category", VStr "MISC");
    ("fee_code", VStr "ADJ_FEE");
    ("deleted_date", VNone);
    ("created_timestamp", VStr "2023-10-27T10:00:00.123456");
    ("modified_timestamp", VStr "2023-10-27T10:00:00.123456");
    ("audit_id", VStr "01H8X7Y7Z7QWERTYUIOPASDFGA") ].

(** The example of [misc_action_type.py]. *)
Definition MiscActionType_example : list (string * value) :=
  [ ("id", VInt 1);
    ("uuid", VStr "01H8X7Y7Z7QWERTYUIOPASDFGH");
    ("misc_action_type", VStr "ADJUSTMENT");
    ("created_timestamp", VStr "2023-10-27T10:00:00.123456") ].

(** The example of [misc_specifier.py]. *)
Definition MiscSpecifier_example : list (string * value) :=
  [ ("id", VInt 1);
    ("uuid", VStr "01H8X7Y7Z7QWERTYUIOPASDFGH");
    ("misc_specifier", VStr "CUSTOM_FEE_TYPE");
    ("created_timestamp", VStr "2023-10-27T10:00:00.123456") ].

(** The example of [model_fee_summary.py]. *)
Definition ModelFeeSummary_example : list (string * value) :=
  [ ("id", VInt 1);
    ("uuid", VStr "01H8X7Y7Z7QWERTYUIOPASDFGH");
    ("billing_entity_uuid", VStr "01H8X7Y7Z7QWERTYUIOPASDFGZ");
    ("billing_date", VStr "2023-11-01");
    ("fee_category", VStr "RECURRING");
    ("fee_code", VStr "MONTHLY_FEE");
    ("currency", VStr "USD");
    ("total_period_units", VStr "1.0000");
    ("total_basis_amount", VStr "99.990");
    ("total_fee_amount", VStr "99.990");
    ("fee_rate_uuid", VStr "01H8X7Y7Z7QWERTYUIOPASDFGA");
    ("request_uuid", VStr "01H8X7Y7Z7QWERTYUIOPASDFGB");
    ("invoice_info_uuid", VStr "01H8X7Y7Z7QWERTYUIOPASDFGC");
    ("fee_code_ledger_account_uuid", VStr "01H8X7Y7Z7QWERTYUIOPASDFGD");
    ("credit_ledger_account_uuid", VStr "01H8X7Y7Z7QWERTYUIOPASDFGE");
    ("debit_ledger_account_uuid", VStr "01H8X7Y7Z7QWERTYUIOPASDFGF");
    ("created_timestamp", VStr "2023-10-27T10:00:00.123456");
    ("modified_timestamp", VStr "2023-10-27T10:00:00.123456") ].

(** The example of [monetary_adjustment.py]. *)
Definition MonetaryAdjustment_example : list (string * value) :=
  [ ("id", VInt 1);
    ("uuid", VStr "01H8X7Y7Z7QWERTYUIOPASDFGH");
    ("billing_entity_uuid", VStr "01H8X7Y7Z7QWERTYUIOPASDFGZ");
    ("adjust_fee_summary_uuid", VStr "01H8X7Y7Z7QWERTYUIOPASDFGA");
    ("qualified_fee_summary_uuid", VStr "01H8X7Y7Z7QWERTYUIOPASDFGB");
    ("rule_uuid", VStr "01H8X7Y7Z7QWERTYUIOPASDFGC");
    ("rule_criteria_uuid", VStr "01H8X7Y7Z7QWERTYUIOPASDFGD");
    ("rule_type", VStr "AUTO_ADJUST");
    ("request_uuid", VStr "01H8X7Y7Z7QWERTYUIOPASDFGE");
    ("created_timestamp", VStr "2023-10-27T10:00:00.123456") ].

(** The example of [monetary_adjustment_mutation.py]. *)
Definition MonetaryAdjustmentMutation_example : list (string * value) :=
  [ ("id", VInt 1);
    ("mutation_action", VStr "UPDATE");
    ("mutation_timestamp", VStr "2023-10-27T10:00:00.123456");
    ("monetary_adjustment_id", VInt 123);
    ("uuid", VStr "01H8X7Y7Z7QWERTYUIOPASDFGH");
    ("billing_entity_uuid", VStr "01H8X7Y7Z7QWERTYUIOPASDFGZ");
    ("adjust_fee_summary_uuid", VStr "01H8X7Y7Z7QWERTYUIOPASDFGA");
    ("qualified_fee_summary_uuid", VStr "01H8X7Y7Z7QWERTYUIOPASDFGB");
    ("rule_uuid", VStr "01H8X7Y7Z7QWERTYUIOPASDFGC");
    ("rule_criteria_uuid", VStr "01H8X7Y7Z7QWERTYUIOPASDFGD");
    ("rule_type", VStr "AUTO_ADJUST");
    ("request_uuid", VStr "01H8X7Y7Z7QWERTYUIOPASDFGE");
    ("created_timestamp", VStr "2023-10-27T09:00:00.123456") ].

(** The example of [monetary_rule_alias.py]. *)
Definition MonetaryRuleAlias_example : list (string * value) :=
  [ ("id", VInt 1);
    ("uuid", VStr "01H8X7Y7Z7QWERTYUIOPASDFGH");
    ("rule_alias", VStr "VOLUME_DISCOUNT");
    ("rule_type", VStr "TIERED");
    ("created_timestamp", VStr "2023-10-27T10:00:00.123456") ].

(** The example of [monetary_rule_set.py]. *)
Definition MonetaryRuleSet_example : list (string * value) :=
  [ ("id", VInt 1);
    ("uuid", VStr "01H8X7Y7Z7QWERTYUIOPASDFGH");
    ("rule_status", VStr "ACTIVE");
    ("short_desc", VStr "Volume Discount Rules");
    ("full_desc",
       VStr "Tiered discount rules based on usage volume for enterprise customers");
    ("created_timestamp", VStr "2023-10-27T10:00:00.123456");
    ("modified_timestamp", VStr "2023-10-27T10:00:00.123456");
    ("audit_id", VStr "01H8X7Y7Z7QWERTYUIOPASDFGA") ].

(** The example of [monetary_rule_set_rule.py]. *)
Definition MonetaryRuleSetRule_example : list (string * value) :=
  [ ("id", VInt 1);
    ("uuid", VStr "01H8X7Y7Z7QWERTYUIOPASDFGH");
    ("monetary_rule_set_uuid", VStr "01H8X7Y7Z7QWERTYUIOPASDFGZ");
    ("rule_uuid", VStr "01H8X7Y7Z7QWERTYUIOPASDFGA");
    ("rule_type", VStr "TIERED");
    ("effective_date", VStr "2023-11-01");
    ("deleted_date", VNone);
    ("created_timestamp", VStr "2023-10-27T10:00:00.123456");
    ("modified_timestamp", VStr "2023-10-27T10:00:00.123456");
    ("audit_id", VStr "01H8X7Y7Z7QWERTYUIOPASDFGB") ].

(** The example of [partner_config.py]. *)
Definition PartnerConfig_example : list (string * value) :=
  [ ("id", VInt 1);
    ("uuid", VStr "01H8X7Y7Z7QWERTYUIOPASDFGH");
    ("billing_entity_uuid", VStr "01H8X7Y7Z7QWERTYUIOPASDFGZ");
    ("hierarchy_type", VStr "MERCHANT");
    ("effective_date", VStr "2023-11-01");
    ("revenue_share_group", VStr "STANDARD");
    ("post_method", VStr "IMMEDIATE");
    ("plan_billing_method", VStr "PREPAID");
    ("invoice_method", VStr "ELECTRONIC");
    ("invoice_number_format", VStr "INV-{YYYY}-{SEQ}");
    ("settlement_method", VStr "NET30");
    ("seasonal_rule_set_uuid", VStr "01H8X7Y7Z7QWERTYUIOPASDFGA");
    ("created_timestamp", VStr "2023-10-27T10:00:00.123456");
    ("modified_timestamp", VStr "2023-10-27T10:00:00.123456");
    ("audit_id", VStr "01H8X7Y7Z7QWERTYUIOPASDFGB") ].

(** The example of [plan_action.py]. *)
Definition PlanAction_example : list (string * value) :=
  [ ("id", VInt 1);
    ("uuid", VStr "01H8X7Y7Z7QWERTYUIOPASDFGH");
    ("billing_entity_uuid", VStr "01H8X7Y7Z7QWERTYUIOPASDFGZ");
    ("merchant_plan_uuid", VStr "01H8X7Y7Z7QWE");
    ("serial_number", VStr "SN123456789");
    ("plan_action_type", VStr "SUBSCRIPTION");
    ("fee_category", VStr "RECURRING");
    ("fee_code", VStr "MONTHLY_FEE");
    ("action_datetime", VStr "2023-10-27T10:00:00.123456");
    ("num_units", VInt 1);
    ("units_in_period", VInt 1);
    ("basis_amount", VStr "99.990");
    ("basis_currency", VStr "USD");
    ("reference", VStr "Initial Subscription");
    ("plan_action_fee_code_uuid", VStr "01H8X7Y7Z7QWERTYUIOPASDFGA");
    ("fee_uuid", VStr "01H8X7Y7Z7QWERTYUIOPASDFGB");
    ("event_uuid", VStr "01H8X7Y7Z7QWERTYUIOPASDFGC");
    ("request_uuid", VStr "01H8X7Y7Z7QWERTYUIOPASDFGD");
    ("date_to_post", VStr "2023-11-01");
    ("posting_date", VStr "2023-11-01");
    ("created_timestamp", VStr "2023-10-27T10:00:00.123456");
    ("modified_timestamp", VStr "2023-10-27T10:00:00.123456") ].

(** The example of [plan_action_error.py]. *)
Definition PlanActionError_example : list (string * value) :=
  [ ("id", VInt 1);
    ("uuid", VStr "01H8X7Y7Z7QWERTYUIOPASDFGH");
    ("plan_action_uuid", VStr "01H8X7Y7Z7QWERTYUIOPASDFGZ");
    ("request_uuid", VStr "01H8X7Y7Z7QWERTYUIOPASDFGA");
    ("posting_date", VStr "2023-11-01");
    ("original_request_uuid", VStr "01H8X7Y7Z7QWERTYUIOPASDFGB");
    ("original_posting_date", VStr "2023-10-31");
    ("posting_attempts", VInt 3);
    ("error_code", VStr "RATE_NOT_FOUND");
    ("error_details",
       VStr "Fee rate configuration missing for merchant plan");
    ("resolved", VInt 0);
    ("created_timestamp", VStr "2023-10-27T10:00:00.123456");
    ("modified_timestamp", VStr "2023-10-27T12:30:00.123456") ].

(** The example of [plan_action_type.py]. *)
Definition PlanActionType_example : list (string * value) :=
  [ ("id", VInt 1);
    ("uuid", VStr "01H8X7Y7Z7QWERTYUIOPASDFGH");
    ("plan_action_type", VStr "SUBSCRIPTION");
    ("created_timestamp", VStr "2023-10-27T10:00:00.123456") ].

(** The example of [processing_group_dates.py]. *)
Definition ProcessingGroupDates_example : list (string * value) :=
  [ ("id", VInt 1);
    ("uuid", VStr "01H8X7Y7Z7QWERTYUIOPASDFGH");
    ("billing_entity_uuid", VStr "01H8X7Y7Z7QWERTYUIOPASDFGZ");
    ("hierarchy_type", VStr "MERCHANT");
    ("cycle_date", VStr "2023-11-01");
    ("last_cycle_date", VStr "2023-10-01");
    ("posting_date", VStr "2023-11-02");
    ("last_posting_date", VStr "2023-10-02");
    ("billing_date", VStr "2023-11-03");
    ("last_billing_date", VStr "2023-10-03");
    ("settlement_date", VStr "2023-11-15");
    ("last_settlement_date", VStr "2023-10-15");
    ("created_timestamp", VStr "2023-10-27T10:00:00.123456");
    ("modified_timestamp", VStr "2023-10-27T10:00:00.123456") ].

(** The example of [processing_note.py]. *)
Definition ProcessingNote_example : list (string * value) :=
  [ ("id", VInt 1);
    ("uuid", VStr "01H8X7Y7Z7QWERTYUIOPASDFGH");
    ("billing_entity_uuid", VStr "01H8X7Y7Z7QWERTYUIOPASDFGZ");
    ("process_date", VStr "2023-11-01");
    ("note_code", VStr "BILLING_CYCLE");
    ("notes",
       VStr "Monthly billing cycle processed successfully with 1,234 transactions");
    ("request_uuid", VStr "01H8X7Y7Z7QWERTYUIOPASDFGA");
    ("created_timestamp", VStr "2023-10-27T10:00:00.123456") ].

(** The example of [processing_note_mutation.py]. *)
Definition ProcessingNoteMutation_example : list (string * value) :=
  [ ("id", VInt 1);
    ("mutation_action", VStr "UPDATE");
    ("mutation_timestamp", VStr "2023-10-27T11:00:00.123456");
    ("processing_note_id", VInt 123);
    ("uuid", VStr "01H8X7Y7Z7QWERTYUIOPASDFGH");
    ("billing_entity_uuid", VStr "01H8X7Y7Z7QWERTYUIOPASDFGZ");
    ("process_date", VStr "2023-11-01");
    ("note_code", VStr "BILLING_CYCLE");
    ("notes",
       VStr "Monthly billing cycle processed successfully with 1,234 transactions");
    ("request_uuid", VStr "01H8X7Y7Z7QWERTYUIOPASDFGA");
    ("created_timestamp", VStr "2023-10-27T10:00:00.123456") ].

(** The example of [prototype_fee_rate.py]. *)
Definition PrototypeFeeRate_example : list (string * value) :=
  [ ("id", VInt 1);
    ("uuid", VStr "01H8X7Y7Z7QWERTYUIOPASDFGH");
    ("prototype_fee_set_id", VInt 123);
    ("billing_entity_uuid", VStr "01H8X7Y7Z7QWERTYUIOPASDFGZ");
    ("fee_category", VStr "TRANSACTION");
    ("fee_code", VStr "PAYMENT_FEE");
    ("currency", VStr "USD");
    ("apply_type", VStr "PERCENTAGE");
    ("per_item_amount", VNone);
    ("percentage", VStr "2.50");
    ("created_timestamp", VStr "2023-10-27T10:00:00.123456");
    ("modified_timestamp", VStr "2023-10-27T10:00:00.123456");
    ("audit_id", VStr "01H8X7Y7Z7QWERTYUIOPASDFGA") ].

(** The example of [prototype_fee_set.py]. *)
Definition PrototypeFeeSet_example : list (string * value) :=
  [ ("id", VInt 1);
    ("uuid", VStr "01H8X7Y7Z7QWERTYUIOPASDFGH");
    ("name", VStr "STANDARD_MONTHLY_FEES");
    ("disposition", VStr "PROMOTED");
    ("description",
       VStr "Standard monthly billing fee structure for enterprise customers");
    ("effective_date", VStr "2023-10-27");
    ("disposition_datetime", VStr "2023-10-27T10:00:00.123456");
    ("created_timestamp", VStr "2023-10-27T10:00:00.123456");
    ("modified_timestamp", VStr "2023-10-27T10:00:00.123456") ].

(** The example of [revenue_action.py]. *)
Definition RevenueAction_example : list (string * value) :=
  [ ("id", VInt 1);
    ("uuid", VStr "01H8X7Y7Z7QWERTYUIOPASDFGH");
    ("billing_entity_uuid", VStr "01H8X7Y7Z7QWERTYUIOPASDFGZ");
    ("fee_category_group", VStr "APP_REVENUE");
    ("revenue_group", VStr "SUBSCRIPTION");
    ("developer_uuid", VStr "01H8X7Y7Z7QWE");
    ("developer_app_uuid", VStr "01H8X7Y7Z7QWE");
    ("app_subscription_uuid", VStr "01H8X7Y7Z7QWE");
    ("app_metered_uuid", VNone);
    ("merchant_plan_uuid", VNone);
    ("revenue_action_type", VStr "REVENUE_SHARE");
    ("fee_category", VStr "REVENUE");
    ("fee_code", VStr "APP_SHARE");
    ("action_datetime", VStr "2023-10-27T10:00:00.123456");
    ("num_units", VInt 1);
    ("units_in_period", VInt 1);
    ("basis_amount", VStr "29.970");
    ("basis_currency", VStr "USD");
    ("reference", VStr "Monthly subscription revenue");
    ("revenue_action_fee_code_uuid", VStr "01H8X7Y7Z7QWERTYUIOPASDFGA");
    ("source_billing_entity_uuid", VStr "01H8X7Y7Z7QWERTYUIOPASDFGB");
    ("settlement_action_uuid", VStr "01H8X7Y7Z7QWERTYUIOPASDFGC");
    ("fee_uuid", VStr "01H8X7Y7Z7QWERTYUIOPASDFGD");
    ("event_uuid", VStr "01H8X7Y7Z7QWERTYUIOPASDFGE");
    ("request_uuid", VStr "01H8X7Y7Z7QWERTYUIOPASDFGF");
    ("date_to_post", VStr "2023-11-01");
    ("posting_date", VStr "2023-11-01");
    ("created_timestamp", VStr "2023-10-27T10:00:00.123456");
    ("modified_timestamp", VStr "2023-10-27T10:00:00.123456") ].

(** The example of [revenue_action_fee_code.py]. *)
Definition RevenueActionFeeCode_example : list (string * value) :=
  [ ("id", VInt 1);
    ("uuid", VStr "01H8X7Y7Z7QWERTYUIOPASDFGH");
    ("fee_category_group", VStr "APP_REVENUE");
    ("revenue_group", VStr "SUBSCRIPTION");
    ("revenue_share_group", VStr "STANDARD");
    ("developer_uuid", VStr "01H8X7Y7Z7QWE");
    ("developer_app_uuid", VStr "01H8X7Y7Z7QWE");
    ("app_subscription_uuid", VStr "01H8X7Y7Z7QWE");
    ("app_metered_uuid", VNone);
    ("merchant_plan_uuid", VNone);
    ("revenue_action_type", VStr "REVENUE_SHARE");
    ("effective_date", VStr "2023-11-01");
    ("fee_category", VStr "REVENUE");
    ("fee_code", VStr "APP_SHARE");
    ("deleted_date", VNone);
    ("created_timestamp", VStr "2023-10-27T10:00:00.123456");
    ("modified_timestamp", VStr "2023-10-27T10:00:00.123456");
    ("audit_id", VStr "01H8X7Y7Z7QWERTYUIOPASDFGA") ].

(** The example of [revenue_share_group.py]. *)
Definition RevenueShareGroup_example : list (string * value) :=
  [ ("id", VInt 1);
    ("uuid", VStr "01H8X7Y7Z7QWERTYUIOPASDFGH");
    ("revenue_share_group", VStr "STANDARD_30");
    ("short_desc", VStr "Standard 30% Revenue Share");
    ("description",
       VStr "Standard revenue sharing arrangement with 30% developer share");
    ("created_timestamp", VStr "2023-10-27T10:00:00.123456");
    ("modified_timestamp", VStr "2023-10-27T10:00:00.123456") ].

(** The example of [server_config.py]. *)
Definition ServerConfig_example : list (string * value) :=
  [ ("id", VInt 1);
    ("config_key", VStr "billing.default_currency");
    ("config_value", VStr "USD");
    ("created_timestamp", VStr "2023-10-27T10:00:00.123456");
    ("modified_timestamp", VStr "2023-10-27T10:00:00.123456") ].

(** The example of [settlement.py]. *)
Definition Settlement_example : list (string * value) :=
  [ ("id", VInt 1);
    ("uuid", VStr "01H8X7Y7Z7QWERTYUIOPASDFGH");
    ("settlement_date", VStr "2023-11-01");
    ("billing_entity_uuid", VStr "01H8X7Y7Z7QWERTYUIOPASDFGZ");
    ("entity_uuid", VStr "01H8X7Y7Z7QWE");
    ("alternate_id", VStr "SETTLE-2023-001");
    ("payable_receivable", VStr "PAYABLE");
    ("currency", VStr "USD");
    ("total_amount", VStr "1234.567");
    ("fee_amount", VStr "123.456");
    ("tax1_amount", VStr "12.345");
    ("tax2_amount", VStr "0.000");
    ("tax3_amount", VStr "0.000");
    ("tax4_amount", VStr "0.000");
    ("lookup_ledger_account_key", VStr "MERCHANT_PAYABLE_USD");
    ("gl_code", VStr "2100-001");
    ("item_code", VStr "MERCHANT_FEE");
    ("last_invoice_num", VStr "INV-2023-001234");
    ("request_uuid", VStr "01H8X7Y7Z7QWERTYUIOPASDFGA");
    ("created_timestamp", VStr "2023-10-27T10:00:00.123456");
    ("modified_timestamp", VStr "2023-10-27T10:00:00.123456") ].

(** The example of [settlement_action.py]. *)
Definition SettlementAction_example : list (string * value) :=
  [ ("id", VInt 1);
    ("uuid", VStr "01H8X7Y7Z7QWERTYUIOPASDFGH");
    ("settlement_uuid", VStr "01H8X7Y7Z7QWERTYUIOPASDFGZ");
    ("action_date", VStr "2023-11-01");
    ("action", VStr "PAYMENT");
    ("currency", VStr "USD");
    ("total_amount", VStr "1234.567");
    ("fee_amount", VStr "123.456");
    ("tax1_amount", VStr "12.345");
    ("tax2_amount", VStr "0.000");
    ("tax3_amount", VStr "0.000");
    ("tax4_amount", VStr "0.000");
    ("reject_code", VNone);
    ("message", VStr "Payment processed successfully");
    ("ledger_account_transition_uuid", VStr "01H8X7Y7Z7QWERTYUIOPASDFGA");
    ("credit_ledger_account_uuid", VStr "01H8X7Y7Z7QWERTYUIOPASDFGB");
    ("debit_ledger_account_uuid", VStr "01H8X7Y7Z7QWERTYUIOPASDFGC");
    ("created_timestamp", VStr "2023-10-27T10:00:00.123456") ].

(** The example of [settlement_mutation.py]. *)
Definition SettlementMutation_example : list (string * value) :=
  [ ("id", VInt 1);
    ("mutation_action", VStr "UPDATE");
    ("mutation_timestamp", VStr "2023-10-27T11:00:00.123456");
    ("settlement_id", VInt 123);
    ("uuid", VStr "01H8X7Y7Z7QWERTYUIOPASDFGH");
    ("settlement_date", VStr "2023-11-01");
    ("billing_entity_uuid", VStr "01H8X7Y7Z7QWERTYUIOPASDFGZ");
    ("entity_uuid", VStr "01H8X7Y7Z7QWE");
    ("alternate_id", VStr "SETTLE-2023-001");
    ("payable_receivable", VStr "PAYABLE");
    ("currency", VStr "USD");
    ("total_amount", VStr "1234.567");
    ("fee_amount", VStr "123.456");
    ("tax1_amount", VStr "12.345");
    ("tax2_amount", VStr "0.000");
    ("tax3_amount", VStr "0.000");
    ("tax4_amount", VStr "0.000");
    ("lookup_ledger_account_key", VStr "MERCHANT_PAYABLE_USD");
    ("gl_code", VStr "2100-001");
    ("item_code", VStr "MERCHANT_FEE");
    ("last_invoice_num", VStr "INV-2023-001234");
    ("request_uuid", VStr "01H8X7Y7Z7QWERTYUIOPASDFGA");
    ("created_timestamp", VStr "2023-10-27T10:00:00.123456");
    ("modified_timestamp", VStr "2023-10-27T10:00:00.123456") ].

(** The example of [skip_fee_category_lexi_tag.py]. *)
Definition SkipFeeCategoryLexiTag_example : list (string * value) :=
  [ ("id", VInt 1);
    ("uuid", VStr "01H8X7Y7Z7QWERTYUIOPASDFGH");
    ("fee_category", VStr "INTERNAL_FEE");
    ("created_timestamp", VStr "2023-10-27T10:00:00.123456") ].

(** The example of [tier_detail.py]. *)
Definition TierDetail_example : list (string * value) :=
  [ ("id", VInt 1);
    ("uuid", VStr "01H8X7Y7Z7QWERTYUIOPASDFGH");
    ("tiered_rule_uuid", VStr "01H8X7Y7Z7QWERTYUIOPASDFGZ");
    ("min_units", VStr "1000.0000");
    ("min_amount", VStr "100.000");
    ("currency", VStr "USD");
    ("rate_fee_category", VStr "VOLUME_DISCOUNT");
    ("rate_fee_code", VStr "TIER_1_DISCOUNT");
    ("short_desc", VStr "Tier 1: 1000+ units");
    ("created_timestamp", VStr "2023-10-27T10:00:00.123456");
    ("modified_timestamp", VStr "2023-10-27T10:00:00.123456");
    ("audit_id", VStr "01H8X7Y7Z7QWERTYUIOPASDFGA") ].

(** The example of [tiered_pricing.py]. *)
Definition TieredPricing_example : list (string * value) :=
  [ ("id", VInt 1);
    ("uuid", VStr "01H8X7Y7Z7QWERTYUIOPASDFGH");
    ("billing_entity_uuid", VStr "01H8X7Y7Z7QWERTYUIOPASDFGZ");
    ("tiered_rule_uuid", VStr "01H8X7Y7Z7QWERTYUIOPASDFGA");
    ("effective_date", VStr "2023-11-01");
    ("deleted_date", VNone);
    ("created_timestamp", VStr "2023-10-27T10:00:00.123456");
    ("modified_timestamp", VStr "2023-10-27T10:00:00.123456");
    ("audit_id", VStr "01H8X7Y7Z7QWERTYUIOPASDFGB") ].

(** The example of [tiered_qualifier.py]. *)
Definition TieredQualifier_example : list (string * value) :=
  [ ("id", VInt 1);
    ("uuid", VStr "01H8X7Y7Z7QWERTYUIOPASDFGH");
    ("tiered_rule_uuid", VStr "01H8X7Y7Z7QWERTYUIOPASDFGZ");
    ("fee_category", VStr "TRANSACTION");
    ("fee_code", VStr "PAYMENT_FEE");
    ("negate_fee_summary", VInt 0);
    ("disqualify", VInt 0);
    ("created_timestamp", VStr "2023-10-27T10:00:00.123456");
    ("audit_id", VStr "01H8X7Y7Z7QWERTYUIOPASDFGA") ].

(** The example of [tiered_rule.py]. *)
Definition TieredRule_example : list (string * value) :=
  [ ("id", VInt 1);
    ("uuid", VStr "01H8X7Y7Z7QWERTYUIOPASDFGH");
    ("rule_status", VStr "ACTIVE");
    ("rule_alias", VStr "VOLUME_DISCOUNT");
    ("tiered_basis", VStr "VOLUME");
    ("tiered_model", VStr "APPLY_TO_TIER");
    ("target_entity_type", VStr "MERCHANT");
    ("short_desc", VStr "Volume Based Discount Tiers");
    ("full_desc",
       VStr "Tiered discount structure based on transaction volume for merchants");
    ("created_timestamp", VStr "2023-10-27T10:00:00.123456");
    ("modified_timestamp", VStr "2023-10-27T10:00:00.123456");
    ("audit_id", VStr "01H8X7Y7Z7QWERTYUIOPASDFGA") ].

(** Every model with the example of its [json_schema_extra]. *)
Definition model_examples : list (model * list (string * value)) :=
  [ (AdjustAction, AdjustAction_example);
    (AdjustActionType, AdjustActionType_example);
    (AdjustReason, AdjustReason_example);
    (AppMeterAction, AppMeterAction_example);
    (AppMeterActionFeeCode, AppMeterActionFeeCode_example);
    (AppMeterActionType, AppMeterActionType_example);
    (AppSubActionError, AppSubActionError_example);
    (AutoAdjustAdvice, AutoAdjustAdvice_example);
    (AutoAdjustQualifier, AutoAdjustQualifier_example);
    (AutoAdjustRule, AutoAdjustRule_example);
    (BillingArchetype, BillingArchetype_example);
    (BillingEntity, BillingEntity_example);
    (BillingEntityConfig, BillingEntityConfig_example);
    (BillingEventHistory, BillingEventHistory_example);
    (BillingHierarchy, BillingHierarchy_example);
    (BillingHierarchyCycle, BillingHierarchyCycle_example);
    (BillingHierarchyType, BillingHierarchyType_example);
    (BillingPseudoEntity, BillingPseudoEntity_example);
    (BillingSchedule, BillingSchedule_example);
    (CellularAction, CellularAction_example);
    (CellularActionFeeCode, CellularActionFeeCode_example);
    (ConsumerFailureHistory, ConsumerFailureHistory_example);
    (CycleValidation, CycleValidation_example);
    (CycleValidationMutation, CycleValidationMutation_example);
    (DeserializableFailure, DeserializableFailure_example);
    (FeeCategory, FeeCategory_example);
    (FeeCode, FeeCode_example);
    (FeeCodeApp, FeeCodeApp_example);
    (FeeCodeLedgerAccount, FeeCodeLedgerAccount_example);
    (FeeCtd, FeeCtd_example);
    (FeeRate, FeeRate_example);
    (FeeRateErrorReport, FeeRateErrorReport_example);
    (FeeRateReportActionError, FeeRateReportActionError_example);
    (FeeSummary, FeeSummary_example);
    (FeeTax, FeeTax_example);
    (FeeYtd, FeeYtd_example);
    (FlywaySchemaHistory, FlywaySchemaHistory_example);
    (InvoiceAllianceCode, InvoiceAllianceCode_example);
    (InvoiceInfoAmount, InvoiceInfoAmount_example);
    (InvoiceInfoMutation, InvoiceInfoMutation_example);
    (InvoiceInfoSettlement, InvoiceInfoSettlement_example);
    (InvoiceInfoSettlementMutation, InvoiceInfoSettlementMutation_example);
    (JobAssassinationContract, JobAssassinationContract_example);
    (LedgerAccount, LedgerAccount_example);
    (LedgerAccountAction, LedgerAccountAction_example);
    (LedgerAccountBalance, LedgerAccountBalance_example);
    (LedgerAccountKey, LedgerAccountKey_example);
    (LedgerAccountKeyPurpose, LedgerAccountKeyPurpose_example);
    (LedgerAccountPurpose, LedgerAccountPurpose_example);
    (LedgerAccountSettlement, LedgerAccountSettlement_example);
    (LedgerAccountTransition, LedgerAccountTransition_example);
    (LedgerJournal, LedgerJournal_example);
    (LedgerJournalMutation, LedgerJournalMutation_example);
    (LexiAttribute, LexiAttribute_example);
    (LexiRule, LexiRule_example);
    (Look, Look_example);
    (LookData, LookData_example);
    (MerchantDetail, MerchantDetail_example);
    (MiscActionFeeCode, MiscActionFeeCode_example);
    (MiscActionType, MiscActionType_example);
    (MiscSpecifier, MiscSpecifier_example);
    (ModelFeeSummary, ModelFeeSummary_example);
    (MonetaryAdjustment, MonetaryAdjustment_example);
    (MonetaryAdjustmentMutation, MonetaryAdjustmentMutation_example);
    (MonetaryRuleAlias, MonetaryRuleAlias_example);
    (MonetaryRuleSet, MonetaryRuleSet_example);
    (MonetaryRuleSetRule, MonetaryRuleSetRule_example);
    (PartnerConfig, PartnerConfig_example);
    (PlanAction, PlanAction_example);
    (PlanActionError, PlanActionError_example);
    (PlanActionType, PlanActionType_example);
    (ProcessingGroupDates, ProcessingGroupDates_example);
    (ProcessingNote, ProcessingNote_example);
    (ProcessingNoteMutation, ProcessingNoteMutation_example);
    (PrototypeFeeRate, PrototypeFeeRate_example);
    (PrototypeFeeSet, PrototypeFeeSet_example);
    (RevenueAction, RevenueAction_example);
    (RevenueActionFeeCode, RevenueActionFeeCode_example);
    (RevenueShareGroup, RevenueShareGroup_example);
    (ServerConfig, ServerConfig_example);
    (Settlement, Settlement_example);
    (SettlementAction, SettlementAction_example);
    (SettlementMutation, SettlementMutation_example);
    (SkipFeeCategoryLexiTag, SkipFeeCategoryLexiTag_example);
    (TierDetail, TierDetail_example);
    (TieredPricing, TieredPricing_example);
    (TieredQualifier, TieredQualifier_example);
    (TieredRule, TieredRule_example) ].

End EbbExamples.

(* ================================================================== *)
(** * Further notions *)

Module Notions.
Import Py Pydantic Ebb Nx Json Demo Props EbbExamples.

(** The nineteen constructor calls of [create_pydantic_objects] on the
    models of the repository. *)
Definition sample_constructions : list (model * list (string * value)) :=
  [ (BillingEntity, merchant_billing_entity_kwargs);
    (BillingEntity, clover_billing_entity_kwargs);
    (BillingEntity, us_support_billing_entity_kwargs);
    (FeeRate, fee_rate_1_kwargs); (FeeRate, fee_rate_2_kwargs);
    (FeeRate, fee_rate_3_kwargs); (FeeRate, fee_rate_4_kwargs);
    (FeeRate, fee_rate_5_kwargs); (FeeRate, fee_rate_6_kwargs);
    (FeeSummary, fee_summary_1_kwargs); (FeeSummary, fee_summary_2_kwargs);
    (FeeSummary, fee_summary_3_kwargs); (FeeSummary, fee_summary_4_kwargs);
    (FeeSummary, fee_summary_5_kwargs); (FeeSummary, fee_summary_6_kwargs);
    (Settlement, settlement_1_kwargs); (Settlement, settlement_2_kwargs);
    (Settlement, settlement_3_kwargs); (Settlement, settlement_4_kwargs) ].

(** ** Values that conform to a declaration *)

(** [v] is an instance of the annotated type and is within the
    constraints given to [Field(...)]. *)
Definition conforms (t : ftype) (v : value) : bool :=
  match t, v with
  | TInt gt ge, VInt z =>
      match gt with Some b => (b <? z)%Z | None => true end
      && match ge with Some b => (b <=? z)%Z | None => true end
  | TStr max_length, VStr s =>
      match max_length with Some m => (str_len s <=? m)%nat | None => true end
  | TBool, VBool _ => true
  | TBytes, VBytes _ => true
  | TDecimal md dp, VDecimal d => is_ok (check_digits md dp d)
  | TDate, VDate d => date_ok d
  | TDateTime, VDateTime t => datetime_ok t
  | TEnum cls members, VEnum c m => String.eqb c cls && mem m members
  | TLiteral values, VStr s => mem s values
  | _, _ => false
  end.

(** [None] conforms to an [Optional] field, any other value to the
    field's annotation. *)
Definition field_conforms (f : field) (v : value) : bool :=
  match v with
  | VNone => nullable f
  | _ => conforms (ftyp f) v
  end.

(** The declared default of the field conforms to the field; the clock
    is the default of timestamp fields only. *)
Definition default_conforms (f : field) : bool :=
  match fdflt f with
  | Required => true
  | Default v => field_conforms f v
  | DefaultFactoryNow =>
      match ftyp f with TDateTime => true | _ => false end
  end.

(** ** Errors of a construction *)



(** The model declares [id: int = Field(..., gt=0)]. *)
Definition has_positive_id (m : model) : bool :=
  existsb
    (fun f =>
       String.eqb (fname f) "id"
       && match ftyp f, fdflt f with
          | TInt (Some 0%Z) None, Required => negb (nullable f)
          | _, _ => false
          end)
    (model_fields m).

(** ** Values that [json.dumps] writes without a [default] *)

(** [None], [bool], [int] and [str]. *)
Definition json_native (v : value) : bool :=
  match v with
  | VNone | VBool _ | VInt _ | VStr _ => true
  | _ => false
  end.

(** The instances of the annotated type are JSON values. *)
Definition native_type (t : ftype) : bool :=
  match t with
  | TInt _ _ | TStr _ | TBool | TLiteral _ => true
  | _ => false
  end.

(** [to_minimal_dict] of the model goes through JSON, or every field of
    [MINIMAL_FIELDS] has a JSON type. *)
Definition minimal_native (m : model) : bool :=
  minimal_via_json m
  || forallb
       (fun f => negb (mem (fname f) (MINIMAL_FIELDS m)) || native_type (ftyp f))
       (model_fields m).

(** ** Node attributes *)

(** The attributes that the [add_node] calls for [n] leave on it: every
    call updates the attributes of the calls before. *)
Definition node_attrs (ops : list op) (n : string) : attrs :=
  fold_left
    (fun acc o =>
       match o with
       | AddNode m a => if String.eqb m n then dict_update acc a else acc
       | AddEdge _ _ => acc
       end)
    ops [].

(** The calls [add_node(n, ...)] among [ops]. *)
Definition adds_node (n : string) (o : op) : bool :=
  match o with
  | AddNode m _ => String.eqb m n
  | AddEdge _ _ => false
  end.

(** The attributes of [n] in [G] are [acc], where a node that is not in
    the graph counts as one without attributes. *)
Definition attrs_are (G : DiGraph) (n : string) (acc : attrs) : Prop :=
  match lookup n (g_node G) with
  | Some a => a = acc
  | None => acc = []
  end.

(** ** Characters of a text *)







(** ** Values written through [default=str] *)

(** A decimal, a date or a timestamp: [json.dumps] has no form for it
    and writes [str(v)]. *)
Definition written_as_str (v : value) : bool :=
  match v with
  | VDecimal _ | VDate _ | VDateTime _ => true
  | _ => false
  end.

(** ** The nodes of the sample graph *)

(** For every [add_node] call of [create_graph]: the node identifier,
    the table tag, and the constructor call of [create_pydantic_objects]
    whose object the call reads from [pydantic_objects]. *)
Definition sample_node_sources (InvoiceInfo : model)
  : list (string * string * (model * list (string * value))) :=
  [ ("billing_entity_merchant", "billing_entity",
       (BillingEntity, merchant_billing_entity_kwargs));
    ("billing_entity_clover", "billing_entity",
       (BillingEntity, clover_billing_entity_kwargs));
    ("billing_entity_us_support", "billing_entity",
       (BillingEntity, us_support_billing_entity_kwargs));
    ("invoice_info_1", "invoice_info", (InvoiceInfo, invoice_info_kwargs));
    ("fee_rate_1", "fee_rate", (FeeRate, fee_rate_1_kwargs));
    ("fee_rate_2", "fee_rate", (FeeRate, fee_rate_2_kwargs));
    ("fee_rate_3", "fee_rate", (FeeRate, fee_rate_3_kwargs));
    ("fee_rate_4", "fee_rate", (FeeRate, fee_rate_4_kwargs));
    ("fee_rate_5", "fee_rate", (FeeRate, fee_rate_5_kwargs));
    ("fee_rate_6", "fee_rate", (FeeRate, fee_rate_6_kwargs));
    ("fee_summary_1", "fee_summary", (FeeSummary, fee_summary_1_kwargs));
    ("fee_summary_2", "fee_summary", (FeeSummary, fee_summary_2_kwargs));
    ("fee_summary_3", "fee_summary", (FeeSummary, fee_summary_3_kwargs));
    ("fee_summary_4", "fee_summary", (FeeSummary, fee_summary_4_kwargs));
    ("fee_summary_5", "fee_summary", (FeeSummary, fee_summary_5_kwargs));
    ("fee_summary_6", "fee_summary", (FeeSummary, fee_summary_6_kwargs));
    ("settlement_1", "settlement", (Settlement, settlement_1_kwargs));
    ("settlement_2", "settlement", (Settlement, settlement_2_kwargs));
    ("settlement_3", "settlement", (Settlement, settlement_3_kwargs));
    ("settlement_4", "settlement", (Settlement, settlement_4_kwargs)) ].

(** ** The note on [MINIMAL_FIELDS] *)



(** ** Reachability *)

(** There is a path of at most [fuel] edges of [E] from [u] to [v]. *)
Fixpoint reach (E : list (string * string)) (fuel : nat) (u v : string)
  : bool :=
  match fuel with
  | O => false
  | S fuel' =>
      existsb
        (fun e =>
           if String.eqb (fst e) u
           then if String.eqb (snd e) v then true else reach E fuel' (snd e) v
           else false)
        E
  end.

(** ** Small inputs for the examples *)

(** A node added twice, an edge between two nodes that no [add_node]
    call names, and the same edge again. *)
Definition small_ops : list op :=
  [ AddNode "a" [("table", OVal (VStr "t"))];
    AddEdge "b" "c";
    AddNode "a" [("table", OVal (VStr "u")); ("id", OVal (VStr "z"))];
    AddEdge "b" "c";
    AddEdge "a" "b" ].


End Notions.

(* ================================================================== *)
(** * Lemmas on dicts and on validation *)

Import Py Pydantic Ebb Nx Json Demo Props.

Lemma mem_In (k : string) (l : list string) : mem k l = true <-> In k l.
Proof.
  induction l as [|x l IH]; simpl.
  - split; [discriminate | tauto].
  - rewrite orb_true_iff, IH, String.eqb_eq. intuition congruence.
Qed.

Lemma mem_false_In (k : string) (l : list string) : mem k l = false <-> ~ In k l.
Proof.
  rewrite <- mem_In. destruct (mem k l); intuition congruence.
Qed.

Lemma distinct_NoDup (l : list string) : distinct l = true -> NoDup l.
Proof.
  induction l as [|x l IH]; simpl; intros H; constructor.
  - apply andb_true_iff in H. destruct H as [H _].
    apply negb_true_iff in H. now apply mem_false_In.
  - apply IH. now apply andb_true_iff in H.
Qed.

Lemma lookup_None_keys {V} (k : string) (d : list (string * V)) :
  lookup k d = None <-> ~ In k (keys d).
Proof.
  induction d as [|[k' v] d IH]; simpl.
  - tauto.
  - destruct (String.eqb_spec k k') as [->|Hne].
    + split; [discriminate | tauto].
    + rewrite IH. intuition congruence.
Qed.

Lemma lookup_app_r {V} (k : string) (d1 d2 : list (string * V)) :
  ~ In k (keys d1) -> lookup k (d1 ++ d2)%list = lookup k d2.
Proof.
  induction d1 as [|[k' v] d1 IH]; simpl; intros H; [reflexivity|].
  destruct (String.eqb_spec k k') as [->|Hne]; [tauto|].
  apply IH. tauto.
Qed.

Lemma lookup_filter_keys {V} (names : list string) (k : string)
    (d : list (string * V)) :
  mem k names = true ->
  lookup k (filter (fun kv => mem (fst kv) names) d) = lookup k d.
Proof.
  intros Hk. induction d as [|[k' v] d IH]; simpl; [reflexivity|].
  destruct (mem k' names) eqn:Hk'; simpl.
  - now rewrite IH.
  - destruct (String.eqb_spec k k') as [->|_]; [congruence | exact IH].
Qed.

Lemma lookup_filter_out {V} (names : list string) (k : string)
    (d : list (string * V)) :
  mem k names = false ->
  lookup k (filter (fun kv => mem (fst kv) names) d) = None.
Proof.
  intros Hk. apply lookup_None_keys. unfold keys. rewrite in_map_iff.
  intros [[k' v] [Hk' Hin]]. simpl in Hk'. subst k'.
  apply filter_In in Hin. simpl in Hin. destruct Hin as [_ Hin]. congruence.
Qed.

Lemma lookup_map_values {V W} (g : V -> W) (k : string)
    (d : list (string * V)) :
  lookup k (map (fun kv => (fst kv, g (snd kv))) d) = option_map g (lookup k d).
Proof.
  induction d as [|[k' v] d IH]; simpl; [reflexivity|].
  now destruct (String.eqb k k').
Qed.

Lemma keys_map_values {V W} (g : V -> W) (d : list (string * V)) :
  keys (map (fun kv => (fst kv, g (snd kv))) d) = keys d.
Proof.
  unfold keys. rewrite map_map. reflexivity.
Qed.

Lemma keys_filter {V} (p : string -> bool) (d : list (string * V)) :
  keys (filter (fun kv => p (fst kv)) d) = filter p (keys d).
Proof.
  induction d as [|[k v] d IH]; simpl; [reflexivity|].
  destruct (p k); simpl; now rewrite IH.
Qed.


(** ** The shape of a successful validation *)


Lemma model_construct_inv now m kw o :
  model_construct now m kw = Ok o ->
  obj_model o = m /\
  validate_fields now (model_fields m) kw = (obj_values o, []).
Proof.
  unfold model_construct.
  destruct (validate_fields now (model_fields m) kw) as [vals [|e errs]];
    intros H; inversion H; subst; simpl; auto.
Qed.




Lemma validate_fields_acceptable now fs kw :
  forallb
    (fun f =>
       match lookup (fname f) kw with
       | Some v => is_ok (validate_field f v)
       | None => match fdflt f with Required => false | _ => true end
       end) fs = true ->
  snd (validate_fields now fs kw) = [].
Proof.
  induction fs as [|g fs IH]; simpl; intros H; [reflexivity|].
  apply andb_true_iff in H. destruct H as [Hg H]. specialize (IH H).
  destruct (validate_fields now fs kw) as [vals' errs']. simpl in IH. subst.
  destruct (lookup (fname g) kw) as [v0|].
  - destruct (validate_field g v0); simpl in *; [reflexivity | discriminate].
  - destruct (fdflt g); simpl in *; [discriminate | reflexivity | reflexivity].
Qed.

Lemma keys_to_minimal_dict (o : instance) :
  keys (to_minimal_dict o)
  = filter (fun k => mem k (MINIMAL_FIELDS (obj_model o))) (keys (obj_values o)).
Proof.
  unfold to_minimal_dict, model_dump_json_include, model_dump_include.
  destruct (minimal_via_json (obj_model o)).
  - rewrite keys_map_values.
    exact (keys_filter (fun k => mem k (MINIMAL_FIELDS (obj_model o))) _).
  - exact (keys_filter (fun k => mem k (MINIMAL_FIELDS (obj_model o))) _).
Qed.

Lemma lookup_to_minimal_dict (o : instance) (k : string) :
  lookup k (to_minimal_dict o)
  = if mem k (MINIMAL_FIELDS (obj_model o))
    then option_map
           (if minimal_via_json (obj_model o) then to_jsonable else fun v => v)
           (lookup k (obj_values o))
    else None.
Proof.
  unfold to_minimal_dict, model_dump_json_include, model_dump_include.
  destruct (mem k (MINIMAL_FIELDS (obj_model o))) eqn:Hk;
    destruct (minimal_via_json (obj_model o)).
  - rewrite lookup_map_values. now rewrite lookup_filter_keys.
  - rewrite lookup_filter_keys by assumption. now destruct (lookup k _).
  - rewrite lookup_map_values. now rewrite lookup_filter_out.
  - now apply lookup_filter_out.
Qed.


Lemma all_models_well_declared :
  forallb well_declared all_models = true.
Proof. vm_compute. reflexivity. Qed.

(* ================================================================== *)
(** * The minimal projection *)



(* ================================================================== *)
(** * Construction *)



(* ================================================================== *)
(** * The sample graph *)

Lemma bind_ok_inv {E A B} (r : result E A) (k : A -> result E B) (b : B) :
  bind r k = Ok b -> exists a, r = Ok a /\ k a = Ok b.
Proof.
  destruct r; simpl; intros H; [eauto | discriminate].
Qed.

Lemma is_ok_inv {E A} (r : result E A) :
  is_ok r = true -> exists a, r = Ok a.
Proof.
  destruct r; simpl; intros H; [eauto | discriminate].
Qed.

Lemma add_data_node_inv node_id data key table G0 G1 :
  add_data_node node_id data key table G0 = Ok G1 ->
  exists obj,
    lookup key data = Some obj
    /\ G1 = add_node node_id (create_node_data obj table) G0.
Proof.
  unfold add_data_node, getitem.
  destruct (lookup key data); simpl; intros H; [|discriminate].
  injection H as <-. eauto.
Qed.

(** When [create_graph] returns, every constructor call has returned an
    instance and the graph is the one that the node and edge calls build
    from these instances.  The tactic replaces [G] by that expression,
    with the minimal and the others dict of every node as variables. *)
Ltac open_create_graph H :=
  let data := fresh "data" in
  let Hdata := fresh "Hdata" in
  let HG := fresh "HG" in
  let Hl := fresh "Hl" in
  unfold create_graph in H;
  apply bind_ok_inv in H; destruct H as [data [Hdata H]];
  unfold create_pydantic_objects in Hdata;
  do 20 (apply bind_ok_inv in Hdata; destruct Hdata as [? [_ Hdata]];
         cbv beta in Hdata);
  injection Hdata as <-;
  do 20 (apply bind_ok_inv in H; destruct H as [? [HG H]]; cbv beta in H;
         apply add_data_node_inv in HG; destruct HG as [? [Hl ->]];
         cbv [lookup String.eqb Ascii.eqb Bool.eqb] in Hl;
         injection Hl as <-);
  cbv zeta in H; injection H as <-;
  unfold create_node_data, leaf_dict;
  repeat match goal with
         | |- context [ODict (map ?f ?d)] => generalize (map f d); intro
         end.

Lemma create_graph_edges InvoiceInfo now G :
  create_graph InvoiceInfo now = Ok G -> edges G = sample_edges.
Proof.
  intros H. open_create_graph H. vm_compute. reflexivity.
Qed.

Lemma NoDup_sample_edges : NoDup sample_edges.
Proof.
  apply (NoDup_map_inv (fun e => fst e ++ "|" ++ snd e)).
  apply distinct_NoDup. vm_compute. reflexivity.
Qed.

(** C2: the graph that [create_graph] returns has the 20 nodes and the
    27 edges of the sample, in this order: one edge from the merchant
    billing entity to the invoice, six from the invoice to the fee
    rates, one from each fee rate to its own fee summary, six from the
    fee summaries to the settlements, of which three end in
    [settlement_4] and the other three each in a settlement of their
    own, and two from each of the four settlements to the two
    downstream billing entities. *)
Theorem sample_graph_shape :
  forall (InvoiceInfo : model) (now : datetime) (G : DiGraph),
    create_graph InvoiceInfo now = Ok G ->
    nodes G = sample_nodes /\ List.length (nodes G) = 20
    /\ edges G = sample_edges /\ List.length (edges G) = 27
    /\ NoDup (edges G)
    /\ edges_between G "billing_entity" "invoice_info"
       = [("billing_entity_merchant", "invoice_info_1")]
    /\ List.length (edges_between G "invoice_info" "fee_rate") = 6
    /\ successors G "invoice_info_1"
       = ["fee_rate_1"; "fee_rate_2"; "fee_rate_3";
          "fee_rate_4"; "fee_rate_5"; "fee_rate_6"]
    /\ List.length (edges_between G "fee_rate" "fee_summary") = 6
    /\ map (successors G)
         ["fee_rate_1"; "fee_rate_2"; "fee_rate_3";
          "fee_rate_4"; "fee_rate_5"; "fee_rate_6"]
       = [["fee_summary_1"]; ["fee_summary_2"]; ["fee_summary_3"];
          ["fee_summary_4"]; ["fee_summary_5"]; ["fee_summary_6"]]
    /\ map (predecessors G)
         ["fee_summary_1"; "fee_summary_2"; "fee_summary_3";
          "fee_summary_4"; "fee_summary_5"; "fee_summary_6"]
       = [["fee_rate_1"]; ["fee_rate_2"]; ["fee_rate_3"];
          ["fee_rate_4"]; ["fee_rate_5"]; ["fee_rate_6"]]
    /\ List.length (edges_between G "fee_summary" "settlement") = 6
    /\ map (successors G)
         ["fee_summary_1"; "fee_summary_2"; "fee_summary_3";
          "fee_summary_4"; "fee_summary_5"; "fee_summary_6"]
       = [["settlement_1"]; ["settlement_2"]; ["settlement_3"];
          ["settlement_4"]; ["settlement_4"]; ["settlement_4"]]
    /\ map (predecessors G)
         ["settlement_1"; "settlement_2"; "settlement_3"; "settlement_4"]
       = [["fee_summary_1"]; ["fee_summary_2"]; ["fee_summary_3"];
          ["fee_summary_4"; "fee_summary_5"; "fee_summary_6"]]
    /\ List.length (edges_between G "settlement" "billing_entity") = 8
    /\ map (successors G)
         ["settlement_1"; "settlement_2"; "settlement_3"; "settlement_4"]
       = repeat ["billing_entity_clover"; "billing_entity_us_support"] 4
    /\ List.length (edges_between G "billing_entity" "invoice_info")
       + List.length (edges_between G "invoice_info" "fee_rate")
       + List.length (edges_between G "fee_rate" "fee_summary")
       + List.length (edges_between G "fee_summary" "settlement")
       + List.length (edges_between G "settlement" "billing_entity")
       = List.length (edges G).
Proof.
  intros InvoiceInfo now G H.
  assert (Hnd : NoDup (edges G)).
  { rewrite (create_graph_edges _ _ _ H). exact NoDup_sample_edges. }
  revert Hnd. open_create_graph H. intros Hnd.
  repeat match goal with |- _ /\ _ => split end;
    try exact Hnd; vm_compute; reflexivity.
Qed.

(** The sample graph built with [InvoiceInfo_model]. *)
Lemma sample_graph_shape_witness :
  exists G,
    create_graph InvoiceInfo_model clock_1 = Ok G
    /\ List.length (nodes G) = 20 /\ List.length (edges G) = 27
    /\ edges G = sample_edges.
Proof.
  assert (Hok : is_ok (create_graph InvoiceInfo_model clock_1) = true)
    by (vm_compute; reflexivity).
  destruct (is_ok_inv _ Hok) as [G E].
  exists G. split; [exact E|].
  destruct (sample_graph_shape InvoiceInfo_model clock_1 G E)
    as [_ [H20 [Hedges [H27 _]]]].
  auto.
Defined.

(** Every edge of the sample leads to a later stage of the flow. *)
Lemma sample_edges_forward :
  forall u v, In (u, v) sample_edges -> stage u < stage v.
Proof.
  assert (H : forallb (fun e => Nat.ltb (stage (fst e)) (stage (snd e))) sample_edges
              = true) by (vm_compute; reflexivity).
  intros u v Hin.
  apply Nat.ltb_lt.
  exact (proj1 (forallb_forall _ _) H (u, v) Hin).
Qed.

(** C10: in the graph that [create_graph] returns no path leads from a
    node back to itself. *)
Theorem sample_graph_acyclic :
  forall (InvoiceInfo : model) (now : datetime) (G : DiGraph),
    create_graph InvoiceInfo now = Ok G ->
    forall n, ~ path G n n.
Proof.
  intros InvoiceInfo now G H n Hpath.
  pose proof (create_graph_edges _ _ _ H) as Hedges.
  assert (Hlt : forall a b, path G a b -> stage a < stage b).
  { intros a b Hab. induction Hab as [a b Hab | a b c Hab _ IH].
    - apply sample_edges_forward. unfold edge in Hab. now rewrite <- Hedges.
    - apply Nat.lt_trans with (stage b); [|exact IH].
      apply sample_edges_forward. unfold edge in Hab. now rewrite <- Hedges. }
  specialize (Hlt n n Hpath). lia.
Qed.

(** The sample graph built with [InvoiceInfo_model] and the node
    [settlement_4], on which three fee summaries converge. *)
Lemma sample_graph_acyclic_witness :
  exists G,
    create_graph InvoiceInfo_model clock_1 = Ok G
    /\ ~ path G "settlement_4" "settlement_4".
Proof.
  assert (Hok : is_ok (create_graph InvoiceInfo_model clock_1) = true)
    by (vm_compute; reflexivity).
  destruct (is_ok_inv _ Hok) as [G E].
  exists G. split; [exact E|].
  exact (sample_graph_acyclic InvoiceInfo_model clock_1 G E "settlement_4").
Defined.

(* ================================================================== *)
(** * Determinism of the sample document *)

Lemma validate_fields_clock now1 now2 fs kw :
  existsb
    (fun f =>
       match fdflt f with
       | DefaultFactoryNow => negb (mem (fname f) (keys kw))
       | _ => false
       end) fs = false ->
  validate_fields now1 fs kw = validate_fields now2 fs kw.
Proof.
  induction fs as [|f fs IH]; simpl; intros H; [reflexivity|].
  apply orb_false_iff in H. destruct H as [Hf H].
  rewrite (IH H).
  destruct (validate_fields now2 fs kw) as [vals errs].
  destruct (lookup (fname f) kw) as [v|] eqn:L; [reflexivity|].
  destruct (fdflt f); try reflexivity.
  apply negb_false_iff, mem_In in Hf.
  apply lookup_None_keys in L. contradiction.
Qed.

(** A construction that does not read the clock returns the same
    instance, or raises the same error, at any time. *)
Lemma model_construct_clock now1 now2 m kw :
  reads_clock m kw = false ->
  model_construct now1 m kw = model_construct now2 m kw.
Proof.
  intros H. unfold model_construct.
  now rewrite (validate_fields_clock now1 now2 (model_fields m) kw H).
Qed.





(** The condition on [InvoiceInfo] is needed: with a modification
    timestamp that defaults to the time of construction, as the sibling
    models declare it, the two documents differ. *)
Example clocked_invoice_info_documents_differ :
  String.eqb (fst (main InvoiceInfo_clocked exception_summary clock_1))
             (fst (main InvoiceInfo_clocked exception_summary clock_2))
  = false.
Proof. vm_compute. reflexivity. Qed.

(* ================================================================== *)
(** * The entry point *)

(** What [main] and the [__main__] block do, by the outcome of
    [create_graph]. *)
Lemma main_outcomes InvoiceInfo exception_str now :
  match create_graph InvoiceInfo now with
  | Ok G =>
      main InvoiceInfo exception_str now = (print (serialize_graph G), 0%Z)
      /\ run_as_script InvoiceInfo exception_str now
         = (print (serialize_graph G), 0%Z)
  | Err e =>
      main InvoiceInfo exception_str now
      = (print ("Error: " ++ exception_str e), 1%Z)
      /\ run_as_script InvoiceInfo exception_str now
         = (print ("Error: " ++ exception_str e), 0%Z)
  end.
Proof.
  unfold run_as_script, main.
  destruct (create_graph InvoiceInfo now); simpl; auto.
Qed.


(* ================================================================== *)
(** * Rendering of the two buckets *)

Lemma lookup_filter_neg {V} (p : string -> bool) (k : string)
    (d : list (string * V)) :
  p k = false ->
  lookup k (filter (fun kv => negb (p (fst kv))) d) = lookup k d.
Proof.
  intros Hk. induction d as [|[k' v] d IH]; simpl; [reflexivity|].
  destruct (p k') eqn:Hk'; simpl.
  - destruct (String.eqb_spec k k') as [->|_]; [congruence | exact IH].
  - now rewrite IH.
Qed.

Lemma mem_keys_to_minimal_dict (o : instance) (k : string) (v : value) :
  lookup k (obj_values o) = Some v ->
  mem k (keys (to_minimal_dict o)) = mem k (MINIMAL_FIELDS (obj_model o)).
Proof.
  intros Hv.
  assert (Hin : In k (keys (obj_values o))).
  { destruct (in_dec string_dec k (keys (obj_values o))) as [H|H]; [exact H|].
    apply lookup_None_keys in H. congruence. }
  destruct (mem k (MINIMAL_FIELDS (obj_model o))) eqn:Hm.
  - apply mem_In. rewrite keys_to_minimal_dict. apply filter_In. auto.
  - apply mem_false_In. rewrite keys_to_minimal_dict, filter_In. intros [_ H].
    congruence.
Qed.

(** The merchant's creation timestamp is written with a space in the
    [others] dict, while the conversion of the minimal projection writes
    a timestamp with a [T]. *)
Lemma others_timestamp_rendering_differs :
  exists o v,
    model_construct clock_1 BillingEntity merchant_billing_entity_kwargs = Ok o
    /\ bucket "others" o "billing_entity" "created_timestamp" = Some (OVal v)
    /\ dumps_value v = json_string "2025-02-26 17:06:39.670150"
    /\ dumps_value (to_jsonable v) = json_string "2025-02-26T17:06:39.670150"
    /\ dumps_value v <> dumps_value (to_jsonable v).
Proof.
  eexists. eexists.
  split; [vm_compute; reflexivity|].
  split; [vm_compute; reflexivity|].
  split; [vm_compute; reflexivity|].
  split; [vm_compute; reflexivity|].
  vm_compute. discriminate.
Qed.

(** C4 (amended): an attribute of the minimal set goes to the [minimal]
    dict through the JSON conversion of the model, any other attribute
    goes to the [others] dict as it is and is written by [json.dumps].
    Both ways write a decimal as the same string, a date as the same
    ISO text and an enumeration member as its value; a timestamp is
    written as date, [T], time by the conversion of the minimal
    projection and as date, space, time in [others]. *)
Theorem bucket_rendering :
  forall (o : instance) (table k : string) (v : value),
    lookup k (obj_values o) = Some v ->
    (if mem k (MINIMAL_FIELDS (obj_model o))
     then bucket "minimal" o table k
          = Some (OVal (if minimal_via_json (obj_model o)
                        then to_jsonable v else v))
          /\ bucket "others" o table k = None
     else bucket "others" o table k = Some (OVal v)
          /\ bucket "minimal" o table k = None)
    /\ match v with
       | VDecimal d =>
           dumps_value v = json_string (Decimal_str d)
           /\ dumps_value (to_jsonable v) = json_string (Decimal_str d)
       | VDate d =>
           dumps_value v = json_string (date_isoformat d)
           /\ dumps_value (to_jsonable v) = json_string (date_isoformat d)
       | VEnum _ m =>
           dumps_value v = json_string m
           /\ dumps_value (to_jsonable v) = json_string m
       | VDateTime t =>
           dumps_value v
           = json_string (date_isoformat (dt_date t)
                          ++ String " " (time_isoformat t))
           /\ dumps_value (to_jsonable v)
              = json_string (date_isoformat (dt_date t)
                             ++ String "T" (time_isoformat t))
       | VBytes _ => True
       | _ => dumps_value v = dumps_value (to_jsonable v)
       end.
Proof.
  intros o table k v Hv. split.
  - pose proof (mem_keys_to_minimal_dict o k v Hv) as Hmem.
    unfold bucket, create_node_data. simpl. unfold leaf_dict.
    rewrite !lookup_map_values.
    destruct (mem k (MINIMAL_FIELDS (obj_model o))) eqn:Hm; split.
    + rewrite lookup_to_minimal_dict, Hm, Hv.
      now destruct (minimal_via_json (obj_model o)).
    + replace (lookup k _) with (@None value); [reflexivity|].
      symmetry. apply lookup_None_keys.
      rewrite (keys_filter
                 (fun k0 => negb (mem k0 (keys (to_minimal_dict o))))).
      rewrite filter_In, Hmem. intros [_ H]. discriminate.
    + rewrite (lookup_filter_neg
                 (fun k0 => mem k0 (keys (to_minimal_dict o)))) by exact Hmem.
      unfold model_dump. now rewrite Hv.
    + rewrite lookup_to_minimal_dict, Hm. reflexivity.
  - destruct v; simpl; auto.
Qed.

(** The fee amount of the first fee rate, a decimal of the minimal set,
    and its creation timestamp, which is not in the minimal set. *)
Lemma bucket_rendering_witness :
  exists o,
    model_construct clock_1 FeeRate fee_rate_1_kwargs = Ok o
    /\ bucket "minimal" o "fee_rate" "per_item_amount" = Some (OVal (VStr "9.99"))
    /\ bucket "others" o "fee_rate" "created_timestamp"
       = Some (OVal (VDateTime (mkDateTime (mkDate 2025 2 25) 19 36 38 626269))).
Proof.
  let r := eval vm_compute in
             (model_construct clock_1 FeeRate fee_rate_1_kwargs) in
  match r with Ok ?o => exists o end.
  split; [vm_compute; reflexivity|].
  split.
  - match goal with
    | |- bucket _ ?o _ _ = _ =>
        destruct (bucket_rendering o "fee_rate" "per_item_amount"
                    (VDecimal (mkDecimal false 999 (-2))) eq_refl)
          as [Hb _]
    end.
    match type of Hb with
    | if ?c then _ else _ =>
        replace c with true in Hb by (vm_compute; reflexivity)
    end.
    exact (proj1 Hb).
  - match goal with
    | |- bucket _ ?o _ _ = _ =>
        destruct (bucket_rendering o "fee_rate" "created_timestamp"
                    (VDateTime (mkDateTime (mkDate 2025 2 25) 19 36 38 626269))
                    eq_refl)
          as [Hb _]
    end.
    match type of Hb with
    | if ?c then _ else _ =>
        replace c with false in Hb by (vm_compute; reflexivity)
    end.
    exact (proj1 Hb).
Defined.

(* ================================================================== *)
(** * Decimal places *)




(** A field that rejects its input makes the construction fail. *)
Lemma validate_fields_rejected now fs kw f v e :
  In f fs -> lookup (fname f) kw = Some v -> validate_field f v = Err e ->
  In (fname f, e) (snd (validate_fields now fs kw)).
Proof.
  induction fs as [|g fs IH]; simpl; intros Hin Hl Hv; [contradiction|].
  destruct (validate_fields now fs kw) as [vals' errs'] eqn:E. simpl in IH.
  destruct Hin as [->|Hin].
  - rewrite Hl, Hv. simpl. now left.
  - specialize (IH Hin Hl Hv).
    destruct (lookup (fname g) kw) as [v0|].
    + destruct (validate_field g v0); simpl; auto.
    + destruct (fdflt g); simpl; auto.
Qed.




(* ================================================================== *)
(** * The order of nodes and edges in a built graph *)

Lemma mem_existsb (k : string) (l : list string) :
  mem k l = existsb (String.eqb k) l.
Proof.
  induction l as [|x l IH]; simpl; [reflexivity | now rewrite IH].
Qed.

Lemma existsb_eqb_In (k : string) (l : list string) :
  existsb (String.eqb k) l = true <-> In k l.
Proof.
  rewrite <- mem_existsb. apply mem_In.
Qed.

Lemma edge_eqb_eq (e1 e2 : string * string) :
  edge_eqb e1 e2 = true <-> e1 = e2.
Proof.
  destruct e1 as [a b], e2 as [c d]. unfold edge_eqb. simpl.
  rewrite andb_true_iff, !String.eqb_eq. split.
  - intros [-> ->]. reflexivity.
  - intros H. inversion H. auto.
Qed.

Lemma first_occurrences_fold {A} (eqb : A -> A -> bool) (l acc : list A) :
  (acc ++ first_occurrences eqb acc l)%list
  = fold_left (fun a x => add_new eqb x a) l acc.
Proof.
  revert acc. induction l as [|x l IH]; intros acc; simpl.
  - apply List.app_nil_r.
  - unfold add_new at 2. destruct (existsb (eqb x) acc).
    + apply IH.
    + rewrite <- IH, <- List.app_assoc. reflexivity.
Qed.

Lemma fold_left_flat_map {A B C} (f : A -> B -> A) (g : C -> list B)
    (l : list C) (a : A) :
  fold_left f (flat_map g l) a
  = fold_left (fun acc c => fold_left f (g c) acc) l a.
Proof.
  revert a. induction l as [|c l IH]; intros a; simpl; [reflexivity|].
  now rewrite fold_left_app, IH.
Qed.

Lemma fold_left_pointwise {A B} (f g : A -> B -> A) (l : list B) (a : A) :
  (forall x y, f x y = g x y) -> fold_left f l a = fold_left g l a.
Proof.
  intros H. revert a. induction l as [|y l IH]; intros a; simpl;
    [reflexivity|]. now rewrite H, IH.
Qed.

Lemma insertion_order_nodes_fold (ops : list op) :
  insertion_order_nodes ops = fold_left step_nodes ops [].
Proof.
  unfold insertion_order_nodes.
  change (first_occurrences String.eqb [] (named_nodes ops))
    with ([] ++ first_occurrences String.eqb [] (named_nodes ops))%list.
  rewrite first_occurrences_fold. unfold named_nodes.
  rewrite fold_left_flat_map.
  apply fold_left_pointwise. intros N [n a|u v]; reflexivity.
Qed.

Lemma insertion_order_edges_fold (ops : list op) :
  insertion_order_edges ops = fold_left step_edges ops [].
Proof.
  unfold insertion_order_edges.
  change (first_occurrences edge_eqb [] (added_edges ops))
    with ([] ++ first_occurrences edge_eqb [] (added_edges ops))%list.
  rewrite first_occurrences_fold. unfold added_edges.
  rewrite fold_left_flat_map.
  apply fold_left_pointwise. intros N [n a|u v]; reflexivity.
Qed.

(** ** Dicts *)

Lemma keys_dict_set {V} (k : string) (v : V) (d : list (string * V)) :
  keys (dict_set k v d) = add_new String.eqb k (keys d).
Proof.
  unfold add_new. induction d as [|[k' v'] d IH]; simpl; [reflexivity|].
  destruct (String.eqb k k') eqn:E; simpl; [reflexivity|].
  rewrite IH. now destruct (existsb (String.eqb k) (keys d)).
Qed.

Lemma dict_set_absent {V} (k : string) (v : V) (d : list (string * V)) :
  ~ In k (keys d) -> dict_set k v d = (d ++ [(k, v)])%list.
Proof.
  induction d as [|[k' v'] d IH]; simpl; intros H; [reflexivity|].
  destruct (String.eqb_spec k k') as [->|_]; [tauto|].
  rewrite IH by tauto. reflexivity.
Qed.

Lemma map_dict_set {V W} (h : V -> W) (k : string) (x : V)
    (d : list (string * V)) :
  map (fun nn => (fst nn, h (snd nn))) (dict_set k x d)
  = dict_set k (h x) (map (fun nn => (fst nn, h (snd nn))) d).
Proof.
  induction d as [|[k' v'] d IH]; simpl; [reflexivity|].
  destruct (String.eqb k k'); simpl; [reflexivity | now rewrite IH].
Qed.

Lemma dict_set_keyed {W} (F : string -> W) (u : string) (x : W)
    (N : list string) :
  NoDup N -> In u N ->
  dict_set u x (map (fun n => (n, F n)) N)
  = map (fun n => (n, if String.eqb n u then x else F n)) N.
Proof.
  induction N as [|n N IH]; simpl; intros Hnd Hin; [contradiction|].
  inversion Hnd as [|? ? Hnotin Hnd']; subst.
  destruct (String.eqb_spec u n) as [->|Hne].
  - rewrite String.eqb_refl. f_equal.
    apply map_ext_in. intros n' Hn'.
    destruct (String.eqb_spec n' n) as [->|_]; [contradiction | reflexivity].
  - destruct (String.eqb_spec n u) as [->|_]; [congruence|].
    f_equal. apply IH; [exact Hnd'|]. destruct Hin; [congruence | assumption].
Qed.

Lemma lookup_keyed {W} (F : string -> W) (u : string) (N : list string) :
  In u N -> lookup u (map (fun n => (n, F n)) N) = Some (F u).
Proof.
  induction N as [|n N IH]; simpl; intros Hin; [contradiction|].
  destruct (String.eqb_spec u n) as [->|Hne]; [reflexivity|].
  apply IH. destruct Hin; [congruence | assumption].
Qed.

Lemma keys_keyed {W} (F : string -> W) (N : list string) :
  keys (map (fun n => (n, F n)) N) = N.
Proof.
  unfold keys. rewrite map_map. simpl. apply map_id.
Qed.

(** ** Edges of an adjacency *)

Lemma mem_out (E : list (string * string)) (u v : string) :
  existsb (String.eqb v) (out E u) = existsb (edge_eqb (u, v)) E.
Proof.
  unfold out. induction E as [|[a b] E IH]; simpl; [reflexivity|].
  unfold edge_eqb at 1. simpl.
  rewrite (String.eqb_sym u a).
  destruct (String.eqb a u); simpl; [now rewrite IH | exact IH].
Qed.

Lemma out_app (E1 E2 : list (string * string)) (n : string) :
  out (E1 ++ E2) n = (out E1 n ++ out E2 n)%list.
Proof.
  unfold out. now rewrite filter_app, map_app.
Qed.

Lemma out_nil_not_source (E : list (string * string)) (n : string) :
  (forall e, In e E -> fst e <> n) -> out E n = [].
Proof.
  unfold out. induction E as [|e E IH]; simpl; intros H; [reflexivity|].
  destruct (String.eqb_spec (fst e) n) as [Heq|_].
  - exfalso. exact (H e (or_introl eq_refl) Heq).
  - apply IH. intros e' He'. apply H. now right.
Qed.

Lemma pair_out (E : list (string * string)) (n : string) :
  map (pair n) (out E n) = filter (fun e => String.eqb (fst e) n) E.
Proof.
  unfold out. induction E as [|[a b] E IH]; simpl; [reflexivity|].
  destruct (String.eqb_spec a n) as [->|_]; simpl; [now rewrite IH | exact IH].
Qed.

Lemma edges_adjacency (G : DiGraph) :
  edges G = flat_map (fun nv => map (pair (fst nv)) (snd nv)) (adjacency G).
Proof.
  unfold edges, adjacency.
  induction (g_succ G) as [|[n nbrs] l IH]; simpl; [reflexivity|].
  rewrite IH. f_equal. unfold keys. now rewrite map_map.
Qed.

Lemma keys_g_succ (G : DiGraph) : keys (g_succ G) = keys (adjacency G).
Proof.
  unfold adjacency, keys. now rewrite map_map.
Qed.

Lemma lookup_adjacency (G : DiGraph) (n : string) :
  lookup n (adjacency G) = option_map keys (lookup n (g_succ G)).
Proof.
  unfold adjacency. apply lookup_map_values.
Qed.

(** ** The calls keep the representation *)

Lemma represents_empty : represents Nx.empty [] [].
Proof.
  repeat split; simpl; auto using NoDup_nil; contradiction.
Qed.

Lemma represents_succ_lookup G N E n :
  represents G N E ->
  (lookup n (g_succ G) = None <-> ~ In n N).
Proof.
  intros [_ [Hadj _]]. rewrite lookup_None_keys, keys_g_succ, Hadj.
  now rewrite keys_keyed.
Qed.

Lemma add_new_absent n (N : list string) :
  ~ In n N -> add_new String.eqb n N = (N ++ [n])%list.
Proof.
  intros H. unfold add_new.
  destruct (existsb (String.eqb n) N) eqn:E; [|reflexivity].
  apply existsb_eqb_In in E. contradiction.
Qed.

Lemma add_new_present n (N : list string) :
  In n N -> add_new String.eqb n N = N.
Proof.
  intros H. unfold add_new.
  now rewrite (proj2 (existsb_eqb_In n N) H).
Qed.

Lemma In_add_new n x (N : list string) :
  In x (add_new String.eqb n N) <-> x = n \/ In x N.
Proof.
  unfold add_new. destruct (existsb (String.eqb n) N) eqn:E.
  - apply existsb_eqb_In in E. intuition congruence.
  - rewrite in_app_iff. simpl. intuition congruence.
Qed.

(** A node that is new joins the end, with no successors. *)
Lemma represents_new_node G N E n (a : attrs) :
  represents G N E -> ~ In n N ->
  represents
    (mkDiGraph (dict_set n a (g_node G)) (dict_set n [] (g_succ G)))
    (N ++ [n])%list E.
Proof.
  intros HR Hn. pose proof HR as [Hnode [Hadj [Hnd Hsrc]]].
  repeat split.
  - simpl. rewrite keys_dict_set, Hnode. now apply add_new_absent.
  - unfold adjacency. simpl.
    rewrite dict_set_absent
      by (rewrite keys_g_succ, Hadj, keys_keyed; exact Hn).
    rewrite !map_app. simpl. fold (adjacency G). rewrite Hadj.
    rewrite (out_nil_not_source E n); [reflexivity|].
    intros e He Heq. apply Hn. rewrite <- Heq. now apply Hsrc.
  - apply NoDup_app; [exact Hnd | repeat constructor; simpl; tauto |].
    intros x Hx [<-|[]]. contradiction.
  - intros e He. apply in_app_iff. left. now apply Hsrc.
Qed.

Lemma represents_ensure_node G N E n :
  represents G N E ->
  represents (ensure_node n G) (add_new String.eqb n N) E.
Proof.
  intros HR. unfold ensure_node.
  destruct (lookup n (g_succ G)) eqn:L.
  - assert (Hin : In n N).
    { destruct (in_dec string_dec n N) as [H|H]; [exact H|].
      apply (represents_succ_lookup G N E n HR) in H. congruence. }
    now rewrite add_new_present.
  - apply (represents_succ_lookup G N E n HR) in L.
    rewrite add_new_absent by exact L.
    now apply represents_new_node.
Qed.

Lemma represents_add_node G N E n a :
  represents G N E ->
  represents (add_node n a G) (add_new String.eqb n N) E.
Proof.
  intros HR. unfold add_node.
  destruct (lookup n (g_succ G)) eqn:L.
  - assert (Hin : In n N).
    { destruct (in_dec string_dec n N) as [H|H]; [exact H|].
      apply (represents_succ_lookup G N E n HR) in H. congruence. }
    rewrite add_new_present by exact Hin.
    destruct HR as [Hnode [Hadj [Hnd Hsrc]]].
    repeat split; simpl; auto.
    rewrite keys_dict_set, Hnode. now apply add_new_present.
  - apply (represents_succ_lookup G N E n HR) in L.
    rewrite add_new_absent by exact L.
    now apply represents_new_node.
Qed.

Lemma represents_add_edge G N E u v :
  represents G N E ->
  represents (add_edge u v G)
    (add_new String.eqb v (add_new String.eqb u N))
    (add_new edge_eqb (u, v) E).
Proof.
  intros HR.
  pose proof (represents_ensure_node _ _ _ v
                (represents_ensure_node _ _ _ u HR)) as HR1.
  set (N1 := add_new String.eqb v (add_new String.eqb u N)) in *.
  set (G1 := ensure_node v (ensure_node u G)) in *.
  assert (Hu : In u N1).
  { unfold N1. rewrite !In_add_new. auto. }
  destruct HR1 as [Hnode [Hadj [Hnd Hsrc]]].
  unfold add_edge. fold G1.
  assert (Hnbrs : keys (get_default u (g_succ G1) []) = out E u).
  { pose proof (lookup_adjacency G1 u) as Hl.
    rewrite Hadj, lookup_keyed in Hl by exact Hu.
    unfold get_default. destruct (lookup u (g_succ G1)); simpl in Hl.
    - now inversion Hl.
    - discriminate. }
  repeat split.
  - exact Hnode.
  - unfold adjacency in *. cbn [g_succ].
    rewrite (map_dict_set (@keys attrs)).
    rewrite Hadj, keys_dict_set, Hnbrs.
    rewrite dict_set_keyed by assumption.
    apply map_ext_in. intros n Hn. f_equal.
    unfold add_new at 2.
    destruct (existsb (edge_eqb (u, v)) E) eqn:Emem.
    + destruct (String.eqb_spec n u) as [->|_]; [|reflexivity].
      unfold add_new. now rewrite mem_out, Emem.
    + rewrite out_app. unfold out at 4. simpl.
      rewrite (String.eqb_sym u n).
      destruct (String.eqb_spec n u) as [->|_]; simpl.
      * unfold add_new. now rewrite mem_out, Emem.
      * now rewrite List.app_nil_r.
  - exact Hnd.
  - intros e He. unfold add_new in He.
    destruct (existsb (edge_eqb (u, v)) E); [now apply Hsrc|].
    apply in_app_iff in He. destruct He as [He|[<-|[]]]; [now apply Hsrc|].
    exact Hu.
Qed.

Lemma represents_run_op G N E o :
  represents G N E ->
  represents (run_op G o) (step_nodes N o) (step_edges E o).
Proof.
  intros HR. destruct o as [n a|u v]; simpl.
  - now apply represents_add_node.
  - now apply represents_add_edge.
Qed.

Lemma represents_fold ops G N E :
  represents G N E ->
  represents (fold_left run_op ops G) (fold_left step_nodes ops N)
    (fold_left step_edges ops E).
Proof.
  revert G N E. induction ops as [|o ops IH]; intros G N E HR; simpl.
  - exact HR.
  - apply IH. now apply represents_run_op.
Qed.

Lemma represents_build ops :
  represents (build ops) (insertion_order_nodes ops)
    (insertion_order_edges ops).
Proof.
  rewrite insertion_order_nodes_fold, insertion_order_edges_fold.
  apply represents_fold. exact represents_empty.
Qed.

(** The nodes of a built graph are in order of first insertion. *)
Lemma nodes_build ops : nodes (build ops) = insertion_order_nodes ops.
Proof.
  exact (proj1 (represents_build ops)).
Qed.

(** The edges of a built graph are grouped by source, the sources in
    node order and the edges of one source in order of insertion. *)
Lemma edges_build ops : edges (build ops) = edges_by_source ops.
Proof.
  destruct (represents_build ops) as [_ [Hadj _]].
  rewrite edges_adjacency, Hadj. unfold edges_by_source.
  generalize (insertion_order_edges ops) as E.
  generalize (insertion_order_nodes ops) as N.
  induction N as [|n N IH]; intros E; simpl; [reflexivity|].
  now rewrite IH, pair_out.
Qed.

(** With the edges a-b, b-c, a-c added in this order, the document lists
    a-c before b-c: both edges of [a] come first. *)
Lemma edges_not_in_insertion_order :
  graph_data (build triangle_ops)
  = ODict [ ("nodes", OList (map node_entry [("a", []); ("b", []); ("c", [])]));
            ("edges", OList (map edge_entry
                               [("a", "b"); ("a", "c"); ("b", "c")])) ]
  /\ insertion_order_edges triangle_ops = [("a", "b"); ("b", "c"); ("a", "c")]
  /\ edges (build triangle_ops) <> insertion_order_edges triangle_ops.
Proof.
  split; [vm_compute; reflexivity|].
  split; [vm_compute; reflexivity|].
  vm_compute. discriminate.
Qed.

Lemma create_graph_node_entries InvoiceInfo now G :
  create_graph InvoiceInfo now = Ok G ->
  nodes G = sample_nodes
  /\ Forall
       (fun nd =>
          exists t mi ot,
            node_entry nd
            = ODict [ ("id", OVal (VStr (fst nd))); ("table", OVal (VStr t));
                      ("minimal", ODict mi); ("others", ODict ot) ])
       (nodes_data G).
Proof.
  intros H. open_create_graph H.
  split; [vm_compute; reflexivity|].
  vm_compute.
  repeat (constructor; [do 3 eexists; reflexivity|]).
  constructor.
Qed.

(** C6 (amended): for the graph built by any sequence of [add_node] and
    [add_edge] calls, the document is one object with the two keys
    [nodes] and [edges]; the nodes are listed in the order in which they
    were first added; the edges are listed by source node, the sources
    in node order and the edges of one source in the order in which they
    were added; the entry of a node added with [create_node_data] holds
    its identifier, its table tag, the minimal dict and the others dict,
    which holds the attributes whose names are not keys of the minimal
    dict; every edge entry holds [source] and [target].  For the graph
    that [create_graph] returns the edges appear in the order of the
    calls and every node entry has the four keys. *)
Theorem serialized_document_order :
  forall ops : list op,
    serialize_graph (build ops)
    = dumps (ODict [ ("nodes", OList (map node_entry
                                        (nodes_data (build ops))));
                     ("edges", OList (map edge_entry (edges_by_source ops))) ])
    /\ map fst (nodes_data (build ops)) = insertion_order_nodes ops
    /\ (forall (n : string) (obj : instance) (table : string),
          node_entry (n, create_node_data obj table)
          = ODict
              [ ("id", OVal (VStr n)); ("table", OVal (VStr table));
                ("minimal", leaf_dict (to_minimal_dict obj));
                ("others",
                 leaf_dict
                   (filter
                      (fun kv => negb (mem (fst kv) (keys (to_minimal_dict obj))))
                      (model_dump obj))) ])
    /\ (forall e, edge_entry e
                  = ODict [ ("source", OVal (VStr (fst e)));
                            ("target", OVal (VStr (snd e))) ])
    /\ (forall InvoiceInfo now G,
          create_graph InvoiceInfo now = Ok G ->
          graph_data G
          = ODict [ ("nodes", OList (map node_entry (nodes_data G)));
                    ("edges", OList (map edge_entry sample_edges)) ]
          /\ map fst (nodes_data G) = sample_nodes
          /\ Forall
               (fun nd =>
                  exists t mi ot,
                    node_entry nd
                    = ODict [ ("id", OVal (VStr (fst nd)));
                              ("table", OVal (VStr t));
                              ("minimal", ODict mi); ("others", ODict ot) ])
               (nodes_data G)).
Proof.
  intros ops.
  split.
  { unfold serialize_graph, graph_data. now rewrite edges_build. }
  split; [exact (nodes_build ops)|].
  split; [reflexivity|].
  split; [reflexivity|].
  intros InvoiceInfo now G H.
  destruct (create_graph_node_entries InvoiceInfo now G H) as [Hn He].
  unfold graph_data. rewrite (create_graph_edges InvoiceInfo now G H).
  auto.
Qed.

(** The triangle, and the sample graph built with [InvoiceInfo_model]. *)
Lemma serialized_document_order_witness :
  map fst (nodes_data (build triangle_ops)) = ["a"; "b"; "c"]
  /\ edges_by_source triangle_ops = [("a", "b"); ("a", "c"); ("b", "c")]
  /\ exists G,
       create_graph InvoiceInfo_model clock_1 = Ok G
       /\ graph_data G
          = ODict [ ("nodes", OList (map node_entry (nodes_data G)));
                    ("edges", OList (map edge_entry sample_edges)) ].
Proof.
  destruct (serialized_document_order triangle_ops) as [_ [Hn [_ [_ Hs]]]].
  split; [exact Hn|].
  split; [reflexivity|].
  assert (Hok : is_ok (create_graph InvoiceInfo_model clock_1) = true)
    by (vm_compute; reflexivity).
  destruct (is_ok_inv _ Hok) as [G E].
  exists G. split; [exact E|].
  exact (proj1 (Hs InvoiceInfo_model clock_1 G E)).
Defined.

(* ================================================================== *)
(** * Texts read back: digits, dates, timestamps *)

Lemma digit_val_digit_char (d : N) :
  digit_val (digit_char d) = Some (d mod 10)%N.
Proof.
  unfold digit_val, digit_char.
  assert (Hr : (d mod 10 < 10)%N) by (apply N.mod_lt; discriminate).
  generalize dependent (d mod 10)%N. intros r Hr.
  assert (H256 : (48 + r < 256)%N) by lia.
  rewrite (N_ascii_embedding _ H256).
  assert (Hlo : (48 <=? 48 + r)%N = true) by (apply N.leb_le; lia).
  assert (Hhi : (48 + r <=? 57)%N = true) by (apply N.leb_le; lia).
  rewrite Hlo, Hhi. cbn [andb]. f_equal. lia.
Qed.

Lemma digits_val_app (acc : N) (s t : string) :
  digits_val acc (s ++ t)
  = match digits_val acc s with
    | Some a => digits_val a t
    | None => None
    end.
Proof.
  revert acc. induction s as [|c s IH]; intros acc; simpl; [reflexivity|].
  destruct (digit_val c); [apply IH | reflexivity].
Qed.

Lemma digits_val_fixed (w : nat) (n acc : N) :
  digits_val acc (fixed_digits w n)
  = Some (acc * 10 ^ N.of_nat w + n mod 10 ^ N.of_nat w)%N.
Proof.
  revert acc. induction w as [|w IH]; intros acc.
  - simpl. rewrite N.mod_1_r. f_equal. lia.
  - cbn [fixed_digits digits_val]. rewrite digit_val_digit_char, IH.
    f_equal. rewrite Nat2N.inj_succ, N.pow_succ_r'.
    rewrite (N.mul_comm 10 (10 ^ N.of_nat w)).
    rewrite (N.Div0.mod_mul_r n (10 ^ N.of_nat w) 10).
    ring.
Qed.

Lemma length_fixed_digits (w : nat) (n : N) :
  String.length (fixed_digits w n) = w.
Proof.
  induction w as [|w IH]; simpl; [reflexivity | now rewrite IH].
Qed.

Lemma parse_digits_fixed (w : nat) (n : N) :
  (n < 10 ^ N.of_nat (S w))%N ->
  parse_digits (fixed_digits (S w) n) = Some n.
Proof.
  intros H. unfold parse_digits.
  change (fixed_digits (S w) n)
    with (String (digit_char (n / 10 ^ N.of_nat w)) (fixed_digits w n)) at 1.
  rewrite digits_val_fixed. f_equal. rewrite N.mod_small by exact H. lia.
Qed.

Lemma zfill_fixed (w : nat) (n : N) :
  (n < 10 ^ N.of_nat w)%N -> zfill w n = fixed_digits w n.
Proof.
  intros H. unfold zfill. now rewrite (proj2 (N.ltb_lt _ _) H).
Qed.

(** ** Slices of a text of known layout *)

Lemma take_app_exact (a b : string) :
  take (String.length a) (a ++ b) = a.
Proof.
  induction a as [|c a IH]; simpl.
  - now destruct b.
  - now rewrite IH.
Qed.

Lemma drop_app_exact (a b : string) :
  drop (String.length a) (a ++ b) = b.
Proof.
  induction a as [|c a IH]; simpl; [reflexivity | exact IH].
Qed.

Lemma drop_drop (n m : nat) (s : string) :
  drop (n + m) s = drop m (drop n s).
Proof.
  revert s. induction n as [|n IH]; intros s; simpl; [reflexivity|].
  destruct s as [|c s]; [now destruct m | apply IH].
Qed.

Lemma length_append (a b : string) :
  String.length (a ++ b) = String.length a + String.length b.
Proof.
  induction a as [|c a IH]; simpl; [reflexivity | now rewrite IH].
Qed.

Lemma append_assoc (a b c : string) : (a ++ b) ++ c = a ++ (b ++ c).
Proof.
  induction a as [|x a IH]; simpl; [reflexivity | now rewrite IH].
Qed.

Lemma append_nil_r (a : string) : a ++ "" = a.
Proof.
  induction a as [|x a IH]; simpl; [reflexivity | now rewrite IH].
Qed.

(** The slices that [parse_date] takes of year, [-], month, [-], day. *)
Lemma date_layout (Y M D : string) :
  String.length Y = 4 -> String.length M = 2 -> String.length D = 2 ->
  let s := Y ++ "-" ++ M ++ "-" ++ D in
  take 4 s = Y /\ take 2 (drop 5 s) = M /\ take 2 (drop 8 s) = D
  /\ String.length s = 10
  /\ take 1 (drop 4 s) = "-" /\ take 1 (drop 7 s) = "-".
Proof.
  intros HY HM HD.
  destruct Y as [|y1 [|y2 [|y3 [|y4 [|? ?]]]]]; try discriminate HY.
  destruct M as [|m1 [|m2 [|? ?]]]; try discriminate HM.
  destruct D as [|d1 [|d2 [|? ?]]]; try discriminate HD.
  simpl. repeat split; reflexivity.
Qed.

Lemma date_ok_bounds (d : date) :
  date_ok d = true ->
  (year d < 10 ^ N.of_nat 4 /\ month d < 10 ^ N.of_nat 2
   /\ day d < 10 ^ N.of_nat 2)%N.
Proof.
  unfold date_ok. rewrite !andb_true_iff, !N.leb_le.
  intros [[[[[_ Hy] _] Hm] _] Hd].
  assert (Hdim : (days_in_month (year d) (month d) <= 31)%N).
  { unfold days_in_month.
    destruct (month d) as [|[[[[|[]|]|[]|]|[[]|[]|]|]|[[[]|[]|]|[[]|[]|]|]|]];
      try lia; destruct (is_leap (year d)); lia. }
  change (10 ^ N.of_nat 4)%N with 10000%N.
  change (10 ^ N.of_nat 2)%N with 100%N. lia.
Qed.

(** [date.isoformat()] is read back as the same date. *)
Lemma parse_date_isoformat (d : date) :
  date_ok d = true -> parse_date (date_isoformat d) = Some d.
Proof.
  intros Hok. destruct (date_ok_bounds d Hok) as [Hy [Hm Hd]].
  unfold date_isoformat. rewrite !zfill_fixed by assumption.
  destruct (date_layout (fixed_digits 4 (year d)) (fixed_digits 2 (month d))
              (fixed_digits 2 (day d))
              (length_fixed_digits _ _) (length_fixed_digits _ _)
              (length_fixed_digits _ _))
    as [H1 [H2 [H3 [H4 [H5 H6]]]]].
  unfold parse_date. rewrite H1, H2, H3, H4, H5, H6.
  rewrite !parse_digits_fixed by assumption.
  destruct d as [y m dd]. simpl in *. now rewrite Hok.
Qed.

Lemma parse_date_ok (s : string) (d : date) :
  parse_date s = Some d -> date_ok d = true.
Proof.
  unfold parse_date.
  destruct (parse_digits (take 4 s)) as [y|]; [|discriminate].
  destruct (parse_digits (take 2 (drop 5 s))) as [m|]; [|discriminate].
  destruct (parse_digits (take 2 (drop 8 s))) as [dd|]; [|discriminate].
  match goal with
  | |- (if ?c then _ else _) = _ -> _ => destruct c eqn:E
  end; [|discriminate].
  intros H. inversion H; subst.
  now apply andb_true_iff in E.
Qed.

(** The slices that [parse_time] takes. *)
Lemma time_layout (H M S frac : string) :
  String.length H = 2 -> String.length M = 2 -> String.length S = 2 ->
  let s := H ++ ":" ++ M ++ ":" ++ S ++ frac in
  take 2 s = H /\ take 2 (drop 3 s) = M /\ take 2 (drop 6 s) = S
  /\ take 1 (drop 2 s) = ":" /\ take 1 (drop 5 s) = ":"
  /\ drop 8 s = frac
  /\ String.length s = 8 + String.length frac.
Proof.
  intros HH HM HS.
  destruct H as [|h1 [|h2 [|? ?]]]; try discriminate HH.
  destruct M as [|m1 [|m2 [|? ?]]]; try discriminate HM.
  destruct S as [|s1 [|s2 [|? ?]]]; try discriminate HS.
  simpl. repeat split; reflexivity.
Qed.

Lemma datetime_ok_bounds (t : datetime) :
  datetime_ok t = true ->
  date_ok (dt_date t) = true
  /\ (hour t < 10 ^ N.of_nat 2 /\ minute t < 10 ^ N.of_nat 2
      /\ second t < 10 ^ N.of_nat 2 /\ microsecond t < 10 ^ N.of_nat 6)%N.
Proof.
  unfold datetime_ok. rewrite !andb_true_iff, !N.ltb_lt.
  intros [Hd [[[Hh Hm] Hs] Hu]].
  change (10 ^ N.of_nat 2)%N with 100%N.
  change (10 ^ N.of_nat 6)%N with 1000000%N.
  repeat split; try assumption; lia.
Qed.

Lemma parse_time_isoformat (t : datetime) :
  datetime_ok t = true ->
  parse_time (dt_date t) (time_isoformat t) = Some t.
Proof.
  intros Hok. destruct (datetime_ok_bounds t Hok) as [_ [Hh [Hm [Hs Hu]]]].
  unfold time_isoformat. rewrite !zfill_fixed by assumption.
  set (frac := if (microsecond t =? 0)%N then ""
               else "." ++ fixed_digits 6 (microsecond t)).
  destruct (time_layout (fixed_digits 2 (hour t)) (fixed_digits 2 (minute t))
              (fixed_digits 2 (second t)) frac
              (length_fixed_digits _ _) (length_fixed_digits _ _)
              (length_fixed_digits _ _))
    as [H1 [H2 [H3 [H4 [H5 [H6 H7]]]]]].
  unfold parse_time. rewrite H1, H2, H3, H4, H5, H6, H7.
  rewrite !parse_digits_fixed by assumption. simpl "&&".
  cbv iota.
  unfold frac. destruct (microsecond t =? 0)%N eqn:Eus.
  - apply N.eqb_eq in Eus. simpl.
    destruct t as [d h mi se us]. simpl in *. subst us. now rewrite Hok.
  - change ("." ++ fixed_digits 6 (microsecond t))
      with (String "." (fixed_digits 6 (microsecond t))).
    cbv iota. rewrite length_fixed_digits.
    rewrite parse_digits_fixed by assumption.
    simpl. rewrite N.mul_1_r.
    destruct t as [d h mi se us]. simpl in *. now rewrite Hok.
Qed.


Lemma parse_datetime_ok (s : string) (t : datetime) :
  parse_datetime s = Some t -> datetime_ok t = true.
Proof.
  unfold parse_datetime.
  destruct (parse_date (take 10 s)) as [d|]; [|discriminate].
  destruct (_ || _); [|discriminate].
  unfold parse_time.
  destruct (parse_digits (take 2 (drop 11 s))) as [h|]; [|discriminate].
  destruct (parse_digits (take 2 (drop 3 (drop 11 s)))) as [mi|]; [|discriminate].
  destruct (parse_digits (take 2 (drop 6 (drop 11 s)))) as [se|]; [|discriminate].
  destruct (_ && _); [|discriminate].
  assert (Hmk : forall us,
             (if datetime_ok (mkDateTime d h mi se us)
              then Some (mkDateTime d h mi se us) else None) = Some t ->
             datetime_ok t = true).
  { intros us. destruct (datetime_ok (mkDateTime d h mi se us)) eqn:E;
      [|discriminate]. intros H. now inversion H; subst. }
  destruct (drop 8 (drop 11 s)) as [|c ds].
  - destruct (_ =? _)%nat; [apply Hmk | discriminate].
  - destruct (_ && _); [|discriminate].
    destruct (parse_digits ds); [apply Hmk | discriminate].
Qed.

(* ================================================================== *)
(** * Texts read back: decimals *)

Lemma all_digits_string_of_uint (d : uint) :
  all_digits (NilEmpty.string_of_uint d) = true.
Proof.
  induction d; simpl; auto.
Qed.

Lemma str_N_all_digits (n : N) : all_digits (str_N n) = true.
Proof.
  apply all_digits_string_of_uint.
Qed.

Lemma str_N_cons (n : N) : exists c r, str_N n = String c r.
Proof.
  unfold str_N.
  assert (H : N.to_uint n <> Nil).
  { destruct n as [|p]; simpl; [discriminate|].
    apply DecimalPos.Unsigned.to_uint_nonnil. }
  destruct (N.to_uint n); try contradiction; simpl; eauto.
Qed.

Lemma digits_val_pos (d : uint) (p : positive) :
  digits_val (Npos p) (NilEmpty.string_of_uint d)
  = Some (Npos (Pos.of_uint_acc d p)).
Proof.
  revert p. induction d; intros p; simpl NilEmpty.string_of_uint;
    [reflexivity|..];
    cbn [digits_val];
    match goal with
    | |- context [digit_val ?c] =>
        let r := eval vm_compute in (digit_val c) in
        change (digit_val c) with r
    end;
    cbv iota; cbn [Pos.of_uint_acc];
    match goal with
    | |- digits_val ?a _ = Some (N.pos (Pos.of_uint_acc _ ?q)) =>
        replace a with (N.pos q) by lia
    end;
    apply IHd.
Qed.

Lemma digits_val_uint (d : uint) :
  digits_val 0 (NilEmpty.string_of_uint d) = Some (Pos.of_uint d).
Proof.
  induction d; simpl NilEmpty.string_of_uint; [reflexivity|..];
    cbn [digits_val];
    match goal with
    | |- context [digit_val ?c] =>
        let r := eval vm_compute in (digit_val c) in
        change (digit_val c) with r
    end;
    cbv iota; cbn [N.mul N.add Pos.of_uint];
    first [exact IHd | apply digits_val_pos].
Qed.

Lemma digits_val_str_N (n : N) : digits_val 0 (str_N n) = Some n.
Proof.
  unfold str_N. rewrite digits_val_uint.
  f_equal. exact (DecimalN.Unsigned.of_to n).
Qed.

Lemma parse_digits_str_N (n : N) : parse_digits (str_N n) = Some n.
Proof.
  destruct (str_N_cons n) as [c [r H]].
  unfold parse_digits. rewrite <- (digits_val_str_N n), H. reflexivity.
Qed.

Lemma digits_val_zeros (k : nat) (s : string) :
  digits_val 0 (repeat_char "0" k ++ s) = digits_val 0 s.
Proof.
  induction k as [|k IH]; simpl; [reflexivity | exact IH].
Qed.

Lemma all_digits_app (a b : string) :
  all_digits (a ++ b) = all_digits a && all_digits b.
Proof.
  induction a as [|c a IH]; simpl; [reflexivity|].
  destruct (digit_val c); [exact IH | reflexivity].
Qed.

Lemma all_digits_zeros (k : nat) : all_digits (repeat_char "0" k) = true.
Proof.
  induction k as [|k IH]; simpl; [reflexivity | exact IH].
Qed.

Lemma take_drop (n : nat) (s : string) : take n s ++ drop n s = s.
Proof.
  revert s. induction n as [|n IH]; intros s; simpl; [reflexivity|].
  destruct s as [|c s]; simpl; [reflexivity | now rewrite IH].
Qed.

Lemma length_drop (n : nat) (s : string) :
  String.length (drop n s) = String.length s - n.
Proof.
  revert s. induction n as [|n IH]; intros s; simpl; [lia|].
  destruct s as [|c s]; simpl; [reflexivity | apply IH].
Qed.

Lemma all_digits_take_drop (n : nat) (s : string) :
  all_digits s = true ->
  all_digits (take n s) = true /\ all_digits (drop n s) = true.
Proof.
  intros H. rewrite <- (take_drop n s), all_digits_app in H.
  now apply andb_true_iff in H.
Qed.

Lemma take_cons (n : nat) (s : string) :
  0 < n -> (exists c r, s = String c r) -> exists c r, take n s = String c r.
Proof.
  intros Hn [c [r ->]]. destruct n; [lia|]. simpl. eauto.
Qed.

Lemma contains_char_app (c : ascii) (a b : string) :
  contains_char c (a ++ b) = contains_char c a || contains_char c b.
Proof.
  induction a as [|x a IH]; simpl; [reflexivity|].
  rewrite IH. now rewrite orb_assoc.
Qed.

Lemma all_digits_no_char (c : ascii) (s : string) :
  digit_val c = None -> all_digits s = true -> contains_char c s = false.
Proof.
  intros Hc. induction s as [|a s IH]; simpl; intros H; [reflexivity|].
  destruct (digit_val a) eqn:Ea; [|discriminate].
  rewrite (IH H), orb_false_r.
  destruct (Ascii.eqb_spec a c) as [->|_]; [congruence | reflexivity].
Qed.

Lemma split_at_absent (c : ascii) (s : string) :
  contains_char c s = false -> split_at c s = (s, None).
Proof.
  induction s as [|a s IH]; simpl; intros H; [reflexivity|].
  apply orb_false_iff in H. destruct H as [Ha Hs].
  rewrite Ha, (IH Hs). reflexivity.
Qed.

Lemma split_at_first (c : ascii) (a b : string) :
  contains_char c a = false -> split_at c (a ++ String c b) = (a, Some b).
Proof.
  induction a as [|x a IH]; simpl; intros H.
  - now rewrite Ascii.eqb_refl.
  - apply orb_false_iff in H. destruct H as [Hx Ha].
    rewrite Hx, (IH Ha). reflexivity.
Qed.

Lemma split_sign_digit (c : ascii) (r : string) (k : N) :
  digit_val c = Some k -> split_sign (String c r) = (false, String c r).
Proof.
  destruct c as [b0 b1 b2 b3 b4 b5 b6 b7].
  destruct b0, b1, b2, b3, b4, b5, b6, b7; intros H;
    try reflexivity; vm_compute in H; discriminate H.
Qed.

Lemma parse_int_str_exp (z : Z) : parse_int (str_exp z) = Some z.
Proof.
  destruct z as [|p|p].
  - reflexivity.
  - change (parse_int (str_exp (Zpos p)))
      with (option_map (fun n => Z.of_N n) (parse_digits (str_N (Npos p)))).
    now rewrite parse_digits_str_N.
  - change (parse_int (str_exp (Zneg p)))
      with (option_map (fun n => (- Z.of_N n)%Z)
              (parse_digits (str_N (Npos p)))).
    now rewrite parse_digits_str_N.
Qed.

(** The reading of a text made of digits, an optional point with
    further digits, and an optional exponent. *)
Lemma parse_decimal_parts (sign hasdot : bool) (ip frac : string)
    (expo : option Z) :
  all_digits ip = true -> all_digits frac = true ->
  (exists c r, ip = String c r) ->
  (hasdot = false -> frac = "") ->
  parse_decimal
    ((if sign then "-" else "")
     ++ ip ++ (if hasdot then String "." frac else "")
     ++ match expo with Some x => String "E" (str_exp x) | None => "" end)
  = match digits_val 0 (ip ++ frac) with
    | Some c =>
        Some (mkDecimal sign c
                (match expo with Some x => x | None => 0 end
                 - Z.of_nat (String.length frac)))
    | None => None
    end.
Proof.
  intros Hip Hfrac [c [r Hcons]] Hdot.
  set (mant := ip ++ (if hasdot then String "." frac else "")).
  set (etext := match expo with
                | Some x => String "E" (str_exp x)
                | None => ""
                end).
  assert (Hbody : ip ++ (if hasdot then String "." frac else "") ++ etext
                  = mant ++ etext)
    by (unfold mant; now rewrite append_assoc).
  rewrite Hbody.
  assert (Hmc : exists r', mant ++ etext = String c r').
  { unfold mant. rewrite Hcons. simpl. eauto. }
  destruct Hmc as [r' Hmc].
  assert (Hc : exists k, digit_val c = Some k).
  { rewrite Hcons in Hip. simpl in Hip.
    destruct (digit_val c); [eauto | discriminate]. }
  destruct Hc as [k Hc].
  assert (Hsign : split_sign ((if sign then "-" else "") ++ mant ++ etext)
                  = (sign, mant ++ etext)).
  { destruct sign; simpl; [reflexivity|].
    rewrite Hmc. exact (split_sign_digit c r' k Hc). }
  unfold parse_decimal. rewrite Hsign.
  assert (HnoE : forall x, digit_val x = None -> Ascii.eqb "." x = false ->
                           contains_char x mant = false).
  { intros x Hx Hx'. unfold mant. rewrite contains_char_app.
    rewrite (all_digits_no_char x ip Hx Hip). cbn [orb].
    destruct hasdot; [|reflexivity]. cbn [contains_char].
    rewrite Hx'. cbn [orb]. exact (all_digits_no_char x frac Hx Hfrac). }
  assert (Hexp : split_exponent (mant ++ etext)
                 = (mant, match expo with
                          | Some x => Some (str_exp x)
                          | None => None
                          end)).
  { unfold split_exponent, etext. destruct expo as [x|].
    - rewrite split_at_first by (apply HnoE; reflexivity). reflexivity.
    - rewrite append_nil_r.
      rewrite split_at_absent by (apply HnoE; reflexivity).
      apply split_at_absent. apply HnoE; reflexivity. }
  rewrite Hexp.
  assert (Hpoint : split_at "." mant
                   = (ip, if hasdot then Some frac else None)).
  { unfold mant. destruct hasdot.
    - apply split_at_first. apply all_digits_no_char; [reflexivity | exact Hip].
    - rewrite append_nil_r. apply split_at_absent.
      apply all_digits_no_char; [reflexivity | exact Hip]. }
  rewrite Hpoint.
  assert (Hfrac' : match (if hasdot then Some frac else None) with
                   | Some f => f
                   | None => ""
                   end = frac).
  { destruct hasdot; [reflexivity|]. symmetry. now apply Hdot. }
  rewrite Hfrac'.
  assert (Hlen : (String.length ip + String.length frac =? 0)%nat = false).
  { rewrite Hcons. reflexivity. }
  rewrite Hlen.
  destruct (digits_val 0 (ip ++ frac)) as [c0|]; [|reflexivity].
  destruct expo as [x|]; [rewrite parse_int_str_exp|]; reflexivity.
Qed.

(** [str(d)] is read back as the same [Decimal]. *)
Lemma parse_decimal_str (d : Decimal) :
  parse_decimal (Decimal_str d) = Some d.
Proof.
  destruct d as [sign c e]. unfold Decimal_str. cbn [d_sign d_int d_exp].
  pose proof (str_N_all_digits c) as Hall.
  pose proof (str_N_cons c) as Hcons.
  pose proof (digits_val_str_N c) as Hval.
  set (s := str_N c) in *.
  assert (Hlen : 0 < String.length s).
  { destruct Hcons as [a [r ->]]. simpl. lia. }
  set (len := Z.of_nat (String.length s)) in *.
  assert (Hlenpos : (0 < len)%Z) by (unfold len; lia).
  destruct ((e <=? 0)%Z && (-6 <? e + len)%Z) eqn:Hplain.
  - (* plain notation *)
    apply andb_true_iff in Hplain. destruct Hplain as [He _].
    apply Z.leb_le in He.
    rewrite Z.eqb_refl.
    destruct (e + len <=? 0)%Z eqn:Hdp.
    + (* 0.000ddd *)
      apply Z.leb_le in Hdp.
      rewrite (parse_decimal_parts sign true "0"
                 (repeat_char "0" (Z.to_nat (- (e + len))) ++ s) None).
      * change ("0" ++ repeat_char "0" (Z.to_nat (- (e + len))) ++ s)
          with (repeat_char "0" (S (Z.to_nat (- (e + len)))) ++ s).
        rewrite digits_val_zeros, Hval. f_equal. f_equal.
        rewrite length_append.
        assert (Hz : forall k, String.length (repeat_char "0" k) = k)
          by (induction k; simpl; auto).
        rewrite Hz. fold len. unfold len in *. lia.
      * reflexivity.
      * rewrite all_digits_app, all_digits_zeros. exact Hall.
      * eauto.
      * discriminate.
    + apply Z.leb_gt in Hdp.
      destruct (len <=? e + len)%Z eqn:Hfull.
      * (* ddd *)
        apply Z.leb_le in Hfull.
        assert (He0 : e = 0%Z) by lia. subst e.
        replace (Z.to_nat (0 + len - len)) with 0 by lia.
        simpl repeat_char. rewrite !append_nil_r.
        pose proof (parse_decimal_parts sign false s "" None Hall eq_refl
                      Hcons (fun _ => eq_refl)) as Hp.
        cbv iota in Hp. rewrite !append_nil_r in Hp.
        rewrite Hp, Hval. reflexivity.
      * (* dd.ddd *)
        apply Z.leb_gt in Hfull.
        destruct (all_digits_take_drop (Z.to_nat (e + len)) s Hall)
          as [Ht Hd].
        rewrite (parse_decimal_parts sign true
                   (take (Z.to_nat (e + len)) s)
                   (drop (Z.to_nat (e + len)) s) None);
          try assumption.
        -- rewrite take_drop, Hval. f_equal. f_equal.
           rewrite length_drop. unfold len in *. lia.
        -- apply take_cons; [lia | exact Hcons].
        -- discriminate.
  - (* scientific notation *)
    assert (Hne : (e + len =? 1)%Z = false).
    { apply Z.eqb_neq. apply andb_false_iff in Hplain.
      destruct Hplain as [H|H].
      - apply Z.leb_gt in H. lia.
      - apply Z.ltb_ge in H. lia. }
    rewrite Hne. change (1 <=? 0)%Z with false. cbv iota.
    destruct (len <=? 1)%Z eqn:Hone.
    + (* dE+x *)
      apply Z.leb_le in Hone.
      replace (Z.to_nat (1 - len)) with 0 by lia.
      simpl repeat_char. rewrite append_nil_r.
      rewrite (parse_decimal_parts sign false s "" (Some (e + len - 1)%Z));
        try assumption; try reflexivity.
      rewrite append_nil_r, Hval. f_equal. f_equal. simpl. lia.
    + (* d.dddE+x *)
      apply Z.leb_gt in Hone.
      destruct (all_digits_take_drop (Z.to_nat 1) s Hall) as [Ht Hd].
      rewrite (parse_decimal_parts sign true
                 (take (Z.to_nat 1) s) (drop (Z.to_nat 1) s)
                 (Some (e + len - 1)%Z));
        try assumption.
      * rewrite take_drop, Hval. f_equal. f_equal.
        rewrite length_drop. unfold len in *. lia.
      * apply take_cons; [simpl; lia | exact Hcons].
      * discriminate.
Qed.

(* ================================================================== *)
(** * Round trip through the JSON form *)

Lemma check_digits_ok md dp d d' : check_digits md dp d = Ok d' -> d' = d.
Proof.
  unfold check_digits.
  destruct (digits_info d) as [decimals digits].
  destruct (digits_info (normalize d)) as [ndecimals ndigits].
  repeat match goal with
         | |- context [if ?c then _ else _] => destruct c
         | |- context [match ?o with Some _ => _ | None => _ end] => destruct o
         end; intros H; inversion H; reflexivity.
Qed.

Lemma check_int_ok gt ge z v : check_int gt ge z = Ok v -> v = VInt z.
Proof.
  unfold check_int.
  repeat match goal with
         | |- context [if ?c then _ else _] => destruct c
         end; intros H; inversion H; reflexivity.
Qed.



Lemma validate_type_not_none (t : ftype) (v : value) :
  validate_type t v <> Ok VNone.
Proof.
  destruct t, v; simpl; try discriminate;
    repeat match goal with
           | |- context [check_int ?a ?b ?c] =>
               let E := fresh in
               destruct (check_int a b c) eqn:E;
               [apply check_int_ok in E; subst|]
           | |- context [check_digits ?a ?b ?c] => destruct (check_digits a b c)
           | |- context [if ?c then _ else _] => destruct c
           | |- context [match ?o with Some _ => _ | None => _ end] =>
               destruct o
           end; simpl; discriminate.
Qed.





(** The one model with a [bytes] attribute. *)
Lemma models_with_bytes :
  map model_name (filter has_bytes all_models) = ["LookData"].
Proof. vm_compute. reflexivity. Qed.




(* ================================================================== *)
(** * Further properties of the code *)

Import EbbExamples Notions.


Lemma acceptable_constructs now m kw :
  acceptable m kw = true -> exists o, model_construct now m kw = Ok o.
Proof.
  intros Hacc.
  pose proof (validate_fields_acceptable now (model_fields m) kw Hacc) as Hnil.
  unfold model_construct.
  destruct (validate_fields now (model_fields m) kw) as [vals errs].
  simpl in Hnil. subst errs. eexists. reflexivity.
Qed.

Lemma sample_constructions_acceptable :
  forallb (fun mk => acceptable (fst mk) (snd mk)) sample_constructions = true.
Proof. vm_compute. reflexivity. Qed.

Lemma add_data_node_found node_id data key table G obj :
  lookup key data = Some obj ->
  add_data_node node_id data key table G
  = Ok (add_node node_id (create_node_data obj table) G).
Proof.
  intros H. unfold add_data_node, getitem. now rewrite H.
Qed.

Lemma lift_bind_err {A B} (e : ValidationError) (k : A -> result exception B) :
  bind (lift (Err e)) k = Err (ValidationErr e).
Proof. reflexivity. Qed.

Lemma lift_bind_ok {A B} (a : A) (k : A -> result exception B) :
  bind (lift (Ok a)) k = k a.
Proof. reflexivity. Qed.

(** X1: [create_graph] returns a graph exactly when the constructor call
    [InvoiceInfo(...)] of [create_pydantic_objects] returns, and raises the
    [ValidationError] of that call otherwise: the nineteen other
    constructor calls return at any time, and no subscript of
    [pydantic_objects] raises a [KeyError]. *)
Theorem create_graph_outcome :
  forall (InvoiceInfo : model) (now : datetime),
    match model_construct now InvoiceInfo invoice_info_kwargs with
    | Ok _ => exists G, create_graph InvoiceInfo now = Ok G
    | Err e => create_graph InvoiceInfo now = Err (ValidationErr e)
    end.
Proof.
  intros InvoiceInfo now.
  pose proof (proj1 (forallb_forall _ _) sample_constructions_acceptable)
    as Hacc.
  unfold create_graph, create_pydantic_objects.
  repeat
    match goal with
    | |- context [model_construct now ?m ?k] =>
        lazymatch m with
        | InvoiceInfo => fail
        | _ =>
          let o := fresh "o" in
          let E := fresh "E" in
          destruct (acceptable_constructs now m k
                      (Hacc (m, k) ltac:(simpl; tauto))) as [o E];
          rewrite E; clear E
        end
    end.
  rewrite !lift_bind_ok.
  destruct (model_construct now InvoiceInfo invoice_info_kwargs) as [ii|e].
  - rewrite !lift_bind_ok.
    cbv beta.
    repeat (rewrite add_data_node_found with (obj := _) by reflexivity;
            unfold bind at 1; cbv beta iota).
    eexists. reflexivity.
  - reflexivity.
Qed.

Lemma create_graph_outcome_witness :
  (exists G, create_graph InvoiceInfo_model clock_1 = Ok G)
  /\ create_graph InvoiceInfo_strict clock_1
     = Err (ValidationErr
              (mkValidationError "InvoiceInfo"
                 [("modified_timestamp", Missing)])).
Proof.
  split.
  - pose proof (create_graph_outcome InvoiceInfo_model clock_1) as H.
    assert (E : is_ok (model_construct clock_1 InvoiceInfo_model
                         invoice_info_kwargs) = true)
      by (vm_compute; reflexivity).
    destruct (model_construct clock_1 InvoiceInfo_model invoice_info_kwargs);
      [exact H | discriminate].
  - pose proof (create_graph_outcome InvoiceInfo_strict clock_1) as H.
    assert (E : model_construct clock_1 InvoiceInfo_strict invoice_info_kwargs
                = Err (mkValidationError "InvoiceInfo"
                         [("modified_timestamp", Missing)]))
      by (vm_compute; reflexivity).
    rewrite E in H. exact H.
Defined.

Lemma all_defaults_conform :
  forallb (fun m => forallb default_conforms (model_fields m)) all_models = true.
Proof. vm_compute. reflexivity. Qed.

Lemma validate_type_conforms (t : ftype) (v v' : value) :
  validate_type t v = Ok v' -> conforms t v' = true.
Proof.
  destruct t as [gt ge|ml| | |md dp| | |cls ms|vs]; simpl.
  - destruct v; try discriminate. unfold check_int.
    destruct gt as [b|]; destruct ge as [c|]; simpl;
      repeat match goal with
             | |- context [negb ?x] => destruct x eqn:?; simpl
             end; intros H; inversion H; subst; simpl;
      rewrite ?andb_true_iff; auto.
  - destruct v; try discriminate. destruct ml as [n|].
    + destruct (str_len s <=? n)%nat eqn:E; intros H; inversion H; subst.
      exact E.
    + intros H; inversion H; subst. reflexivity.
  - destruct v; try discriminate. intros H; inversion H; subst. reflexivity.
  - destruct v; try discriminate; intros H; inversion H; subst; reflexivity.
  - assert (Hd : forall d, bind (check_digits md dp d)
                             (fun d' => Ok (VDecimal d')) = Ok v' ->
                           conforms (TDecimal md dp) v' = true).
    { intros d H. destruct (check_digits md dp d) as [d'|] eqn:E;
        [|discriminate]. simpl in H. inversion H; subst. simpl.
      rewrite (check_digits_ok _ _ _ _ E) in *. now rewrite E. }
    destruct v; try discriminate; try apply Hd.
    destruct (parse_decimal s); [apply Hd | discriminate].
  - destruct v; try discriminate.
    + destruct (parse_date s) as [d|] eqn:E; [|discriminate].
      intros H; inversion H; subst. exact (parse_date_ok _ _ E).
    + destruct (date_ok d) eqn:E; intros H; inversion H; subst. exact E.
  - destruct v; try discriminate.
    + destruct (parse_datetime s) as [d|] eqn:E; [|discriminate].
      intros H; inversion H; subst. exact (parse_datetime_ok _ _ E).
    + destruct (datetime_ok t) eqn:E; intros H; inversion H; subst. exact E.
  - destruct v; try discriminate.
    + destruct (mem s ms) eqn:E; intros H; inversion H; subst. simpl.
      now rewrite String.eqb_refl, E.
    + destruct (String.eqb cls0 cls && mem member ms) eqn:E;
        intros H; inversion H; subst. exact E.
  - destruct v; try discriminate.
    destruct (mem s vs) eqn:E; intros H; inversion H; subst. exact E.
Qed.

Lemma conforms_validate (t : ftype) (v : value) :
  conforms t v = true -> validate_type t v = Ok v.
Proof.
  destruct t as [gt ge|ml| | |md dp| | |cls ms|vs]; destruct v;
    simpl; try discriminate; intros H.
  - apply andb_true_iff in H. destruct H as [H1 H2]. unfold check_int.
    destruct gt as [b|]; destruct ge as [c|]; simpl;
      rewrite ?H1, ?H2; reflexivity.
  - destruct ml as [n|]; [now rewrite H | reflexivity].
  - reflexivity.
  - reflexivity.
  - destruct (check_digits md dp d) as [d'|] eqn:E; [|discriminate].
    simpl. now rewrite (check_digits_ok _ _ _ _ E).
  - now rewrite H.
  - now rewrite H.
  - now rewrite H.
  - now rewrite H.
Qed.

Lemma validate_field_conforms (f : field) (v v' : value) :
  validate_field f v = Ok v' -> field_conforms f v' = true.
Proof.
  unfold validate_field, field_conforms. intros H.
  assert (Ht : validate_type (ftyp f) v = Ok v' ->
               match v' with
               | VNone => nullable f
               | _ => conforms (ftyp f) v'
               end = true).
  { intros Hv. pose proof (validate_type_conforms _ _ _ Hv) as Hc.
    destruct v'; try exact Hc.
    exfalso. exact (validate_type_not_none _ _ Hv). }
  destruct v; try (apply Ht; exact H).
  destruct (nullable f) eqn:N; [|apply Ht; exact H].
  inversion H; subst. reflexivity.
Qed.

Lemma field_conforms_validate (f : field) (v : value) :
  field_conforms f v = true -> validate_field f v = Ok v.
Proof.
  unfold validate_field, field_conforms. intros H.
  destruct v; try (apply conforms_validate; exact H).
  now rewrite H.
Qed.

(** The values that a construction stores, field by field. *)
Lemma validate_fields_conform now fs kw vals :
  datetime_ok now = true ->
  forallb default_conforms fs = true ->
  validate_fields now fs kw = (vals, []) ->
  Forall2 (fun f kv => fst kv = fname f /\ field_conforms f (snd kv) = true)
    fs vals.
Proof.
  intros Hnow. revert vals.
  induction fs as [|f fs IH]; intros vals Hall H.
  - simpl in H. inversion H. constructor.
  - simpl in Hall. apply andb_true_iff in Hall. destruct Hall as [Hf Hall].
    simpl in H.
    destruct (validate_fields now fs kw) as [vals' errs'] eqn:E.
    unfold default_conforms in Hf.
    destruct (lookup (fname f) kw) as [v0|].
    + destruct (validate_field f v0) as [w|] eqn:V; inversion H; subst.
      constructor; [|now apply IH].
      split; [reflexivity|]. exact (validate_field_conforms _ _ _ V).
    + destruct (fdflt f) as [|v|] eqn:D; inversion H; subst.
      * constructor; [|now apply IH]. split; [reflexivity | exact Hf].
      * constructor; [|now apply IH]. split; [reflexivity|].
        unfold field_conforms. destruct (ftyp f); try discriminate.
        exact Hnow.
Qed.

(** Values given as their images under [g], which the fields read as
    their images under [h]: what the constructor stores. *)
Lemma validate_fields_of_values now fs vals (g h : value -> value) pre :
  NoDup (map fname fs) ->
  Forall2 (fun f kv => fst kv = fname f
                       /\ validate_field f (g (snd kv)) = Ok (h (snd kv)))
    fs vals ->
  (forall f, In f fs -> ~ In (fname f) (keys pre)) ->
  validate_fields now fs
    (pre ++ map (fun kv => (fst kv, g (snd kv))) vals)%list
  = (map (fun kv => (fst kv, h (snd kv))) vals, []).
Proof.
  intros Hnd HF. revert pre.
  induction HF as [|f [k w] fs vals [Hk Hw] HF IH]; intros pre Hpre.
  - reflexivity.
  - simpl in Hk, Hw. subst k.
    inversion Hnd as [|? ? Hnotin Hnd']; subst.
    cbn [validate_fields map fst snd].
    assert (Hrest :
              validate_fields now fs
                (pre ++ (fname f, g w)
                        :: map (fun kv => (fst kv, g (snd kv))) vals)%list
              = (map (fun kv => (fst kv, h (snd kv))) vals, [])).
    { replace (pre ++ (fname f, g w)
                 :: map (fun kv => (fst kv, g (snd kv))) vals)%list
        with ((pre ++ [(fname f, g w)])
              ++ map (fun kv => (fst kv, g (snd kv))) vals)%list
        by (now rewrite <- List.app_assoc).
      apply (IH Hnd').
      intros f' Hf' Hin. unfold keys in Hin. rewrite map_app in Hin.
      apply in_app_iff in Hin. destruct Hin as [Hin|[Hin|[]]].
      - exact (Hpre f' (or_intror Hf') Hin).
      - simpl in Hin. apply Hnotin. rewrite Hin. now apply in_map. }
    rewrite Hrest.
    rewrite lookup_app_r by (apply Hpre; now left).
    simpl. rewrite String.eqb_refl. now rewrite Hw.
Qed.

Lemma map_values_id (vals : list (string * value)) :
  map (fun kv => (fst kv, snd kv)) vals = vals.
Proof.
  induction vals as [|[k v] vals IH]; simpl; [reflexivity | now rewrite IH].
Qed.



(** X14: for every entity model, [LookData] included, the constructor
    called with [model_dump()] of an instance returns the same instance,
    at any time. *)
Theorem model_dump_round_trip :
  forall (m : model) (now now' : datetime) (kwargs : list (string * value))
         (o : instance),
    In m all_models ->
    datetime_ok now = true ->
    model_construct now m kwargs = Ok o ->
    model_construct now' m (model_dump o) = Ok o.
Proof.
  intros m now now' kwargs o Hm Hnow Hc.
  pose proof (proj1 (forallb_forall _ _) all_models_well_declared m Hm)
    as Hwell.
  apply andb_true_iff in Hwell. destruct Hwell as [Hdist _].
  apply distinct_NoDup in Hdist.
  destruct (model_construct_inv _ _ _ _ Hc) as [Hmodel Hvals].
  pose proof (validate_fields_conform now (model_fields m) kwargs _ Hnow
                (proj1 (forallb_forall _ _) all_defaults_conform m Hm) Hvals)
    as HF.
  assert (HF' : Forall2
                   (fun f kv => fst kv = fname f
                                /\ validate_field f (snd kv) = Ok (snd kv))
                   (model_fields m) (obj_values o)).
  { revert HF. apply Forall2_impl. intros f kv [Hk Hv].
    split; [exact Hk | now apply field_conforms_validate]. }
  pose proof (validate_fields_of_values now' (model_fields m) (obj_values o)
                (fun v => v) (fun v => v) [] Hdist HF' (fun _ _ H => H)) as Hr.
  simpl in Hr. rewrite !map_values_id in Hr.
  unfold model_construct, model_dump. rewrite Hr.
  destruct o as [om ov]. simpl in *. now subst.
Qed.

Lemma model_dump_round_trip_witness :
  exists o,
    model_construct clock_1 LookData look_data_kwargs = Ok o
    /\ model_construct clock_2 LookData (model_dump o) = Ok o.
Proof.
  eexists. split; [vm_compute; reflexivity|].
  apply (model_dump_round_trip LookData clock_1 clock_2 look_data_kwargs).
  - unfold all_models. repeat (first [left; reflexivity | right]).
  - vm_compute. reflexivity.
  - vm_compute. reflexivity.
Defined.






(** ** Keywords *)

Lemma validate_fields_lookups now fs kw1 kw2 :
  (forall f, In f fs -> lookup (fname f) kw1 = lookup (fname f) kw2) ->
  validate_fields now fs kw1 = validate_fields now fs kw2.
Proof.
  induction fs as [|f fs IH]; intros H; simpl; [reflexivity|].
  rewrite IH by (intros g Hg; apply H; now right).
  rewrite (H f (or_introl eq_refl)). reflexivity.
Qed.

Lemma lookup_In {V} (k : string) (v : V) (d : list (string * V)) :
  NoDup (keys d) -> In (k, v) d -> lookup k d = Some v.
Proof.
  induction d as [|[k' v'] d IH]; simpl; intros Hnd Hin; [contradiction|].
  inversion Hnd as [|? ? Hnotin Hnd']; subst.
  destruct Hin as [Hin|Hin].
  - inversion Hin; subst. now rewrite String.eqb_refl.
  - destruct (String.eqb_spec k k') as [->|_]; [|now apply IH].
    exfalso. apply Hnotin. unfold keys. apply in_map_iff. now exists (k', v).
Qed.

Lemma lookup_permutation {V} (k : string) (d1 d2 : list (string * V)) :
  NoDup (keys d1) -> Permutation d1 d2 -> lookup k d1 = lookup k d2.
Proof.
  intros Hnd Hp.
  assert (Hnd2 : NoDup (keys d2)).
  { unfold keys. apply (Permutation_NoDup (l := map fst d1)); [|exact Hnd].
    now apply Permutation_map. }
  destruct (lookup k d1) as [v|] eqn:E1.
  - symmetry. apply lookup_In; [exact Hnd2|].
    apply (Permutation_in _ Hp).
    clear - E1. induction d1 as [|[k' v'] d IH]; simpl in *; [discriminate|].
    destruct (String.eqb_spec k k') as [->|_].
    + inversion E1; subst. now left.
    + right. now apply IH.
  - symmetry. apply lookup_None_keys. apply lookup_None_keys in E1.
    intros Hin. apply E1. unfold keys in *.
    apply (Permutation_in _ (Permutation_sym (Permutation_map fst Hp))).
    exact Hin.
Qed.

Lemma lookup_app_absent {V} (k : string) (d1 d2 : list (string * V)) :
  ~ In k (keys d2) -> lookup k (d1 ++ d2)%list = lookup k d1.
Proof.
  intros H. induction d1 as [|[k' v'] d IH]; simpl.
  - now apply lookup_None_keys.
  - now rewrite IH.
Qed.

(** X17: a constructor call depends only on the values given to the
    declared fields: a keyword that names no field is ignored, and the
    order of the keywords does not matter. *)
Theorem construction_reads_declared_keywords :
  forall (m : model) (now : datetime) (kwargs : list (string * value)),
    (forall k v, ~ In k (field_names m) ->
       model_construct now m (kwargs ++ [(k, v)])%list
       = model_construct now m kwargs)
    /\ (forall kwargs', NoDup (keys kwargs) -> Permutation kwargs kwargs' ->
          model_construct now m kwargs' = model_construct now m kwargs).
Proof.
  intros m now kwargs. split.
  - intros k v Hk. unfold model_construct.
    rewrite (validate_fields_lookups now (model_fields m)
               (kwargs ++ [(k, v)])%list kwargs); [reflexivity|].
    intros f Hf. apply lookup_app_absent. simpl. intros [H|[]].
    apply Hk. subst k. unfold field_names. now apply in_map.
  - intros kwargs' Hnd Hp. unfold model_construct.
    rewrite (validate_fields_lookups now (model_fields m) kwargs' kwargs);
      [reflexivity|].
    intros f _. symmetry. now apply lookup_permutation.
Qed.

Lemma construction_reads_declared_keywords_witness :
  model_construct clock_1 FeeRate
    (fee_rate_example ++ [("colour", VStr "red")])%list
  = model_construct clock_1 FeeRate fee_rate_example
  /\ model_construct clock_1 FeeRate (List.rev fee_rate_example)
     = model_construct clock_1 FeeRate fee_rate_example.
Proof.
  destruct (construction_reads_declared_keywords FeeRate clock_1
              fee_rate_example) as [H1 H2].
  split.
  - apply H1. intros H. vm_compute in H. intuition discriminate.
  - apply H2.
    + apply distinct_NoDup. reflexivity.
    + apply Permutation_rev.
Defined.

(** ** Rejected values *)

Lemma construct_rejects now m kw f v err :
  In f (model_fields m) -> lookup (fname f) kw = Some v ->
  validate_field f v = Err err ->
  exists e, model_construct now m kw = Err e /\ In (fname f, err) (ve_errors e).
Proof.
  intros Hf Hl Hv.
  pose proof (validate_fields_rejected now (model_fields m) kw f v err Hf Hl Hv)
    as Hin.
  unfold model_construct.
  destruct (validate_fields now (model_fields m) kw) as [vals [|e errs]];
    simpl in Hin; [contradiction|].
  eexists. split; [reflexivity | exact Hin].
Qed.

Lemma models_without_positive_id :
  map model_name (filter (fun m => negb (has_positive_id m)) all_models)
  = ["FlywaySchemaHistory"].
Proof. vm_compute. reflexivity. Qed.

(** X18: a string longer than [max_length], an integer not above [gt] or
    below [ge], a text that is no member of the enumeration, and [None]
    for a field that is not [Optional] make the constructor raise a
    [ValidationError] with an entry under the name of the field. *)
Theorem constraint_violations_rejected :
  forall (m : model) (now : datetime) (kwargs : list (string * value))
         (f : field),
    In f (model_fields m) ->
    (forall n s, ftyp f = TStr (Some n) ->
       lookup (fname f) kwargs = Some (VStr s) -> n < str_len s ->
       exists e, model_construct now m kwargs = Err e
                 /\ In (fname f, StringTooLong) (ve_errors e))
    /\ (forall b ge z, ftyp f = TInt (Some b) ge ->
          lookup (fname f) kwargs = Some (VInt z) -> (z <= b)%Z ->
          exists e, model_construct now m kwargs = Err e
                    /\ In (fname f, GreaterThan) (ve_errors e))
    /\ (forall b z, ftyp f = TInt None (Some b) ->
          lookup (fname f) kwargs = Some (VInt z) -> (z < b)%Z ->
          exists e, model_construct now m kwargs = Err e
                    /\ In (fname f, GreaterThanEqual) (ve_errors e))
    /\ (forall cls members s, ftyp f = TEnum cls members ->
          lookup (fname f) kwargs = Some (VStr s) -> ~ In s members ->
          exists e, model_construct now m kwargs = Err e
                    /\ In (fname f, EnumError) (ve_errors e))
    /\ (nullable f = false ->
        lookup (fname f) kwargs = Some VNone ->
        exists e err, model_construct now m kwargs = Err e
                      /\ In (fname f, err) (ve_errors e)).
Proof.
  intros m now kwargs f Hf.
  repeat split.
  - intros n s Ht Hl Hlen.
    apply (construct_rejects now m kwargs f (VStr s)); auto.
    unfold validate_field. simpl. rewrite Ht. simpl.
    destruct (Nat.leb_spec (str_len s) n); [lia | reflexivity].
  - intros b ge z Ht Hl Hz.
    apply (construct_rejects now m kwargs f (VInt z)); auto.
    unfold validate_field. simpl. rewrite Ht. simpl. unfold check_int.
    destruct (Z.ltb_spec b z); [lia | reflexivity].
  - intros b z Ht Hl Hz.
    apply (construct_rejects now m kwargs f (VInt z)); auto.
    unfold validate_field. simpl. rewrite Ht. simpl. unfold check_int.
    destruct (Z.leb_spec b z); [lia | reflexivity].
  - intros cls members s Ht Hl Hs.
    apply (construct_rejects now m kwargs f (VStr s)); auto.
    unfold validate_field. simpl. rewrite Ht. simpl.
    apply mem_false_In in Hs. now rewrite Hs.
  - intros Hn Hl.
    destruct (validate_field f VNone) as [w|err] eqn:V.
    + exfalso. unfold validate_field in V. rewrite Hn in V.
      destruct (ftyp f); simpl in V; discriminate.
    + destruct (construct_rejects now m kwargs f VNone err Hf Hl V)
        as [e [He Hin]].
      exists e, err. auto.
Qed.

Lemma constraint_violations_rejected_witness :
  exists e,
    model_construct clock_1 FeeRate
      (dict_set "currency" (VStr "USDX") fee_rate_example) = Err e
    /\ In ("currency", StringTooLong) (ve_errors e).
Proof.
  destruct (constraint_violations_rejected FeeRate clock_1
              (dict_set "currency" (VStr "USDX") fee_rate_example)
              (mkField "currency" (TStr (Some 3%nat)) false Required))
    as [H _].
  - simpl. tauto.
  - apply (H 3%nat "USDX"); [reflexivity | reflexivity | simpl; lia].
Defined.

Lemma all_models_minimal_native :
  forallb minimal_native all_models = true.
Proof. vm_compute. reflexivity. Qed.

Lemma models_minimal_by_model_dump :
  map model_name (filter (fun m => negb (minimal_via_json m)) all_models)
  = ["AdjustAction"; "PlanAction"].
Proof. vm_compute. reflexivity. Qed.

Lemma to_jsonable_native (v : value) : json_native (to_jsonable v) = true.
Proof. now destruct v. Qed.

Lemma conforms_native (t : ftype) (v : value) :
  native_type t = true -> conforms t v = true -> json_native v = true.
Proof.
  destruct t; destruct v; simpl; try discriminate; reflexivity.
Qed.

Lemma field_conforms_native (f : field) (v : value) :
  native_type (ftyp f) = true -> field_conforms f v = true ->
  json_native v = true.
Proof.
  unfold field_conforms. intros Ht Hc.
  destruct v; try reflexivity; exact (conforms_native _ _ Ht Hc).
Qed.

Lemma included_values_native (names : list string) (fs : list field)
    (vals : list (string * value)) :
  Forall2 (fun f kv => fst kv = fname f /\ field_conforms f (snd kv) = true)
    fs vals ->
  forallb (fun f => negb (mem (fname f) names) || native_type (ftyp f)) fs
  = true ->
  Forall (fun kv => json_native (snd kv) = true)
    (filter (fun kv => mem (fst kv) names) vals).
Proof.
  induction 1 as [|f kv fs vals [Hk Hv] _ IH]; intros Hnat.
  - constructor.
  - simpl in Hnat. apply andb_true_iff in Hnat. destruct Hnat as [Hf Hnat].
    simpl. rewrite Hk.
    destruct (mem (fname f) names) eqn:E; simpl in Hf.
    + constructor; [|now apply IH].
      exact (field_conforms_native _ _ Hf Hv).
    + now apply IH.
Qed.

Lemma minimal_values_native :
  forall (m : model) (now : datetime) (kwargs : list (string * value))
         (o : instance),
    In m all_models ->
    datetime_ok now = true ->
    model_construct now m kwargs = Ok o ->
    Forall (fun kv => json_native (snd kv) = true) (to_minimal_dict o).
Proof.
  intros m now kwargs o Hm Hnow Hc.
  pose proof (proj1 (forallb_forall _ _) all_models_minimal_native m Hm)
    as Hnat.
  destruct (model_construct_inv _ _ _ _ Hc) as [Hmodel Hvals].
  pose proof (validate_fields_conform now (model_fields m) kwargs _ Hnow
                (proj1 (forallb_forall _ _) all_defaults_conform m Hm) Hvals)
    as Hconf.
  unfold to_minimal_dict. rewrite Hmodel.
  unfold minimal_native in Hnat.
  destruct (minimal_via_json m); simpl in Hnat.
  - unfold model_dump_json_include. apply Forall_forall.
    intros kv Hin. apply in_map_iff in Hin. destruct Hin as [kv' [<- _]].
    simpl. apply to_jsonable_native.
  - unfold model_dump_include.
    exact (included_values_native _ _ _ Hconf Hnat).
Qed.



(** ** The note on [MINIMAL_FIELDS] *)





(** ** The JSON round trip with a [bytes] attribute *)






(** ** Identifiers *)

(** X19: every entity model but [FlywaySchemaHistory] declares
    [id: int = Field(..., gt=0)], and none of them is built with an [id]
    of zero or below. *)
Theorem nonpositive_id_rejected :
  map model_name (filter (fun m => negb (has_positive_id m)) all_models)
  = ["FlywaySchemaHistory"]
  /\ forall (m : model) (now : datetime) (kwargs : list (string * value))
            (z : Z),
       has_positive_id m = true ->
       lookup "id" kwargs = Some (VInt z) -> (z <= 0)%Z ->
       exists e, model_construct now m kwargs = Err e
                 /\ In ("id", GreaterThan) (ve_errors e).
Proof.
  split; [vm_compute; reflexivity|].
  intros m now kwargs z Hid Hl Hz.
  unfold has_positive_id in Hid. apply existsb_exists in Hid.
  destruct Hid as [f [Hf Hid]].
  apply andb_true_iff in Hid. destruct Hid as [Hname Hty].
  apply String.eqb_eq in Hname.
  destruct (ftyp f) as [[[| |]|] [|]| | | | | | | |] eqn:T; try discriminate.
  rewrite <- Hname.
  apply (construct_rejects now m kwargs f (VInt z)); auto.
  - now rewrite Hname.
  - unfold validate_field. simpl. rewrite T. simpl. unfold check_int. simpl.
    destruct (Z.ltb_spec 0 z); [lia | reflexivity].
Qed.

Lemma nonpositive_id_rejected_witness :
  exists e,
    model_construct clock_1 FeeRate (dict_set "id" (VInt 0) fee_rate_example)
    = Err e
    /\ In ("id", GreaterThan) (ve_errors e).
Proof.
  apply (proj2 nonpositive_id_rejected FeeRate clock_1
           (dict_set "id" (VInt 0) fee_rate_example) 0%Z).
  - vm_compute. reflexivity.
  - vm_compute. reflexivity.
  - lia.
Defined.

(** ** The trip through JSON, with any [bytes] *)










(** ** The examples of the model files *)

Lemma model_examples_models : map fst model_examples = all_models.
Proof. reflexivity. Qed.

Lemma model_examples_checked :
  forallb
    (fun mk =>
       acceptable (fst mk) (snd mk)
       && negb (reads_clock (fst mk) (snd mk))
       && forallb (fun k => mem k (field_names (fst mk))) (keys (snd mk))
       && forallb (fun k => mem k (keys (snd mk))) (field_names (fst mk)))
    model_examples = true.
Proof. vm_compute. reflexivity. Qed.

(** X20: every model file has the example of its model; the example names
    exactly the fields of the model; the constructor call of the
    [__main__] block returns the same instance at any time, and the
    minimal projection that the block prints holds JSON values only. *)
Theorem model_examples_accepted :
  map fst model_examples = all_models
  /\ forall (m : model) (example : list (string * value)),
       In (m, example) model_examples ->
       (forall k, In k (keys example) <-> In k (field_names m))
       /\ exists inst,
            (forall now, model_construct now m example = Ok inst)
            /\ Forall (fun kv => json_native (snd kv) = true)
                 (to_minimal_dict inst).
Proof.
  split; [exact model_examples_models|].
  intros m example Hin.
  pose proof (proj1 (forallb_forall _ _) model_examples_checked _ Hin) as H.
  cbn [fst snd] in H.
  apply andb_true_iff in H. destruct H as [H H4].
  apply andb_true_iff in H. destruct H as [H H3].
  apply andb_true_iff in H. destruct H as [H1 H2].
  apply negb_true_iff in H2.
  split.
  - intros k. split; intros Hk.
    + apply mem_In. exact (proj1 (forallb_forall _ _) H3 k Hk).
    + apply mem_In. exact (proj1 (forallb_forall _ _) H4 k Hk).
  - destruct (acceptable_constructs clock_1 m example H1) as [inst E].
    exists inst. split.
    + intros now. rewrite <- E. now apply model_construct_clock.
    + apply (minimal_values_native m clock_1 example inst); auto.
      rewrite <- model_examples_models. apply in_map_iff.
      now exists (m, example).
Qed.

Lemma model_examples_accepted_witness :
  exists inst,
    (forall now, model_construct now FeeRate FeeRate_example = Ok inst)
    /\ Forall (fun kv => json_native (snd kv) = true) (to_minimal_dict inst).
Proof.
  apply (proj2 model_examples_accepted FeeRate FeeRate_example).
  unfold model_examples. repeat (first [left; reflexivity | right]).
Defined.

(** ** The two buckets of the node data *)




(** ** The objects behind the nodes of the sample graph *)

Lemma lift_ok_inv {A} (r : result ValidationError A) (a : A) :
  lift r = Ok a -> r = Ok a.
Proof. destruct r; simpl; intros H; [now inversion H | discriminate]. Qed.

(** As [open_create_graph], keeping the equation of every constructor
    call and leaving the node data folded. *)
Ltac open_sample_graph H :=
  let data := fresh "data" in
  let Hdata := fresh "Hdata" in
  let HG := fresh "HG" in
  let Hl := fresh "Hl" in
  unfold create_graph in H;
  apply bind_ok_inv in H; destruct H as [data [Hdata H]];
  unfold create_pydantic_objects in Hdata;
  do 20 (apply bind_ok_inv in Hdata; destruct Hdata as [? [? Hdata]];
         cbv beta in Hdata);
  injection Hdata as <-;
  do 20 (apply bind_ok_inv in H; destruct H as [? [HG H]]; cbv beta in H;
         apply add_data_node_inv in HG; destruct HG as [? [Hl ->]];
         cbv [lookup String.eqb Ascii.eqb Bool.eqb] in Hl; injection Hl as <-);
  cbv zeta in H; injection H as <-.

(** X2: in the graph that [create_graph] returns the nodes are those of
    [sample_node_sources], in this order, and every node carries the node
    data of the object that the constructor call of its row returns,
    under the table tag of the row. *)
Theorem sample_nodes_carry_their_objects :
  forall (InvoiceInfo : model) (now : datetime) (G : DiGraph),
    create_graph InvoiceInfo now = Ok G ->
    map (fun w => fst (fst w)) (sample_node_sources InvoiceInfo) = nodes G
    /\ Forall
         (fun w =>
            exists o,
              model_construct now (fst (snd w)) (snd (snd w)) = Ok o
              /\ lookup (fst (fst w)) (nodes_data G)
                 = Some (create_node_data o (snd (fst w))))
         (sample_node_sources InvoiceInfo).
Proof.
  intros InvoiceInfo now G H.
  split.
  { destruct (create_graph_node_entries _ _ _ H) as [-> _]. reflexivity. }
  open_sample_graph H.
  unfold sample_node_sources.
  repeat
    match goal with
    | |- Forall _ [] => constructor
    | |- Forall _ (_ :: _) =>
        constructor;
        [ cbn [fst snd]; eexists; split;
          [ apply lift_ok_inv; eassumption
          | unfold create_node_data, leaf_dict;
            repeat match goal with
                   | |- context [ODict (map ?f ?d)] => generalize (map f d); intro
                   end;
            vm_compute; reflexivity ]
        | ]
    end.
Qed.

Lemma sample_nodes_carry_their_objects_witness :
  exists G o,
    create_graph InvoiceInfo_model clock_1 = Ok G
    /\ model_construct clock_1 FeeRate fee_rate_3_kwargs = Ok o
    /\ lookup "fee_rate_3" (nodes_data G)
       = Some (create_node_data o "fee_rate").
Proof.
  assert (Hok : is_ok (create_graph InvoiceInfo_model clock_1) = true)
    by (vm_compute; reflexivity).
  destruct (is_ok_inv _ Hok) as [G E].
  destruct (sample_nodes_carry_their_objects InvoiceInfo_model clock_1 G E)
    as [_ HF].
  pose proof (proj1 (Forall_forall _ _) HF
                ("fee_rate_3", "fee_rate", (FeeRate, fee_rate_3_kwargs))) as H.
  destruct H as [o [H1 H2]].
  - unfold sample_node_sources. simpl. tauto.
  - exists G, o. auto.
Defined.

(** ** Each node and each edge once *)

Lemma In_fold_step_nodes (ops : list op) (N : list string) (x : string) :
  In x (fold_left step_nodes ops N) <-> In x N \/ In x (named_nodes ops).
Proof.
  revert N. induction ops as [|o ops IH]; intros N; simpl; [tauto|].
  rewrite IH, in_app_iff.
  destruct o as [n a|u v]; simpl; rewrite ?In_add_new; intuition.
Qed.

Lemma In_add_new_edge (e x : string * string) (E : list (string * string)) :
  In x (add_new edge_eqb e E) <-> x = e \/ In x E.
Proof.
  unfold add_new. destruct (existsb (edge_eqb e) E) eqn:H.
  - apply existsb_exists in H. destruct H as [y [Hy Heq]].
    apply edge_eqb_eq in Heq. subst y. intuition congruence.
  - rewrite in_app_iff. simpl. intuition.
Qed.


Lemma In_fold_step_edges (ops : list op) (E : list (string * string))
    (x : string * string) :
  In x (fold_left step_edges ops E) <-> In x E \/ In x (added_edges ops).
Proof.
  revert E. induction ops as [|o ops IH]; intros E; simpl; [tauto|].
  rewrite IH, in_app_iff.
  destruct o as [n a|u v]; simpl; rewrite ?In_add_new_edge; intuition.
Qed.



Lemma In_by_source (N : list string) (E : list (string * string))
    (e : string * string) :
  In e (flat_map (fun n => filter (fun e => String.eqb (fst e) n) E) N)
  <-> In e E /\ In (fst e) N.
Proof.
  rewrite in_flat_map. split.
  - intros [n [Hn H]]. apply filter_In in H. destruct H as [H1 H2].
    apply String.eqb_eq in H2. subst n. auto.
  - intros [H1 H2]. exists (fst e). split; [exact H2|].
    apply filter_In. split; [exact H1 | apply String.eqb_refl].
Qed.



(** ** Attributes of a node *)

Lemma lookup_dict_set {V} (k k' : string) (v : V) (d : list (string * V)) :
  lookup k (dict_set k' v d)
  = if String.eqb k k' then Some v else lookup k d.
Proof.
  induction d as [|[k0 v0] d IH]; simpl.
  - reflexivity.
  - destruct (String.eqb_spec k' k0) as [->|Hne]; simpl.
    + destruct (String.eqb k k0); reflexivity.
    + rewrite IH. destruct (String.eqb_spec k k0) as [->|_]; [|reflexivity].
      destruct (String.eqb_spec k0 k'); [congruence | reflexivity].
Qed.

Lemma lookup_dict_update {V} (k : string) (d other : list (string * V)) :
  NoDup (keys other) ->
  lookup k (dict_update d other)
  = match lookup k other with
    | Some v => Some v
    | None => lookup k d
    end.
Proof.
  unfold dict_update. revert d.
  induction other as [|[k' v'] other IH]; intros d Hnd; simpl; [reflexivity|].
  inversion Hnd as [|? ? Hnotin Hnd']; subst.
  rewrite (IH _ Hnd'). rewrite lookup_dict_set.
  destruct (String.eqb_spec k k') as [->|_]; [|reflexivity].
  apply lookup_None_keys in Hnotin. now rewrite Hnotin.
Qed.

Lemma keys_dict_update {V} (d other : list (string * V)) :
  keys (dict_update d other)
  = fold_left (fun acc k => add_new String.eqb k acc) (keys other) (keys d).
Proof.
  unfold dict_update. revert d.
  induction other as [|[k v] other IH]; intros d; simpl; [reflexivity|].
  now rewrite IH, keys_dict_set.
Qed.

Lemma dict_update_fresh {V} (d other : list (string * V)) :
  NoDup (keys other) ->
  (forall k, In k (keys other) -> ~ In k (keys d)) ->
  dict_update d other = (d ++ other)%list.
Proof.
  unfold dict_update. revert d.
  induction other as [|[k v] other IH]; intros d Hnd Hfresh; simpl.
  - now rewrite List.app_nil_r.
  - inversion Hnd as [|? ? Hnotin Hnd']; subst.
    rewrite dict_set_absent by (apply Hfresh; now left).
    rewrite IH; [now rewrite <- List.app_assoc | exact Hnd' |].
    intros k' Hk' Hin. unfold keys in Hin. rewrite map_app in Hin.
    apply in_app_iff in Hin. destruct Hin as [Hin|[Hin|[]]].
    + exact (Hfresh k' (or_intror Hk') Hin).
    + simpl in Hin. subst k'. contradiction.
Qed.

Lemma represents_keys G N E :
  represents G N E -> keys (g_node G) = N /\ keys (g_succ G) = N.
Proof.
  intros [H1 [H2 _]]. split; [exact H1|].
  rewrite keys_g_succ, H2. apply keys_keyed.
Qed.

Lemma lookup_same_keys {V W} (k : string) (d1 : list (string * V))
    (d2 : list (string * W)) :
  keys d1 = keys d2 -> (lookup k d1 = None <-> lookup k d2 = None).
Proof.
  intros H. now rewrite !lookup_None_keys, H.
Qed.


Lemma attrs_run_op G N E n acc o :
  represents G N E -> attrs_are G n acc ->
  attrs_are (run_op G o) n
    (match o with
     | AddNode m a => if String.eqb m n then dict_update acc a else acc
     | AddEdge _ _ => acc
     end).
Proof.
  intros Hrep Hacc. unfold attrs_are in *.
  destruct (represents_keys _ _ _ Hrep) as [Hk1 Hk2].
  assert (Hsame : forall k, lookup k (g_node G) = None
                            <-> lookup k (g_succ G) = None).
  { intros k. apply lookup_same_keys. congruence. }
  assert (Hens : forall k G', 
             (forall x, lookup x (g_node G') = None
                        <-> lookup x (g_succ G') = None) ->
             lookup n (g_node (ensure_node k G'))
             = match lookup n (g_node G') with
               | Some a => Some a
               | None => if String.eqb n k then Some [] else None
               end).
  { intros k G' Hs. unfold ensure_node.
    destruct (lookup k (g_succ G')) eqn:Es; simpl.
    - destruct (lookup n (g_node G')) eqn:En; [reflexivity|].
      destruct (String.eqb_spec n k) as [->|_]; [|reflexivity].
      apply Hs in En. congruence.
    - rewrite lookup_dict_set.
      destruct (String.eqb_spec n k) as [->|_].
      + apply Hs in Es. now rewrite Es.
      + now destruct (lookup n (g_node G')). }
  destruct o as [m a|u v]; simpl.
  - unfold add_node.
    destruct (lookup m (g_succ G)) eqn:Es; simpl; rewrite lookup_dict_set;
      rewrite (String.eqb_sym m n).
    + destruct (String.eqb_spec n m) as [->|_]; [|exact Hacc].
      unfold get_default.
      destruct (lookup m (g_node G)) eqn:En; [now subst|].
      apply Hsame in En. congruence.
    + destruct (String.eqb_spec n m) as [->|_]; [|exact Hacc].
      apply Hsame in Es. rewrite Es in Hacc. now subst.
  - unfold add_edge. cbn [g_node].
    rewrite Hens.
    + rewrite Hens by exact Hsame.
      destruct (lookup n (g_node G)); [exact Hacc|].
      subst acc. destruct (String.eqb n u); [reflexivity|].
      now destruct (String.eqb n v).
    + intros x. apply lookup_same_keys.
      destruct (represents_keys _ _ _ (represents_ensure_node _ _ _ u Hrep)).
      congruence.
Qed.

Lemma attrs_fold ops G N E n acc :
  represents G N E -> attrs_are G n acc ->
  attrs_are (fold_left run_op ops G) n
    (fold_left
       (fun acc o =>
          match o with
          | AddNode m a => if String.eqb m n then dict_update acc a else acc
          | AddEdge _ _ => acc
          end) ops acc).
Proof.
  revert G N E acc.
  induction ops as [|o ops IH]; intros G N E acc Hrep Hacc; simpl;
    [exact Hacc|].
  apply (IH _ _ _ _ (represents_run_op _ _ _ o Hrep)).
  now apply attrs_run_op with (N := N) (E := E).
Qed.

Lemma node_attrs_fold_none (ops : list op) (n : string) (acc : attrs) :
  forallb (fun o => negb (adds_node n o)) ops = true ->
  fold_left
    (fun acc o =>
       match o with
       | AddNode m a => if String.eqb m n then dict_update acc a else acc
       | AddEdge _ _ => acc
       end) ops acc = acc.
Proof.
  revert acc. induction ops as [|o ops IH]; intros acc H; simpl; [reflexivity|].
  simpl in H. apply andb_true_iff in H. destruct H as [Ho H].
  destruct o as [m a|u v]; simpl in Ho.
  - apply negb_true_iff in Ho. rewrite Ho. now apply IH.
  - now apply IH.
Qed.

Lemma node_attrs_app (ops1 ops2 : list op) (n : string) :
  node_attrs (ops1 ++ ops2) n
  = fold_left
      (fun acc o =>
         match o with
         | AddNode m a => if String.eqb m n then dict_update acc a else acc
         | AddEdge _ _ => acc
         end) ops2 (node_attrs ops1 n).
Proof. unfold node_attrs. now rewrite fold_left_app. Qed.

(** X6: the attributes of a node of the document are those that the
    [add_node] calls for it have set, a later call updating an earlier
    one; a node that only [add_edge] calls name has no attributes and its
    entry holds its [id] alone; a node added by one call, with distinct
    keys, has the attributes of that call. *)
Theorem node_attributes_accumulate :
  forall (ops : list op) (n : string),
    In n (map fst (nodes_data (build ops))) ->
    lookup n (nodes_data (build ops)) = Some (node_attrs ops n)
    /\ (forallb (fun o => negb (adds_node n o)) ops = true ->
        node_attrs ops n = []
        /\ node_entry (n, node_attrs ops n) = ODict [("id", OVal (VStr n))])
    /\ (forall ops1 a ops2,
          ops = (ops1 ++ AddNode n a :: ops2)%list ->
          NoDup (keys a) ->
          forallb (fun o => negb (adds_node n o)) ops1 = true ->
          forallb (fun o => negb (adds_node n o)) ops2 = true ->
          node_attrs ops n = a).
Proof.
  intros ops n Hin.
  split; [|split].
  - pose proof (attrs_fold ops Nx.empty [] [] n [] represents_empty eq_refl)
      as H.
    unfold attrs_are in H. fold (build ops) in H. fold (node_attrs ops n) in H.
    unfold nodes_data in *.
    destruct (lookup n (g_node (build ops))) as [a|] eqn:E; [now subst|].
    apply lookup_None_keys in E. contradiction.
  - intros Hnone.
    assert (Hnil : node_attrs ops n = [])
      by (apply node_attrs_fold_none; exact Hnone).
    split; [exact Hnil|]. now rewrite Hnil.
  - intros ops1 a ops2 -> Hnd H1 H2.
    rewrite node_attrs_app. simpl. rewrite String.eqb_refl.
    rewrite node_attrs_fold_none by exact H2.
    unfold node_attrs. rewrite node_attrs_fold_none by exact H1.
    rewrite dict_update_fresh; [reflexivity | exact Hnd |].
    intros k _ [].
Qed.

Lemma node_attributes_accumulate_witness :
  lookup "a" (nodes_data (build small_ops))
  = Some [("table", OVal (VStr "u")); ("id", OVal (VStr "z"))]
  /\ lookup "b" (nodes_data (build small_ops)) = Some [].
Proof.
  split.
  - apply (node_attributes_accumulate small_ops "a"). simpl. tauto.
  - apply (node_attributes_accumulate small_ops "b"). simpl. tauto.
Defined.

(** X7: in the entry of a node the value of [id] is the node identifier,
    unless the node has an attribute named [id], whose value then takes
    its place; every other attribute is in the entry as it is, and
    without an attribute [id] the entry is the identifier followed by the
    attributes. *)
Theorem node_entry_identifier :
  forall (n : string) (a : attrs),
    NoDup (keys a) ->
    exists d,
      node_entry (n, a) = ODict d
      /\ lookup "id" d
         = Some (match lookup "id" a with
                 | Some v => v
                 | None => OVal (VStr n)
                 end)
      /\ (forall k, k <> "id" -> lookup k d = lookup k a)
      /\ (~ In "id" (keys a) -> d = ("id", OVal (VStr n)) :: a).
Proof.
  intros n a Hnd. eexists. split; [reflexivity|].
  split; [|split].
  - rewrite lookup_dict_update by exact Hnd. simpl.
    now destruct (lookup "id" a).
  - intros k Hk. rewrite lookup_dict_update by exact Hnd. simpl.
    destruct (lookup k a); [reflexivity|].
    destruct (String.eqb_spec k "id"); [contradiction | reflexivity].
  - intros Hid. simpl.
    rewrite dict_update_fresh; [reflexivity | exact Hnd |].
    intros k Hk [Heq|[]]. simpl in Heq. subst k. contradiction.
Qed.

Lemma node_entry_identifier_witness :
  exists d,
    node_entry ("a", [("table", OVal (VStr "u")); ("id", OVal (VStr "z"))])
    = ODict d
    /\ lookup "id" d = Some (OVal (VStr "z")).
Proof.
  destruct (node_entry_identifier "a"
              [("table", OVal (VStr "u")); ("id", OVal (VStr "z"))])
    as [d [H1 [H2 _]]].
  - apply distinct_NoDup. reflexivity.
  - exists d. split; [exact H1 | exact H2].
Defined.

(** ** The flow of the sample graph *)

Lemma reach_path (G : DiGraph) (fuel : nat) (u v : string) :
  reach (edges G) fuel u v = true -> path G u v.
Proof.
  revert u. induction fuel as [|fuel IH]; intros u H; [discriminate|].
  simpl in H. apply existsb_exists in H. destruct H as [[a b] [Hin H]].
  simpl in H.
  destruct (String.eqb_spec a u) as [->|_]; [|discriminate].
  destruct (String.eqb_spec b v) as [->|_].
  - apply t1n_step. exact Hin.
  - apply t1n_trans with b; [exact Hin | now apply IH].
Qed.

Lemma sample_graph_flow_checked :
  forallb
    (fun n =>
       (String.eqb n "billing_entity_merchant"
        || reach sample_edges 5 "billing_entity_merchant" n)
       && Bool.eqb
            (match filter (fun e => String.eqb (snd e) n) sample_edges with
             | [] => true
             | _ => false
             end)
            (String.eqb n "billing_entity_merchant")
       && Bool.eqb
            (match filter (fun e => String.eqb (fst e) n) sample_edges with
             | [] => true
             | _ => false
             end)
            (mem n ["billing_entity_clover"; "billing_entity_us_support"]))
    sample_nodes = true.
Proof. vm_compute. reflexivity. Qed.

(** X3: in the graph that [create_graph] returns every node other than
    the merchant billing entity is reached from it by a path, the merchant
    is the only node without an incoming edge, and the two reseller
    billing entities are the only nodes without an outgoing edge. *)
Theorem sample_graph_flow :
  forall (InvoiceInfo : model) (now : datetime) (G : DiGraph),
    create_graph InvoiceInfo now = Ok G ->
    forall n, In n (nodes G) ->
      (n <> "billing_entity_merchant" -> path G "billing_entity_merchant" n)
      /\ (predecessors G n = [] <-> n = "billing_entity_merchant")
      /\ (successors G n = []
          <-> n = "billing_entity_clover" \/ n = "billing_entity_us_support").
Proof.
  intros InvoiceInfo now G H n Hn.
  pose proof (create_graph_edges _ _ _ H) as He.
  destruct (create_graph_node_entries _ _ _ H) as [Hnodes _].
  rewrite Hnodes in Hn.
  pose proof (proj1 (forallb_forall _ _) sample_graph_flow_checked n Hn) as C.
  apply andb_true_iff in C. destruct C as [C C3].
  apply andb_true_iff in C. destruct C as [C1 C2].
  apply eqb_prop in C2, C3.
  split; [|split].
  - intros Hne. apply (reach_path G 5). rewrite He.
    apply orb_true_iff in C1. destruct C1 as [C1|C1]; [|exact C1].
    apply String.eqb_eq in C1. contradiction.
  - unfold predecessors. rewrite He.
    rewrite <- String.eqb_eq, <- C2.
    destruct (filter (fun e => String.eqb (snd e) n) sample_edges);
      simpl; split; intros X; try reflexivity; discriminate.
  - unfold successors. rewrite He.
    assert (Hmem : mem n ["billing_entity_clover"; "billing_entity_us_support"]
                   = true
                   <-> n = "billing_entity_clover"
                       \/ n = "billing_entity_us_support").
    { rewrite mem_In. simpl. intuition. }
    rewrite <- Hmem, <- C3.
    destruct (filter (fun e => String.eqb (fst e) n) sample_edges);
      simpl; split; intros X; try reflexivity; discriminate.
Qed.

Lemma sample_graph_flow_witness :
  exists G,
    create_graph InvoiceInfo_model clock_1 = Ok G
    /\ path G "billing_entity_merchant" "billing_entity_us_support"
    /\ successors G "billing_entity_us_support" = [].
Proof.
  assert (Hok : is_ok (create_graph InvoiceInfo_model clock_1) = true)
    by (vm_compute; reflexivity).
  destruct (is_ok_inv _ Hok) as [G E].
  exists G. split; [exact E|].
  destruct (sample_graph_flow InvoiceInfo_model clock_1 G E
              "billing_entity_us_support") as [H1 [_ H3]].
  - destruct (create_graph_node_entries _ _ _ E) as [-> _]. simpl. tauto.
  - split; [apply H1; discriminate | apply H3; now right].
Defined.

(** ** Further calls *)

Lemma fold_step_nodes_extends (ops : list op) (N : list string) :
  exists rest, fold_left step_nodes ops N = (N ++ rest)%list.
Proof.
  revert N. induction ops as [|o ops IH]; intros N; simpl.
  - exists []. now rewrite List.app_nil_r.
  - destruct (IH (step_nodes N o)) as [rest Hr]. rewrite Hr.
    assert (Hstep : forall x M, exists r, add_new String.eqb x M = (M ++ r)%list).
    { intros x M. unfold add_new. destruct (existsb (String.eqb x) M).
      - exists []. now rewrite List.app_nil_r.
      - now exists [x]. }
    destruct o as [n a|u v]; simpl.
    + destruct (Hstep n N) as [r ->]. exists (r ++ rest)%list.
      now rewrite List.app_assoc.
    + destruct (Hstep u N) as [r1 ->]. destruct (Hstep v (N ++ r1)%list) as [r2 ->].
      exists (r1 ++ r2 ++ rest)%list. now rewrite !List.app_assoc.
Qed.

(** X8: further [add_node] and [add_edge] calls leave the nodes listed so
    far at their places and append the new ones, keep every edge, and
    leave the attributes of the nodes that they do not name as they are. *)
Theorem later_calls_extend_document :
  forall ops more : list op,
    (exists rest,
        map fst (nodes_data (build (ops ++ more)))
        = (map fst (nodes_data (build ops)) ++ rest)%list)
    /\ (forall e, In e (edges (build ops)) -> In e (edges (build (ops ++ more))))
    /\ (forall n, ~ In n (named_nodes more) ->
          In n (map fst (nodes_data (build ops))) ->
          lookup n (nodes_data (build (ops ++ more)))
          = lookup n (nodes_data (build ops))).
Proof.
  intros ops more.
  split; [|split].
  - change (exists rest, nodes (build (ops ++ more))
                         = (nodes (build ops) ++ rest)%list).
    rewrite !nodes_build, !insertion_order_nodes_fold, fold_left_app.
    apply fold_step_nodes_extends.
  - intros e. rewrite !edges_build.
    assert (Hedge : forall l e, In e (edges_by_source l) <-> In e (added_edges l)).
    { intros l x. unfold edges_by_source. rewrite In_by_source.
      rewrite insertion_order_edges_fold, In_fold_step_edges. simpl.
      destruct (represents_build l) as [_ [_ [_ Hsrc]]].
      split; [tauto|]. intros Hx. split; [tauto|].
      apply Hsrc. rewrite insertion_order_edges_fold, In_fold_step_edges.
      now right. }
    rewrite !Hedge. unfold added_edges. rewrite flat_map_app, in_app_iff.
    tauto.
  - intros n Hnot Hin.
    assert (Hin' : In n (map fst (nodes_data (build (ops ++ more))))).
    { change (In n (nodes (build (ops ++ more)))).
      change (In n (nodes (build ops))) in Hin.
      rewrite nodes_build, insertion_order_nodes_fold, In_fold_step_nodes in *.
      right. unfold named_nodes in *. rewrite flat_map_app, in_app_iff.
      simpl in Hin. tauto. }
    pose proof (attrs_fold ops Nx.empty [] [] n [] represents_empty eq_refl)
      as H1.
    pose proof (attrs_fold (ops ++ more) Nx.empty [] [] n [] represents_empty
                  eq_refl) as H2.
    unfold attrs_are in H1, H2. fold (build ops) in H1.
    fold (build (ops ++ more)) in H2. unfold nodes_data in *.
    destruct (lookup n (g_node (build ops))) as [a1|] eqn:E1;
      [|apply lookup_None_keys in E1; contradiction].
    destruct (lookup n (g_node (build (ops ++ more)))) as [a2|] eqn:E2;
      [|apply lookup_None_keys in E2; contradiction].
    rewrite H1, H2. f_equal. rewrite fold_left_app.
    apply node_attrs_fold_none.
    apply forallb_forall. intros o Ho. apply negb_true_iff.
    destruct o as [m a|u v]; simpl; [|reflexivity].
    destruct (String.eqb_spec m n) as [->|_]; [|reflexivity].
    exfalso. apply Hnot. unfold named_nodes. apply in_flat_map.
    exists (AddNode n a). simpl. auto.
Qed.

Lemma later_calls_extend_document_witness :
  (exists rest,
      map fst (nodes_data (build (triangle_ops ++ small_ops)))
      = (["a"; "b"; "c"] ++ rest)%list)
  /\ In ("b", "c") (edges (build (triangle_ops ++ small_ops))).
Proof.
  destruct (later_calls_extend_document triangle_ops small_ops) as [H1 [H2 _]].
  split; [exact H1|]. apply H2. vm_compute. tauto.
Defined.

(** ** The characters of the document *)





















(** ** The text of a value in [others] *)

(** [str(datetime)] is read back as the same timestamp. *)
Lemma parse_datetime_str (t : datetime) :
  datetime_ok t = true -> parse_datetime (datetime_str t) = Some t.
Proof.
  intros Hok. destruct (datetime_ok_bounds t Hok) as [Hd _].
  unfold datetime_str, datetime_isoformat_sep.
  assert (Hlen : String.length (date_isoformat (dt_date t)) = 10).
  { destruct (date_ok_bounds _ Hd) as [Hy [Hm Hdd]].
    unfold date_isoformat. rewrite !zfill_fixed by assumption.
    rewrite !length_append, !length_fixed_digits. reflexivity. }
  pose proof (take_app_exact (date_isoformat (dt_date t))
                (String " " (time_isoformat t))) as H10.
  pose proof (drop_app_exact (date_isoformat (dt_date t))
                (String " " (time_isoformat t))) as Hd10.
  rewrite Hlen in H10, Hd10.
  assert (Hd11 : drop 11 (date_isoformat (dt_date t)
                          ++ String " " (time_isoformat t))
                 = time_isoformat t).
  { change 11 with (10 + 1). now rewrite drop_drop, Hd10. }
  unfold parse_datetime.
  rewrite H10, Hd10, Hd11, (parse_date_isoformat _ Hd).
  cbn [take String.eqb Ascii.eqb Bool.eqb orb].
  now apply parse_time_isoformat.
Qed.

(** X10: a decimal, a date or a timestamp of the others dict is written by
    [json.dumps] as the JSON string of its [str], and a field of its type
    reads this text back as the same value, the space in a timestamp
    being accepted; an enumeration member is written as its value and is
    read back as the member. *)
Theorem others_text_reads_back :
  (forall (t : ftype) (v : value),
      conforms t v = true ->
      written_as_str v = true ->
      dumps_value v = json_string (py_str v)
      /\ validate_type t (VStr (py_str v)) = Ok v)
  /\ (forall (cls : string) (members : list string) (c m : string),
        conforms (TEnum cls members) (VEnum c m) = true ->
        dumps_value (VEnum c m) = json_string m
        /\ validate_type (TEnum cls members) (VStr m) = Ok (VEnum c m)).
Proof.
  split.
  - intros t v Hc Hr.
    destruct v; try discriminate; destruct t; try discriminate;
      simpl in Hc; (split; [reflexivity|]); simpl.
    + rewrite parse_decimal_str.
      destruct (check_digits max_digits decimal_places d) as [d'|] eqn:E;
        [|discriminate].
      simpl. now rewrite (check_digits_ok _ _ _ _ E).
    + now rewrite (parse_date_isoformat _ Hc).
    + now rewrite (parse_datetime_str _ Hc).
  - intros cls members c m Hc. split; [reflexivity|].
    simpl in Hc. apply andb_true_iff in Hc. destruct Hc as [H1 H2].
    apply String.eqb_eq in H1. subst. simpl. now rewrite H2.
Qed.

Lemma others_text_reads_back_witness :
  dumps_value (VDateTime (mkDateTime (mkDate 2025 2 26) 17 6 39 670150))
  = json_string "2025-02-26 17:06:39.670150"
  /\ validate_type TDateTime (VStr "2025-02-26 17:06:39.670150")
     = Ok (VDateTime (mkDateTime (mkDate 2025 2 26) 17 6 39 670150)).
Proof.
  exact (proj1 others_text_reads_back TDateTime
           (VDateTime (mkDateTime (mkDate 2025 2 26) 17 6 39 670150))
           eq_refl eq_refl).
Defined.
